(** * chat_sync: the synchronization engine, embedded and verified

    A shallow embedding of [apps/sync/tasks.py],
    [apps/sync/services/sync_service.py], [apps/sync/services/external_api.py],
    [apps/sync/services/dynamodb.py], [apps/sync/services/s3_service.py],
    [apps/chats/models.py], [apps/sync/models.py] and [apps/chats/views.py].

    Python objects become records, the PostgreSQL tables become lists of rows
    in insertion order (a row carries its primary key), the in-memory mock
    stores and the cache become finite maps, and every call that leaves the
    process (SQL statement, document write, HTTP request, cache command) is
    appended to a chronological log. Code that raises lives in a state and
    exception monad. *)

From Stdlib Require Import ZArith Ascii.
From Stdlib Require QArith.
From stdpp Require Import gmap strings list pretty sorting.

Local Open Scope string_scope.
Local Open Scope list_scope.

(** ** Values *)

(** Timezone-aware instants ([USE_TZ = True]): microseconds since the epoch. *)
Definition datetime := Z.

(** Days since 1970-01-01 of a proleptic Gregorian date. *)
Definition days_from_civil (y m d : Z) : Z :=
  let y' := (if m <=? 2 then y - 1 else y)%Z in
  let era := (y' / 400)%Z in
  let yoe := (y' - era * 400)%Z in
  let mp := ((m + 9) mod 12)%Z in
  let doy := ((153 * mp + 2) / 5 + d - 1)%Z in
  let doe := (yoe * 365 + yoe / 4 - yoe / 100 + doy)%Z in
  (era * 146097 + doe - 719468)%Z.

(** [datetime(y, m, d, H, M, S, tzinfo=timezone.utc)] *)
Definition datetime_utc (y m d H M S : Z) : datetime :=
  ((((days_from_civil y m d * 24 + H) * 60 + M) * 60 + S) * 1000000)%Z.

(** [timedelta(hours=h)] *)
Definition timedelta_hours (h : Z) : Z := (h * 3600000000)%Z.

(** A [datetime.datetime] object as a parser hands it out: with tzinfo it
    denotes an instant; without, it is a wall-clock reading (the microseconds
    that the same reading has in UTC). *)
Inductive pydatetime : Type :=
| aware (instant : datetime)
| naive (wall_clock : Z).

(** [value.tzinfo is not None] *)
Definition has_tzinfo (value : pydatetime) : bool :=
  match value with aware _ => true | naive _ => false end.

(** What [DateTimeField] stores for the object ([USE_TZ = True],
    [TIME_ZONE = 'UTC']): a naive value is taken as a reading of the default
    time zone, with a RuntimeWarning. *)
Definition get_prep_value (value : pydatetime) : datetime :=
  match value with aware instant => instant | naive wall_clock => wall_clock end.

(** What [django.utils.dateparse.parse_datetime] makes of a string: a
    datetime, None when the string is not well formatted, ValueError when it
    is well formatted but not a valid datetime. *)
Inductive parse_result : Type :=
| parsed (value : pydatetime)
| not_well_formatted
| not_valid (msg : string).

(** Exceptions that the modelled code raises or catches. *)
Inductive exn : Type :=
| ExternalAPIError (msg : string)
| MessageStoreError (msg : string)
| IntegrityError (msg : string)
| DatabaseError (msg : string)
| ValueError (msg : string)
| TypeError (msg : string)
| Retry (exc : exn).

(** [str(e)] *)
Fixpoint str_exn (e : exn) : string :=
  match e with
  | ExternalAPIError msg | MessageStoreError msg
  | IntegrityError msg | DatabaseError msg
  | ValueError msg | TypeError msg => msg
  | Retry exc => "Retry in 60s: " +:+ str_exn exc
  end.

(** ** apps/chats/models.py *)

Module Customer.
Record t : Type := Build
  { id : nat;
    external_id : string;
    name : string;
    avatar_url : string;
    avatar_s3_key : string }.

Definition set_avatar_s3_key (v : string) (c : t) : t :=
  Build (id c) (external_id c) (name c) (avatar_url c) v.
End Customer.

Module Deal.
Inductive SyncStatus : Type := PENDING | COMPLETE | FAILED.

#[global] Instance SyncStatus_eq_dec : EqDecision SyncStatus.
Proof. solve_decision. Defined.

(** [customer] holds the foreign key [customer_id], [None] for NULL.
    [total_messages] is a [PositiveIntegerField]: the column holds values up
    to 2147483647 and the database rejects a larger one. The counter is a
    [nat] here, and what is proved of an increment is stated for counters
    below that value ([counters_below_max], [counters_fit]). *)
Record t : Type := Build
  { id : nat;
    external_id : string;
    customer : option nat;
    last_message_id : string;
    last_message_at : option datetime;
    total_messages : nat;
    sync_status : SyncStatus }.

Definition set_customer (v : option nat) (d : t) : t :=
  Build (id d) (external_id d) v (last_message_id d) (last_message_at d)
        (total_messages d) (sync_status d).
Definition set_last_message_id (v : string) (d : t) : t :=
  Build (id d) (external_id d) (customer d) v (last_message_at d)
        (total_messages d) (sync_status d).
Definition set_last_message_at (v : option datetime) (d : t) : t :=
  Build (id d) (external_id d) (customer d) (last_message_id d) v
        (total_messages d) (sync_status d).
Definition set_total_messages (v : nat) (d : t) : t :=
  Build (id d) (external_id d) (customer d) (last_message_id d)
        (last_message_at d) v (sync_status d).
Definition set_sync_status (v : SyncStatus) (d : t) : t :=
  Build (id d) (external_id d) (customer d) (last_message_id d)
        (last_message_at d) (total_messages d) v.

(** [Deal.is_complete] *)
Definition is_complete (self : t) : bool :=
  bool_decide (sync_status self = COMPLETE).
End Deal.

(** ** apps/sync/models.py *)

Module SyncState.
Inductive Status : Type := PENDING | RUNNING | COMPLETED | FAILED.

#[global] Instance Status_eq_dec : EqDecision Status.
Proof. solve_decision. Defined.

(** [processed_chats] is a [PositiveIntegerField], as [Deal.total_messages]
    is: what is proved of its increments is stated for counts that stay
    within the column ([counters_fit], [processed_count_fits]). *)
Record t : Type := Build
  { id : nat;
    task_id : string;
    status : Status;
    cursor : string;
    max_date : option datetime;
    processed_chats : nat;
    error_message : string;
    started_at : datetime }.

Definition set_status (v : Status) (s : t) : t :=
  Build (id s) (task_id s) v (cursor s) (max_date s) (processed_chats s)
        (error_message s) (started_at s).
Definition set_cursor (v : string) (s : t) : t :=
  Build (id s) (task_id s) (status s) v (max_date s) (processed_chats s)
        (error_message s) (started_at s).
Definition set_max_date (v : option datetime) (s : t) : t :=
  Build (id s) (task_id s) (status s) (cursor s) v (processed_chats s)
        (error_message s) (started_at s).
Definition set_processed_chats (v : nat) (s : t) : t :=
  Build (id s) (task_id s) (status s) (cursor s) (max_date s) v
        (error_message s) (started_at s).
Definition set_error_message (v : string) (s : t) : t :=
  Build (id s) (task_id s) (status s) (cursor s) (max_date s)
        (processed_chats s) v (started_at s).

(** An instance as a queryset or [objects.create] hands it out: the
    attributes with the values that the row holds, and whether the
    [max_date] attribute carries tzinfo. An instance read from the table does
    (the column is a timestamp with time zone); [create] leaves the attribute
    as the object it was given. *)
Record instance : Type := Instance { row : t; max_date_tzinfo : bool }.
End SyncState.

Coercion SyncState.row : SyncState.instance >-> SyncState.t.

#[global] Instance SyncState_eq_dec : EqDecision SyncState.t.
Proof. solve_decision. Defined.

(** ** apps/sync/services/external_api.py: the data classes *)

Module ChatMessage.
Record t : Type := Build
  { message_id : string; text : string; created_at : datetime }.
End ChatMessage.

Module ChatCustomer.
Record t : Type := Build
  { external_id : string; name : string; avatar_url : string }.
End ChatCustomer.

Module Chat.
Record t : Type := Build
  { external_id : string;
    customer : ChatCustomer.t;
    last_message : ChatMessage.t }.
End Chat.

Module ChatPage.
Record t : Type := Build
  { chats : list Chat.t;
    next_cursor : option string;
    has_more : bool }.
End ChatPage.

(** ** The world outside the interpreter *)

(** One item of [MockMessageStore._messages[chat_id]]; [created_at] stands for
    its [isoformat()] rendering. *)
Record Message : Type := Build_Message
  { msg_chat_id : string;
    msg_message_id : string;
    msg_text : string;
    msg_created_at : datetime }.

Inductive Table : Type := customers_tbl | deals_tbl | sync_states_tbl.

(** What leaves the process, in the order it happens. *)
Inductive Event : Type :=
| ApiGetChats (cursor : option string)
| SqlBegin
| SqlCommit
| SqlRollback
| SqlSelect (tbl : Table)
| SqlInsert (tbl : Table) (pk : nat)
| SqlUpdate (tbl : Table) (pk : nat) (update_fields : list string)
| DocPut (chat_id message_id : string)
| HttpGet (url : string)
| S3Put (key : string)
| CacheAdd (key : string)
| CacheDelete (key : string).

(** The rows of the [default] database: what a transaction commits or rolls
    back. The bookkeeping columns [created_at]/[updated_at] are not kept; a
    statement that would touch them is visible in the log. *)
Record Db : Type := Build_Db
  { customers : list Customer.t;
    deals : list Deal.t;
    sync_states : list SyncState.t }.

Record World : Type := Build_World
  { db : Db;
    (* PostgreSQL sequences: not restored by a rollback *)
    customers_id_seq : nat;
    deals_id_seq : nat;
    sync_states_id_seq : nat;
    (* MockMessageStore._messages *)
    messages : gmap string (gmap string Message);
    (* MockS3Service._storage, MockS3Service._content_types *)
    s3_storage : gmap string string;
    s3_content_types : gmap string string;
    (* django.core.cache: the live entries *)
    cache : gmap string string;
    (* the clock reading used by auto_now_add *)
    now : datetime;
    log : list Event }.

Definition set_db (v : Db) (w : World) : World :=
  Build_World v (customers_id_seq w) (deals_id_seq w) (sync_states_id_seq w)
              (messages w) (s3_storage w) (s3_content_types w) (cache w)
              (now w) (log w).
Definition set_customers (v : list Customer.t) (w : World) : World :=
  set_db (Build_Db v (deals (db w)) (sync_states (db w))) w.
Definition set_deals (v : list Deal.t) (w : World) : World :=
  set_db (Build_Db (customers (db w)) v (sync_states (db w))) w.
Definition set_sync_states (v : list SyncState.t) (w : World) : World :=
  set_db (Build_Db (customers (db w)) (deals (db w)) v) w.
Definition set_customers_id_seq (v : nat) (w : World) : World :=
  Build_World (db w) v (deals_id_seq w) (sync_states_id_seq w)
              (messages w) (s3_storage w) (s3_content_types w) (cache w)
              (now w) (log w).
Definition set_deals_id_seq (v : nat) (w : World) : World :=
  Build_World (db w) (customers_id_seq w) v (sync_states_id_seq w)
              (messages w) (s3_storage w) (s3_content_types w) (cache w)
              (now w) (log w).
Definition set_sync_states_id_seq (v : nat) (w : World) : World :=
  Build_World (db w) (customers_id_seq w) (deals_id_seq w) v
              (messages w) (s3_storage w) (s3_content_types w) (cache w)
              (now w) (log w).
Definition set_messages (v : gmap string (gmap string Message)) (w : World)
  : World :=
  Build_World (db w) (customers_id_seq w) (deals_id_seq w)
              (sync_states_id_seq w) v (s3_storage w) (s3_content_types w)
              (cache w) (now w) (log w).
Definition set_s3 (st ct : gmap string string) (w : World) : World :=
  Build_World (db w) (customers_id_seq w) (deals_id_seq w)
              (sync_states_id_seq w) (messages w) st ct (cache w) (now w)
              (log w).
Definition set_cache (v : gmap string string) (w : World) : World :=
  Build_World (db w) (customers_id_seq w) (deals_id_seq w)
              (sync_states_id_seq w) (messages w) (s3_storage w)
              (s3_content_types w) v (now w) (log w).
Definition record (e : Event) (w : World) : World :=
  Build_World (db w) (customers_id_seq w) (deals_id_seq w)
              (sync_states_id_seq w) (messages w) (s3_storage w)
              (s3_content_types w) (cache w) (now w) (log w ++ [e]).

(** A fresh deployment: empty tables, stores and cache. *)
Definition empty_world (t0 : datetime) : World :=
  Build_World (Build_Db [] [] []) 1 1 1 ∅ ∅ ∅ ∅ t0 [].

(** What the environment decides during one invocation. *)
Record Env : Type := Build_Env
  { (* [random.random()] as drawn by the fetch of a cursor *)
    random_random : option string -> QArith_base.Q;
    (* does the document-store backend raise on this key? (never, for
       [MockMessageStore]) *)
    doc_put_raises : string -> string -> bool;
    (* [httpx.get(url)]: the body of a 200 answer; [None] for any other
       status and for a transport error *)
    http_get : string -> option string;
    (* [django.utils.dateparse.parse_datetime] *)
    parse_datetime : string -> parse_result;
    (* [datetime.fromisoformat]: [None] where it raises ValueError *)
    fromisoformat : string -> option pydatetime }.

(** ** The state and exception monad *)

Inductive Result (A : Type) : Type :=
| Ok (a : A)
| Raise (e : exn)
| OutOfFuel.
Arguments Ok {A} a.
Arguments Raise {A} e.
Arguments OutOfFuel {A}.

Definition M (S A : Type) : Type := S -> Result A * S.

#[global] Instance M_ret {S} : MRet (M S) := fun A a s => (Ok a, s).
#[global] Instance M_bind {S} : MBind (M S) := fun A B f m s =>
  match m s with
  | (Ok a, s') => f a s'
  | (Raise e, s') => (Raise e, s')
  | (OutOfFuel, s') => (OutOfFuel, s')
  end.

Definition raise {S A} (e : exn) : M S A := fun s => (Raise e, s).
Definition out_of_fuel {S A} : M S A := fun s => (OutOfFuel, s).
Definition get {S} : M S S := fun s => (Ok s, s).
Definition modify {S} (f : S -> S) : M S unit := fun s => (Ok tt, f s).

(** [try: body / except Exception as e: handler e] *)
Definition try_except {S A} (body : M S A) (handler : exn -> M S A) : M S A :=
  fun s =>
    match body s with
    | (Raise e, s') => handler e s'
    | r => r
    end.

(** [try: body / finally: cleanup] *)
Definition try_finally {S A} (body : M S A) (cleanup : M S unit) : M S A :=
  fun s =>
    match body s with
    | (r, s') =>
        match cleanup s' with
        | (Ok _, s'') => (r, s'')
        | (Raise e, s'') => (Raise e, s'')
        | (OutOfFuel, s'') => (OutOfFuel, s'')
        end
    end.

(** [with transaction.atomic(): body]: the rows are restored when the body
    raises; whatever else the body did stays done. *)
Definition atomic {A} (body : M World A) : M World A :=
  fun w =>
    match body (record SqlBegin w) with
    | (Ok a, w') => (Ok a, record SqlCommit w')
    | (r, w') => (r, record SqlRollback (set_db (db w) w'))
    end.

(** ** QuerySets *)

(** [qs.first()] of an ordered queryset. *)
Definition first {A} (qs : list A) : option A := head qs.

(** [ORDER BY col DESC]; PostgreSQL puts NULL first in descending order. *)
Definition desc_nulls_first (a b : option datetime) : Prop :=
  match a, b with
  | None, _ => True
  | Some _, None => False
  | Some x, Some y => (y <= x)%Z
  end.

#[global] Instance desc_nulls_first_dec a b : Decision (desc_nulls_first a b).
Proof. destruct a, b; simpl; apply _. Defined.

(** Does [update_fields] name the column? *)
Definition names (update_fields : list string) (column : string) : bool :=
  bool_decide (column ∈ update_fields).

(** [UPDATE ... WHERE id = pk] *)
Definition update_pk {A} (pk_of : A -> nat) (pk : nat) (f : A -> A)
    (rows : list A) : list A :=
  (fun r => if Nat.eqb (pk_of r) pk then f r else r) <$> rows.

Definition has_pk {A} (pk_of : A -> nat) (pk : nat) (rows : list A) : bool :=
  existsb (fun r => Nat.eqb (pk_of r) pk) rows.

(** [Customer.objects], a plain [models.Manager]. *)
Module CustomerManager.
Definition filter (external_id : string) (w : World) : list Customer.t :=
  base.filter (fun c => Customer.external_id c = external_id)
              (customers (db w)).

(** [Customer.objects.create(external_id=.., name=.., avatar_url=..)];
    [external_id] and the primary key are UNIQUE. *)
Definition create (external_id name avatar_url : string)
  : M World Customer.t := fun w =>
  let pk := customers_id_seq w in
  let obj := Customer.Build pk external_id name avatar_url "" in
  let w := record (SqlInsert customers_tbl pk)
                  (set_customers_id_seq (S pk) w) in
  if has_pk Customer.id pk (customers (db w))
     || negb (bool_decide (filter external_id w = []))
  then (Raise (IntegrityError "duplicate key value violates unique constraint"), w)
  else (Ok obj, set_customers (customers (db w) ++ [obj]) w).

(** [Customer.objects.get_or_create(external_id=.., defaults={..})] *)
Definition get_or_create (external_id name avatar_url : string)
  : M World (Customer.t * bool) := fun w =>
  let w := record (SqlSelect customers_tbl) w in
  match filter external_id w with
  | [] => (obj ← create external_id name avatar_url; mret (obj, true)) w
  | [obj] => (Ok (obj, false), w)
  | _ => (Raise (DatabaseError "get() returned more than one Customer"), w)
  end.

(** [obj.save(update_fields=[..])] *)
Definition save (obj : Customer.t) (update_fields : list string)
  : M World unit := fun w =>
  let w := record (SqlUpdate customers_tbl (Customer.id obj) update_fields) w in
  let assign (row : Customer.t) :=
    Customer.Build (Customer.id row)
      (if names update_fields "external_id" then Customer.external_id obj
       else Customer.external_id row)
      (if names update_fields "name" then Customer.name obj
       else Customer.name row)
      (if names update_fields "avatar_url" then Customer.avatar_url obj
       else Customer.avatar_url row)
      (if names update_fields "avatar_s3_key" then Customer.avatar_s3_key obj
       else Customer.avatar_s3_key row) in
  if has_pk Customer.id (Customer.id obj) (customers (db w))
  then (Ok tt, set_customers
                 (update_pk Customer.id (Customer.id obj) assign
                            (customers (db w))) w)
  else (Raise (DatabaseError "Save with update_fields did not affect any rows."), w).
End CustomerManager.

(** [Deal.objects = DealManager()]; [Deal.Meta.ordering = ['-last_message_at']]. *)
Module DealManager.
Definition newest_first (a b : Deal.t) : Prop :=
  desc_nulls_first (Deal.last_message_at a) (Deal.last_message_at b).

#[global] Instance newest_first_dec a b : Decision (newest_first a b).
Proof. unfold newest_first. apply _. Defined.

Definition ordered (rows : list Deal.t) : list Deal.t :=
  merge_sort newest_first rows.

(** [Deal.objects.filter(external_id=..)] *)
Definition filter_external_id (external_id : string) (w : World)
  : list Deal.t :=
  ordered (base.filter (fun d => Deal.external_id d = external_id)
                       (deals (db w))).

(** [DealManager.complete] *)
Definition complete (w : World) : list Deal.t :=
  ordered (base.filter (fun d => Deal.sync_status d = Deal.COMPLETE)
                       (deals (db w))).

(** [Deal.objects.create(..)]; [total_messages] takes its default 0. *)
Definition create (external_id : string) (customer : option nat)
    (last_message_id : string) (last_message_at : option datetime)
    (sync_status : Deal.SyncStatus) : M World Deal.t := fun w =>
  let pk := deals_id_seq w in
  let obj := Deal.Build pk external_id customer last_message_id
                        last_message_at 0 sync_status in
  let w := record (SqlInsert deals_tbl pk) (set_deals_id_seq (S pk) w) in
  if has_pk Deal.id pk (deals (db w))
     || negb (bool_decide (filter_external_id external_id w = []))
  then (Raise (IntegrityError "duplicate key value violates unique constraint"), w)
  else (Ok obj, set_deals (deals (db w) ++ [obj]) w).

(** [obj.save(update_fields=[..])] *)
Definition save (obj : Deal.t) (update_fields : list string)
  : M World unit := fun w =>
  let w := record (SqlUpdate deals_tbl (Deal.id obj) update_fields) w in
  let assign (row : Deal.t) :=
    Deal.Build (Deal.id row)
      (if names update_fields "external_id" then Deal.external_id obj
       else Deal.external_id row)
      (if names update_fields "customer" then Deal.customer obj
       else Deal.customer row)
      (if names update_fields "last_message_id" then Deal.last_message_id obj
       else Deal.last_message_id row)
      (if names update_fields "last_message_at" then Deal.last_message_at obj
       else Deal.last_message_at row)
      (if names update_fields "total_messages" then Deal.total_messages obj
       else Deal.total_messages row)
      (if names update_fields "sync_status" then Deal.sync_status obj
       else Deal.sync_status row) in
  if has_pk Deal.id (Deal.id obj) (deals (db w))
  then (Ok tt, set_deals
                 (update_pk Deal.id (Deal.id obj) assign (deals (db w))) w)
  else (Raise (DatabaseError "Save with update_fields did not affect any rows."), w).
End DealManager.

(** [SyncState.objects]; [SyncState.Meta.ordering = ['-started_at']]. *)
Module SyncStateManager.
Definition newest_first (a b : SyncState.t) : Prop :=
  (SyncState.started_at b <= SyncState.started_at a)%Z.

#[global] Instance newest_first_dec a b : Decision (newest_first a b).
Proof. unfold newest_first. apply _. Defined.

Definition ordered (rows : list SyncState.t) : list SyncState.t :=
  merge_sort newest_first rows.

(** [SyncState.objects.filter(status__in=statuses)] *)
Definition filter_status_in (statuses : list SyncState.Status) (w : World)
  : list SyncState.t :=
  ordered (base.filter (fun s => SyncState.status s ∈ statuses)
                       (sync_states (db w))).

(** [SyncState.objects.create(task_id=.., status=.., max_date=..)];
    [task_id] and the primary key are UNIQUE. *)
Definition create (task_id : string) (status : SyncState.Status)
    (max_date : option datetime) : M World SyncState.t := fun w =>
  let pk := sync_states_id_seq w in
  let obj := SyncState.Build pk task_id status "" max_date 0 "" (now w) in
  let w := record (SqlInsert sync_states_tbl pk)
                  (set_sync_states_id_seq (S pk) w) in
  if has_pk SyncState.id pk (sync_states (db w))
     || existsb (fun s => bool_decide (SyncState.task_id s = task_id))
                (sync_states (db w))
  then (Raise (IntegrityError "duplicate key value violates unique constraint"), w)
  else (Ok obj, set_sync_states (sync_states (db w) ++ [obj]) w).

(** [obj.save(update_fields=[..])] *)
Definition save (obj : SyncState.t) (update_fields : list string)
  : M World unit := fun w =>
  let w := record (SqlUpdate sync_states_tbl (SyncState.id obj) update_fields) w in
  let assign (row : SyncState.t) :=
    SyncState.Build (SyncState.id row)
      (if names update_fields "task_id" then SyncState.task_id obj
       else SyncState.task_id row)
      (if names update_fields "status" then SyncState.status obj
       else SyncState.status row)
      (if names update_fields "cursor" then SyncState.cursor obj
       else SyncState.cursor row)
      (if names update_fields "max_date" then SyncState.max_date obj
       else SyncState.max_date row)
      (if names update_fields "processed_chats"
       then SyncState.processed_chats obj else SyncState.processed_chats row)
      (if names update_fields "error_message"
       then SyncState.error_message obj else SyncState.error_message row)
      (SyncState.started_at row) in
  if has_pk SyncState.id (SyncState.id obj) (sync_states (db w))
  then (Ok tt, set_sync_states
                 (update_pk SyncState.id (SyncState.id obj) assign
                            (sync_states (db w))) w)
  else (Raise (DatabaseError "Save with update_fields did not affect any rows."), w).
End SyncStateManager.

(** ** apps/chats/views.py *)

Module DealViewSet.
(** [DealViewSet.get_queryset]: [select_related] only widens the SELECT. *)
Definition get_queryset (w : World) : list Deal.t :=
  DealManager.ordered
    (base.filter
       (fun d => Deal.sync_status d = Deal.COMPLETE /\ Deal.customer d <> None)
       (deals (db w))).
End DealViewSet.

(** ** apps/sync/services/dynamodb.py, s3_service.py *)

Module MessageStore.
(** [BaseMessageStore.save_message]: the dictionary update of
    [MockMessageStore], behind the backend's possible failure. *)
Definition save_message (env : Env) (chat_id message_id text : string)
    (created_at : datetime) : M World unit := fun w =>
  let w := record (DocPut chat_id message_id) w in
  if doc_put_raises env chat_id message_id
  then (Raise (MessageStoreError "save_message failed"), w)
  else
    let chat_messages := default ∅ (messages w !! chat_id) in
    let item := Build_Message chat_id message_id text created_at in
    (Ok tt, set_messages
              (<[chat_id := <[message_id := item]> chat_messages]>
                 (messages w)) w).

(** [MockMessageStore.get_message] *)
Definition get_message (chat_id message_id : string) (w : World)
  : option Message :=
  default ∅ (messages w !! chat_id) !! message_id.
End MessageStore.

Module MockS3Service.
(** [MockS3Service.upload_file]; the returned URL is not used. *)
Definition upload_file (key data content_type : string) : M World unit :=
  fun w =>
    let w := record (S3Put key) w in
    (Ok tt, set_s3 (<[key := data]> (s3_storage w))
                   (if bool_decide (content_type = "")
                    then s3_content_types w
                    else <[key := content_type]> (s3_content_types w)) w).
End MockS3Service.

(** ** The cursor codec: [base64] and [int] *)

Module base64.
Definition b64_char (v : N) : ascii :=
  ascii_of_N (if (v <? 26)%N then 65 + v
              else if (v <? 52)%N then 71 + v
              else if (v <? 62)%N then v - 4
              else if (v =? 62)%N then 43 else 47)%N.

Definition b64_value (c : ascii) : option N :=
  let n := N_of_ascii c in
  if ((65 <=? n) && (n <=? 90))%N then Some (n - 65)%N
  else if ((97 <=? n) && (n <=? 122))%N then Some (n - 71)%N
  else if ((48 <=? n) && (n <=? 57))%N then Some (n + 4)%N
  else if (n =? 43)%N then Some 62%N
  else if (n =? 47)%N then Some 63%N
  else None.

(** [binascii.b2a_base64] without the newline. *)
Fixpoint b2a (data : list N) : list ascii :=
  match data with
  | [] => []
  | [a] =>
      [b64_char (N.shiftr a 2); b64_char (N.shiftl (N.land a 3) 4);
       "="%char; "="%char]
  | [a; b] =>
      [b64_char (N.shiftr a 2);
       b64_char (N.lor (N.shiftl (N.land a 3) 4) (N.shiftr b 4));
       b64_char (N.shiftl (N.land b 15) 2); "="%char]
  | a :: b :: c :: rest =>
      b64_char (N.shiftr a 2)
      :: b64_char (N.lor (N.shiftl (N.land a 3) 4) (N.shiftr b 4))
      :: b64_char (N.lor (N.shiftl (N.land b 15) 2) (N.shiftr c 6))
      :: b64_char (N.land c 63) :: b2a rest
  end.

(** [base64.b64encode(s.encode('utf-8')).decode('utf-8')]; a [string] is its
    UTF-8 bytes. *)
Definition b64encode (s : string) : string :=
  String.string_of_list_ascii (b2a (N_of_ascii <$> String.list_ascii_of_string s)).

(** [binascii.a2b_base64] in its default, lenient mode: characters outside
    the alphabet are skipped, a complete pad sequence ends the input, and a
    dangling quad is the [binascii.Error] (here [None]). *)
Fixpoint a2b (input : list ascii) (quad_pos : nat) (leftchar : N)
    (pads : nat) (out : list N) : option (list N) :=
  match input with
  | [] => if Nat.eqb quad_pos 0 then Some out else None
  | c :: rest =>
      if Ascii.eqb c "="
      then if ((2 <=? quad_pos) && (4 <=? quad_pos + S pads))%nat
           then Some out
           else a2b rest quad_pos leftchar
                    (if (2 <=? quad_pos)%nat then S pads else pads) out
      else
        match b64_value c with
        | None => a2b rest quad_pos leftchar pads out
        | Some v =>
            match quad_pos with
            | 0 => a2b rest 1 v 0 out
            | 1 => a2b rest 2 (N.land v 15) 0
                       (out ++ [N.lor (N.shiftl leftchar 2) (N.shiftr v 4)])
            | 2 => a2b rest 3 (N.land v 3) 0
                       (out ++ [N.lor (N.shiftl leftchar 4) (N.shiftr v 2)])
            | _ => a2b rest 0 0 0 (out ++ [N.lor (N.shiftl leftchar 6) v])
            end
        end
  end.

(** [base64.b64decode(s)] of a [str]: it must be ASCII. *)
Definition b64decode (s : string) : option (list N) :=
  let input := String.list_ascii_of_string s in
  if forallb (fun c => (N_of_ascii c <? 128)%N) input
  then a2b input 0 0 0 []
  else None.
End base64.

(** [int(bytes.decode('utf-8'))] on ASCII text: surrounding whitespace, an
    optional sign, decimal digits with single underscores between them.
    A payload with a byte above 127 is taken as unparseable. The limit of
    the interpreter on the digits of an integer (4300 by default) is not part
    of [int] or of [_encode_cursor]: the round trip of the codec is stated
    within it ([within_max_str_digits]), on the ASCII digits that
    [_encode_cursor] writes. *)
Module python_int.
Definition is_space (c : N) : bool :=
  ((9 <=? c) && (c <=? 13) || (28 <=? c) && (c <=? 32))%N.
Definition is_digit (c : N) : bool := ((48 <=? c) && (c <=? 57))%N.

Fixpoint lstrip (l : list N) : list N :=
  match l with
  | c :: rest => if is_space c then lstrip rest else l
  | [] => []
  end.
Definition strip (l : list N) : list N := rev (lstrip (rev (lstrip l))).

(** [after_digit]: the previous character was a digit. *)
Fixpoint digits (l : list N) (after_digit : bool) (acc : Z) : option Z :=
  match l with
  | [] => if after_digit then Some acc else None
  | c :: rest =>
      if is_digit c then digits rest true (acc * 10 + Z.of_N (c - 48))%Z
      else if (c =? 95)%N && after_digit
           then match rest with
                | d :: _ => if is_digit d then digits rest false acc else None
                | [] => None
                end
           else None
  end.

Definition int (payload : list N) : option Z :=
  if forallb (fun c => (c <? 128)%N) payload
  then match strip payload with
       | 43%N :: l => digits l false 0
       | 45%N :: l => Z.opp <$> digits l false 0
       | l => digits l false 0
       end
  else None.
End python_int.

(** ** apps/sync/services/external_api.py: [MockExternalAPIClient] *)

Module MockExternalAPIClient.
(** [base_date] carries tzinfo, as the default of [__init__] does. *)
Record t : Type := Build
  { total_chats : Z;
    page_size : Z;
    failure_rate : QArith_base.Q;
    base_date : datetime }.

(** [MockExternalAPIClient()] *)
Definition default : t :=
  Build 50 10 (QArith_base.Qmake 0 1) (datetime_utc 2024 5 20 12 0 0).

(** [f'{index:04d}'] *)
Definition format_04d (index : Z) : string :=
  let zfill (width : nat) (s : string) :=
    String.string_of_list_ascii (replicate (width - String.length s) "0"%char) +:+ s in
  if (index <? 0)%Z then "-" +:+ zfill 3 (pretty (Z.abs index))
  else zfill 4 (pretty index).

Definition _decode_cursor (cursor : option string) : Z :=
  match cursor with
  | None | Some "" => 0
  | Some cursor =>
      match base64.b64decode cursor ≫= python_int.int with
      | Some page_num => page_num
      | None => 0
      end
  end.

Definition _encode_cursor (page_num : Z) : string :=
  base64.b64encode (pretty page_num).

(** The client's private [_customers_cache], read by [get_customer] alone,
    is not kept. The subtraction is on instants: in the code it raises
    OverflowError when the result leaves the range of a datetime, and what is
    proved of the generated records is stated for indexes within that range
    ([can_generate]). *)
Definition _generate_chat (self : t) (index : Z) : Chat.t :=
  let chat_id := "chat_" +:+ format_04d index in
  let customer_id := "cust_" +:+ format_04d index in
  let message_id := "msg_" +:+ format_04d index in
  let message_date := (base_date self - timedelta_hours index)%Z in
  let customer :=
    ChatCustomer.Build customer_id ("Customer " +:+ pretty index)
      ("https://example.com/avatars/" +:+ customer_id +:+ ".jpg") in
  let message :=
    ChatMessage.Build message_id ("Message from customer " +:+ pretty index)
                      message_date in
  Chat.Build chat_id customer message.

Definition Qlt_bool (a b : QArith_base.Q) : bool :=
  negb (QArith_base.Qle_bool b a).

Definition get_chats (env : Env) (self : t) (cursor : option string)
  : M World ChatPage.t := fun w =>
  let w := record (ApiGetChats cursor) w in
  if Qlt_bool (QArith_base.Qmake 0 1) (failure_rate self)
     && Qlt_bool (random_random env cursor) (failure_rate self)
  then (Raise (ExternalAPIError "Simulated API failure"), w)
  else
    let page_num := _decode_cursor cursor in
    let start_idx := (page_num * page_size self)%Z in
    let end_idx := (Z.min (start_idx + page_size self) (total_chats self))%Z in
    let chats := _generate_chat self <$> seqZ start_idx (end_idx - start_idx) in
    let has_more := (end_idx <? total_chats self)%Z in
    let next_cursor :=
      if has_more then Some (_encode_cursor (page_num + 1)) else None in
    (Ok (ChatPage.Build chats next_cursor has_more), w).
End MockExternalAPIClient.

(** ** apps/sync/services/sync_service.py *)

Module SyncService.
(** What a method can change: the [SyncState] instance in [self.state],
    which the task holds too, and the world. The instance is its attributes
    [state] and [max_date_tzinfo], which says whether [self.state.max_date]
    carries tzinfo. The three adapters of [__init__] are the world's stores
    and the client configuration. *)
Record self : Type := Build_self
  { state : SyncState.t; world : World; max_date_tzinfo : bool }.

(** The engine over an instance whose [max_date] carries tzinfo, as every
    instance read from the table does. *)
Abbreviation Build st w := (Build_self st w true).

Definition lift {A} (m : M World A) : M self A := fun s =>
  match m (world s) with
  | (r, w) => (r, Build_self (state s) w (max_date_tzinfo s))
  end.

Definition set_state (f : SyncState.t -> SyncState.t) : M self unit :=
  modify (fun s => Build_self (f (state s)) (world s) (max_date_tzinfo s)).

Section methods.
Context (env : Env) (api_client : MockExternalAPIClient.t).

Definition _save_cursor (cursor : string) : M self unit :=
  set_state (SyncState.set_cursor cursor);;
  s ← get;
  lift (SyncStateManager.save (state s) ["cursor"; "updated_at"]).

Definition _increment_processed : M self unit :=
  set_state (fun st =>
    SyncState.set_processed_chats (SyncState.processed_chats st + 1) st);;
  s ← get;
  lift (SyncStateManager.save (state s) ["processed_chats"; "updated_at"]).

Definition _save_message_to_dynamodb (chat : Chat.t) (deal : Deal.t)
  : M World unit :=
  MessageStore.save_message env
    (Deal.external_id deal)
    (ChatMessage.message_id (Chat.last_message chat))
    (ChatMessage.text (Chat.last_message chat))
    (ChatMessage.created_at (Chat.last_message chat)).

Definition _create_or_update_deal (chat : Chat.t) (customer : Customer.t)
    (existing_deal : option Deal.t) : M World Deal.t :=
  match existing_deal with
  | Some existing_deal =>
      let existing_deal :=
        Deal.set_sync_status Deal.PENDING
          (Deal.set_last_message_at
             (Some (ChatMessage.created_at (Chat.last_message chat)))
             (Deal.set_last_message_id
                (ChatMessage.message_id (Chat.last_message chat))
                (Deal.set_customer (Some (Customer.id customer))
                                   existing_deal))) in
      DealManager.save existing_deal
        ["customer"; "last_message_id"; "last_message_at"; "sync_status";
         "updated_at"];;
      mret existing_deal
  | None =>
      DealManager.create
        (Chat.external_id chat)
        (Some (Customer.id customer))
        (ChatMessage.message_id (Chat.last_message chat))
        (Some (ChatMessage.created_at (Chat.last_message chat)))
        Deal.PENDING
  end.

(** [httpx.get(avatar_url, timeout=10.0)] *)
Definition httpx_get (url : string) : M World (option string) := fun w =>
  (Ok (http_get env url), record (HttpGet url) w).

(** The upload runs in line; whatever it raises is logged and dropped.
    The attribute it sets on the in-memory [customer] is not read again. *)
Definition _queue_avatar_upload (customer : Customer.t)
    (avatar_url : string) : M World unit :=
  try_except
    (response ← httpx_get avatar_url;
     match response with
     | Some content =>
         let key := "avatars/" +:+ Customer.external_id customer +:+ ".jpg" in
         MockS3Service.upload_file key content "image/jpeg";;
         let customer := Customer.set_avatar_s3_key key customer in
         CustomerManager.save customer ["avatar_s3_key"; "updated_at"]
     | None => mret tt
     end)
    (fun e => mret tt).

Definition _get_or_create_customer (chat : Chat.t) : M World Customer.t :=
  '(customer, created) ←
    CustomerManager.get_or_create
      (ChatCustomer.external_id (Chat.customer chat))
      (ChatCustomer.name (Chat.customer chat))
      (ChatCustomer.avatar_url (Chat.customer chat));
  (if created
      && negb (bool_decide (ChatCustomer.avatar_url (Chat.customer chat) = ""))
   then _queue_avatar_upload customer
                             (ChatCustomer.avatar_url (Chat.customer chat))
   else mret tt);;
  mret customer.

Definition _sync_chat_atomic (chat : Chat.t) (existing_deal : option Deal.t)
  : M World unit :=
  atomic
    (customer ← _get_or_create_customer chat;
     deal ← _create_or_update_deal chat customer existing_deal;
     _save_message_to_dynamodb chat deal;;
     let deal := Deal.set_sync_status Deal.COMPLETE deal in
     let deal := Deal.set_total_messages (Deal.total_messages deal + 1) deal in
     DealManager.save deal ["sync_status"; "total_messages"; "updated_at"]).

(** [Deal.objects.filter(external_id=..).first()] *)
Definition existing_deal_of (external_id : string)
  : M World (option Deal.t) := fun w =>
  (Ok (first (DealManager.filter_external_id external_id w)),
   record (SqlSelect deals_tbl) w).

(** [created_at < max_date] for the timestamp of a record, which carries
    tzinfo: Python does not order it with a datetime that carries none. *)
Definition lt_max_date (created_at max_date : datetime) : M self bool :=
  s ← get;
  if max_date_tzinfo s then mret (created_at <? max_date)%Z
  else raise (TypeError
                "can't compare offset-naive and offset-aware datetimes").

(** In the handler only [sync_status] of [existing_deal] is written, so
    what [_create_or_update_deal] assigned to the instance before the
    failure does not reach the row. *)
Definition _process_chat (chat : Chat.t) : M self bool :=
  s ← get;
  reached_max_date ←
    match SyncState.max_date (state s) with
    | Some max_date =>
        lt_max_date (ChatMessage.created_at (Chat.last_message chat)) max_date
    | None => mret false
    end;
  if reached_max_date : bool then mret true
  else
    existing_deal ← lift (existing_deal_of (Chat.external_id chat));
    if match existing_deal with
       | Some existing_deal =>
           bool_decide (Deal.last_message_id existing_deal
                        = ChatMessage.message_id (Chat.last_message chat))
       | None => false
       end
    then mret true
    else
      try_except
        (lift (_sync_chat_atomic chat existing_deal);;
         _increment_processed)
        (fun e =>
           match existing_deal with
           | Some existing_deal =>
               lift (DealManager.save
                       (Deal.set_sync_status Deal.FAILED existing_deal)
                       ["sync_status"; "updated_at"])
           | None => mret tt
           end);;
      mret false.

Fixpoint _process_chats (chats : list Chat.t) : M self bool :=
  match chats with
  | [] => mret false
  | chat :: chats =>
      should_stop ← _process_chat chat;
      if should_stop : bool then mret true else _process_chats chats
  end.

Definition _process_page (page : ChatPage.t) : M self bool :=
  _process_chats (ChatPage.chats page).

(** The [while True] of [run]: one unit of fuel per fetched page. *)
Fixpoint run_loop (fuel : nat) (cursor : option string) : M self unit :=
  match fuel with
  | 0 => out_of_fuel
  | S fuel =>
      page ← lift (MockExternalAPIClient.get_chats env api_client cursor);
      should_stop ← _process_page page;
      match ChatPage.next_cursor page with
      | Some next_cursor =>
          if bool_decide (next_cursor = "") then mret tt
          else _save_cursor next_cursor
      | None => mret tt
      end;;
      if should_stop || negb (ChatPage.has_more page) then mret tt
      else run_loop fuel (ChatPage.next_cursor page)
  end.

(** The outer [try] of [run] logs and re-raises. *)
Definition run (fuel : nat) : M self unit :=
  s ← get;
  let cursor :=
    if bool_decide (SyncState.cursor (state s) = "") then None
    else Some (SyncState.cursor (state s)) in
  run_loop fuel cursor.
End methods.
End SyncService.

(** ** apps/sync/tasks.py *)

Module tasks.
Definition SYNC_LOCK_KEY : string := "sync_chats_lock".
Definition SYNC_LOCK_TIMEOUT : Z := 3600.

(** [cache.add(key, value, timeout)]: set if absent. Expiry is the
    environment's doing. *)
Definition cache_add (key value : string) (timeout : Z) : M World bool :=
  fun w =>
    let w := record (CacheAdd key) w in
    match cache w !! key with
    | Some _ => (Ok false, w)
    | None => (Ok true, set_cache (<[key := value]> (cache w)) w)
    end.

(** [cache.delete(key)] *)
Definition cache_delete (key : string) : M World unit := fun w =>
  (Ok tt, set_cache (delete key (cache w)) (record (CacheDelete key) w)).

(** [parse_datetime(max_date)], whose ValueError is not caught, then
    [datetime.fromisoformat(max_date)], whose ValueError leaves None. *)
Definition parse_max_date (env : Env) (max_date : option string)
  : M World (option pydatetime) :=
  match max_date with
  | None | Some "" => mret None
  | Some max_date =>
      match parse_datetime env max_date with
      | parsed parsed_date => mret (Some parsed_date)
      | not_well_formatted => mret (fromisoformat env max_date)
      | not_valid msg => raise (ValueError msg)
      end
  end.

(** The row of a new Run State stores [max_date] as an instant; the instance
    that [create] returns keeps the parsed object, with or without tzinfo. *)
Definition _get_or_create_sync_state (env : Env) (task_id : string)
    (max_date : option string) : M World SyncState.instance := fun w =>
  let incomplete_state :=
    first (SyncStateManager.filter_status_in
             [SyncState.RUNNING; SyncState.PENDING] w) in
  let w := record (SqlSelect sync_states_tbl) w in
  match incomplete_state with
  | Some incomplete_state => (Ok (SyncState.Instance incomplete_state true), w)
  | None =>
      (parsed_date ← parse_max_date env max_date;
       state ← SyncStateManager.create task_id SyncState.PENDING
                 (get_prep_value <$> parsed_date);
       mret (SyncState.Instance state
               (from_option has_tzinfo true parsed_date))) w
  end.

(** [self.request] *)
Record request : Type := Build_request { id : string; retries : nat }.

Inductive result : Type :=
| skipped (reason : string)
| completed (processed : nat) (task_id : string).

(** The local variable [state] and the world. *)
Definition frame : Type := (option SyncState.t * World)%type.

Definition lift {A} (m : M World A) : M frame A := fun '(state, w) =>
  match m w with (r, w') => (r, (state, w')) end.

(** [state = st], then code that runs with [state] bound. *)
Definition with_state {A} (st : SyncState.instance) (m : M SyncService.self A)
  : M frame A := fun '(_, w) =>
  match m (SyncService.Build_self st w (SyncState.max_date_tzinfo st)) with
  | (r, s) => (r, (Some (SyncService.state s), SyncService.world s))
  end.

(** [raise self.retry(exc=e, countdown=60)] with [max_retries=3]. *)
Definition retry {A} (req : request) (exc : exn) : M frame A :=
  if (3 <? retries req + 1)%nat then raise exc else raise (Retry exc).

(** The [try] block of [sync_chats_task]. *)
Definition sync_chats_task_try (env : Env)
    (api_client : MockExternalAPIClient.t) (req : request)
    (max_date : option string) (fuel : nat) : M frame result :=
  state ← lift (_get_or_create_sync_state env (id req) max_date);
  with_state state
    (SyncService.set_state (SyncState.set_status SyncState.RUNNING);;
     s ← get;
     SyncService.lift
       (SyncStateManager.save (SyncService.state s) ["status"; "updated_at"]);;
     SyncService.run env api_client fuel;;
     SyncService.set_state (SyncState.set_status SyncState.COMPLETED);;
     s ← get;
     SyncService.lift
       (SyncStateManager.save (SyncService.state s) ["status"; "updated_at"]);;
     mret (completed (SyncState.processed_chats (SyncService.state s))
                     (SyncState.task_id (SyncService.state s)))).

(** Its [except Exception as e] block. *)
Definition sync_chats_task_except (req : request) (e : exn)
  : M frame result :=
  fr ← get;
  match fr.1 with
  | Some state =>
      let state :=
        SyncState.set_error_message (str_exn e)
          (SyncState.set_status SyncState.FAILED state) in
      lift (SyncStateManager.save state
              ["status"; "error_message"; "updated_at"])
  | None => mret tt
  end;;
  retry req e.

Definition sync_chats_task (env : Env) (api_client : MockExternalAPIClient.t)
    (req : request) (max_date : option string) (fuel : nat)
  : M World result := fun w =>
  match cache_add SYNC_LOCK_KEY (id req) SYNC_LOCK_TIMEOUT w with
  | (Ok false, w) => (Ok (skipped "Another sync is running"), w)
  | (Ok true, w) =>
      match try_finally
              (try_except
                 (sync_chats_task_try env api_client req max_date fuel)
                 (sync_chats_task_except req))
              (lift (cache_delete SYNC_LOCK_KEY)) (None, w)
      with
      | (r, (_, w)) => (r, w)
      end
  | (Raise e, w) => (Raise e, w)
  | (OutOfFuel, w) => (OutOfFuel, w)
  end.
End tasks.

(** ** Vocabulary of the properties *)

(** The entity row of an external id, as [_process_chat] looks it up. *)
Definition deal_of (external_id : string) (w : World) : option Deal.t :=
  first (DealManager.filter_external_id external_id w).

(** Statements that write to the relational index (customers, deals), and
    writes to the document and blob stores. *)
Definition writes_store (e : Event) : bool :=
  match e with
  | SqlInsert customers_tbl _ | SqlInsert deals_tbl _
  | SqlUpdate customers_tbl _ _ | SqlUpdate deals_tbl _ _
  | DocPut _ _ | S3Put _ => true
  | _ => false
  end.

(** Is every document write of the log issued while no transaction is open?
    [depth] counts the transactions open at the head of the log. *)
Fixpoint doc_writes_outside_transactions (depth : nat) (l : list Event)
  : bool :=
  match l with
  | [] => true
  | SqlBegin :: l => doc_writes_outside_transactions (S depth) l
  | (SqlCommit | SqlRollback) :: l =>
      doc_writes_outside_transactions (pred depth) l
  | DocPut _ _ :: l =>
      Nat.eqb depth 0 && doc_writes_outside_transactions depth l
  | _ :: l => doc_writes_outside_transactions depth l
  end.

(** Events of the customer resolution step. *)
Definition customer_event (e : Event) : Prop :=
  match e with
  | SqlSelect customers_tbl | SqlInsert customers_tbl _
  | SqlUpdate customers_tbl _ _ | HttpGet _ | S3Put _ => True
  | _ => False
  end.

(** The entity upsert of [_create_or_update_deal], as it shows in the log. *)
Definition upsert_event (existing_deal : option Deal.t) (w : World) : Event :=
  match existing_deal with
  | Some existing_deal =>
      SqlUpdate deals_tbl (Deal.id existing_deal)
        ["customer"; "last_message_id"; "last_message_at"; "sync_status";
         "updated_at"]
  | None => SqlInsert deals_tbl (deals_id_seq w)
  end.

(** The finalize statement of [_sync_chat_atomic]. *)
Definition finalize_event (existing_deal : option Deal.t) (w : World) : Event :=
  SqlUpdate deals_tbl
    (match existing_deal with
     | Some existing_deal => Deal.id existing_deal
     | None => deals_id_seq w
     end)
    ["sync_status"; "total_messages"; "updated_at"].

(** The cursor-persist statement of [_save_cursor]. *)
Definition is_cursor_persist (e : Event) : bool :=
  match e with
  | SqlUpdate sync_states_tbl _ fields => names fields "cursor"
  | _ => false
  end.

Definition cursor_persists (l : list Event) : nat :=
  length (List.filter is_cursor_persist l).

(** The log reduced to the page loop: fetches, one document write per
    processed record, cursor persists. *)
Inductive PageStep : Type :=
| Fetch (cursor : option string)
| Record_ (chat_id : string)
| Persist.

Definition page_steps (l : list Event) : list PageStep :=
  omap (fun e =>
          match e with
          | ApiGetChats cursor => Some (Fetch cursor)
          | DocPut chat_id _ => Some (Record_ chat_id)
          | SqlUpdate sync_states_tbl _ fields =>
              if names fields "cursor" then Some Persist else None
          | _ => None
          end) l.

(** Run States that are not finished. *)
Definition incomplete (s : SyncState.t) : Prop :=
  SyncState.status s ∈ [SyncState.RUNNING; SyncState.PENDING].

Definition at_most_one_incomplete (rows : list SyncState.t) : Prop :=
  length (base.filter incomplete rows) <= 1.

(** Every run of [m] moves the state along [R]. *)
Definition steps {S A} (R : relation S) (m : M S A) : Prop :=
  forall s, R s (m s).2.

(** The columns of the Run State table that say which run is which and how
    far it is: the primary key and the status. *)
Definition run_statuses (w : World) : list (nat * SyncState.Status) :=
  (fun r => (SyncState.id r, SyncState.status r)) <$> sync_states (db w).

(** What the per-record protocol leaves alone in the world: the Run State
    table, the cache, and every counterparty row that is already there. *)
Record store_frame (w w' : World) : Prop := Build_store_frame
  { sf_sync_states : sync_states (db w') = sync_states (db w);
    sf_sync_states_id_seq : sync_states_id_seq w' = sync_states_id_seq w;
    sf_cache : cache w' = cache w;
    sf_customers : customers (db w) `prefix_of` customers (db w');
    sf_customers_unique :
      NoDup (Customer.external_id <$> customers (db w)) ->
      NoDup (Customer.external_id <$> customers (db w')) }.

(** What a run leaves alone: the identity and cutoff of its own Run State,
    the key and status columns of the table, the cache, the counterparty
    rows that are already there, and whether the cutoff carries tzinfo. *)
Record engine_frame (s s' : SyncService.self) : Prop := Build_engine_frame
  { ef_max_date :
      SyncState.max_date (SyncService.state s')
      = SyncState.max_date (SyncService.state s);
    ef_id :
      SyncState.id (SyncService.state s') = SyncState.id (SyncService.state s);
    ef_status :
      SyncState.status (SyncService.state s')
      = SyncState.status (SyncService.state s);
    ef_task_id :
      SyncState.task_id (SyncService.state s')
      = SyncState.task_id (SyncService.state s);
    ef_run_statuses :
      run_statuses (SyncService.world s') = run_statuses (SyncService.world s);
    ef_cache : cache (SyncService.world s') = cache (SyncService.world s);
    ef_customers :
      customers (db (SyncService.world s))
      `prefix_of` customers (db (SyncService.world s'));
    ef_customers_unique :
      NoDup (Customer.external_id <$> customers (db (SyncService.world s))) ->
      NoDup (Customer.external_id <$> customers (db (SyncService.world s')));
    ef_max_date_tzinfo :
      SyncService.max_date_tzinfo s' = SyncService.max_date_tzinfo s }.

Definition incomplete_status (p : nat * SyncState.Status) : Prop :=
  p.2 ∈ [SyncState.RUNNING; SyncState.PENDING].

(** The invariant on the key and status columns: primary keys are distinct
    and at most one row is PENDING or RUNNING. *)
Definition runs_inv (sts : list (nat * SyncState.Status)) : Prop :=
  NoDup sts.*1 /\ length (filter incomplete_status sts) <= 1.

(** [UPDATE sync_states SET status = v WHERE id = pk], on the two columns. *)
Definition set_status_of (pk : nat) (v : SyncState.Status)
    (sts : list (nat * SyncState.Status)) : list (nat * SyncState.Status) :=
  (fun p => if Nat.eqb p.1 pk then (p.1, v) else p) <$> sts.

Definition returns {S A} (m : M S A) : Prop :=
  forall s, (m s).1 <> OutOfFuel.

(** The external ids of the records with indexes [from .. from + n - 1]. *)
Definition chat_ids (from n : Z) : list string :=
  (fun i => "chat_" +:+ MockExternalAPIClient.format_04d i) <$> seqZ from n.

(** The relational index is well formed: keys are unique and below their
    sequences. *)
Definition index_wf (w : World) : Prop :=
  NoDup (Deal.id <$> deals (db w))
  /\ NoDup (Deal.external_id <$> deals (db w))
  /\ Forall (fun pk => pk < deals_id_seq w) (Deal.id <$> deals (db w))
  /\ NoDup (Customer.external_id <$> customers (db w))
  /\ Forall (fun pk => pk < customers_id_seq w)
            (Customer.id <$> customers (db w)).

#[global] Instance index_wf_dec w : Decision (index_wf w).
Proof. unfold index_wf. apply _. Defined.

(** The record is new, or its last message is not the one stored: what
    [_process_chat] tests before it opens the section. *)
Definition changed (w : World) (chat : Chat.t) : Prop :=
  Deal.last_message_id <$> deal_of (Chat.external_id chat) w
  <> Some (ChatMessage.message_id (Chat.last_message chat)).

#[global] Instance changed_dec w chat : Decision (changed w chat).
Proof. unfold changed. apply _. Defined.

(** The entity row of a record after its section went through, against
    the row [old] it had before. *)
Definition completed_from (chat : Chat.t) (old new : option Deal.t) : Prop :=
  exists d,
    new = Some d
    /\ Deal.external_id d = Chat.external_id chat
    /\ Deal.sync_status d = Deal.COMPLETE
    /\ Deal.last_message_id d = ChatMessage.message_id (Chat.last_message chat)
    /\ Deal.last_message_at d
       = Some (ChatMessage.created_at (Chat.last_message chat))
    /\ Deal.total_messages d = default 0 (Deal.total_messages <$> old) + 1
    /\ Deal.customer d <> None.

(** The entity row of a record whose section raised. *)
Definition failed_from (old new : option Deal.t) : Prop :=
  new = Deal.set_sync_status Deal.FAILED <$> old.

(** The columns that the upsert of [_create_or_update_deal] and the
    finalize of [_sync_chat_atomic] assign to the row. *)
Definition upserted (chat : Chat.t) (customer : Customer.t) (row : Deal.t)
  : Deal.t :=
  Deal.Build (Deal.id row) (Deal.external_id row) (Some (Customer.id customer))
    (ChatMessage.message_id (Chat.last_message chat))
    (Some (ChatMessage.created_at (Chat.last_message chat)))
    (Deal.total_messages row) Deal.PENDING.

Definition finalized (total_messages : nat) (row : Deal.t) : Deal.t :=
  Deal.Build (Deal.id row) (Deal.external_id row) (Deal.customer row)
    (Deal.last_message_id row) (Deal.last_message_at row) total_messages
    Deal.COMPLETE.

(** The relational index is left as it is. *)
Definition index_same (w w' : World) : Prop :=
  deals (db w') = deals (db w) /\ customers (db w') = customers (db w)
  /\ deals_id_seq w' = deals_id_seq w
  /\ customers_id_seq w' = customers_id_seq w.

(** The index is well formed and the Run State instance of the engine is a
    row of the table. *)
Definition engine_ready (s : SyncService.self) : Prop :=
  index_wf (SyncService.world s)
  /\ SyncService.state s ∈ sync_states (db (SyncService.world s)).

#[global] Instance engine_ready_dec s : Decision (engine_ready s).
Proof. unfold engine_ready. apply _. Defined.

(** Does the document write of the record throw? *)
Definition raises (env : Env) (chat : Chat.t) : bool :=
  doc_put_raises env (Chat.external_id chat)
                 (ChatMessage.message_id (Chat.last_message chat)).

(** The records of the list whose document write goes through. *)
Definition succeeded (env : Env) (chats : list Chat.t) : nat :=
  length (filter (fun chat => raises env chat = false) chats).

(** The entity row of the record after the engine went over it, in [w'],
    against the one in [w]: FAILED with its old columns, or no row, when the
    document write threw; COMPLETE otherwise. *)
Definition record_outcome (env : Env) (w w' : World) (chat : Chat.t) : Prop :=
  if raises env chat
  then failed_from (deal_of (Chat.external_id chat) w)
                   (deal_of (Chat.external_id chat) w')
  else completed_from chat (deal_of (Chat.external_id chat) w)
                      (deal_of (Chat.external_id chat) w').

(** [if page.next_cursor: self._save_cursor(page.next_cursor)], on the
    instance and in the reduced log. *)
Definition persisted (next_cursor : option string) (st : SyncState.t)
  : SyncState.t :=
  match next_cursor with
  | Some c => if bool_decide (c = "") then st else SyncState.set_cursor c st
  | None => st
  end.

Definition persist_steps (next_cursor : option string) : list PageStep :=
  match next_cursor with
  | Some c => if bool_decide (c = "") then [] else [Persist]
  | None => []
  end.

(** The lock is free, no run is incomplete, and a Run State row can be
    inserted for the task. *)
Definition can_start (task_id : string) (w : World) : Prop :=
  cache w !! tasks.SYNC_LOCK_KEY = None
  /\ Forall (fun r => ~ incomplete r
                      /\ SyncState.id r < sync_states_id_seq w
                      /\ SyncState.task_id r <> task_id)
            (sync_states (db w)).

#[global] Instance can_start_dec task_id w : Decision (can_start task_id w).
Proof. unfold can_start, incomplete. apply _. Defined.

(** The source serves [pages] one after the other from [cursor] on, and the
    last one says there are no more. *)
Fixpoint serves (env : Env) (api_client : MockExternalAPIClient.t)
    (cursor : option string) (pages : list ChatPage.t) : Prop :=
  match pages with
  | [] => False
  | page :: pages =>
      (forall w,
         (MockExternalAPIClient.get_chats env api_client cursor w).1 = Ok page)
      /\ if ChatPage.has_more page
         then serves env api_client (ChatPage.next_cursor page) pages
         else pages = []
  end.

(** The reduced log of a run over [pages]. *)
Fixpoint script (cursor : option string) (pages : list ChatPage.t)
  : list PageStep :=
  match pages with
  | [] => []
  | page :: pages =>
      [Fetch cursor]
      ++ (Record_ <$> (Chat.external_id <$> ChatPage.chats page))
      ++ persist_steps (ChatPage.next_cursor page)
      ++ script (ChatPage.next_cursor page) pages
  end.

(** The Run State instance after the cursors of [pages] were persisted. *)
Definition after_pages (pages : list ChatPage.t) (st : SyncState.t)
  : SyncState.t :=
  foldl (fun st page => persisted (ChatPage.next_cursor page) st) st pages.

Definition records_of (pages : list ChatPage.t) : list Chat.t :=
  pages ≫= ChatPage.chats.

(** The persists of a reduced log. *)
Definition persists_in (l : list PageStep) : nat :=
  length (List.filter (fun p => match p with Persist => true | _ => false end)
                      l).

(** ** Fixtures of the scenarios *)

(** An environment without faults; [raises] picks the document writes that
    throw. *)
Definition scenario_env (raises : string -> string -> bool) : Env :=
  Build_Env (fun _ => QArith_base.Qmake 0 1) raises (fun _ => None)
            (fun _ => not_well_formatted) (fun _ => None).

Definition quiet_env : Env := scenario_env (fun _ _ => false).

(** The document write of record 7 (index 6) throws. *)
Definition record7_env : Env :=
  scenario_env (fun chat_id _ => bool_decide (chat_id = "chat_0006")).

(** [MockExternalAPIClient(total_chats=n, page_size=10)] *)
Definition client_of (total_chats : Z) : MockExternalAPIClient.t :=
  MockExternalAPIClient.Build total_chats 10 (QArith_base.Qmake 0 1)
    (datetime_utc 2024 5 20 12 0 0).

Definition request_1 : tasks.request := tasks.Build_request "task-1" 0.
Definition request_2 : tasks.request := tasks.Build_request "task-2" 0.

(** Fixture: a store that already holds the counterparty of record 0. *)
Definition customer_0 : Customer.t :=
  Customer.Build 1 "cust_0000" "Customer 0"
    "https://example.com/avatars/cust_0000.jpg" "".

Definition state_1 : SyncState.t :=
  SyncState.Build 1 "task-1" SyncState.RUNNING "" None 0 "" 0%Z.

Definition world_with_customer_0 : World :=
  set_sync_states_id_seq 2
    (set_sync_states [state_1]
       (set_customers_id_seq 2 (set_customers [customer_0] (empty_world 0%Z)))).

(** Fixture: a store in which run "task-0" was interrupted after its first
    page. *)
Definition interrupted_run : SyncState.t :=
  SyncState.Build 1 "task-0" SyncState.RUNNING "MQ==" None 10 "" 0%Z.

Definition world_interrupted : World :=
  set_sync_states_id_seq 2 (set_sync_states [interrupted_run] (empty_world 60%Z)).

(** Fixture: another run holds the lock. *)
Definition world_locked : World :=
  set_cache {[ tasks.SYNC_LOCK_KEY := "task-0" ]} world_interrupted.

(** Fixture: the store after record 0 was synchronized by run "task-1", with
    a second run "task-2" about to start. *)
Definition deal_0 : Deal.t :=
  Deal.Build 1 "chat_0000" (Some 1) "msg_0000" (Some 1716206400000000%Z) 1
             Deal.COMPLETE.

Definition state_2 : SyncState.t :=
  SyncState.Build 2 "task-2" SyncState.RUNNING "" None 0 "" 0%Z.

Definition world_second_run : World :=
  set_sync_states_id_seq 3
    (set_sync_states
       [SyncState.set_processed_chats 1
          (SyncState.set_status SyncState.COMPLETED state_1); state_2]
       (set_deals_id_seq 2 (set_deals [deal_0] world_with_customer_0))).

Definition page_0 : ChatPage.t :=
  ChatPage.Build
    (MockExternalAPIClient._generate_chat (client_of 25) <$> seqZ 0 10)
    (Some "MQ==") true.

(** Fixture: a bounded backfill whose cutoff is the timestamp of record 1. *)
Definition state_cutoff : SyncState.t :=
  SyncState.Build 1 "task-1" SyncState.RUNNING "" (Some 1716202800000000%Z) 0 ""
                  0%Z.

Definition world_cutoff : World :=
  set_sync_states_id_seq 2 (set_sync_states [state_cutoff] (empty_world 0%Z)).

(** Fixture: record 0 changed at the source after it was synchronized, and
    the document store rejects the new message. *)
Definition stale_deal_0 : Deal.t :=
  Deal.Build 1 "chat_0000" (Some 1) "msg_old" (Some 1716120000000000%Z) 1
             Deal.COMPLETE.

Definition world_stale_0 : World :=
  set_deals_id_seq 2 (set_deals [stale_deal_0] world_with_customer_0).

Definition record1_env : Env :=
  scenario_env (fun chat_id _ => bool_decide (chat_id = "chat_0000")).

Definition run_25 (env : Env) (fuel : nat) : Result tasks.result * World :=
  tasks.sync_chats_task env (client_of 25) request_1 None fuel (empty_world 0%Z).

Definition run_10 (env : Env) (w : World) (fuel : nat)
  : Result tasks.result * World :=
  tasks.sync_chats_task env (client_of 10) request_1 None fuel w.

(** Fixture: a store in which the entity of record 7 exists, one message
    behind the source. *)
Definition customer_6 : Customer.t :=
  Customer.Build 1 "cust_0006" "Customer 6"
    "https://example.com/avatars/cust_0006.jpg" "".

Definition stale_deal_6 : Deal.t :=
  Deal.Build 1 "chat_0006" (Some 1) "msg_old" (Some 1716000000000000%Z) 1
             Deal.COMPLETE.

Definition world_stale_6 : World :=
  set_deals_id_seq 2
    (set_deals [stale_deal_6]
       (set_customers_id_seq 2 (set_customers [customer_6] (empty_world 0%Z)))).

(** Fixture: a COMPLETE entity whose counterparty reference is NULL. *)
Definition orphan_deal : Deal.t :=
  Deal.Build 1 "chat_0042" None "msg_0042" (Some 1716055200000000%Z) 1
             Deal.COMPLETE.

Definition world_orphan : World :=
  set_deals_id_seq 2 (set_deals [orphan_deal] (empty_world 0%Z)).

(** The records and the pages that [MockExternalAPIClient(total_chats=n)]
    serves. *)
Definition records (total_chats : Z) : list Chat.t :=
  MockExternalAPIClient._generate_chat (client_of total_chats)
  <$> seqZ 0 total_chats.

Definition pages_25 : list ChatPage.t :=
  [ page_0;
    ChatPage.Build
      (MockExternalAPIClient._generate_chat (client_of 25) <$> seqZ 10 10)
      (Some "Mg==") true;
    ChatPage.Build
      (MockExternalAPIClient._generate_chat (client_of 25) <$> seqZ 20 5)
      None false ].

Definition pages_10 : list ChatPage.t :=
  [ChatPage.Build (records 10) None false].

(** ** Vocabulary of the further properties *)

(** The bytes of a [str]. *)
Definition bytes_of (s : string) : list N :=
  N_of_ascii <$> String.list_ascii_of_string s.

(** The quads of one, two and three bytes decode to the bytes. *)
Definition quad_1 (a b : N) : bool :=
  let v0 := N.shiftr a 2 in
  let v1 := N.lor (N.shiftl (N.land a 3) 4) (N.shiftr b 4) in
  (v0 <? 64)%N && (v1 <? 64)%N
  && (N.lor (N.shiftl v0 2) (N.shiftr v1 4) =? a)%N
  && (N.land v1 15 =? N.shiftr b 4)%N.

Definition quad_2 (b c : N) : bool :=
  let v2 := N.lor (N.shiftl (N.land b 15) 2) (N.shiftr c 6) in
  let v3 := N.land c 63 in
  (v2 <? 64)%N && (v3 <? 64)%N
  && (N.lor (N.shiftl (N.shiftr b 4) 4) (N.shiftr v2 2) =? b)%N
  && (N.lor (N.shiftl (N.land v2 3) 6) v3 =? c)%N.

(** The page that [get_chats] builds for a page number. *)
Definition page_at (self : MockExternalAPIClient.t) (page_num : Z)
  : ChatPage.t :=
  let start_idx := (page_num * MockExternalAPIClient.page_size self)%Z in
  let end_idx :=
    Z.min (start_idx + MockExternalAPIClient.page_size self)
          (MockExternalAPIClient.total_chats self) in
  let has_more := (end_idx <? MockExternalAPIClient.total_chats self)%Z in
  ChatPage.Build
    (MockExternalAPIClient._generate_chat self
     <$> seqZ start_idx (end_idx - start_idx))
    (if has_more
     then Some (MockExternalAPIClient._encode_cursor (page_num + 1))
     else None)
    has_more.

(** The simulated failure of a fetch does not strike. *)
Definition no_failure (env : Env) (self : MockExternalAPIClient.t) : Prop :=
  forall cursor,
    MockExternalAPIClient.Qlt_bool (QArith_base.Qmake 0 1)
      (MockExternalAPIClient.failure_rate self)
    && MockExternalAPIClient.Qlt_bool (random_random env cursor)
         (MockExternalAPIClient.failure_rate self)
    = false.

(** The pages that follow each other from [page_num] on, [n] of them at
    most after the first. *)
Fixpoint pages_from (self : MockExternalAPIClient.t) (n : nat) (page_num : Z)
  : list ChatPage.t :=
  page_at self page_num
  :: match n with
     | 0 => []
     | S n =>
         if ChatPage.has_more (page_at self page_num)
         then pages_from self n (page_num + 1)
         else []
     end.

(** [ceil(total_chats / page_size)], and one page for an empty source. *)
Definition page_count (self : MockExternalAPIClient.t) : nat :=
  Z.to_nat
    (Z.max 1
       ((MockExternalAPIClient.total_chats self
         + MockExternalAPIClient.page_size self - 1)
        / MockExternalAPIClient.page_size self)).

(** The pages of the source, from the first one. *)
Definition pages (self : MockExternalAPIClient.t) : list ChatPage.t :=
  pages_from self (page_count self - 1) 0.

(** The cutoff test of [_process_chat]. *)
Definition older (max_date : option datetime) (chat : Chat.t) : bool :=
  match max_date with
  | Some max_date =>
      (ChatMessage.created_at (Chat.last_message chat) <? max_date)%Z
  | None => false
  end.

(** The record ends the run: it is older than the cutoff, or its entity
    holds the same last message. *)
Definition stops (max_date : option datetime) (w : World) (chat : Chat.t)
  : bool :=
  older max_date chat || bool_decide (~ changed w chat).

(** The records that [_process_page] goes over before the first one that
    stops, and whether one stops. *)
Fixpoint processed_prefix (stop : Chat.t -> bool) (chats : list Chat.t)
  : list Chat.t * bool :=
  match chats with
  | [] => ([], false)
  | chat :: chats =>
      if stop chat then ([], true)
      else let '(done, stopped) := processed_prefix stop chats in
           (chat :: done, stopped)
  end.

(** The reduced log of a run, and the records it goes over. *)
Fixpoint run_plan (stop : Chat.t -> bool) (cursor : option string)
    (pages : list ChatPage.t) : list PageStep * list Chat.t :=
  match pages with
  | [] => ([], [])
  | page :: pages =>
      let '(done, stopped) := processed_prefix stop (ChatPage.chats page) in
      let here :=
        [Fetch cursor] ++ (Record_ <$> (Chat.external_id <$> done))
        ++ persist_steps (ChatPage.next_cursor page) in
      if stopped || negb (ChatPage.has_more page) then (here, done)
      else let '(steps, rest) :=
             run_plan stop (ChatPage.next_cursor page) pages in
           (here ++ steps, done ++ rest)
  end.

(** [cursor = self.state.cursor or None] *)
Definition start_cursor (st : SyncState.t) : option string :=
  if bool_decide (SyncState.cursor st = "") then None
  else Some (SyncState.cursor st).

(** The records of the source from the page of the stored cursor on. *)
Definition records_from (self : MockExternalAPIClient.t) (st : SyncState.t)
  : list Chat.t :=
  let page_num := MockExternalAPIClient._decode_cursor (start_cursor st) in
  MockExternalAPIClient._generate_chat self
  <$> seqZ (page_num * MockExternalAPIClient.page_size self)
           (MockExternalAPIClient.total_chats self
            - page_num * MockExternalAPIClient.page_size self).

(** [parse_datetime] does not raise on [max_date]: there is nothing to
    parse, or the string is not well formatted, or it is a valid datetime. *)
Definition parses (env : Env) (max_date : option string) : bool :=
  match max_date with
  | None | Some "" => true
  | Some max_date =>
      match parse_datetime env max_date with
      | not_valid _ => false
      | _ => true
      end
  end.

(** The world once the invocation holds the lock. *)
Definition acquired (req : tasks.request) (w : World) : World :=
  (tasks.cache_add tasks.SYNC_LOCK_KEY (tasks.id req) tasks.SYNC_LOCK_TIMEOUT
     w).2.

(** What leaves the task when [self.retry(exc=exc)] is raised. *)
Definition retried (req : tasks.request) (exc : exn) : exn :=
  if (3 <? tasks.retries req + 1)%nat then exc else Retry exc.

(** Fixture: a source that fails on every call, and the store that a first
    invocation over it leaves behind. *)
Definition failing_client : MockExternalAPIClient.t :=
  MockExternalAPIClient.Build 25 10 (QArith_base.Qmake 1 2)
    (datetime_utc 2024 5 20 12 0 0).

Definition world_after_failure : World :=
  (tasks.sync_chats_task quiet_env failing_client request_1 None 3
     (empty_world 0%Z)).2.

Definition request_1_retry : tasks.request := tasks.Build_request "task-1" 1.

(** The entity has its counterparty row, and its last message is in the
    document store. *)
Definition has_customer_and_message (w : World) (d : Deal.t) : Prop :=
  Exists (fun c => Deal.customer d = Some (Customer.id c)) (customers (db w))
  /\ is_Some (MessageStore.get_message (Deal.external_id d)
                (Deal.last_message_id d) w).

(** Primary keys of entities are distinct, and every COMPLETE entity has its
    counterparty and its last message. *)
Definition persistence (w : World) : Prop :=
  NoDup (Deal.id <$> deals (db w))
  /\ Forall (fun d => Deal.sync_status d = Deal.COMPLETE ->
                      has_customer_and_message w d)
            (deals (db w)).

#[global] Instance persistence_dec w : Decision (persistence w).
Proof. unfold persistence, has_customer_and_message. apply _. Defined.

(** No counterparty key and no stored message is lost from [w] to [w']. *)
Definition grows (w w' : World) : Prop :=
  (forall pk, pk ∈ Customer.id <$> customers (db w) ->
              pk ∈ Customer.id <$> customers (db w'))
  /\ forall c m, is_Some (MessageStore.get_message c m w) ->
                 is_Some (MessageStore.get_message c m w').

(** Fixture: the store after a task went over 25 records, the document
    write of record 7 failing. *)
Definition world_after_run_25 : World := (run_25 record7_env 3).2.

(** The invariant is carried from the start of a method to its end. *)
Definition keeps_persistence (s s' : SyncService.self) : Prop :=
  persistence (SyncService.world s) -> persistence (SyncService.world s').

(** ** apps/sync/services/dynamodb.py: [MockMessageStore] on its dictionary *)
(** The methods as functions of the class attribute [_messages]. Of these
    the engine calls [save_message]; [get_messages], which sorts by the ISO
    text of [created_at], is not embedded. *)
Module MockMessageStore.
Definition save_message (chat_id message_id text : string)
    (created_at : datetime) (_messages : gmap string (gmap string Message))
  : gmap string (gmap string Message) :=
  let _messages :=
    if bool_decide (is_Some (_messages !! chat_id)) then _messages
    else <[chat_id := ∅]> _messages in
  <[chat_id := <[message_id := Build_Message chat_id message_id text created_at]>
                 (default ∅ (_messages !! chat_id))]> _messages.

Definition get_message (chat_id message_id : string)
    (_messages : gmap string (gmap string Message)) : option Message :=
  let chat_messages := default ∅ (_messages !! chat_id) in
  chat_messages !! message_id.

Definition delete_message (chat_id message_id : string)
    (_messages : gmap string (gmap string Message))
  : bool * gmap string (gmap string Message) :=
  match _messages !! chat_id with
  | Some chat_messages =>
      if bool_decide (is_Some (chat_messages !! message_id))
      then (true, <[chat_id := delete message_id chat_messages]> _messages)
      else (false, _messages)
  | None => (false, _messages)
  end.

Definition clear_all (_messages : gmap string (gmap string Message))
  : gmap string (gmap string Message) := ∅.
End MockMessageStore.

(** ** apps/sync/services/s3_service.py: [MockS3Service] on its dictionaries *)
(** The methods as functions of the class attributes [_storage] and
    [_content_types]. *)
Module MockS3Storage.
Record t : Type := Build
  { _storage : gmap string string;
    _content_types : gmap string string }.

Definition upload_file (key data content_type : string) (self : t)
  : string * t :=
  let _storage := <[key := data]> (_storage self) in
  let _content_types :=
    if bool_decide (content_type = "") then _content_types self
    else <[key := content_type]> (_content_types self) in
  ("mock-s3://" +:+ key, Build _storage _content_types).

Definition get_file (key : string) (self : t) : option string :=
  _storage self !! key.

Definition delete_file (key : string) (self : t) : bool * t :=
  if bool_decide (is_Some (_storage self !! key))
  then (true, Build (delete key (_storage self))
                    (delete key (_content_types self)))
  else (false, self).

Definition clear_all (self : t) : t := Build ∅ ∅.

(** The two dictionaries of the world. *)
Definition of_world (w : World) : t :=
  Build (s3_storage w) (s3_content_types w).
End MockS3Storage.

(** A call of a method that changes the blob store. *)
Inductive S3Call : Type :=
| UploadFile (key data content_type : string)
| DeleteFile (key : string)
| ClearAll.

Definition s3_call (c : S3Call) (self : MockS3Storage.t) : MockS3Storage.t :=
  match c with
  | UploadFile key data content_type =>
      (MockS3Storage.upload_file key data content_type self).2
  | DeleteFile key => (MockS3Storage.delete_file key self).2
  | ClearAll => MockS3Storage.clear_all self
  end.

(** [Customer.avatar] *)
Definition avatar (self : Customer.t) : string :=
  if bool_decide (Customer.avatar_s3_key self = "")
  then Customer.avatar_url self
  else "https://s3.amazonaws.com/bucket/" +:+ Customer.avatar_s3_key self.

(** Every counterparty whose avatar key is set has the object in the blob
    store. *)
Definition avatars_stored (w : World) : Prop :=
  Forall (fun c => Customer.avatar_s3_key c <> "" ->
                   is_Some (s3_storage w !! Customer.avatar_s3_key c))
         (customers (db w)).

#[global] Instance avatars_stored_dec w : Decision (avatars_stored w).
Proof. unfold avatars_stored. apply _. Defined.

(** The keys of the entity rows and of the Run State rows. *)
Definition deal_keys (w : World) : list (nat * string) :=
  (fun d => (Deal.id d, Deal.external_id d)) <$> deals (db w).

Definition run_keys (w : World) : list (nat * string) :=
  (fun r => (SyncState.id r, SyncState.task_id r)) <$> sync_states (db w).

(** From [w] to [w'] no entity row, no Run State row, no stored message and
    no stored object is lost, and the avatar keys keep pointing at stored
    objects. *)
Record never_deletes (w w' : World) : Prop := Build_never_deletes
  { nd_deals : deal_keys w `prefix_of` deal_keys w';
    nd_runs : run_keys w `prefix_of` run_keys w';
    nd_messages :
      forall c m, is_Some (MessageStore.get_message c m w) ->
                  is_Some (MessageStore.get_message c m w');
    nd_blobs :
      forall k, is_Some (s3_storage w !! k) -> is_Some (s3_storage w' !! k);
    nd_avatars : avatars_stored w -> avatars_stored w' }.

(** The same, between two states of the engine. *)
Definition engine_never_deletes (s s' : SyncService.self) : Prop :=
  never_deletes (SyncService.world s) (SyncService.world s').

(** Fixture: an environment in which every avatar can be fetched, and the
    store after a task went over ten records in it. *)
Definition avatar_env : Env :=
  Build_Env (fun _ => QArith_base.Qmake 0 1) (fun _ _ => false)
            (fun _ => Some "jpeg") (fun _ => not_well_formatted)
            (fun _ => None).

Definition world_with_avatars : World :=
  (tasks.sync_chats_task avatar_env (client_of 10) request_1 None 3
     (empty_world 0%Z)).2.

(** What [_queue_avatar_upload] fetches for the record: nothing when the
    source gave no URL, since the upload is then not queued. *)
Definition fetched_avatar (env : Env) (chat : Chat.t) : option string :=
  if bool_decide (ChatCustomer.avatar_url (Chat.customer chat) = "") then None
  else http_get env (ChatCustomer.avatar_url (Chat.customer chat)).

(** The blob store and the counterparty sequence are left as they are. *)
Definition blobs_same (w w' : World) : Prop :=
  s3_storage w' = s3_storage w
  /\ s3_content_types w' = s3_content_types w
  /\ customers_id_seq w' = customers_id_seq w.

(** Fixture: every avatar can be fetched and every document write fails. *)
Definition leaky_env : Env :=
  Build_Env (fun _ => QArith_base.Qmake 0 1) (fun _ _ => true)
            (fun _ => Some "jpeg") (fun _ => not_well_formatted)
            (fun _ => None).

(** Fixture: [MockExternalAPIClient(total_chats=5, page_size=0)]. *)
Definition client_page_size_0 : MockExternalAPIClient.t :=
  MockExternalAPIClient.Build 5 0 (QArith_base.Qmake 0 1)
    (datetime_utc 2024 5 20 12 0 0).

(** ** apps/sync/services/external_api.py: the client with its [_customers_cache] *)
(** The methods of [MockExternalAPIClient] as they act on the instance
    attribute [_customers_cache]; [random_random] is what [random.random()]
    answers in the call. *)
Module MockExternalAPIClientCache.
Definition fails (random_random : QArith_base.Q)
    (self : MockExternalAPIClient.t) : bool :=
  MockExternalAPIClient.Qlt_bool (QArith_base.Qmake 0 1)
    (MockExternalAPIClient.failure_rate self)
  && MockExternalAPIClient.Qlt_bool random_random
       (MockExternalAPIClient.failure_rate self).

Definition _generate_chat (self : MockExternalAPIClient.t) (index : Z)
  : M (gmap string ChatCustomer.t) Chat.t := fun _customers_cache =>
  let chat := MockExternalAPIClient._generate_chat self index in
  (Ok chat,
   <[ChatCustomer.external_id (Chat.customer chat) := Chat.customer chat]>
     _customers_cache).

(** [for i in range(start_idx, end_idx): chats.append(self._generate_chat(i))] *)
Fixpoint generate_chats (self : MockExternalAPIClient.t) (range : list Z)
  : M (gmap string ChatCustomer.t) (list Chat.t) :=
  match range with
  | [] => mret []
  | i :: range =>
      chat ← _generate_chat self i;
      chats ← generate_chats self range;
      mret (chat :: chats)
  end.

Definition get_chats (random_random : QArith_base.Q)
    (self : MockExternalAPIClient.t) (cursor : option string)
  : M (gmap string ChatCustomer.t) ChatPage.t :=
  if fails random_random self
  then raise (ExternalAPIError "Simulated API failure")
  else
    let page_num := MockExternalAPIClient._decode_cursor cursor in
    let start_idx := (page_num * MockExternalAPIClient.page_size self)%Z in
    let end_idx :=
      Z.min (start_idx + MockExternalAPIClient.page_size self)
            (MockExternalAPIClient.total_chats self) in
    chats ← generate_chats self (seqZ start_idx (end_idx - start_idx));
    let has_more := (end_idx <? MockExternalAPIClient.total_chats self)%Z in
    let next_cursor :=
      if has_more
      then Some (MockExternalAPIClient._encode_cursor (page_num + 1))
      else None in
    mret (ChatPage.Build chats next_cursor has_more).

Definition get_customer (random_random : QArith_base.Q)
    (self : MockExternalAPIClient.t) (customer_id : string)
  : M (gmap string ChatCustomer.t) ChatCustomer.t := fun _customers_cache =>
  if fails random_random self
  then (Raise (ExternalAPIError "Simulated API failure"), _customers_cache)
  else
    match _customers_cache !! customer_id with
    | Some customer => (Ok customer, _customers_cache)
    | None =>
        (Raise (ExternalAPIError ("Customer not found: " +:+ customer_id)),
         _customers_cache)
    end.
End MockExternalAPIClientCache.

(** The customer of the record with the index. *)
Definition customer_of (self : MockExternalAPIClient.t) (index : Z)
  : ChatCustomer.t :=
  Chat.customer (MockExternalAPIClient._generate_chat self index).

(** ** The ranges of the values *)

(** The largest value of a [PositiveIntegerField] column on PostgreSQL
    ([integer]): a statement that writes a larger one is rejected. The
    properties of a counter that is incremented are stated below it. *)
Definition int4_max : Z := 2147483647.

(** Every stored message counter can take one more. *)
Definition counters_below_max (w : World) : Prop :=
  Forall (fun d => (Z.of_nat (Deal.total_messages d) < int4_max)%Z)
         (deals (db w)).

#[global] Instance counters_below_max_dec w : Decision (counters_below_max w).
Proof. unfold counters_below_max. apply _. Defined.

(** The two counters that the sync of the record increments can take one
    more: the processed count of the run and the message count of the
    entity, when the record has one. *)
Definition counters_fit (s : SyncService.self) (chat : Chat.t) : Prop :=
  (Z.of_nat (SyncState.processed_chats (SyncService.state s)) < int4_max)%Z
  /\ from_option
       (fun d => (Z.of_nat (Deal.total_messages d) < int4_max)%Z) True
       (deal_of (Chat.external_id chat) (SyncService.world s)).

#[global] Instance counters_fit_dec s chat : Decision (counters_fit s chat).
Proof.
  unfold counters_fit. destruct (deal_of _ _); simpl; apply _.
Defined.

(** [datetime.min] and [datetime.max], read in UTC. *)
Definition datetime_min : datetime := datetime_utc 1 1 1 0 0 0.
Definition datetime_max : datetime :=
  (datetime_utc 9999 12 31 23 59 59 + 999999)%Z.

(** [_generate_chat(index)] can compute [base_date - timedelta(hours=index)]:
    the result is a datetime, not an OverflowError. The range is that of the
    readings in the time zone of [base_date]; with a day to spare at both
    ends the instant is in range whatever that zone is. *)
Definition can_generate (self : MockExternalAPIClient.t) (index : Z) : Prop :=
  (datetime_min + timedelta_hours 24
   <= MockExternalAPIClient.base_date self - timedelta_hours index
   <= datetime_max - timedelta_hours 24)%Z.

#[global] Instance can_generate_dec self index : Decision (can_generate self index).
Proof. unfold can_generate. apply _. Defined.

(** The indexes of the records of the source from the page of the stored
    cursor on. *)
Definition indexes_from (self : MockExternalAPIClient.t) (st : SyncState.t)
  : list Z :=
  let page_num := MockExternalAPIClient._decode_cursor (start_cursor st) in
  seqZ (page_num * MockExternalAPIClient.page_size self)
       (MockExternalAPIClient.total_chats self
        - page_num * MockExternalAPIClient.page_size self).

(** [str(n)] and [int(str(n))] stay within the interpreter's limit on the
    digits of an integer, 4300 by default: beyond it both raise ValueError. *)
Definition within_max_str_digits (n : Z) : Prop := (Z.abs n < 10 ^ 4300)%Z.

(** The processed count can take every record from the stored cursor on. *)
Definition processed_count_fits (self : MockExternalAPIClient.t)
    (st : SyncState.t) : Prop :=
  (Z.of_nat (SyncState.processed_chats st)
   + Z.of_nat (length (indexes_from self st)) <= int4_max)%Z.

#[global] Instance processed_count_fits_dec self st :
  Decision (processed_count_fits self st).
Proof. unfold processed_count_fits. apply _. Defined.

(** Fixture: a cutoff given with its UTC offset, one given without, and a
    string that is well formatted but names no date. *)
Definition cutoff_env : Env :=
  Build_Env (fun _ => QArith_base.Qmake 0 1) (fun _ _ => false)
    (fun _ => None)
    (fun s =>
       if bool_decide (s = "2024-05-20T11:00:00Z")
       then parsed (aware 1716202800000000%Z)
       else if bool_decide (s = "2024-05-20T11:00:00")
            then parsed (naive 1716202800000000%Z)
            else if bool_decide (s = "2024-02-30T00:00:00Z")
                 then not_valid "day is out of range for month"
                 else not_well_formatted)
    (fun _ => None).

(** Fixture: the store after the task of the scenario went over ten
    records, the entity of record 7 one message behind and its document
    write failing. *)
Definition world_after_run_10 : World := (run_10 record7_env world_stale_6 2).2.

(** * Properties *)

(** ** The mock source: sample values *)

Example base_date_default :
  MockExternalAPIClient.base_date MockExternalAPIClient.default
  = 1716206400000000%Z.
Proof. reflexivity. Qed.

Example encode_cursor_1 : MockExternalAPIClient._encode_cursor 1 = "MQ==".
Proof. vm_compute. reflexivity. Qed.

Example encode_cursor_42 : MockExternalAPIClient._encode_cursor 42 = "NDI=".
Proof. vm_compute. reflexivity. Qed.

Example decode_cursor_42 : MockExternalAPIClient._decode_cursor (Some "NDI=") = 42%Z.
Proof. vm_compute. reflexivity. Qed.

Example decode_cursor_garbage :
  MockExternalAPIClient._decode_cursor (Some "!!") = 0%Z.
Proof. vm_compute. reflexivity. Qed.

Example generate_chat_7 :
  MockExternalAPIClient._generate_chat MockExternalAPIClient.default 7
  = Chat.Build "chat_0007"
      (ChatCustomer.Build "cust_0007" "Customer 7"
         "https://example.com/avatars/cust_0007.jpg")
      (ChatMessage.Build "msg_0007" "Message from customer 7"
         1716181200000000%Z).
Proof. vm_compute. reflexivity. Qed.

(** ** Reasoning about monadic code *)

Section steps.
Context {S : Type} (R : relation S) `{!PreOrder R}.

Lemma steps_ret {A} (a : A) : steps R (mret a : M S A).
Proof. intros s. reflexivity. Qed.

Lemma steps_get : steps R (get : M S S).
Proof. intros s. reflexivity. Qed.

Lemma steps_raise {A} (e : exn) : steps R (raise e : M S A).
Proof. intros s. reflexivity. Qed.

Lemma steps_bind {A B} (m : M S A) (f : A -> M S B) :
  steps R m -> (forall a, steps R (f a)) -> steps R (m ≫= f).
Proof.
  intros Hm Hf s. unfold mbind, M_bind.
  specialize (Hm s). destruct (m s) as [[a|e|] s']; simpl in *; try done.
  etrans; [exact Hm|apply Hf].
Qed.

Lemma steps_try_except {A} (m : M S A) (h : exn -> M S A) :
  steps R m -> (forall e, steps R (h e)) -> steps R (try_except m h).
Proof.
  intros Hm Hh s. unfold try_except.
  specialize (Hm s). destruct (m s) as [[a|e|] s']; simpl in *; try done.
  etrans; [exact Hm|apply Hh].
Qed.
End steps.

Tactic Notation "use" open_constr(lem) := apply lem; try exact _.

Ltac split_if :=
  match goal with |- steps _ (if ?b then _ else _) => destruct b end.

(** A relation that every building block of the page loop respects is
    respected by the whole run. *)
Section engine_steps.
Context (R : relation SyncService.self) `{!PreOrder R}.
Context (env : Env) (api_client : MockExternalAPIClient.t).
Hypothesis R_get_chats : forall cursor,
  steps R (SyncService.lift
             (MockExternalAPIClient.get_chats env api_client cursor)).
Hypothesis R_existing_deal_of : forall external_id,
  steps R (SyncService.lift (SyncService.existing_deal_of external_id)).
Hypothesis R_sync_chat_atomic : forall chat existing_deal,
  steps R (SyncService.lift
             (SyncService._sync_chat_atomic env chat existing_deal)).
Hypothesis R_increment_processed : steps R SyncService._increment_processed.
Hypothesis R_mark_failed : forall existing_deal,
  steps R (SyncService.lift
             (DealManager.save
                (Deal.set_sync_status Deal.FAILED existing_deal)
                ["sync_status"; "updated_at"])).
Hypothesis R_save_cursor : forall cursor,
  steps R (SyncService._save_cursor cursor).

Lemma process_chat_steps chat : steps R (SyncService._process_chat env chat).
Proof.
  unfold SyncService._process_chat.
  use steps_bind; [use steps_get|]. intros s.
  use steps_bind.
  { destruct (SyncState.max_date _); [|use steps_ret].
    unfold SyncService.lt_max_date.
    use steps_bind; [use steps_get|]. intros s'.
    split_if; [use steps_ret|use steps_raise]. }
  intros reached_max_date.
  split_if; [use steps_ret|].
  use steps_bind; [apply R_existing_deal_of|]. intros existing_deal.
  split_if; [use steps_ret|].
  use steps_bind; [|intros; use steps_ret].
  use steps_try_except.
  - use steps_bind; [apply R_sync_chat_atomic|].
    intros _. apply R_increment_processed.
  - intros e. destruct existing_deal; [apply R_mark_failed|use steps_ret].
Qed.

Lemma process_chats_steps chats :
  steps R (SyncService._process_chats env chats).
Proof.
  induction chats as [|chat chats IH]; simpl; [use steps_ret|].
  use steps_bind; [apply process_chat_steps|].
  intros []; [use steps_ret|apply IH].
Qed.

Lemma run_loop_steps fuel cursor :
  steps R (SyncService.run_loop env api_client fuel cursor).
Proof.
  revert cursor. induction fuel as [|fuel IH]; intros cursor; simpl.
  { intros s. reflexivity. }
  use steps_bind; [apply R_get_chats|]. intros page.
  use steps_bind; [apply process_chats_steps|]. intros should_stop.
  use steps_bind.
  - destruct (ChatPage.next_cursor page); [|use steps_ret].
    case_bool_decide; [use steps_ret|apply R_save_cursor].
  - intros _. split_if; [use steps_ret|apply IH].
Qed.

Lemma run_steps fuel : steps R (SyncService.run env api_client fuel).
Proof.
  unfold SyncService.run.
  use steps_bind; [use steps_get|]. intros s. apply run_loop_steps.
Qed.
End engine_steps.

(** ** Frames of the building blocks *)

Ltac unfold_monad :=
  unfold SyncService.set_state, SyncService.lift in *;
  unfold mbind, M_bind, mret, M_ret, try_except, raise, modify, get in *.

(** The comparison with the cutoff either raises, when there is a cutoff and
    it carries no tzinfo, or is the order of the two instants. *)
Lemma process_chat_cases env chat st w tzinfo :
  SyncService._process_chat env chat (SyncService.Build_self st w tzinfo)
  = (if bool_decide (is_Some (SyncState.max_date st)) && negb tzinfo
     then raise (TypeError
                   "can't compare offset-naive and offset-aware datetimes")
     else
       if match SyncState.max_date st with
          | Some max_date =>
              (ChatMessage.created_at (Chat.last_message chat) <? max_date)%Z
          | None => false
          end
       then mret true
       else
         existing_deal ←
           SyncService.lift
             (SyncService.existing_deal_of (Chat.external_id chat));
         if match existing_deal with
            | Some existing_deal =>
                bool_decide (Deal.last_message_id existing_deal
                             = ChatMessage.message_id (Chat.last_message chat))
            | None => false
            end
         then mret true
         else
           try_except
             (SyncService.lift
                (SyncService._sync_chat_atomic env chat existing_deal);;
              SyncService._increment_processed)
             (fun e =>
                match existing_deal with
                | Some existing_deal =>
                    SyncService.lift
                      (DealManager.save
                         (Deal.set_sync_status Deal.FAILED existing_deal)
                         ["sync_status"; "updated_at"])
                | None => mret tt
                end);;
           mret false)
      (SyncService.Build_self st w tzinfo).
Proof.
  unfold SyncService._process_chat, SyncService.lt_max_date.
  unfold mbind at 1, M_bind at 1, get at 1.
  cbn [SyncService.state].
  destruct (SyncState.max_date st) as [max_date|]; [|done].
  rewrite bool_decide_true by done. by destruct tzinfo.
Qed.

(** On an instance whose cutoff carries tzinfo the comparison is the order
    of the two instants. *)
Lemma process_chat_tzinfo env chat st w :
  SyncService._process_chat env chat (SyncService.Build st w)
  = (if match SyncState.max_date st with
        | Some max_date =>
            (ChatMessage.created_at (Chat.last_message chat) <? max_date)%Z
        | None => false
        end
     then mret true
     else
       existing_deal ←
         SyncService.lift (SyncService.existing_deal_of (Chat.external_id chat));
       if match existing_deal with
          | Some existing_deal =>
              bool_decide (Deal.last_message_id existing_deal
                           = ChatMessage.message_id (Chat.last_message chat))
          | None => false
          end
       then mret true
       else
         try_except
           (SyncService.lift (SyncService._sync_chat_atomic env chat existing_deal);;
            SyncService._increment_processed)
           (fun e =>
              match existing_deal with
              | Some existing_deal =>
                  SyncService.lift
                    (DealManager.save
                       (Deal.set_sync_status Deal.FAILED existing_deal)
                       ["sync_status"; "updated_at"])
              | None => mret tt
              end);;
         mret false)
      (SyncService.Build st w).
Proof. rewrite process_chat_cases. by rewrite andb_false_r. Qed.

#[global] Instance store_frame_preorder : PreOrder store_frame.
Proof.
  split.
  - intros w. by split.
  - intros w1 w2 w3 [] []. split; try congruence; [by etrans|auto].
Qed.

Lemma store_frame_of_eq w w' :
  sync_states (db w') = sync_states (db w) ->
  sync_states_id_seq w' = sync_states_id_seq w ->
  cache w' = cache w ->
  customers (db w') = customers (db w) ->
  store_frame w w'.
Proof. intros ??? Hc. split; try done; by rewrite Hc. Qed.

Ltac store_frame_eq :=
  intros w; repeat case_match; simplify_eq/=; by apply store_frame_of_eq.

Lemma has_pk_elem_of {A} (pk_of : A -> nat) pk rows :
  has_pk pk_of pk rows = true <-> exists r, r ∈ rows /\ pk_of r = pk.
Proof.
  unfold has_pk. rewrite existsb_exists. split.
  - intros (r & Hin & Heq). exists r. split; [by apply list_elem_of_In|].
    by apply Nat.eqb_eq.
  - intros (r & Hin & Heq). exists r. split; [by apply list_elem_of_In|].
    by apply Nat.eqb_eq.
Qed.

Lemma update_pk_absent {A} (pk_of : A -> nat) pk f rows :
  has_pk pk_of pk rows = false -> update_pk pk_of pk f rows = rows.
Proof.
  intros Hno. unfold update_pk.
  induction rows as [|r rows IH]; [done|]. simpl in *.
  apply orb_false_iff in Hno as [Hr Hrows]. rewrite Hr. f_equal. by apply IH.
Qed.

Lemma update_pk_app {A} (pk_of : A -> nat) pk f rows1 rows2 :
  update_pk pk_of pk f (rows1 ++ rows2)
  = update_pk pk_of pk f rows1 ++ update_pk pk_of pk f rows2.
Proof. unfold update_pk. apply fmap_app. Qed.

Lemma steps_deal_save obj fields : steps store_frame (DealManager.save obj fields).
Proof. unfold DealManager.save. store_frame_eq. Qed.

Lemma steps_deal_create e c m a st : steps store_frame (DealManager.create e c m a st).
Proof. unfold DealManager.create. store_frame_eq. Qed.

Lemma steps_save_message env c m t a : steps store_frame (MessageStore.save_message env c m t a).
Proof. unfold MessageStore.save_message. store_frame_eq. Qed.

Lemma steps_existing_deal_of e : steps store_frame (SyncService.existing_deal_of e).
Proof. unfold SyncService.existing_deal_of. store_frame_eq. Qed.

Lemma steps_get_chats env api c : steps store_frame (MockExternalAPIClient.get_chats env api c).
Proof. unfold MockExternalAPIClient.get_chats. store_frame_eq. Qed.

Lemma steps_create_or_update_deal chat customer existing_deal :
  steps store_frame (SyncService._create_or_update_deal chat customer existing_deal).
Proof.
  unfold SyncService._create_or_update_deal. destruct existing_deal.
  - use steps_bind; [apply steps_deal_save|]. intros; use steps_ret.
  - apply steps_deal_create.
Qed.

Lemma customer_filter_record external_id e w :
  CustomerManager.filter external_id (record e w)
  = CustomerManager.filter external_id w.
Proof. reflexivity. Qed.

Lemma CustomerManager_filter_nil external_id w :
  CustomerManager.filter external_id w = [] ->
  external_id ∉ Customer.external_id <$> customers (db w).
Proof.
  unfold CustomerManager.filter. intros Hnil Hin.
  apply list_elem_of_fmap in Hin as (c & -> & Hin).
  eapply filter_nil_not_elem_of; [exact Hnil| |exact Hin]. done.
Qed.

(** The avatar upload of a customer whose row is the last one touches that
    row only. *)
Lemma queue_avatar_upload_last env obj avatar_url w old :
  customers (db w) = old ++ [obj] ->
  has_pk Customer.id (Customer.id obj) old = false ->
  let w' := (SyncService._queue_avatar_upload env obj avatar_url w).2 in
  sync_states (db w') = sync_states (db w)
  /\ sync_states_id_seq w' = sync_states_id_seq w
  /\ cache w' = cache w
  /\ exists obj', customers (db w') = old ++ [obj']
                  /\ Customer.external_id obj' = Customer.external_id obj.
Proof.
  intros Hrows Hfresh. unfold SyncService._queue_avatar_upload, try_except.
  unfold mbind, M_bind, SyncService.httpx_get. simpl.
  destruct (http_get env avatar_url) as [content|]; simpl.
  2:{ repeat split; try done. exists obj. by rewrite Hrows. }
  unfold CustomerManager.save. simpl. rewrite Hrows.
  assert (has_pk Customer.id (Customer.id obj) (old ++ [obj]) = true) as ->.
  { apply has_pk_elem_of. exists obj. split; [set_solver|done]. }
  simpl. repeat split; try done.
  rewrite update_pk_app, update_pk_absent by done.
  simpl. rewrite Nat.eqb_refl. eexists. split; [done|]. done.
Qed.

Lemma get_or_create_customer_found env chat w c :
  CustomerManager.filter (ChatCustomer.external_id (Chat.customer chat)) w = [c] ->
  SyncService._get_or_create_customer env chat w
  = (Ok c, record (SqlSelect customers_tbl) w).
Proof.
  intros Hf. unfold SyncService._get_or_create_customer.
  unfold mbind, M_bind, CustomerManager.get_or_create.
  rewrite customer_filter_record, Hf. reflexivity.
Qed.

Lemma steps_get_or_create_customer env chat :
  steps store_frame (SyncService._get_or_create_customer env chat).
Proof.
  intros w.
  unfold SyncService._get_or_create_customer, CustomerManager.get_or_create,
    CustomerManager.create, CustomerManager.filter.
  unfold mbind, M_bind, mret, M_ret.
  cbn beta iota zeta delta [db record set_customers_id_seq customers customers_id_seq].
  destruct (filter _ (customers (db w))) as [|c [|c' l]] eqn:Hf;
    [|by apply store_frame_of_eq..].
  rewrite bool_decide_true by done. simpl negb. rewrite orb_false_r.
  destruct (has_pk _ _ _) eqn:Hpk; [by apply store_frame_of_eq|].
  set (obj := Customer.Build _ _ _ _ _).
  set (w1 := set_customers _ _).
  assert (customers (db w1) = customers (db w) ++ [obj]) as Hrows by done.
  assert (forall obj', Customer.external_id obj' = Customer.external_id obj ->
            NoDup (Customer.external_id <$> customers (db w)) ->
            NoDup (Customer.external_id <$> (customers (db w) ++ [obj'])))
    as Hunique.
  { intros obj' Hext Hnd. rewrite fmap_app. apply NoDup_app.
    split; [done|]. split; [|apply NoDup_singleton].
    intros x Hx ->%list_elem_of_singleton. rewrite Hext in Hx.
    apply list_elem_of_fmap in Hx as (c & Hc & Hin).
    eapply filter_nil_not_elem_of; [exact Hf| |exact Hin]. done. }
  destruct (true && _) eqn:Havatar.
  - pose proof (queue_avatar_upload_last env obj
      (ChatCustomer.avatar_url (Chat.customer chat)) w1 _ Hrows Hpk)
      as (Hs & Hq & Hc & obj' & Hrows' & Hext).
    destruct (SyncService._queue_avatar_upload _ _ _ _) as [[[]|e|] w2];
      simpl in *.
    all: split; [by rewrite Hs|by rewrite Hq|by rewrite Hc
                 |rewrite Hrows'; by eexists|rewrite Hrows'; by apply Hunique].
  - simpl. split; [done..|by eexists|by apply Hunique].
Qed.

Lemma store_frame_record e w : store_frame w (record e w).
Proof. by apply store_frame_of_eq. Qed.

Lemma steps_atomic {A} (body : M World A) :
  steps store_frame body -> steps store_frame (atomic body).
Proof.
  intros Hbody w. unfold atomic.
  specialize (Hbody (record SqlBegin w)).
  destruct (body _) as [[a|e|] w']; simpl in *.
  - etrans; [apply (store_frame_record SqlBegin)|].
    etrans; [exact Hbody|apply store_frame_record].
  - destruct Hbody. by apply store_frame_of_eq.
  - destruct Hbody. by apply store_frame_of_eq.
Qed.

Lemma steps_sync_chat_atomic env chat existing_deal :
  steps store_frame (SyncService._sync_chat_atomic env chat existing_deal).
Proof.
  unfold SyncService._sync_chat_atomic. apply steps_atomic.
  use steps_bind; [apply steps_get_or_create_customer|]. intros customer.
  use steps_bind; [apply steps_create_or_update_deal|]. intros deal.
  use steps_bind; [apply steps_save_message|]. intros _.
  apply steps_deal_save.
Qed.

(** From the world to the service. *)
Lemma run_statuses_save obj fields w :
  names fields "status" = false ->
  run_statuses (SyncStateManager.save obj fields w).2 = run_statuses w.
Proof.
  intros Hf. unfold SyncStateManager.save. cbv zeta.
  destruct (has_pk _ _ _); [|done]. unfold run_statuses. simpl.
  unfold update_pk. rewrite <- list_fmap_compose. apply list_fmap_ext.
  intros i r _. simpl. destruct (Nat.eqb _ _); [|done]. simpl. by rewrite Hf.
Qed.

#[global] Instance engine_frame_preorder : PreOrder engine_frame.
Proof.
  split.
  - intros s. by split.
  - intros s1 s2 s3 [] []. split; try congruence; [by etrans|auto].
Qed.

Lemma engine_frame_lift {A} (m : M World A) :
  steps store_frame m -> steps engine_frame (SyncService.lift m).
Proof.
  intros Hm s. unfold SyncService.lift. specialize (Hm (SyncService.world s)).
  destruct (m _) as [r w']. destruct Hm. simpl in *.
  split; simpl; try done. unfold run_statuses. congruence.
Qed.

Lemma engine_frame_save (f : SyncState.t -> SyncState.t) fields :
  names fields "status" = false ->
  (forall st, SyncState.max_date (f st) = SyncState.max_date st
              /\ SyncState.id (f st) = SyncState.id st
              /\ SyncState.status (f st) = SyncState.status st
              /\ SyncState.task_id (f st) = SyncState.task_id st) ->
  steps engine_frame
    (SyncService.set_state f;;
     s ← get; SyncService.lift (SyncStateManager.save (SyncService.state s) fields)).
Proof.
  intros Hfields Hf s. unfold_monad. simpl.
  destruct (Hf (SyncService.state s)) as (? & ? & ? & ?).
  pose proof (run_statuses_save (f (SyncService.state s)) fields
                (SyncService.world s) Hfields) as Hst.
  destruct (SyncStateManager.save _ _ _) as [r w'] eqn:Hsave. simpl in *.
  assert (cache w' = cache (SyncService.world s)
          /\ customers (db w') = customers (db (SyncService.world s)))
    as [Hc Hcust].
  { unfold SyncStateManager.save in Hsave. cbv zeta in Hsave.
    destruct (has_pk _ _ _); by simplify_eq. }
  split; simpl; try done; by rewrite Hcust.
Qed.

Lemma run_engine_frame env api_client fuel :
  steps engine_frame (SyncService.run env api_client fuel).
Proof.
  use run_steps.
  - intros. apply engine_frame_lift, steps_get_chats.
  - intros. apply engine_frame_lift, steps_existing_deal_of.
  - intros. apply engine_frame_lift, steps_sync_chat_atomic.
  - apply engine_frame_save; [done|]. by intros [].
  - intros. apply engine_frame_lift, steps_deal_save.
  - intros. apply engine_frame_save; [done|]. by intros [].
Qed.

(** ** Counterparty rows *)


Lemma customers_filter_prefix external_id w w' c :
  customers (db w) `prefix_of` customers (db w') ->
  NoDup (Customer.external_id <$> customers (db w')) ->
  CustomerManager.filter external_id w = [c] ->
  CustomerManager.filter external_id w' = [c].
Proof.
  unfold CustomerManager.filter. intros [extra ->] Hnd Hf.
  rewrite filter_app, Hf.
  destruct (filter _ extra) as [|x l] eqn:Hx; [done|]. exfalso.
  assert (x ∈ filter (λ c : Customer.t, Customer.external_id c = external_id) extra)
    as [Hext Hin]%list_elem_of_filter by (rewrite Hx; left).
  assert (c ∈ filter (λ c : Customer.t, Customer.external_id c = external_id)
            (customers (db w)))
    as [Hextc Hinc]%list_elem_of_filter by (rewrite Hf; left).
  rewrite fmap_app in Hnd. apply NoDup_app in Hnd as (_ & Hdisj & _).
  apply (Hdisj external_id).
  - apply list_elem_of_fmap. by exists c.
  - apply list_elem_of_fmap. by exists x.
Qed.

(** C9: counterparty resolution is create-if-absent by external id. When the
    row of a record's counterparty exists, [_get_or_create_customer] returns
    it after one SELECT and writes nothing; and over a whole run of the
    engine every counterparty row stays where and what it was, external ids
    stay unique, and the row of that external id is still the one row. *)
Theorem customer_created_once_never_updated env api_client fuel st w chat c :
  NoDup (Customer.external_id <$> customers (db w)) ->
  CustomerManager.filter (ChatCustomer.external_id (Chat.customer chat)) w = [c] ->
  SyncService._get_or_create_customer env chat w
  = (Ok c, record (SqlSelect customers_tbl) w)
  /\ let w' := SyncService.world
                 (SyncService.run env api_client fuel (SyncService.Build st w)).2 in
     customers (db w) `prefix_of` customers (db w')
     /\ NoDup (Customer.external_id <$> customers (db w'))
     /\ CustomerManager.filter
          (ChatCustomer.external_id (Chat.customer chat)) w' = [c].
Proof.
  intros Hnd Hf. split; [by apply get_or_create_customer_found|].
  destruct (run_engine_frame env api_client fuel (SyncService.Build st w))
    as [_ _ _ _ _ _ Hprefix Hunique].
  simpl in *. split; [done|]. split; [auto|].
  eapply customers_filter_prefix; eauto.
Qed.

Lemma customer_created_once_never_updated_witness :
  let chat := MockExternalAPIClient._generate_chat (client_of 25) 0 in
  SyncService._get_or_create_customer quiet_env chat world_with_customer_0
  = (Ok customer_0, record (SqlSelect customers_tbl) world_with_customer_0)
  /\ let w' := SyncService.world
                 (SyncService.run quiet_env (client_of 25) 3
                    (SyncService.Build state_1 world_with_customer_0)).2 in
     customers (db world_with_customer_0) `prefix_of` customers (db w')
     /\ NoDup (Customer.external_id <$> customers (db w'))
     /\ CustomerManager.filter "cust_0000" w' = [customer_0].
Proof.
  apply (customer_created_once_never_updated quiet_env (client_of 25) 3 state_1
           world_with_customer_0
           (MockExternalAPIClient._generate_chat (client_of 25) 0) customer_0).
  - apply NoDup_singleton.
  - vm_compute. reflexivity.
Defined.

(** ** Run States *)


Lemma incomplete_statuses_length (rows : list SyncState.t) :
  length (filter incomplete_status
            ((fun r => (SyncState.id r, SyncState.status r)) <$> rows))
  = length (filter incomplete rows).
Proof.
  induction rows as [|r rows IH]; [done|]. rewrite fmap_cons, !filter_cons.
  unfold incomplete at 1, incomplete_status at 1. simpl.
  destruct (decide _); simpl; by rewrite IH.
Qed.

Lemma runs_inv_rows w :
  runs_inv (run_statuses w)
  <-> NoDup (SyncState.id <$> sync_states (db w))
      /\ at_most_one_incomplete (sync_states (db w)).
Proof.
  unfold runs_inv, run_statuses, at_most_one_incomplete.
  by rewrite <- list_fmap_compose, incomplete_statuses_length.
Qed.

Lemma set_status_of_fst pk v sts : (set_status_of pk v sts).*1 = sts.*1.
Proof.
  unfold set_status_of. rewrite <- list_fmap_compose. apply list_fmap_ext.
  intros i p _. simpl. by destruct (Nat.eqb _ _).
Qed.

Lemma filter_length_le {A} (P Q : A -> Prop) `{!forall x, Decision (P x)}
    `{!forall x, Decision (Q x)} (f : A -> A) (l : list A) :
  (forall x, x ∈ l -> Q (f x) -> P x) ->
  length (filter Q (f <$> l)) <= length (filter P l).
Proof.
  induction l as [|x l IH]; [done|]. intros HPQ.
  rewrite fmap_cons, !filter_cons.
  assert (length (filter Q (f <$> l)) <= length (filter P l)) as Hle.
  { apply IH. intros y Hy. apply HPQ. by right. }
  destruct (decide (Q (f x))) as [HQ|].
  - rewrite decide_True by (apply HPQ; [left|done]). simpl. lia.
  - destruct (decide (P x)); simpl; lia.
Qed.

Lemma NoDup_fst_functional {A B} (l : list (A * B)) x y1 y2 :
  NoDup l.*1 -> (x, y1) ∈ l -> (x, y2) ∈ l -> y1 = y2.
Proof.
  induction l as [|[a b] l IH]; simpl; intros Hnd H1 H2.
  { by apply elem_of_nil in H1. }
  apply NoDup_cons in Hnd as [Hnotin Hnd].
  apply elem_of_cons in H1 as [H1|H1], H2 as [H2|H2]; simplify_eq; try done.
  - destruct Hnotin. apply list_elem_of_fmap. by exists (a, y2).
  - destruct Hnotin. apply list_elem_of_fmap. by exists (a, y1).
  - by apply IH.
Qed.

(** Finishing a run, or moving the one unfinished run between PENDING and
    RUNNING, keeps the invariant. *)
Lemma runs_inv_set_status pk v sts :
  runs_inv sts ->
  (exists v0, (pk, v0) ∈ sts /\ incomplete_status (pk, v0))
  \/ ~ incomplete_status (pk, v) ->
  runs_inv (set_status_of pk v sts).
Proof.
  intros [Hnd Hone] Hcase. split; [by rewrite set_status_of_fst|].
  etrans; [|exact Hone]. unfold set_status_of.
  apply filter_length_le. intros [k v1] Hin. simpl.
  destruct (Nat.eqb_spec k pk) as [->|]; [|done].
  intros Hv. destruct Hcase as [(v0 & Hin0 & Hv0)|Hfin]; [|done].
  assert (v1 = v0) as ->; [|done].
  eapply NoDup_fst_functional; eauto.
Qed.

Lemma first_merge_sort_Some {A} (R : relation A) `{!forall x y, Decision (R x y)}
    (l : list A) (x : A) :
  first (merge_sort R l) = Some x -> x ∈ l.
Proof.
  intros Hhead. rewrite <- (merge_sort_Permutation R l).
  unfold first in Hhead. destruct (merge_sort R l); simplify_eq/=. left.
Qed.

Lemma first_merge_sort_None {A} (R : relation A) `{!forall x y, Decision (R x y)}
    (l : list A) :
  first (merge_sort R l) = None -> l = [].
Proof.
  intros Hhead. apply Permutation_nil_r. rewrite <- (merge_sort_Permutation R l).
  unfold first in Hhead. by destruct (merge_sort R l).
Qed.

Lemma merge_sort_singleton {A} (R : relation A) `{!forall x y, Decision (R x y)}
    (x : A) :
  merge_sort R [x] = [x].
Proof. reflexivity. Qed.

Lemma run_statuses_save_status obj fields w :
  names fields "status" = true ->
  run_statuses (SyncStateManager.save obj fields w).2
  = if has_pk SyncState.id (SyncState.id obj) (sync_states (db w))
    then set_status_of (SyncState.id obj) (SyncState.status obj) (run_statuses w)
    else run_statuses w.
Proof.
  intros Hf. unfold SyncStateManager.save. cbv zeta.
  cbn [db record sync_states].
  destruct (has_pk _ _ _); [|done]. unfold run_statuses, set_status_of. simpl.
  unfold update_pk. rewrite <- !list_fmap_compose. apply list_fmap_ext.
  intros i r _. simpl. destruct (Nat.eqb _ _); [|done]. simpl. by rewrite Hf.
Qed.

Lemma runs_inv_save obj fields w :
  names fields "status" = true ->
  runs_inv (run_statuses w) ->
  (exists v0, (SyncState.id obj, v0) ∈ run_statuses w
              /\ incomplete_status (SyncState.id obj, v0))
  \/ ~ incomplete_status (SyncState.id obj, SyncState.status obj) ->
  runs_inv (run_statuses (SyncStateManager.save obj fields w).2).
Proof.
  intros Hf Hinv Hcase. rewrite run_statuses_save_status by done.
  destruct (has_pk _ _ _); [|done]. by apply runs_inv_set_status.
Qed.

Lemma parse_max_date_world env max_date w :
  (tasks.parse_max_date env max_date w).2 = w
  /\ (tasks.parse_max_date env max_date w).1 <> OutOfFuel.
Proof.
  unfold tasks.parse_max_date. destruct max_date as [[|c max_date]|]; [done| |done].
  by destruct (parse_datetime env _).
Qed.

Lemma parse_max_date_ok env max_date :
  parses env max_date = true ->
  exists parsed_date,
    forall w, tasks.parse_max_date env max_date w = (Ok parsed_date, w).
Proof.
  unfold parses, tasks.parse_max_date. intros Hvalid.
  destruct max_date as [[|c max_date]|]; [by exists None| |by exists None].
  destruct (parse_datetime env _) as [value| |msg]; [| |done].
  - by exists (Some value).
  - by eexists.
Qed.

Lemma get_or_create_sync_state_inv env task_id max_date w :
  runs_inv (run_statuses w) ->
  let r := tasks._get_or_create_sync_state env task_id max_date w in
  runs_inv (run_statuses r.2)
  /\ cache r.2 = cache w
  /\ match r.1 with
     | Ok st => (SyncState.id st, SyncState.status st) ∈ run_statuses r.2
                /\ incomplete st
     | Raise _ => True
     | OutOfFuel => False
     end.
Proof.
  intros Hinv. unfold tasks._get_or_create_sync_state.
  cbv zeta. destruct (first _) as [st|] eqn:Hfirst.
  - simpl. split; [done|]. split; [done|].
    apply first_merge_sort_Some in Hfirst as [Hst Hin]%list_elem_of_filter.
    split; [|done]. unfold run_statuses.
    apply list_elem_of_fmap. by exists st.
  - apply first_merge_sort_None in Hfirst.
    unfold mbind, M_bind.
    destruct (parse_max_date_world env max_date
                (record (SqlSelect sync_states_tbl) w)) as [Hw Hret].
    destruct (tasks.parse_max_date _ _ _) as [[parsed_date|e|] w1];
      simpl in Hw, Hret; subst w1; [|done..].
    unfold SyncStateManager.create. cbv zeta.
    cbn [db record sync_states set_sync_states_id_seq sync_states_id_seq].
    destruct (has_pk _ _ _) eqn:Hpk; simpl; [done|].
    destruct (existsb _ _); simpl; [done|].
    split; [|split; [done|]].
    + destruct Hinv as [Hnd Hone]. unfold run_statuses in *. simpl.
      rewrite fmap_app. split.
      * rewrite fmap_app. apply NoDup_app. split; [done|].
        split; [|apply NoDup_singleton].
        intros pk Hpk' ->%list_elem_of_singleton. simpl in *.
        apply not_true_iff_false in Hpk. apply Hpk, has_pk_elem_of.
        rewrite <- list_fmap_compose in Hpk'.
        apply list_elem_of_fmap in Hpk' as (r & Hr & Hin). by exists r.
      * rewrite filter_app, length_app, incomplete_statuses_length.
        unfold incomplete. rewrite Hfirst. simpl.
        repeat case_match; simpl; lia.
    + split.
      * unfold run_statuses. simpl. rewrite fmap_app. set_solver.
      * unfold incomplete. simpl. set_solver.
Qed.



Lemma sync_chats_task_try_inv env api_client req max_date fuel fr :
  runs_inv (run_statuses fr.2) ->
  runs_inv (run_statuses
              (tasks.sync_chats_task_try env api_client req max_date fuel fr).2.2).
Proof.
  destruct fr as [st0 w]. intros Hinv. unfold tasks.sync_chats_task_try.
  unfold mbind at 1, M_bind at 1. unfold tasks.lift at 1.
  pose proof (get_or_create_sync_state_inv env (tasks.id req) max_date w Hinv)
    as Hgoc. cbv zeta in Hgoc.
  destruct (tasks._get_or_create_sync_state _ _ _ _) as [[st|e|] w2];
    simpl in Hgoc |- *; [|tauto..].
  destruct Hgoc as (Hinv2 & _ & Hin & Hinc).
  unfold tasks.with_state. unfold_monad.
  cbn beta iota zeta delta [SyncService.state SyncService.world SyncService.max_date_tzinfo].
  pose proof (runs_inv_save (SyncState.set_status SyncState.RUNNING st)
                ["status"; "updated_at"] w2 eq_refl Hinv2) as Hinv3.
  destruct (SyncStateManager.save _ _ w2) as [r3 w3].
  assert (runs_inv (run_statuses w3)) as Hinv3'.
  { apply Hinv3. left. exists (SyncState.status st). split; [exact Hin|exact Hinc]. }
  clear Hinv3. destruct r3 as [[]|e|]; simpl; [|done..].
  pose proof (run_engine_frame env api_client fuel
                (SyncService.Build_self
                   (SyncState.set_status SyncState.RUNNING st) w3
                   (SyncState.max_date_tzinfo st)))
    as Hrun.
  destruct (SyncService.run _ _ _ _) as [r4 [st4 w4 tz4]].
  destruct Hrun as [_ _ _ _ Hsts _ _ _ _]. simpl in Hsts.
  assert (runs_inv (run_statuses w4)) as Hinv4 by (by rewrite Hsts).
  destruct r4 as [[]|e|]; simpl; [|done..].
  pose proof (runs_inv_save (SyncState.set_status SyncState.COMPLETED st4)
                ["status"; "updated_at"] w4 eq_refl Hinv4) as Hinv5.
  destruct (SyncStateManager.save _ _ w4) as [r5 w5].
  assert (runs_inv (run_statuses w5)) as Hinv5'.
  { apply Hinv5. right. unfold incomplete_status. simpl.
    rewrite !elem_of_cons, elem_of_nil. by intros [|[|]]. }
  by destruct r5 as [[]|e|].
Qed.

Lemma sync_chats_task_except_inv req e fr :
  runs_inv (run_statuses fr.2) ->
  runs_inv (run_statuses (tasks.sync_chats_task_except req e fr).2.2).
Proof.
  destruct fr as [[st|] w]; intros Hinv; unfold tasks.sync_chats_task_except.
  - unfold_monad. unfold tasks.lift, tasks.retry. simpl.
    pose proof (runs_inv_save
                  (SyncState.set_error_message (str_exn e)
                     (SyncState.set_status SyncState.FAILED st))
                  ["status"; "error_message"; "updated_at"] w eq_refl Hinv) as Hinv'.
    destruct (SyncStateManager.save _ _ w) as [r w'].
    assert (runs_inv (run_statuses w')) as Hinv''.
    { apply Hinv'. right. unfold incomplete_status. simpl.
    rewrite !elem_of_cons, elem_of_nil. by intros [|[|]]. }
    destruct r as [[]|e'|]; simpl; [|done..]. by case_match.
  - unfold_monad. unfold tasks.retry. simpl. by case_match.
Qed.

Lemma sync_chats_task_inv env api_client req max_date fuel w :
  runs_inv (run_statuses w) ->
  runs_inv (run_statuses
              (tasks.sync_chats_task env api_client req max_date fuel w).2).
Proof.
  intros Hinv. unfold tasks.sync_chats_task, tasks.cache_add.
  cbn [cache record].
  destruct (cache w !! tasks.SYNC_LOCK_KEY); [done|].
  set (w1 := set_cache _ _).
  assert (runs_inv (run_statuses (None (A:=SyncState.t), w1).2)) as Hinv1 by done.
  generalize dependent (None (A:=SyncState.t), w1). clear. intros fr Hinv.
  unfold try_finally, try_except.
  pose proof (sync_chats_task_try_inv env api_client req max_date fuel fr Hinv)
    as Htry.
  destruct (tasks.sync_chats_task_try _ _ _ _ _ _) as [r fr2].
  unfold tasks.lift, tasks.cache_delete.
  destruct r as [a|e|]; [by destruct fr2| |by destruct fr2].
  pose proof (sync_chats_task_except_inv req e fr2 Htry) as Hexc.
  destruct (tasks.sync_chats_task_except _ _ _) as [r' [st' w']].
  by destruct r'.
Qed.

Lemma singleton_of_length_le_1 {A} (l : list A) (x : A) :
  length l <= 1 -> x ∈ l -> l = [x].
Proof.
  destruct l as [|y [|z l]]; simpl; intros Hlen Hin.
  - by apply elem_of_nil in Hin.
  - by apply list_elem_of_singleton in Hin as ->.
  - lia.
Qed.


(** ** The lock and the no-change check *)

(** C8: when the lock is held ([cache.add] answers False) the invocation
    returns the skipped outcome instead of raising, and all it has done is
    the one cache command: no Run State is created, read or changed, and the
    lock stays with its owner. *)
Theorem lock_held_invocation_is_skipped env api_client req max_date fuel w owner :
  cache w !! tasks.SYNC_LOCK_KEY = Some owner ->
  tasks.sync_chats_task env api_client req max_date fuel w
  = (Ok (tasks.skipped "Another sync is running"),
     record (CacheAdd tasks.SYNC_LOCK_KEY) w).
Proof.
  intros Hheld. unfold tasks.sync_chats_task, tasks.cache_add.
  cbn [cache record]. rewrite Hheld. reflexivity.
Qed.

Lemma lock_held_invocation_is_skipped_witness :
  tasks.sync_chats_task quiet_env (client_of 25) request_1 None 3 world_locked
  = (Ok (tasks.skipped "Another sync is running"),
     record (CacheAdd tasks.SYNC_LOCK_KEY) world_locked).
Proof.
  apply (lock_held_invocation_is_skipped quiet_env (client_of 25) request_1 None
           3 world_locked "task-0").
  vm_compute. reflexivity.
Defined.

(** *** The no-change check *)

Lemma get_chats_world env api_client cursor w :
  (MockExternalAPIClient.get_chats env api_client cursor w).2
  = record (ApiGetChats cursor) w.
Proof. unfold MockExternalAPIClient.get_chats. cbv zeta. by case_match. Qed.

Lemma process_chat_unchanged env chat st w d :
  deal_of (Chat.external_id chat) w = Some d ->
  Deal.last_message_id d = ChatMessage.message_id (Chat.last_message chat) ->
  SyncService._process_chat env chat (SyncService.Build st w)
  = (Ok true, SyncService.Build st w)
  \/ SyncService._process_chat env chat (SyncService.Build st w)
     = (Ok true, SyncService.Build st (record (SqlSelect deals_tbl) w)).
Proof.
  intros Hd Hsame. rewrite process_chat_tzinfo.
  unfold_monad. cbn beta iota zeta delta [SyncService.state SyncService.world SyncService.max_date_tzinfo].
  destruct (match SyncState.max_date st with Some _ => _ | None => _ end);
    [by left|right].
  unfold SyncService.existing_deal_of. unfold deal_of in Hd.
  cbn beta iota zeta delta [SyncService.state SyncService.world SyncService.max_date_tzinfo].
  rewrite Hd. by rewrite bool_decide_true.
Qed.

(** C5: a run whose first fetched record is unchanged (its entity exists with
    the same last message id) ends at that record: the run returns after this
    one fetch, the processed counter keeps its value (0 for a new run), no
    statement writes to the relational index, nothing is put into the
    document store, and the customers, deals and messages are exactly what
    they were: no duplicate entity, every message count unchanged. *)
Theorem rerun_on_unchanged_source_stops_at_record_1
    env api_client fuel st w page chat rest d :
  let cursor := if bool_decide (SyncState.cursor st = "") then None
                else Some (SyncState.cursor st) in
  has_pk SyncState.id (SyncState.id st) (sync_states (db w)) = true ->
  (MockExternalAPIClient.get_chats env api_client cursor w).1 = Ok page ->
  ChatPage.chats page = chat :: rest ->
  deal_of (Chat.external_id chat) w = Some d ->
  Deal.last_message_id d = ChatMessage.message_id (Chat.last_message chat) ->
  let r := SyncService.run env api_client (S fuel) (SyncService.Build st w) in
  let w' := SyncService.world r.2 in
  r.1 = Ok tt
  /\ SyncState.processed_chats (SyncService.state r.2)
     = SyncState.processed_chats st
  /\ deals (db w') = deals (db w)
  /\ customers (db w') = customers (db w)
  /\ messages w' = messages w
  /\ exists evs, log w' = log w ++ ApiGetChats cursor :: evs
                 /\ Forall (fun e => writes_store e = false
                                     /\ forall c, e <> ApiGetChats c) evs.
Proof.
  intros cursor Hrow Hpage Hchats Hd Hsame.
  destruct (SyncService.run _ _ _ _) as [res s'] eqn:Hrun. cbv zeta.
  cbn [fst snd].
  unfold SyncService.run in Hrun.
  unfold mbind at 1, M_bind at 1, get at 1 in Hrun.
  cbn beta iota zeta delta [SyncService.state SyncService.world SyncService.max_date_tzinfo] in Hrun.
  fold cursor in Hrun. cbn [SyncService.run_loop] in Hrun.
  unfold mbind at 1, M_bind at 1, SyncService.lift at 1 in Hrun.
  cbn beta iota zeta delta [SyncService.state SyncService.world SyncService.max_date_tzinfo] in Hrun.
  pose proof (get_chats_world env api_client cursor w) as Hw1.
  destruct (MockExternalAPIClient.get_chats _ _ _ _) as [r1 w1].
  simpl in Hpage, Hw1. subst r1 w1.
  unfold SyncService._process_page in Hrun. rewrite Hchats in Hrun.
  cbn [SyncService._process_chats] in Hrun.
  unfold mbind at 1, M_bind at 1 in Hrun.
  unfold mbind at 1, M_bind at 1 in Hrun.
  assert (deal_of (Chat.external_id chat) (record (ApiGetChats cursor) w) = Some d)
    as Hd' by exact Hd.
  destruct (process_chat_unchanged env chat st _ d Hd' Hsame) as [Heq | Heq];
    rewrite Heq in Hrun; clear Heq.
  all: cbn beta iota zeta delta [mret M_ret] in Hrun.
  all: destruct (ChatPage.next_cursor page) as [next_cursor|].
  all: try case_bool_decide.
  all: unfold SyncService._save_cursor in Hrun; unfold_monad.
  all: cbn beta iota zeta delta [SyncService.state SyncService.world SyncService.max_date_tzinfo] in Hrun.
  all: unfold SyncStateManager.save in Hrun; cbv zeta in Hrun.
  all: cbn [db record sync_states SyncState.id SyncState.set_cursor] in Hrun;
       rewrite ?Hrow in Hrun.
  all: cbn in Hrun; simplify_eq.
  all: repeat split; try done.
  all: eexists; cbn [SyncService.world log record set_sync_states set_db];
       rewrite <- ?app_assoc; split; [reflexivity|].
  all: repeat constructor; done.
Qed.

Lemma rerun_on_unchanged_source_stops_at_record_1_witness :
  let r := SyncService.run quiet_env (client_of 25) 1
             (SyncService.Build state_2 world_second_run) in
  let w' := SyncService.world r.2 in
  r.1 = Ok tt
  /\ SyncState.processed_chats (SyncService.state r.2) = 0
  /\ deals (db w') = deals (db world_second_run)
  /\ customers (db w') = customers (db world_second_run)
  /\ messages w' = messages world_second_run
  /\ exists evs, log w' = log world_second_run ++ ApiGetChats None :: evs
                 /\ Forall (fun e => writes_store e = false
                                     /\ forall c, e <> ApiGetChats c) evs.
Proof.
  apply (rerun_on_unchanged_source_stops_at_record_1 quiet_env (client_of 25) 0
           state_2 world_second_run page_0
           (MockExternalAPIClient._generate_chat (client_of 25) 0)
           (MockExternalAPIClient._generate_chat (client_of 25) <$> seqZ 1 9)
           deal_0).
  - vm_compute. reflexivity.
  - vm_compute. reflexivity.
  - vm_compute. reflexivity.
  - vm_compute. reflexivity.
  - vm_compute. reflexivity.
Defined.

(** ** Termination of the blocks and the cutoff check *)

Section returns.
Context {S : Type}.

Lemma returns_ret {A} (a : A) : returns (mret a : M S A).
Proof. by intros s. Qed.

Lemma returns_bind {A B} (m : M S A) (f : A -> M S B) :
  returns m -> (forall a, returns (f a)) -> returns (m ≫= f).
Proof.
  intros Hm Hf s. unfold mbind, M_bind. specialize (Hm s).
  destruct (m s) as [[a|e|] s']; simpl in *; try done. apply Hf.
Qed.

Lemma returns_try_except {A} (m : M S A) (h : exn -> M S A) :
  returns m -> (forall e, returns (h e)) -> returns (try_except m h).
Proof.
  intros Hm Hh s. unfold try_except. specialize (Hm s).
  destruct (m s) as [[a|e|] s']; simpl in *; try done. apply Hh.
Qed.
End returns.



Ltac returns_prim := intros ?; repeat case_match; simplify_eq/=; done.


Lemma returns_customer_save obj fields : returns (CustomerManager.save obj fields).
Proof. unfold CustomerManager.save. returns_prim. Qed.





Lemma returns_get_chats env api c : returns (MockExternalAPIClient.get_chats env api c).
Proof. unfold MockExternalAPIClient.get_chats. returns_prim. Qed.

Lemma returns_get_or_create_customer env chat :
  returns (SyncService._get_or_create_customer env chat).
Proof.
  unfold SyncService._get_or_create_customer.
  apply returns_bind.
  - unfold CustomerManager.get_or_create. intros w. cbv zeta.
    destruct (CustomerManager.filter _ _) as [|c [|c' l]]; [|done..].
    apply returns_bind; [|intros; apply returns_ret].
    unfold CustomerManager.create. returns_prim.
  - intros [customer created]. apply returns_bind; [|intros; apply returns_ret].
    destruct (_ && _); [|apply returns_ret].
    unfold SyncService._queue_avatar_upload.
    apply returns_try_except; [|intros; apply returns_ret].
    apply returns_bind; [by intros w|]. intros [content|]; [|apply returns_ret].
    apply returns_bind; [by intros w|]. intros _. apply returns_customer_save.
Qed.





Lemma process_chat_engine_frame env chat :
  steps engine_frame (SyncService._process_chat env chat).
Proof.
  use process_chat_steps.
  - intros. apply engine_frame_lift, steps_existing_deal_of.
  - intros. apply engine_frame_lift, steps_sync_chat_atomic.
  - apply engine_frame_save; [done|]. by intros [].
  - intros. apply engine_frame_lift, steps_deal_save.
Qed.

Lemma process_chats_engine_frame env chats :
  steps engine_frame (SyncService._process_chats env chats).
Proof.
  use process_chats_steps.
  - intros. apply engine_frame_lift, steps_existing_deal_of.
  - intros. apply engine_frame_lift, steps_sync_chat_atomic.
  - apply engine_frame_save; [done|]. by intros [].
  - intros. apply engine_frame_lift, steps_deal_save.
Qed.

(** *** The cutoff check *)




(** *** Failure of the per-record section *)

Lemma atomic_rollback {A} (body : M World A) w e :
  (atomic body w).1 = Raise e -> db (atomic body w).2 = db w.
Proof. unfold atomic. by destruct (body (record SqlBegin w)) as [[a|e'|] w']. Qed.

Lemma sync_chat_atomic_rollback env chat existing_deal w e :
  (SyncService._sync_chat_atomic env chat existing_deal w).1 = Raise e ->
  db (SyncService._sync_chat_atomic env chat existing_deal w).2 = db w.
Proof. apply atomic_rollback. Qed.

Lemma deal_of_elem_of external_id w d :
  deal_of external_id w = Some d ->
  d ∈ deals (db w) /\ Deal.external_id d = external_id.
Proof.
  unfold deal_of, DealManager.filter_external_id, DealManager.ordered.
  intros [Hext Hin]%first_merge_sort_Some%list_elem_of_filter. done.
Qed.

Lemma deal_of_None external_id w :
  deal_of external_id w = None ->
  forall d, d ∈ deals (db w) -> Deal.external_id d <> external_id.
Proof.
  unfold deal_of, DealManager.filter_external_id, DealManager.ordered.
  intros Hnil%first_merge_sort_None d Hin Hext.
  eapply filter_nil_not_elem_of; [exact Hnil| |exact Hin]. done.
Qed.

Lemma deal_of_deals external_id w w' :
  deals (db w') = deals (db w) -> deal_of external_id w' = deal_of external_id w.
Proof.
  unfold deal_of, DealManager.filter_external_id. by intros ->.
Qed.

Lemma mark_failed_rows d w :
  d ∈ deals (db w) ->
  DealManager.save (Deal.set_sync_status Deal.FAILED d)
                   ["sync_status"; "updated_at"] w
  = (Ok tt,
     set_deals (update_pk Deal.id (Deal.id d)
                          (Deal.set_sync_status Deal.FAILED) (deals (db w)))
       (record (SqlUpdate deals_tbl (Deal.id d) ["sync_status"; "updated_at"])
               w)).
Proof.
  intros Hin. unfold DealManager.save. cbv zeta.
  cbn [db record deals Deal.id Deal.set_sync_status].
  assert (has_pk Deal.id (Deal.id d) (deals (db w)) = true) as ->.
  { apply has_pk_elem_of. by exists d. }
  reflexivity.
Qed.

Lemma elem_of_update_pk {A} (pk_of : A -> nat) pk f rows x :
  x ∈ update_pk pk_of pk f rows ->
  x ∈ rows \/ exists r, r ∈ rows /\ x = f r.
Proof.
  unfold update_pk. intros (r & -> & Hin)%list_elem_of_fmap.
  destruct (Nat.eqb _ _); eauto.
Qed.

(** C10: if the per-record section raises, every relational write it made
    for the record (counterparty creation, entity create or update) is undone
    together. After [_process_chat] the customers are what they were and the
    deals are what they were except that the entity that existed before, if
    any, is marked FAILED: a record with no entity row before has none
    afterwards, every row is an old row or an old row marked FAILED, the
    counter is not incremented, and the page loop goes on. *)
Theorem failed_record_is_rolled_back env chat st w e :
  let existing_deal := deal_of (Chat.external_id chat) w in
  match SyncState.max_date st with
  | Some max_date =>
      (ChatMessage.created_at (Chat.last_message chat) <? max_date)%Z
  | None => false
  end = false ->
  match existing_deal with
  | Some d => bool_decide (Deal.last_message_id d
                           = ChatMessage.message_id (Chat.last_message chat))
  | None => false
  end = false ->
  (SyncService._sync_chat_atomic env chat existing_deal
     (record (SqlSelect deals_tbl) w)).1 = Raise e ->
  db (SyncService._sync_chat_atomic env chat existing_deal
        (record (SqlSelect deals_tbl) w)).2 = db w
  /\ let r := SyncService._process_chat env chat (SyncService.Build st w) in
     let w' := SyncService.world r.2 in
     r.1 = Ok false
     /\ SyncService.state r.2 = st
     /\ customers (db w') = customers (db w)
     /\ deals (db w')
        = match existing_deal with
          | Some d => update_pk Deal.id (Deal.id d)
                                (Deal.set_sync_status Deal.FAILED) (deals (db w))
          | None => deals (db w)
          end
     /\ (existing_deal = None -> deal_of (Chat.external_id chat) w' = None)
     /\ (forall d', d' ∈ deals (db w') ->
           d' ∈ deals (db w)
           \/ exists d, d ∈ deals (db w)
                        /\ d' = Deal.set_sync_status Deal.FAILED d).
Proof.
  intros existing_deal Hcut Hchanged Hraise.
  pose proof (sync_chat_atomic_rollback _ _ _ _ _ Hraise) as Hdb.
  split; [exact Hdb|].
  destruct (SyncService._process_chat _ _ _) as [res s'] eqn:Hrun.
  rewrite process_chat_tzinfo in Hrun. unfold_monad.
  cbn beta iota zeta delta [SyncService.state SyncService.world SyncService.max_date_tzinfo] in Hrun.
  rewrite Hcut in Hrun. unfold SyncService.existing_deal_of in Hrun.
  cbn beta iota zeta delta [SyncService.state SyncService.world SyncService.max_date_tzinfo] in Hrun.
  fold (deal_of (Chat.external_id chat) w) in Hrun.
  subst existing_deal. rewrite Hchanged in Hrun.
  destruct (deal_of (Chat.external_id chat) w) as [d|] eqn:Hexisting.
  all: destruct (SyncService._sync_chat_atomic _ _ _ _) as [r2 w2].
  all: simpl in Hraise, Hdb; subst r2.
  all: cbn beta iota zeta delta [SyncService.state SyncService.world SyncService.max_date_tzinfo] in Hrun.
  - apply deal_of_elem_of in Hexisting as [Hin Hext].
    assert (d ∈ deals (db w2)) as Hin2 by (by rewrite Hdb).
    rewrite (mark_failed_rows d w2 Hin2) in Hrun. simplify_eq/=.
    rewrite Hdb. repeat split; try done.
    intros d' Hd'. by apply elem_of_update_pk in Hd'.
  - simplify_eq/=. rewrite Hdb. repeat split; try done.
    + intros _. erewrite deal_of_deals; [exact Hexisting|by rewrite Hdb].
    + auto.
Qed.

Lemma failed_record_is_rolled_back_witness :
  let chat := MockExternalAPIClient._generate_chat (client_of 25) 0 in
  let r := SyncService._process_chat record1_env chat
             (SyncService.Build state_1 world_stale_0) in
  db (SyncService._sync_chat_atomic record1_env chat (Some stale_deal_0)
        (record (SqlSelect deals_tbl) world_stale_0)).2 = db world_stale_0
  /\ r.1 = Ok false
  /\ customers (db (SyncService.world r.2)) = [customer_0]
  /\ deals (db (SyncService.world r.2))
     = [Deal.set_sync_status Deal.FAILED stale_deal_0].
Proof.
  destruct (failed_record_is_rolled_back record1_env
              (MockExternalAPIClient._generate_chat (client_of 25) 0)
              state_1 world_stale_0 (MessageStoreError "save_message failed"))
    as (Hdb & Hr & _ & Hc & Hd & _).
  - vm_compute. reflexivity.
  - vm_compute. reflexivity.
  - vm_compute. reflexivity.
  - split; [exact Hdb|]. split; [exact Hr|]. split; [exact Hc|exact Hd].
Defined.

(** *** The trace of the per-record section *)

Lemma queue_avatar_upload_log env customer avatar_url w :
  let w' := (SyncService._queue_avatar_upload env customer avatar_url w).2 in
  exists evs, log w' = log w ++ evs /\ Forall customer_event evs
              /\ deals (db w') = deals (db w)
              /\ deals_id_seq w' = deals_id_seq w.
Proof.
  unfold SyncService._queue_avatar_upload, try_except.
  unfold mbind, M_bind, SyncService.httpx_get. simpl.
  destruct (http_get env avatar_url) as [content|]; simpl.
  2:{ exists [HttpGet avatar_url]. repeat split; try done. by repeat constructor. }
  unfold CustomerManager.save. simpl.
  eexists [HttpGet avatar_url; S3Put _; SqlUpdate customers_tbl _ _].
  destruct (has_pk _ _ _); simpl; rewrite <- !app_assoc;
    (split; [reflexivity|]); split; try done; by repeat constructor.
Qed.

Lemma get_or_create_customer_log env chat w :
  let w' := (SyncService._get_or_create_customer env chat w).2 in
  exists cust, log w' = log w ++ cust /\ Forall customer_event cust
               /\ deals (db w') = deals (db w)
               /\ deals_id_seq w' = deals_id_seq w.
Proof.
  unfold SyncService._get_or_create_customer, CustomerManager.get_or_create,
    CustomerManager.create, CustomerManager.filter.
  unfold mbind, M_bind, mret, M_ret.
  cbn beta iota zeta delta [db record set_customers_id_seq customers customers_id_seq].
  destruct (filter _ (customers (db w))) as [|c [|c' l]] eqn:Hf.
  2,3: exists [SqlSelect customers_tbl]; repeat split; try done;
       by repeat constructor.
  destruct (_ || _).
  { exists [SqlSelect customers_tbl; SqlInsert customers_tbl (customers_id_seq w)].
    simpl. rewrite <- app_assoc. repeat split; try done. by repeat constructor. }
  set (obj := Customer.Build _ _ _ _ _). set (w1 := set_customers _ _).
  destruct (true && _).
  - destruct (queue_avatar_upload_log env obj
                (ChatCustomer.avatar_url (Chat.customer chat)) w1)
      as (evs & Hlog & Hevs & Hdeals & Hseq).
    destruct (SyncService._queue_avatar_upload _ _ _ _) as [[[]|e|] w2];
      simpl in *.
    all: exists ([SqlSelect customers_tbl;
                  SqlInsert customers_tbl (customers_id_seq w)] ++ evs).
    all: rewrite Hlog, Hdeals, Hseq; simpl; rewrite <- !app_assoc.
    all: repeat split; try done; by repeat constructor.
  - exists [SqlSelect customers_tbl; SqlInsert customers_tbl (customers_id_seq w)].
    simpl. rewrite <- app_assoc. repeat split; try done. by repeat constructor.
Qed.

Lemma create_or_update_deal_log chat customer existing_deal w :
  let r := SyncService._create_or_update_deal chat customer existing_deal w in
  log r.2 = log w ++ [upsert_event existing_deal w]
  /\ r.1 <> OutOfFuel
  /\ forall deal, r.1 = Ok deal ->
       Deal.id deal = match existing_deal with
                      | Some d => Deal.id d
                      | None => deals_id_seq w
                      end
       /\ Deal.external_id deal = match existing_deal with
                                  | Some d => Deal.external_id d
                                  | None => Chat.external_id chat
                                  end
       /\ has_pk Deal.id (Deal.id deal) (deals (db r.2)) = true.
Proof.
  unfold SyncService._create_or_update_deal.
  destruct existing_deal as [d|].
  - unfold mbind, M_bind, mret, M_ret, DealManager.save. cbv zeta.
    cbn [db record deals Deal.id Deal.set_sync_status Deal.set_last_message_at
         Deal.set_last_message_id Deal.set_customer].
    destruct (has_pk _ _ _) eqn:Hpk; simpl; (split; [done|]); split; try done.
    intros deal [= <-]. simpl. repeat split; try done.
    apply has_pk_elem_of in Hpk as (r & Hin & Hr).
    apply has_pk_elem_of. eexists. split.
    + unfold update_pk. apply list_elem_of_fmap. by exists r.
    + simpl. rewrite Hr, Nat.eqb_refl. done.
  - unfold DealManager.create. cbv zeta.
    cbn [db record deals set_deals_id_seq deals_id_seq].
    destruct (_ || _); simpl; (split; [done|]); split; try done.
    intros deal [= <-]. simpl. repeat split; try done.
    apply has_pk_elem_of. eexists. split; [apply elem_of_app; right; left|done].
Qed.

(** C1 (as amended): for every record that [_sync_chat_atomic] processes, the
    document-store write is issued inside the one relational transaction
    that upserts the entity row, right after the upsert. The finalize step
    (COMPLETE, counter + 1) is a second write of that row in the same
    transaction and is issued only when the document write has succeeded. When
    the document write raises, or a step before it does, no finalize is
    issued and the transaction is rolled back. *)
Theorem document_write_inside_transaction env chat existing_deal w :
  let r := SyncService._sync_chat_atomic env chat existing_deal w in
  let chat_id := match existing_deal with
                 | Some d => Deal.external_id d
                 | None => Chat.external_id chat
                 end in
  let message_id := ChatMessage.message_id (Chat.last_message chat) in
  let upsert := upsert_event existing_deal w in
  let doc := DocPut chat_id message_id in
  let finalize := finalize_event existing_deal w in
  exists cust,
    Forall customer_event cust
    /\ ((r.1 = Ok tt
         /\ doc_put_raises env chat_id message_id = false
         /\ log r.2 = log w ++ [SqlBegin] ++ cust
                      ++ [upsert; doc; finalize; SqlCommit])
        \/ (exists e,
              r.1 = Raise e /\ db r.2 = db w
              /\ ((doc_put_raises env chat_id message_id = true
                   /\ log r.2 = log w ++ [SqlBegin] ++ cust
                                ++ [upsert; doc; SqlRollback])
                  \/ log r.2 = log w ++ [SqlBegin] ++ cust
                               ++ [upsert; SqlRollback]
                  \/ log r.2 = log w ++ [SqlBegin] ++ cust ++ [SqlRollback]))).
Proof.
  cbv zeta. unfold SyncService._sync_chat_atomic, atomic.
  unfold mbind, M_bind.
  destruct (get_or_create_customer_log env chat (record SqlBegin w))
    as (cust & Hlog1 & Hcust & Hdeals1 & Hseq1).
  pose proof (returns_get_or_create_customer env chat (record SqlBegin w)) as Hret1.
  destruct (SyncService._get_or_create_customer _ _ _) as [[customer|e|] w1];
    simpl in Hlog1, Hdeals1, Hseq1, Hret1; [| |done].
  2:{ exists cust. split; [done|]. right. exists e. simpl.
      split; [done|]. split; [done|]. right. right.
      rewrite Hlog1. simpl. by rewrite <- !app_assoc. }
  destruct (create_or_update_deal_log chat customer existing_deal w1)
    as (Hlog2 & Hret2 & Hdeal).
  assert (upsert_event existing_deal w1 = upsert_event existing_deal w) as Hup.
  { unfold upsert_event. destruct existing_deal; [done|]. by rewrite Hseq1. }
  rewrite Hup in Hlog2. clear Hup.
  destruct (SyncService._create_or_update_deal _ _ _ _) as [[deal|e|] w2];
    simpl in Hlog2, Hret2, Hdeal; [| |done].
  2:{ exists cust. split; [done|]. right. exists e. simpl.
      split; [done|]. split; [done|]. right. left.
      rewrite Hlog2, Hlog1. simpl. by rewrite <- !app_assoc. }
  destruct (Hdeal deal eq_refl) as (Hid & Hext & Hpk). clear Hdeal.
  unfold SyncService._save_message_to_dynamodb, MessageStore.save_message.
  cbv zeta. rewrite Hext.
  destruct (doc_put_raises env _ _) eqn:Hraises.
  { exists cust. split; [done|]. right. eexists. simpl.
    split; [done|]. split; [done|]. left. split; [done|].
    rewrite Hlog2, Hlog1. simpl. by rewrite <- !app_assoc. }
  unfold DealManager.save. cbv zeta.
  cbn [db record deals set_messages Deal.id Deal.set_total_messages
       Deal.set_sync_status].
  rewrite Hpk. exists cust. split; [done|]. left. simpl.
  split; [done|]. split; [done|].
  rewrite Hlog2, Hlog1. unfold finalize_event. rewrite Hid, Hseq1.
  simpl. by rewrite <- !app_assoc.
Qed.

(** C1 (as stated) fails: on an empty store the document write of record 0
    sits between BEGIN and COMMIT. *)
Lemma document_write_outside_transaction_counterexample :
  let w' := (SyncService._sync_chat_atomic quiet_env
               (MockExternalAPIClient._generate_chat (client_of 25) 0) None
               (empty_world 0%Z)).2 in
  log w'
  = [SqlBegin; SqlSelect customers_tbl; SqlInsert customers_tbl 1;
     HttpGet "https://example.com/avatars/cust_0000.jpg";
     SqlInsert deals_tbl 1; DocPut "chat_0000" "msg_0000";
     SqlUpdate deals_tbl 1 ["sync_status"; "total_messages"; "updated_at"];
     SqlCommit]
  /\ doc_writes_outside_transactions 0 (log w') = false.
Proof. vm_compute. split; reflexivity. Qed.

(** *** Fuel *)

Lemma run_loop_fuel_mono env api_client fuel k cursor s :
  (SyncService.run_loop env api_client fuel cursor s).1 <> OutOfFuel ->
  SyncService.run_loop env api_client (fuel + k) cursor s
  = SyncService.run_loop env api_client fuel cursor s.
Proof.
  revert cursor s. induction fuel as [|fuel IH]; intros cursor s; [done|].
  cbn [Nat.add SyncService.run_loop]. unfold mbind, M_bind.
  destruct (SyncService.lift _ s) as [[page|e|] s1]; [|done..].
  destruct (SyncService._process_page _ _ _) as [[should_stop|e|] s2]; [|done..].
  unfold mret, M_ret.
  destruct (ChatPage.next_cursor page) as [next_cursor|];
    [case_bool_decide|]; try (destruct (_ || _); [done|apply IH]).
  destruct (SyncService._save_cursor next_cursor s2) as [[[]|e|] s3]; [|done..].
  destruct (_ || _); [done|]. apply IH.
Qed.

Lemma run_fuel_mono env api_client fuel k s :
  (SyncService.run env api_client fuel s).1 <> OutOfFuel ->
  SyncService.run env api_client (fuel + k) s
  = SyncService.run env api_client fuel s.
Proof.
  unfold SyncService.run. unfold mbind, M_bind, get. apply run_loop_fuel_mono.
Qed.

Lemma sync_chats_task_try_fuel_mono env api_client req max_date fuel k fr :
  (tasks.sync_chats_task_try env api_client req max_date fuel fr).1
  <> OutOfFuel ->
  tasks.sync_chats_task_try env api_client req max_date (fuel + k) fr
  = tasks.sync_chats_task_try env api_client req max_date fuel fr.
Proof.
  unfold tasks.sync_chats_task_try, tasks.with_state.
  unfold SyncService.set_state, modify, get, mbind, M_bind.
  destruct (tasks.lift _ fr) as [[st|e|] [st0 w2]]; [|done..].
  destruct (SyncService.lift _ _) as [[[]|e|] s2]; [|done..].
  destruct (SyncService.run env api_client fuel s2) as [r3 s3] eqn:Hrun.
  destruct r3 as [[]|e|].
  - rewrite run_fuel_mono by (by rewrite Hrun). by rewrite Hrun.
  - rewrite run_fuel_mono by (by rewrite Hrun). by rewrite Hrun.
  - done.
Qed.

Lemma sync_chats_task_fuel_mono env api_client req max_date fuel k w :
  (tasks.sync_chats_task env api_client req max_date fuel w).1 <> OutOfFuel ->
  tasks.sync_chats_task env api_client req max_date (fuel + k) w
  = tasks.sync_chats_task env api_client req max_date fuel w.
Proof.
  unfold tasks.sync_chats_task.
  destruct (tasks.cache_add _ _ _ w) as [[[]|e|] w1]; try done.
  unfold try_finally, try_except.
  pose proof (sync_chats_task_try_fuel_mono env api_client req max_date fuel k
                (None, w1)) as Htry.
  destruct (tasks.sync_chats_task_try env api_client req max_date fuel _)
    as [r fr] eqn:Hfuel.
  destruct r as [a|e|].
  - by rewrite Htry.
  - by rewrite Htry.
  - intros Hne. exfalso. apply Hne. by destruct fr.
Qed.

(** ** The engine on a well-formed index *)

(** *** Rows with unique keys *)

Lemma NoDup_fmap_eq {A B} (f : A -> B) (l : list A) x y :
  NoDup (f <$> l) -> x ∈ l -> y ∈ l -> f x = f y -> x = y.
Proof.
  induction l as [|a l IH]; simpl; intros Hnd Hx Hy Hf.
  { by apply elem_of_nil in Hx. }
  apply NoDup_cons in Hnd as [Hnotin Hnd].
  apply elem_of_cons in Hx as [->|Hx], Hy as [->|Hy]; try done.
  - destruct Hnotin. rewrite Hf. by apply list_elem_of_fmap_2.
  - destruct Hnotin. rewrite <- Hf. by apply list_elem_of_fmap_2.
  - by apply IH.
Qed.

Lemma filter_unique {A B} `{!EqDecision B} (f : A -> B) (l : list A) (b : B) x :
  NoDup (f <$> l) -> x ∈ l -> f x = b -> filter (fun y => f y = b) l = [x].
Proof.
  intros Hnd Hx Hb.
  assert (NoDup (f <$> filter (fun y => f y = b) l)) as Hnd'.
  { eapply sublist_NoDup; [exact Hnd|]. apply fmap_sublist, sublist_filter. }
  assert (x ∈ filter (fun y => f y = b) l) as Hin by (by apply list_elem_of_filter).
  assert (forall y, y ∈ filter (fun y => f y = b) l -> f y = b) as Hall.
  { by intros y [? _]%list_elem_of_filter. }
  destruct (filter _ l) as [|y [|z l']].
  - by apply elem_of_nil in Hin.
  - by apply list_elem_of_singleton in Hin as ->.
  - exfalso. simpl in Hnd'. apply NoDup_cons in Hnd' as [Hnotin _].
    apply Hnotin. rewrite (Hall y), <- (Hall z); [left|right; left|left].
Qed.

Lemma deal_of_unique w e d :
  NoDup (Deal.external_id <$> deals (db w)) ->
  d ∈ deals (db w) -> Deal.external_id d = e -> deal_of e w = Some d.
Proof.
  intros Hnd Hin Hext.
  unfold deal_of, DealManager.filter_external_id, DealManager.ordered.
  by rewrite (filter_unique Deal.external_id _ e d).
Qed.

Lemma deal_of_absent w e :
  (forall d, d ∈ deals (db w) -> Deal.external_id d <> e) -> deal_of e w = None.
Proof.
  intros Hnone.
  unfold deal_of, DealManager.filter_external_id, DealManager.ordered.
  assert (filter (fun d => Deal.external_id d = e) (deals (db w)) = []) as ->;
    [|done].
  destruct (filter _ _) as [|x l] eqn:Hf; [done|]. exfalso.
  assert (x ∈ filter (fun d => Deal.external_id d = e) (deals (db w)))
    as [Hext Hin]%list_elem_of_filter by (rewrite Hf; left).
  by eapply Hnone.
Qed.

Lemma update_pk_fmap {A B} (pk_of : A -> nat) (g : A -> B) pk f rows :
  (forall r, g (f r) = g r) -> g <$> update_pk pk_of pk f rows = g <$> rows.
Proof.
  intros Hg. unfold update_pk. rewrite <- list_fmap_compose.
  apply list_fmap_ext. intros i r _. simpl. by destruct (Nat.eqb _ _).
Qed.

Lemma update_pk_compose {A} (pk_of : A -> nat) pk f g rows :
  (forall r, pk_of (f r) = pk_of r) ->
  update_pk pk_of pk g (update_pk pk_of pk f rows)
  = update_pk pk_of pk (g ∘ f) rows.
Proof.
  intros Hf. unfold update_pk. rewrite <- list_fmap_compose.
  apply list_fmap_ext. intros i r _. simpl.
  destruct (Nat.eqb (pk_of r) pk) eqn:Hr; [by rewrite Hf, Hr|by rewrite Hr].
Qed.

(** Updating the row of a key: the lookups afterwards. *)
Lemma deal_of_update w w' d f :
  NoDup (Deal.id <$> deals (db w)) ->
  NoDup (Deal.external_id <$> deals (db w)) ->
  d ∈ deals (db w) ->
  (forall r, Deal.id (f r) = Deal.id r) ->
  (forall r, Deal.external_id (f r) = Deal.external_id r) ->
  deals (db w') = update_pk Deal.id (Deal.id d) f (deals (db w)) ->
  NoDup (Deal.id <$> deals (db w'))
  /\ NoDup (Deal.external_id <$> deals (db w'))
  /\ forall e, deal_of e w' = if decide (e = Deal.external_id d) then Some (f d)
                              else deal_of e w.
Proof.
  intros Hids Hexts Hin Hfid Hfext Hrows.
  assert (NoDup (Deal.external_id <$> deals (db w'))) as Hexts'.
  { by rewrite Hrows, update_pk_fmap. }
  split; [by rewrite Hrows, update_pk_fmap|]. split; [done|].
  assert (forall r, r ∈ deals (db w) ->
            (if Nat.eqb (Deal.id r) (Deal.id d) then f r else r) ∈ deals (db w'))
    as Hmem.
  { intros r Hr. rewrite Hrows. unfold update_pk.
    by apply (list_elem_of_fmap_2
                (fun r => if Nat.eqb (Deal.id r) (Deal.id d) then f r else r)). }
  intros e. destruct (decide (e = Deal.external_id d)) as [->|Hne].
  - apply deal_of_unique; [done| |by rewrite Hfext].
    specialize (Hmem d Hin). by rewrite Nat.eqb_refl in Hmem.
  - destruct (deal_of e w) as [x|] eqn:Hx.
    + apply deal_of_elem_of in Hx as [Hxin Hxext].
      apply deal_of_unique; [done| |done].
      specialize (Hmem x Hxin).
      destruct (Nat.eqb_spec (Deal.id x) (Deal.id d)) as [Hid|]; [|done].
      assert (x = d) by (by eapply (NoDup_fmap_eq Deal.id)). congruence.
    + apply deal_of_absent. intros r Hr Hrext. rewrite Hrows in Hr.
      unfold update_pk in Hr. apply list_elem_of_fmap in Hr as (r0 & -> & Hr0).
      eapply (deal_of_None e w); [exact Hx|exact Hr0|].
      destruct (Nat.eqb _ _); [by rewrite <- Hfext|done].
Qed.

(** Inserting a row with a new external id: the lookups afterwards. *)
Lemma deal_of_insert w w' d :
  NoDup (Deal.external_id <$> deals (db w)) ->
  deal_of (Deal.external_id d) w = None ->
  deals (db w') = deals (db w) ++ [d] ->
  NoDup (Deal.external_id <$> deals (db w'))
  /\ forall e, deal_of e w' = if decide (e = Deal.external_id d) then Some d
                              else deal_of e w.
Proof.
  intros Hexts Hnone Hrows.
  assert (NoDup (Deal.external_id <$> deals (db w'))) as Hexts'.
  { rewrite Hrows, fmap_app. apply NoDup_app. split; [done|].
    split; [|apply NoDup_singleton].
    intros e Hin1 Hin2. simpl in Hin2.
    apply list_elem_of_singleton in Hin2 as ->.
    apply list_elem_of_fmap in Hin1 as (r & Hr1 & Hr2).
    by eapply (deal_of_None _ w Hnone r). }
  split; [done|]. intros e.
  destruct (decide (e = Deal.external_id d)) as [->|Hne].
  - apply deal_of_unique; [done| |done]. rewrite Hrows.
    apply elem_of_app. right. left.
  - destruct (deal_of e w) as [x|] eqn:Hx.
    + apply deal_of_elem_of in Hx as [Hxin Hxext].
      apply deal_of_unique; [done| |done]. rewrite Hrows.
      apply elem_of_app. by left.
    + apply deal_of_absent. intros r Hr Hrext. rewrite Hrows in Hr.
      apply elem_of_app in Hr as [Hr| ->%list_elem_of_singleton]; [|done].
      by eapply (deal_of_None e w).
Qed.

Lemma has_pk_fresh {A} (pk_of : A -> nat) pk rows :
  Forall (fun i => i < pk) (pk_of <$> rows) -> has_pk pk_of pk rows = false.
Proof.
  intros Hall. apply not_true_iff_false. intros (r & Hin & Hr)%has_pk_elem_of.
  rewrite Forall_forall in Hall.
  specialize (Hall (pk_of r) (list_elem_of_fmap_2 pk_of _ _ Hin)). lia.
Qed.

(** *** The customer step on a well-formed index *)

Lemma queue_avatar_upload_ok env customer avatar_url w :
  let r := SyncService._queue_avatar_upload env customer avatar_url w in
  r.1 = Ok tt
  /\ Customer.id <$> customers (db r.2) = Customer.id <$> customers (db w)
  /\ customers_id_seq r.2 = customers_id_seq w.
Proof.
  unfold SyncService._queue_avatar_upload, try_except.
  unfold mbind, M_bind, SyncService.httpx_get. simpl.
  destruct (http_get env avatar_url) as [content|]; simpl; [|done].
  unfold CustomerManager.save. simpl.
  destruct (has_pk _ _ _); simpl; [|done].
  split; [done|]. split; [|done]. by apply update_pk_fmap.
Qed.

Lemma get_or_create_customer_ok env chat w :
  NoDup (Customer.external_id <$> customers (db w)) ->
  Forall (fun pk => pk < customers_id_seq w) (Customer.id <$> customers (db w)) ->
  let r := SyncService._get_or_create_customer env chat w in
  (exists customer, r.1 = Ok customer)
  /\ Forall (fun pk => pk < customers_id_seq r.2)
            (Customer.id <$> customers (db r.2)).
Proof.
  intros Hnd Hseq.
  unfold SyncService._get_or_create_customer, CustomerManager.get_or_create,
    CustomerManager.create, CustomerManager.filter.
  unfold mbind, M_bind, mret, M_ret.
  cbn beta iota zeta delta [db record set_customers_id_seq customers customers_id_seq].
  destruct (filter _ (customers (db w))) as [|c [|c' l]] eqn:Hf.
  - rewrite (has_pk_fresh _ _ _ Hseq), bool_decide_true by done. simpl negb.
    cbn [orb].
    set (obj := Customer.Build _ _ _ _ _). set (w1 := set_customers _ _).
    assert (Forall (fun pk => pk < customers_id_seq w1)
                   (Customer.id <$> customers (db w1))) as Hseq1.
    { subst w1 obj. simpl. rewrite fmap_app. apply Forall_app. split.
      - eapply Forall_impl; [exact Hseq|]. simpl. lia.
      - repeat constructor. }
    destruct (true && _).
    + destruct (queue_avatar_upload_ok env obj
                  (ChatCustomer.avatar_url (Chat.customer chat)) w1)
        as (Hok & Hids & Hseq').
      destruct (SyncService._queue_avatar_upload _ _ _ _) as [r2 w2].
      cbn [fst snd] in *. subst r2. split; [by eexists|].
      cbn [fst snd]. rewrite Hids, Hseq'. exact Hseq1.
    + simpl. split; [by eexists|done].
  - simpl. split; [by eexists|done].
  - exfalso.
    assert (c ∈ filter (fun c0 => Customer.external_id c0
                         = ChatCustomer.external_id (Chat.customer chat))
                  (customers (db w)))
      as [Hext Hin]%list_elem_of_filter by (rewrite Hf; left).
    by rewrite (filter_unique Customer.external_id _ _ c Hnd Hin Hext) in Hf.
Qed.

(** *** The entity writes on a well-formed index *)

Lemma deal_save_present obj update_fields w :
  has_pk Deal.id (Deal.id obj) (deals (db w)) = true ->
  exists assign,
    DealManager.save obj update_fields w
    = (Ok tt,
       set_deals (update_pk Deal.id (Deal.id obj) assign (deals (db w)))
         (record (SqlUpdate deals_tbl (Deal.id obj) update_fields) w))
    /\ forall row,
         assign row
         = Deal.Build (Deal.id row)
             (if names update_fields "external_id" then Deal.external_id obj
              else Deal.external_id row)
             (if names update_fields "customer" then Deal.customer obj
              else Deal.customer row)
             (if names update_fields "last_message_id"
              then Deal.last_message_id obj else Deal.last_message_id row)
             (if names update_fields "last_message_at"
              then Deal.last_message_at obj else Deal.last_message_at row)
             (if names update_fields "total_messages"
              then Deal.total_messages obj else Deal.total_messages row)
             (if names update_fields "sync_status" then Deal.sync_status obj
              else Deal.sync_status row).
Proof.
  intros Hpk. eexists. split; [|reflexivity].
  unfold DealManager.save. cbv zeta. cbn [db record deals]. by rewrite Hpk.
Qed.

Lemma page_steps_app l1 l2 :
  page_steps (l1 ++ l2) = page_steps l1 ++ page_steps l2.
Proof. unfold page_steps. apply omap_app. Qed.

Lemma page_steps_customer_events evs :
  Forall customer_event evs -> page_steps evs = [].
Proof.
  induction 1 as [|e evs He _ IH]; [done|].
  change (e :: evs) with ([e] ++ evs).
  rewrite page_steps_app, IH, app_nil_r. by destruct e as [| | | |[]|[]|[]| | | | |].
Qed.

Lemma create_or_update_deal_present chat customer d w :
  d ∈ deals (db w) ->
  SyncService._create_or_update_deal chat customer (Some d) w
  = (Ok (upserted chat customer d),
     set_deals (update_pk Deal.id (Deal.id d) (upserted chat customer)
                          (deals (db w)))
       (record (upsert_event (Some d) w) w)).
Proof.
  intros Hin. unfold SyncService._create_or_update_deal.
  unfold mbind, M_bind, mret, M_ret, DealManager.save. cbv zeta.
  cbn [db record deals Deal.id Deal.set_sync_status Deal.set_last_message_at
       Deal.set_last_message_id Deal.set_customer].
  assert (has_pk Deal.id (Deal.id d) (deals (db w)) = true) as ->.
  { apply has_pk_elem_of. by exists d. }
  reflexivity.
Qed.

Lemma create_or_update_deal_absent chat customer w :
  Forall (fun pk => pk < deals_id_seq w) (Deal.id <$> deals (db w)) ->
  deal_of (Chat.external_id chat) w = None ->
  let obj := Deal.Build (deals_id_seq w) (Chat.external_id chat)
               (Some (Customer.id customer))
               (ChatMessage.message_id (Chat.last_message chat))
               (Some (ChatMessage.created_at (Chat.last_message chat)))
               0 Deal.PENDING in
  SyncService._create_or_update_deal chat customer None w
  = (Ok obj,
     set_deals (deals (db w) ++ [obj])
       (record (upsert_event None w) (set_deals_id_seq (S (deals_id_seq w)) w))).
Proof.
  intros Hseq Hnone. unfold SyncService._create_or_update_deal.
  unfold DealManager.create. cbv zeta.
  cbn [db record deals set_deals_id_seq deals_id_seq].
  rewrite (has_pk_fresh _ _ _ Hseq).
  change (DealManager.filter_external_id (Chat.external_id chat)
            (record (SqlInsert deals_tbl (deals_id_seq w))
               (set_deals_id_seq (S (deals_id_seq w)) w)))
    with (DealManager.filter_external_id (Chat.external_id chat) w).
  unfold deal_of, DealManager.filter_external_id, DealManager.ordered in *.
  apply first_merge_sort_None in Hnone. rewrite Hnone. reflexivity.
Qed.

Lemma finalize_present deal w :
  has_pk Deal.id (Deal.id deal) (deals (db w)) = true ->
  DealManager.save
    (Deal.set_total_messages
       (Deal.total_messages (Deal.set_sync_status Deal.COMPLETE deal) + 1)
       (Deal.set_sync_status Deal.COMPLETE deal))
    ["sync_status"; "total_messages"; "updated_at"] w
  = (Ok tt,
     set_deals (update_pk Deal.id (Deal.id deal)
                  (finalized (Deal.total_messages deal + 1)) (deals (db w)))
       (record (SqlUpdate deals_tbl (Deal.id deal)
                  ["sync_status"; "total_messages"; "updated_at"]) w)).
Proof.
  intros Hpk. unfold DealManager.save. cbv zeta.
  cbn [db record deals Deal.id Deal.set_sync_status Deal.set_total_messages
       Deal.total_messages].
  rewrite Hpk. reflexivity.
Qed.

Lemma sync_chat_atomic_spec env chat w :
  index_wf w ->
  let ext := Chat.external_id chat in
  let msg := ChatMessage.message_id (Chat.last_message chat) in
  let existing := deal_of ext w in
  let r := SyncService._sync_chat_atomic env chat existing w in
  exists evs,
    log r.2 = log w ++ evs /\ page_steps evs = [Record_ ext]
    /\ index_wf r.2
    /\ if doc_put_raises env ext msg
       then (exists e, r.1 = Raise e) /\ db r.2 = db w
       else r.1 = Ok tt
            /\ completed_from chat existing (deal_of ext r.2)
            /\ forall e, e <> ext -> deal_of e r.2 = deal_of e w.
Proof.
  intros (Hids & Hexts & Hseq & Hcexts & Hcseq). cbv zeta.
  unfold SyncService._sync_chat_atomic, atomic. unfold mbind, M_bind.
  set (w0 := record SqlBegin w).
  destruct (get_or_create_customer_ok env chat w0 Hcexts Hcseq)
    as [[customer Hok] Hcseq1].
  destruct (get_or_create_customer_log env chat w0)
    as (cust & Hlog1 & Hcust & Hdeals1 & Hseq1).
  pose proof (steps_get_or_create_customer env chat w0) as [_ _ _ Hpre Hcu].
  destruct (SyncService._get_or_create_customer env chat w0) as [r1 w1].
  cbn [fst snd] in *. subst r1. subst w0.
  cbn [db record deals deals_id_seq customers log] in *.
  assert (Forall (fun pk => pk < customers_id_seq w1)
                 (Customer.id <$> customers (db w))) as Hcseq0.
  { destruct Hpre as [k Hk]. rewrite Hk, fmap_app in Hcseq1.
    by apply Forall_app in Hcseq1 as [? _]. }
  assert (deal_of (Chat.external_id chat) w1
          = deal_of (Chat.external_id chat) w) as Hsame
    by (by apply deal_of_deals).
  destruct (deal_of (Chat.external_id chat) w) as [d|] eqn:Hd.
  - destruct (deal_of_elem_of _ _ _ Hd) as [Hin Hext].
    rewrite create_or_update_deal_present by (by rewrite Hdeals1).
    unfold SyncService._save_message_to_dynamodb, MessageStore.save_message.
    cbv zeta. cbn [Deal.external_id upserted]. rewrite Hext.
    destruct (doc_put_raises env _ _) eqn:Hraises.
    + cbn [fst snd].
      eexists (([SqlBegin] ++ cust)
               ++ [upsert_event (Some d) w1; DocPut _ _; SqlRollback]).
      split; [simpl; rewrite Hlog1; by rewrite <- !app_assoc|].
      split.
      { by rewrite !page_steps_app, (page_steps_customer_events cust Hcust). }
      split; [|split; [by eexists|done]].
      unfold index_wf. simpl. by rewrite Hseq1.
    + rewrite finalize_present.
      2:{ apply has_pk_elem_of. exists (upserted chat customer d).
          split; [|done]. simpl. unfold update_pk.
          apply list_elem_of_fmap. exists d. rewrite Nat.eqb_refl, Hdeals1.
          done. }
      cbn [fst snd].
      eexists (([SqlBegin] ++ cust)
               ++ [upsert_event (Some d) w1; DocPut _ _;
                   finalize_event (Some d) w1; SqlCommit]).
      split; [simpl; rewrite Hlog1; by rewrite <- !app_assoc|].
      split.
      { by rewrite !page_steps_app, (page_steps_customer_events cust Hcust). }
      set (w' := record SqlCommit _).
      destruct (deal_of_update w w' d
                  (finalized (Deal.total_messages d + 1) ∘ upserted chat customer))
        as (Hids' & Hexts' & Hlookup); try done.
      { subst w'. simpl. rewrite Hdeals1. by apply update_pk_compose. }
      split.
      { unfold index_wf. split; [done|]. split; [done|].
        subst w'. simpl. split; [|by split; [apply Hcu|]].
        rewrite Hdeals1, Hseq1, !update_pk_fmap; done. }
      split; [done|]. split.
      * rewrite Hlookup, Hext, decide_True by done.
        eexists. split; [done|]. simpl. by rewrite Hext.
      * intros e He. by rewrite Hlookup, Hext, decide_False.
  - rewrite create_or_update_deal_absent.
    2:{ by rewrite Hdeals1, Hseq1. }
    2:{ done. }
    cbv zeta.
    unfold SyncService._save_message_to_dynamodb, MessageStore.save_message.
    cbv zeta. cbn [Deal.external_id].
    destruct (doc_put_raises env _ _) eqn:Hraises.
    + cbn [fst snd].
      eexists (([SqlBegin] ++ cust)
               ++ [upsert_event None w1; DocPut _ _; SqlRollback]).
      split; [simpl; rewrite Hlog1; by rewrite <- !app_assoc|].
      split.
      { by rewrite !page_steps_app, (page_steps_customer_events cust Hcust). }
      split; [|split; [by eexists|done]].
      unfold index_wf. simpl. rewrite Hseq1.
      split; [done|]. split; [done|]. split; [|done].
      eapply Forall_impl; [exact Hseq|]. simpl. lia.
    + rewrite finalize_present.
      2:{ apply has_pk_elem_of. eexists. split; [|done]. simpl.
          apply elem_of_app. right. left. }
      cbn [fst snd Deal.id Deal.total_messages].
      eexists (([SqlBegin] ++ cust)
               ++ [upsert_event None w1; DocPut _ _;
                   finalize_event None w1; SqlCommit]).
      split; [simpl; rewrite Hlog1; by rewrite <- !app_assoc|].
      split.
      { by rewrite !page_steps_app, (page_steps_customer_events cust Hcust). }
      set (w' := record SqlCommit _).
      set (row := Deal.Build (deals_id_seq w) (Chat.external_id chat)
                    (Some (Customer.id customer))
                    (ChatMessage.message_id (Chat.last_message chat))
                    (Some (ChatMessage.created_at (Chat.last_message chat)))
                    1 Deal.COMPLETE).
      assert (deals (db w') = deals (db w) ++ [row]) as Hrows.
      { subst w'. simpl. rewrite Hdeals1, Hseq1, update_pk_app.
        rewrite update_pk_absent by (by apply has_pk_fresh).
        simpl. by rewrite Nat.eqb_refl. }
      destruct (deal_of_insert w w' row) as (Hexts' & Hlookup); try done.
      split.
      { unfold index_wf. rewrite Hrows. split.
        { rewrite fmap_app. apply NoDup_app. split; [done|].
          split; [|apply NoDup_singleton].
          intros pk Hpk ->%list_elem_of_singleton.
          rewrite Forall_forall in Hseq. specialize (Hseq _ Hpk). simpl in Hseq.
          lia. }
        split; [by rewrite <- Hrows|].
        subst w'. simpl. rewrite Hseq1. split; [|by split; [apply Hcu|]].
        rewrite fmap_app. apply Forall_app. split.
        - eapply Forall_impl; [exact Hseq|]. simpl. lia.
        - repeat constructor. }
      split; [done|]. split.
      * rewrite Hlookup. simpl. rewrite decide_True by done.
        eexists. split; [done|]. done.
      * intros e He. rewrite Hlookup. simpl. by rewrite decide_False.
Qed.

(** *** The Run State writes of the engine *)

Lemma index_same_wf w w' : index_same w w' -> index_wf w -> index_wf w'.
Proof. unfold index_wf. by intros (-> & -> & -> & ->). Qed.

Lemma index_same_deal_of w w' e : index_same w w' -> deal_of e w' = deal_of e w.
Proof. intros (Hd & _). by apply deal_of_deals. Qed.

Lemma sync_state_save_row obj fields st w :
  st ∈ sync_states (db w) ->
  obj
  = SyncState.Build (SyncState.id st)
      (if names fields "task_id" then SyncState.task_id obj
       else SyncState.task_id st)
      (if names fields "status" then SyncState.status obj
       else SyncState.status st)
      (if names fields "cursor" then SyncState.cursor obj
       else SyncState.cursor st)
      (if names fields "max_date" then SyncState.max_date obj
       else SyncState.max_date st)
      (if names fields "processed_chats" then SyncState.processed_chats obj
       else SyncState.processed_chats st)
      (if names fields "error_message" then SyncState.error_message obj
       else SyncState.error_message st)
      (SyncState.started_at st) ->
  exists w',
    SyncStateManager.save obj fields w = (Ok tt, w')
    /\ log w' = log w ++ [SqlUpdate sync_states_tbl (SyncState.id st) fields]
    /\ index_same w w'
    /\ cache w' = cache w
    /\ obj ∈ sync_states (db w').
Proof.
  intros Hin Hobj.
  assert (SyncState.id obj = SyncState.id st) as Hid by (by rewrite Hobj).
  unfold SyncStateManager.save. cbv zeta. cbn [db record sync_states].
  rewrite Hid.
  assert (has_pk SyncState.id (SyncState.id st) (sync_states (db w)) = true)
    as -> by (apply has_pk_elem_of; by exists st).
  eexists. split; [reflexivity|]. split; [done|].
  split; [done|]. split; [done|]. simpl.
  unfold update_pk. apply list_elem_of_fmap. exists st.
  rewrite Nat.eqb_refl. split; [|done]. exact Hobj.
Qed.

Lemma state_save_present_tzinfo (f : SyncState.t -> SyncState.t) fields st w
    tzinfo :
  st ∈ sync_states (db w) ->
  f st
  = SyncState.Build (SyncState.id st)
      (if names fields "task_id" then SyncState.task_id (f st)
       else SyncState.task_id st)
      (if names fields "status" then SyncState.status (f st)
       else SyncState.status st)
      (if names fields "cursor" then SyncState.cursor (f st)
       else SyncState.cursor st)
      (if names fields "max_date" then SyncState.max_date (f st)
       else SyncState.max_date st)
      (if names fields "processed_chats" then SyncState.processed_chats (f st)
       else SyncState.processed_chats st)
      (if names fields "error_message" then SyncState.error_message (f st)
       else SyncState.error_message st)
      (SyncState.started_at st) ->
  exists w',
    (SyncService.set_state f;;
     s ← get;
     SyncService.lift (SyncStateManager.save (SyncService.state s) fields))
      (SyncService.Build_self st w tzinfo)
    = (Ok tt, SyncService.Build_self (f st) w' tzinfo)
    /\ log w' = log w ++ [SqlUpdate sync_states_tbl (SyncState.id st) fields]
    /\ index_same w w'
    /\ f st ∈ sync_states (db w').
Proof.
  intros Hin Hf.
  destruct (sync_state_save_row (f st) fields st w Hin Hf)
    as (w' & Hsave & Hlog & Hsame & _ & Hrow).
  exists w'. unfold_monad.
  cbn beta iota zeta delta [SyncService.state SyncService.world SyncService.max_date_tzinfo fst snd].
  by rewrite Hsave.
Qed.

Lemma state_save_present (f : SyncState.t -> SyncState.t) fields st w :
  st ∈ sync_states (db w) ->
  f st
  = SyncState.Build (SyncState.id st)
      (if names fields "task_id" then SyncState.task_id (f st)
       else SyncState.task_id st)
      (if names fields "status" then SyncState.status (f st)
       else SyncState.status st)
      (if names fields "cursor" then SyncState.cursor (f st)
       else SyncState.cursor st)
      (if names fields "max_date" then SyncState.max_date (f st)
       else SyncState.max_date st)
      (if names fields "processed_chats" then SyncState.processed_chats (f st)
       else SyncState.processed_chats st)
      (if names fields "error_message" then SyncState.error_message (f st)
       else SyncState.error_message st)
      (SyncState.started_at st) ->
  exists w',
    (SyncService.set_state f;;
     s ← get;
     SyncService.lift (SyncStateManager.save (SyncService.state s) fields))
      (SyncService.Build st w)
    = (Ok tt, SyncService.Build (f st) w')
    /\ log w' = log w ++ [SqlUpdate sync_states_tbl (SyncState.id st) fields]
    /\ index_same w w'
    /\ f st ∈ sync_states (db w').
Proof.
  intros Hin Hf.
  destruct (sync_state_save_row (f st) fields st w Hin Hf)
    as (w' & Hsave & Hlog & Hsame & _ & Hrow).
  exists w'. unfold_monad.
  cbn beta iota zeta delta [SyncService.state SyncService.world SyncService.max_date_tzinfo fst snd].
  by rewrite Hsave.
Qed.

Lemma process_chat_pending env chat s :
  engine_ready s ->
  SyncService.max_date_tzinfo s = true ->
  SyncState.max_date (SyncService.state s) = None ->
  changed (SyncService.world s) chat ->
  let ext := Chat.external_id chat in
  let msg := ChatMessage.message_id (Chat.last_message chat) in
  let raises := doc_put_raises env ext msg in
  exists s' evs,
    SyncService._process_chat env chat s = (Ok false, s')
    /\ engine_ready s'
    /\ SyncService.state s'
       = (if raises then SyncService.state s
          else SyncState.set_processed_chats
                 (SyncState.processed_chats (SyncService.state s) + 1)
                 (SyncService.state s))
    /\ log (SyncService.world s') = log (SyncService.world s) ++ evs
    /\ page_steps evs = [Record_ ext]
    /\ (if raises
        then failed_from (deal_of ext (SyncService.world s))
                         (deal_of ext (SyncService.world s'))
        else completed_from chat (deal_of ext (SyncService.world s))
                            (deal_of ext (SyncService.world s')))
    /\ forall e, e <> ext ->
         deal_of e (SyncService.world s') = deal_of e (SyncService.world s).
Proof.
  destruct s as [st w tz]. unfold engine_ready, changed. simpl.
  intros [Hwf Hpk] -> Hmax Hchanged.
  rewrite process_chat_tzinfo. unfold_monad.
  cbn beta iota zeta delta [SyncService.state SyncService.world SyncService.max_date_tzinfo].
  rewrite Hmax. unfold SyncService.existing_deal_of.
  cbn beta iota zeta delta [SyncService.state SyncService.world SyncService.max_date_tzinfo].
  change (first (DealManager.filter_external_id (Chat.external_id chat) w))
    with (deal_of (Chat.external_id chat) w).
  set (w1 := record (SqlSelect deals_tbl) w).
  assert (match deal_of (Chat.external_id chat) w with
          | Some existing_deal =>
              bool_decide (Deal.last_message_id existing_deal
                           = ChatMessage.message_id (Chat.last_message chat))
          | None => false
          end = false) as ->.
  { destruct (deal_of _ w) as [d|]; [|done]. apply bool_decide_eq_false.
    simpl in Hchanged. congruence. }
  destruct (sync_chat_atomic_spec env chat w1 Hwf)
    as (evs & Hlog & Hsteps & Hwf2 & Hcase).
  change (deal_of (Chat.external_id chat) w1)
    with (deal_of (Chat.external_id chat) w) in *.
  pose proof (steps_sync_chat_atomic env chat
                (deal_of (Chat.external_id chat) w) w1) as [Hss _ _ _ _].
  cbn beta iota zeta delta [SyncService.state SyncService.world SyncService.max_date_tzinfo].
  destruct (SyncService._sync_chat_atomic env chat _ w1) as [r2 w2].
  cbn [fst snd] in *.
  cbn beta iota zeta delta [SyncService.state SyncService.world SyncService.max_date_tzinfo].
  subst w1. cbn [db record log sync_states] in *.
  destruct (doc_put_raises env _ _).
  - destruct Hcase as [[e ->] Hdb].
    destruct (deal_of (Chat.external_id chat) w) as [d|] eqn:Hd.
    + destruct (deal_of_elem_of _ _ _ Hd) as [Hin Hext].
      cbn beta iota zeta delta [SyncService.state SyncService.world SyncService.max_date_tzinfo].
      rewrite mark_failed_rows by (by rewrite Hdb).
      destruct Hwf2 as (Hids & Hexts & Hseq & Hcexts & Hcseq).
      set (w' := set_deals _ _).
      destruct (deal_of_update w2 w' d (Deal.set_sync_status Deal.FAILED))
        as (Hids' & Hexts' & Hlookup); try done.
      { by rewrite Hdb. }
      eexists (SyncService.Build st w'), (([SqlSelect deals_tbl] ++ evs) ++ [_]).
      split; [done|]. split.
      { split; [|by subst w'; simpl; rewrite Hss].
        split; [done|]. split; [done|]. subst w'. simpl.
        split; [|done]. by rewrite update_pk_fmap. }
      split; [done|]. split.
      { subst w'. simpl. rewrite Hlog. by rewrite <- !app_assoc. }
      split; [by rewrite !page_steps_app, Hsteps|].
      cbn [SyncService.world]. split.
      * unfold failed_from. by rewrite Hlookup, Hext, decide_True.
      * intros e' He'. rewrite Hlookup, Hext, decide_False by done.
        apply deal_of_deals. by rewrite Hdb.
    + eexists (SyncService.Build st w2), ([SqlSelect deals_tbl] ++ evs).
      split; [done|]. split; [by split; [|simpl; rewrite Hss]|].
      split; [done|]. split; [by simpl; rewrite Hlog, <- app_assoc|].
      split; [by rewrite page_steps_app, Hsteps|].
      cbn [SyncService.world]. split.
      * unfold failed_from. simpl. rewrite <- Hd. apply deal_of_deals.
        by rewrite Hdb.
      * intros e' _. apply deal_of_deals. by rewrite Hdb.
  - destruct Hcase as (-> & Hdone & Hothers).
    unfold SyncService._increment_processed.
    destruct (state_save_present
                (fun st => SyncState.set_processed_chats
                             (SyncState.processed_chats st + 1) st)
                ["processed_chats"; "updated_at"] st w2)
      as (w3 & -> & Hlog3 & Hsame & Hpk3);
      [by rewrite Hss|by destruct st|].
    eexists (SyncService.Build _ w3), (([SqlSelect deals_tbl] ++ evs) ++ [_]).
    split; [done|]. split.
    { split; [by apply (index_same_wf w2)|done]. }
    split; [done|]. split.
    { simpl. rewrite Hlog3, Hlog. by rewrite <- !app_assoc. }
    split; [by rewrite !page_steps_app, Hsteps|].
    cbn [SyncService.world]. split.
    + by rewrite (index_same_deal_of w2 w3).
    + intros e' He'. rewrite (index_same_deal_of w2 w3) by done. by apply Hothers.
Qed.

(** *** A page of new or changed records *)

Lemma set_processed_chats_same st :
  SyncState.set_processed_chats (SyncState.processed_chats st + 0) st = st.
Proof. destruct st. unfold SyncState.set_processed_chats. simpl. by rewrite Nat.add_0_r. Qed.

Lemma process_chats_pending env chats s :
  engine_ready s ->
  SyncService.max_date_tzinfo s = true ->
  SyncState.max_date (SyncService.state s) = None ->
  NoDup (Chat.external_id <$> chats) ->
  Forall (changed (SyncService.world s)) chats ->
  exists s' evs,
    SyncService._process_chats env chats s = (Ok false, s')
    /\ engine_ready s'
    /\ SyncService.state s'
       = SyncState.set_processed_chats
           (SyncState.processed_chats (SyncService.state s)
            + succeeded env chats)
           (SyncService.state s)
    /\ log (SyncService.world s') = log (SyncService.world s) ++ evs
    /\ page_steps evs = Record_ <$> (Chat.external_id <$> chats)
    /\ Forall (record_outcome env (SyncService.world s) (SyncService.world s'))
              chats
    /\ forall e, e ∉ Chat.external_id <$> chats ->
         deal_of e (SyncService.world s') = deal_of e (SyncService.world s).
Proof.
  revert s. induction chats as [|chat chats IH]; intros s Hready Htz Hmax Hnd Hch.
  - exists s, []. simpl. split; [done|]. split; [done|].
    split; [by rewrite set_processed_chats_same|].
    split; [by rewrite app_nil_r|]. done.
  - apply NoDup_cons in Hnd as [Hnotin Hnd].
    apply Forall_cons in Hch as [Hchat Hch].
    destruct (process_chat_pending env chat s Hready Htz Hmax Hchat)
      as (s1 & evs1 & Hrun1 & Hready1 & Hst1 & Hlog1 & Hsteps1 & Hout1 & Hoth1).
    assert (SyncState.max_date (SyncService.state s1) = None) as Hmax1.
    { rewrite Hst1. by destruct (doc_put_raises _ _ _). }
    assert (SyncService.max_date_tzinfo s1 = true) as Htz1.
    { pose proof (process_chat_engine_frame env chat s) as Hframe.
      rewrite Hrun1 in Hframe. destruct Hframe. simpl in *. congruence. }
    destruct (IH s1 Hready1 Htz1 Hmax1 Hnd)
      as (s2 & evs2 & Hrun2 & Hready2 & Hst2 & Hlog2 & Hsteps2 & Hout2 & Hoth2).
    { rewrite Forall_forall in Hch |- *. intros c Hc.
      specialize (Hch c Hc). unfold changed in *. rewrite Hoth1; [done|].
      intros Heq. apply Hnotin. rewrite <- Heq.
      by apply list_elem_of_fmap_2. }
    exists s2, (evs1 ++ evs2).
    split. { simpl. unfold_monad. by rewrite Hrun1. }
    split; [done|]. split.
    { rewrite Hst2, Hst1. unfold succeeded, raises.
      rewrite filter_cons. destruct (doc_put_raises _ _ _) eqn:Hr.
      - by rewrite decide_False.
      - rewrite decide_True by done. destruct (SyncService.state s).
        unfold SyncState.set_processed_chats. simpl. f_equal. lia. }
    split; [by rewrite Hlog2, Hlog1, app_assoc|].
    split; [by rewrite page_steps_app, Hsteps1, Hsteps2|].
    split.
    + apply Forall_cons. split.
      * unfold record_outcome, raises in *. by rewrite (Hoth2 _ Hnotin).
      * rewrite Forall_forall in Hout2 |- *. intros c Hc.
        specialize (Hout2 c Hc). unfold record_outcome in *.
        rewrite Hoth1 in Hout2; [done|].
        intros Heq. apply Hnotin. rewrite <- Heq. by apply list_elem_of_fmap_2.
    + intros e [He1 He2]%not_elem_of_cons.
      rewrite Hoth2, Hoth1; done.
Qed.

(** *** One turn of the page loop *)

Lemma run_loop_page env api_client fuel cursor s page :
  engine_ready s ->
  SyncService.max_date_tzinfo s = true ->
  SyncState.max_date (SyncService.state s) = None ->
  (MockExternalAPIClient.get_chats env api_client cursor (SyncService.world s)).1
  = Ok page ->
  NoDup (Chat.external_id <$> ChatPage.chats page) ->
  Forall (changed (SyncService.world s)) (ChatPage.chats page) ->
  exists s' evs,
    SyncService.run_loop env api_client (S fuel) cursor s
    = (if negb (ChatPage.has_more page) then (Ok tt, s')
       else SyncService.run_loop env api_client fuel
              (ChatPage.next_cursor page) s')
    /\ engine_ready s'
    /\ SyncService.max_date_tzinfo s' = true
    /\ SyncService.state s'
       = persisted (ChatPage.next_cursor page)
           (SyncState.set_processed_chats
              (SyncState.processed_chats (SyncService.state s)
               + succeeded env (ChatPage.chats page))
              (SyncService.state s))
    /\ log (SyncService.world s') = log (SyncService.world s) ++ evs
    /\ page_steps evs
       = [Fetch cursor] ++ (Record_ <$> (Chat.external_id <$> ChatPage.chats page))
         ++ persist_steps (ChatPage.next_cursor page)
    /\ Forall (record_outcome env (SyncService.world s) (SyncService.world s'))
              (ChatPage.chats page)
    /\ forall e, e ∉ Chat.external_id <$> ChatPage.chats page ->
         deal_of e (SyncService.world s') = deal_of e (SyncService.world s).
Proof.
  intros Hready Htz Hmax Hget Hnd Hch. destruct s as [st w tz].
  simpl in Htz. subst tz.
  cbn [SyncService.run_loop]. unfold SyncService._process_page.
  unfold mbind at 1, M_bind at 1. unfold SyncService.lift at 1.
  cbn [SyncService.state SyncService.world SyncService.max_date_tzinfo] in *.
  pose proof (get_chats_world env api_client cursor w) as Hw.
  destruct (MockExternalAPIClient.get_chats env api_client cursor w) as [r0 w0].
  cbn [fst snd] in *. subst r0 w0.
  destruct (process_chats_pending env (ChatPage.chats page)
              (SyncService.Build st (record (ApiGetChats cursor) w)))
    as (s1 & evs1 & Hrun1 & Hready1 & Hst1 & Hlog1 & Hsteps1 & Hout1 & Hoth1);
    try done.
  unfold mbind at 1, M_bind at 1. rewrite Hrun1.
  assert (SyncService.max_date_tzinfo s1 = true) as Htz1.
  { pose proof (process_chats_engine_frame env (ChatPage.chats page)
                  (SyncService.Build st (record (ApiGetChats cursor) w)))
      as Hframe.
    rewrite Hrun1 in Hframe. by destruct Hframe. }
  cbn [SyncService.state SyncService.world SyncService.max_date_tzinfo log record] in *.
  destruct s1 as [st1 w1 tz1].
  cbn [SyncService.state SyncService.world SyncService.max_date_tzinfo] in *.
  subst tz1.
  assert (exists s' evs2,
            match ChatPage.next_cursor page with
            | Some next_cursor =>
                if bool_decide (next_cursor = "") then mret tt
                else SyncService._save_cursor next_cursor
            | None => mret tt
            end (SyncService.Build st1 w1) = (Ok tt, s')
            /\ engine_ready s'
            /\ SyncService.max_date_tzinfo s' = true
            /\ SyncService.state s' = persisted (ChatPage.next_cursor page) st1
            /\ log (SyncService.world s') = log w1 ++ evs2
            /\ page_steps evs2 = persist_steps (ChatPage.next_cursor page)
            /\ index_same w1 (SyncService.world s'))
    as (s' & evs2 & Hrun2 & Hready2 & Htz2 & Hst2 & Hlog2 & Hsteps2 & Hsame).
  { destruct Hready1 as [Hwf1 Hpk1]. simpl in Hwf1, Hpk1.
    unfold persisted, persist_steps.
    destruct (ChatPage.next_cursor page) as [c|].
    2:{ exists (SyncService.Build st1 w1), []. rewrite app_nil_r. done. }
    case_bool_decide.
    { exists (SyncService.Build st1 w1), []. rewrite app_nil_r. done. }
    unfold SyncService._save_cursor.
    destruct (state_save_present (SyncState.set_cursor c)
                ["cursor"; "updated_at"] st1 w1 Hpk1)
      as (w2 & -> & Hlog2 & Hsame & Hpk2); [by destruct st1|].
    eexists _, [_]. split; [done|]. split.
    { split; [by apply (index_same_wf w1)|done]. }
    done. }
  exists s', ([ApiGetChats cursor] ++ evs1 ++ evs2).
  split. { unfold mbind, M_bind. rewrite Hrun2. by destruct (ChatPage.has_more page). }
  split; [done|]. split; [done|]. split; [by rewrite Hst2, Hst1|].
  split; [by rewrite Hlog2, Hlog1, <- !app_assoc|].
  split; [by rewrite !page_steps_app, Hsteps1, Hsteps2|].
  split.
  - eapply Forall_impl; [exact Hout1|]. intros c. unfold record_outcome.
    by rewrite (index_same_deal_of w1 (SyncService.world s')).
  - intros e He. rewrite (index_same_deal_of w1 (SyncService.world s')) by done.
    by rewrite Hoth1.
Qed.

(** *** The task around a new run *)

Lemma get_or_create_sync_state_fresh env task_id max_date parsed_date w :
  Forall (fun r => ~ incomplete r
                   /\ SyncState.id r < sync_states_id_seq w
                   /\ SyncState.task_id r <> task_id)
         (sync_states (db w)) ->
  (forall w', tasks.parse_max_date env max_date w' = (Ok parsed_date, w')) ->
  let obj := SyncState.Build (sync_states_id_seq w) task_id SyncState.PENDING
               "" (get_prep_value <$> parsed_date) 0 "" (now w) in
  tasks._get_or_create_sync_state env task_id max_date w
  = (Ok (SyncState.Instance obj (from_option has_tzinfo true parsed_date)),
     set_sync_states (sync_states (db w) ++ [obj])
       (record (SqlInsert sync_states_tbl (sync_states_id_seq w))
          (set_sync_states_id_seq (S (sync_states_id_seq w))
             (record (SqlSelect sync_states_tbl) w)))).
Proof.
  intros Hrows Hparse. unfold tasks._get_or_create_sync_state. cbv zeta.
  unfold SyncStateManager.filter_status_in, SyncStateManager.ordered.
  assert (filter (fun s => SyncState.status s
                           ∈ [SyncState.RUNNING; SyncState.PENDING])
                 (sync_states (db w)) = []) as ->.
  { induction Hrows as [|r rows (Hr & _) _ IH]; [done|].
    rewrite filter_cons, decide_False by done. exact IH. }
  simpl first. cbv iota.
  unfold mbind at 1, M_bind at 1. rewrite Hparse.
  unfold mbind at 1, M_bind at 1.
  unfold SyncStateManager.create. cbv zeta.
  cbn [db record sync_states set_sync_states_id_seq sync_states_id_seq now].
  rewrite has_pk_fresh.
  2:{ apply Forall_fmap. eapply Forall_impl; [exact Hrows|]. by intros r (_ & ? & _). }
  assert (existsb (fun s => bool_decide (SyncState.task_id s = task_id))
                  (sync_states (db w)) = false) as ->; [|done].
  induction Hrows as [|r rows (_ & _ & Hr) _ IH]; [done|].
  simpl. by rewrite bool_decide_false, IH.
Qed.

Lemma sync_chats_task_fresh env api_client req max_date parsed_date fuel w :
  can_start (tasks.id req) w ->
  (forall w', tasks.parse_max_date env max_date w' = (Ok parsed_date, w')) ->
  exists s0 evs0,
    SyncService.state s0
    = SyncState.Build (sync_states_id_seq w) (tasks.id req) SyncState.RUNNING
        "" (get_prep_value <$> parsed_date) 0 "" (now w)
    /\ SyncService.max_date_tzinfo s0 = from_option has_tzinfo true parsed_date
    /\ SyncService.state s0 ∈ sync_states (db (SyncService.world s0))
    /\ index_same w (SyncService.world s0)
    /\ log (SyncService.world s0) = log w ++ evs0
    /\ page_steps evs0 = []
    /\ forall s',
         SyncService.run env api_client fuel s0 = (Ok tt, s') ->
         SyncService.state s' ∈ sync_states (db (SyncService.world s')) ->
         exists w' evs1,
           tasks.sync_chats_task env api_client req max_date fuel w
           = (Ok (tasks.completed
                    (SyncState.processed_chats (SyncService.state s'))
                    (SyncState.task_id (SyncService.state s'))), w')
           /\ SyncState.set_status SyncState.COMPLETED (SyncService.state s')
              ∈ sync_states (db w')
           /\ index_same (SyncService.world s') w'
           /\ log w' = log (SyncService.world s') ++ evs1
           /\ page_steps evs1 = []
           /\ cache w' !! tasks.SYNC_LOCK_KEY = None.
Proof.
  intros [Hlock Hrows] Hparse.
  unfold tasks.sync_chats_task, tasks.cache_add. cbv zeta.
  cbn [cache record]. rewrite Hlock.
  unfold try_finally, try_except, tasks.sync_chats_task_try.
  unfold mbind at 1, M_bind at 1. unfold tasks.lift at 1.
  set (w1 := set_cache _ _).
  rewrite (get_or_create_sync_state_fresh env (tasks.id req) max_date
             parsed_date w1) by done.
  cbv zeta.
  set (st0 := SyncState.Build (sync_states_id_seq w1) (tasks.id req)
                SyncState.PENDING "" (get_prep_value <$> parsed_date) 0 ""
                (now w1)).
  set (w2 := set_sync_states _ _).
  unfold tasks.with_state. unfold_monad.
  cbn beta iota zeta delta [SyncService.state SyncService.world SyncService.max_date_tzinfo
                            SyncState.row SyncState.max_date_tzinfo].
  destruct (sync_state_save_row (SyncState.set_status SyncState.RUNNING st0)
              ["status"; "updated_at"] st0 w2)
    as (w3 & -> & Hlog3 & Hsame3 & Hcache3 & Hrow3); [|done|].
  { subst w2. simpl. apply elem_of_app. right. left. }
  exists (SyncService.Build_self (SyncState.set_status SyncState.RUNNING st0) w3
            (from_option has_tzinfo true parsed_date)).
  eexists ([CacheAdd tasks.SYNC_LOCK_KEY; SqlSelect sync_states_tbl;
            SqlInsert sync_states_tbl _] ++ [_]).
  split; [done|]. split; [done|]. split; [done|]. split.
  { unfold index_same in *. cbn [SyncService.world].
    destruct Hsame3 as (-> & -> & -> & ->). done. }
  split.
  { cbn [SyncService.world]. rewrite Hlog3. subst w2 w1. simpl.
    by rewrite <- !app_assoc. }
  split; [done|].
  intros [st4 w4 tz4] Hrun Hrow4. rewrite Hrun.
  cbn beta iota zeta delta [SyncService.state SyncService.world SyncService.max_date_tzinfo] in *.
  destruct (sync_state_save_row (SyncState.set_status SyncState.COMPLETED st4)
              ["status"; "updated_at"] st4 w4 Hrow4)
    as (w5 & -> & Hlog5 & Hsame5 & Hcache5 & Hrow5); [by destruct st4|].
  cbn beta iota zeta delta [SyncService.state SyncService.world SyncService.max_date_tzinfo].
  unfold tasks.lift, tasks.cache_delete.
  eexists _, [_; CacheDelete tasks.SYNC_LOCK_KEY].
  split; [reflexivity|]. split; [done|]. split.
  { unfold index_same in *. cbn [SyncService.world].
    destruct Hsame5 as (<- & <- & <- & <-). done. }
  split; [simpl; rewrite Hlog5; by rewrite <- !app_assoc|].
  split; [done|]. simpl. apply lookup_delete_eq.
Qed.

(** *** A run over the pages of the source *)

Lemma succeeded_app env l1 l2 :
  succeeded env (l1 ++ l2) = succeeded env l1 + succeeded env l2.
Proof. unfold succeeded. by rewrite filter_app, length_app. Qed.

Lemma persisted_set_processed_chats c n st :
  SyncState.set_processed_chats
    (SyncState.processed_chats (persisted c st) + n) (persisted c st)
  = persisted c
      (SyncState.set_processed_chats (SyncState.processed_chats st + n) st).
Proof. unfold persisted. destruct c as [c|]; [|done]. by case_bool_decide. Qed.

Lemma set_processed_chats_twice n m st :
  SyncState.set_processed_chats
    (SyncState.processed_chats
       (SyncState.set_processed_chats (SyncState.processed_chats st + n) st)
     + m)
    (SyncState.set_processed_chats (SyncState.processed_chats st + n) st)
  = SyncState.set_processed_chats (SyncState.processed_chats st + (n + m)) st.
Proof. unfold SyncState.set_processed_chats. simpl. f_equal. lia. Qed.

Lemma run_loop_pages env api_client pages :
  forall fuel cursor s,
    length pages <= fuel ->
    serves env api_client cursor pages ->
    engine_ready s ->
    SyncService.max_date_tzinfo s = true ->
    SyncState.max_date (SyncService.state s) = None ->
    NoDup (Chat.external_id <$> records_of pages) ->
    Forall (changed (SyncService.world s)) (records_of pages) ->
    exists s' evs,
      SyncService.run_loop env api_client fuel cursor s = (Ok tt, s')
      /\ engine_ready s'
      /\ SyncService.state s'
         = after_pages pages
             (SyncState.set_processed_chats
                (SyncState.processed_chats (SyncService.state s)
                 + succeeded env (records_of pages))
                (SyncService.state s))
      /\ log (SyncService.world s') = log (SyncService.world s) ++ evs
      /\ page_steps evs = script cursor pages
      /\ Forall (record_outcome env (SyncService.world s) (SyncService.world s'))
                (records_of pages)
      /\ forall e, e ∉ Chat.external_id <$> records_of pages ->
           deal_of e (SyncService.world s') = deal_of e (SyncService.world s).
Proof.
  induction pages as [|page pages IH]; [by intros ? ? ? _ []|].
  intros fuel cursor s Hfuel [Hget Hrest] Hready Htz Hmax Hnd Hch.
  destruct fuel as [|fuel]; [simpl in Hfuel; lia|].
  simpl in Hfuel. apply le_S_n in Hfuel.
  change (records_of (page :: pages))
    with (ChatPage.chats page ++ records_of pages) in *.
  rewrite fmap_app in Hnd. apply NoDup_app in Hnd as (Hnd1 & Hdisj & Hnd2).
  apply Forall_app in Hch as [Hch1 Hch2].
  destruct (run_loop_page env api_client fuel cursor s page)
    as (s1 & evs1 & Hrun1 & Hready1 & Htz1 & Hst1 & Hlog1 & Hsteps1 & Hout1
        & Hoth1);
    try done.
  assert (SyncState.max_date (SyncService.state s1) = None) as Hmax1.
  { rewrite Hst1. unfold persisted.
    destruct (ChatPage.next_cursor page); [case_bool_decide|]; done. }
  rewrite Hrun1. destruct (ChatPage.has_more page); simpl negb; cbv iota.
  - destruct (IH fuel (ChatPage.next_cursor page) s1)
      as (s2 & evs2 & Hrun2 & Hready2 & Hst2 & Hlog2 & Hsteps2 & Hout2 & Hoth2);
      try done.
    { rewrite Forall_forall in Hch2 |- *. intros c Hc.
      specialize (Hch2 c Hc). unfold changed in *. rewrite Hoth1; [done|].
      intros Hin. eapply Hdisj; [exact Hin|]. by apply list_elem_of_fmap_2. }
    exists s2, (evs1 ++ evs2). split; [done|]. split; [done|]. split.
    { rewrite Hst2, Hst1, persisted_set_processed_chats.
      by rewrite set_processed_chats_twice, succeeded_app. }
    split; [by rewrite Hlog2, Hlog1, app_assoc|].
    split. { rewrite page_steps_app, Hsteps1, Hsteps2. simpl.
             by rewrite <- !app_assoc. }
    split.
    + apply Forall_app. split.
      * rewrite Forall_forall in Hout1 |- *. intros c Hc.
        specialize (Hout1 c Hc). unfold record_outcome in *.
        rewrite Hoth2; [done|]. apply Hdisj. by apply list_elem_of_fmap_2.
      * rewrite Forall_forall in Hout2 |- *. intros c Hc.
        specialize (Hout2 c Hc). unfold record_outcome in *.
        rewrite Hoth1 in Hout2; [done|].
        intros Hin. eapply Hdisj; [exact Hin|]. by apply list_elem_of_fmap_2.
    + intros e He. rewrite fmap_app in He.
      apply not_elem_of_app in He as [He1 He2]. by rewrite Hoth2, Hoth1.
  - subst pages. exists s1, evs1. split; [done|]. split; [done|].
    change (records_of []) with (@nil Chat.t) in *. rewrite app_nil_r.
    split; [done|]. split; [done|].
    split; [by rewrite Hsteps1; simpl; rewrite !app_nil_r|].
    split; [done|]. exact Hoth1.
Qed.

Lemma after_pages_columns pages st :
  SyncState.processed_chats (after_pages pages st)
  = SyncState.processed_chats st
  /\ SyncState.task_id (after_pages pages st) = SyncState.task_id st.
Proof.
  revert st. unfold after_pages.
  induction pages as [|page pages IH]; intros st; [done|].
  simpl. destruct (IH (persisted (ChatPage.next_cursor page) st)) as [-> ->].
  unfold persisted.
  destruct (ChatPage.next_cursor page); [case_bool_decide|]; done.
Qed.

Lemma sync_chats_task_pages env api_client req pages fuel w :
  length pages <= fuel ->
  serves env api_client None pages ->
  can_start (tasks.id req) w ->
  index_wf w ->
  NoDup (Chat.external_id <$> records_of pages) ->
  Forall (changed w) (records_of pages) ->
  let r := tasks.sync_chats_task env api_client req None fuel w in
  let n := succeeded env (records_of pages) in
  r.1 = Ok (tasks.completed n (tasks.id req))
  /\ SyncState.set_status SyncState.COMPLETED
       (after_pages pages
          (SyncState.Build (sync_states_id_seq w) (tasks.id req)
             SyncState.RUNNING "" None n "" (now w)))
     ∈ sync_states (db r.2)
  /\ (exists evs, log r.2 = log w ++ evs /\ page_steps evs = script None pages)
  /\ Forall (record_outcome env w r.2) (records_of pages)
  /\ (forall e, e ∉ Chat.external_id <$> records_of pages ->
        deal_of e r.2 = deal_of e w)
  /\ index_wf r.2
  /\ cache r.2 !! tasks.SYNC_LOCK_KEY = None.
Proof.
  intros Hfuel Hserves Hstart Hwf Hnd Hch. cbv zeta.
  destruct (sync_chats_task_fresh env api_client req None None fuel w Hstart)
    as ([st0 w0 tz0] & evs0 & Hst0 & Htz0 & Hrow0 & Hsame0 & Hlog0 & Hsteps0
        & Htask); [done|].
  cbn [SyncService.state SyncService.world SyncService.max_date_tzinfo
       from_option] in *. subst st0 tz0.
  set (st0 := SyncState.Build (sync_states_id_seq w) (tasks.id req)
                SyncState.RUNNING "" None 0 "" (now w)) in *.
  destruct (run_loop_pages env api_client pages fuel None
              (SyncService.Build st0 w0) Hfuel Hserves)
    as ([st1 w1 tz1] & evs1 & Hrun & [Hwf1 Hrow1] & Hst1 & Hlog1 & Hsteps1
        & Hout1 & Hoth1); try done.
  { split; [by apply (index_same_wf w)|done]. }
  { eapply Forall_impl; [exact Hch|]. intros c. unfold changed.
    by rewrite (index_same_deal_of w w0). }
  cbn [SyncService.state SyncService.world SyncService.max_date_tzinfo] in *.
  destruct (Htask (SyncService.Build_self st1 w1 tz1))
    as (w2 & evs2 & Hres & Hrow2 & Hsame2 & Hlog2 & Hsteps2 & Hlock2);
    [exact Hrun|done|].
  cbn [SyncService.state SyncService.world SyncService.max_date_tzinfo] in *.
  change (SyncState.set_processed_chats _ _)
    with (SyncState.Build (sync_states_id_seq w) (tasks.id req)
            SyncState.RUNNING "" None (succeeded env (records_of pages))
            "" (now w)) in Hst1.
  destruct (after_pages_columns pages
              (SyncState.Build (sync_states_id_seq w) (tasks.id req)
                 SyncState.RUNNING "" None (succeeded env (records_of pages))
                 "" (now w))) as [Hn Htid].
  rewrite Hres. cbn [fst snd]. rewrite Hst1.
  split; [by rewrite Hn, Htid|]. split; [by rewrite <- Hst1|].
  split.
  { exists (evs0 ++ evs1 ++ evs2). split.
    - by rewrite Hlog2, Hlog1, Hlog0, <- !app_assoc.
    - by rewrite !page_steps_app, Hsteps0, Hsteps1, Hsteps2, app_nil_r. }
  split.
  { eapply Forall_impl; [exact Hout1|]. intros c. unfold record_outcome.
    by rewrite (index_same_deal_of w1 w2), (index_same_deal_of w w0). }
  split.
  { intros e He.
    rewrite (index_same_deal_of w1 w2), Hoth1, (index_same_deal_of w w0); done. }
  split; [by apply (index_same_wf w1)|done].
Qed.

Lemma cursor_persists_steps l : cursor_persists l = persists_in (page_steps l).
Proof.
  unfold cursor_persists, persists_in, page_steps.
  induction l as [|e l IH]; [done|]. simpl.
  destruct e as [| | | | | |[] ? fields| | | | |]; simpl; try done.
  destruct (names fields "cursor"); simpl; by rewrite IH.
Qed.

Lemma persists_in_app l1 l2 :
  persists_in (l1 ++ l2) = persists_in l1 + persists_in l2.
Proof. unfold persists_in. by rewrite List.filter_app, length_app. Qed.

Lemma succeeded_all env chats :
  Forall (fun chat => raises env chat = false) chats ->
  succeeded env chats = length chats.
Proof.
  unfold succeeded. induction 1 as [|c l Hc _ IH]; [done|].
  rewrite filter_cons, decide_True by done. simpl. by rewrite IH.
Qed.

Lemma succeeded_ext env (f : Chat.t -> bool) chats :
  Forall (fun chat => raises env chat = f chat) chats ->
  succeeded env chats = length (filter (fun chat => f chat = false) chats).
Proof.
  unfold succeeded. induction 1 as [|c l Hc _ IH]; [done|].
  rewrite !filter_cons, Hc. case_decide; simpl; by rewrite IH.
Qed.

Lemma serves_pages_25 env : serves env (client_of 25) None pages_25.
Proof.
  simpl. split; [intros w; by vm_compute|].
  split; [intros w; by vm_compute|].
  split; [intros w; by vm_compute|done].
Qed.

Lemma serves_pages_10 env : serves env (client_of 10) None pages_10.
Proof. simpl. split; [intros w; by vm_compute|done]. Qed.

(** ** The scenarios *)

(** C3 (as stated) fails: over 25 records in pages of 10 the cursor is
    persisted twice, not three times. *)
Lemma three_cursor_persists_counterexample :
  cursor_persists (log (run_25 quiet_env 3).2) <> 3.
Proof. vm_compute. discriminate. Qed.

(** C3 (as amended): for 25 records in pages of 10 with no cutoff, started on
    any well-formed store on which the lock is free, no other run is
    incomplete, every stored message count is below the largest value of its
    column, and each of the 25 records is new or changed, the task goes
    over all 25 records and ends COMPLETED. The cursor is persisted exactly
    twice: once after the records of each page that carries a next cursor,
    before the next fetch; the last page carries none. processed_count is
    the number of records whose document write went through, 25 when none
    throws; a record whose document write throws does not change the
    persists. *)
Theorem run_over_25_records env req fuel w :
  3 <= fuel ->
  can_start (tasks.id req) w ->
  index_wf w ->
  counters_below_max w ->
  Forall (changed w) (records 25) ->
  let r := tasks.sync_chats_task env (client_of 25) req None fuel w in
  let n := succeeded env (records 25) in
  r.1 = Ok (tasks.completed n (tasks.id req))
  /\ SyncState.Build (sync_states_id_seq w) (tasks.id req) SyncState.COMPLETED
       "Mg==" None n "" (now w)
     ∈ sync_states (db r.2)
  /\ (exists evs,
        log r.2 = log w ++ evs
        /\ page_steps evs
           = [Fetch None] ++ (Record_ <$> chat_ids 0 10)
             ++ [Persist; Fetch (Some "MQ==")] ++ (Record_ <$> chat_ids 10 10)
             ++ [Persist; Fetch (Some "Mg==")] ++ (Record_ <$> chat_ids 20 5))
  /\ cursor_persists (log r.2) = cursor_persists (log w) + 2
  /\ Forall (record_outcome env w r.2) (records 25)
  /\ (Forall (fun chat => raises env chat = false) (records 25) -> n = 25).
Proof.
  intros Hfuel Hstart Hwf _ Hch.
  destruct (sync_chats_task_pages env (client_of 25) req pages_25 fuel w
              Hfuel (serves_pages_25 env) Hstart Hwf)
    as (Hres & Hrow & (evs & Hlog & Hsteps) & Hout & _).
  { apply (bool_decide_unpack _). by vm_compute. }
  { exact Hch. }
  cbv zeta. split; [exact Hres|]. split; [exact Hrow|].
  split; [exists evs; split; [exact Hlog|exact Hsteps]|].
  split.
  { rewrite !cursor_persists_steps, Hlog, page_steps_app, persists_in_app.
    by rewrite Hsteps. }
  split; [exact Hout|]. intros Hall. by rewrite succeeded_all.
Qed.

Lemma run_over_25_records_witness :
  (tasks.sync_chats_task quiet_env (client_of 25) request_1 None 5
     world_stale_6).1
  = Ok (tasks.completed 25 "task-1")
  /\ cursor_persists
       (log (tasks.sync_chats_task quiet_env (client_of 25) request_1 None 5
               world_stale_6).2)
     = 2.
Proof.
  destruct (run_over_25_records quiet_env request_1 5 world_stale_6)
    as (Hres & _ & _ & Hpersists & _ & Hall).
  - lia.
  - apply (bool_decide_unpack _). vm_compute. exact I.
  - apply (bool_decide_unpack _). vm_compute. exact I.
  - apply (bool_decide_unpack _). vm_compute. exact I.
  - apply (bool_decide_unpack _). vm_compute. exact I.
  - split; [|exact Hpersists]. rewrite Hres, Hall; [reflexivity|].
    apply (bool_decide_unpack _). vm_compute. exact I.
Defined.

(** C2 (as stated) fails: on an empty store the entity of record 7 is not
    FAILED after the run; it has no row. *)
Lemma record_7_marked_failed_counterexample :
  Deal.sync_status <$> deal_of "chat_0006" (run_10 record7_env (empty_world 0%Z) 1).2
  <> Some Deal.FAILED.
Proof. vm_compute. discriminate. Qed.

(** C2 (as amended): when, of the ten records of a page, exactly the document
    write of record 7 throws, on any well-formed store on which the lock is
    free, no other run is incomplete, every stored message count is below
    the largest value of its column, and each record is new or changed, the
    run goes on to completion, records 1-6 and 8-10 end COMPLETE and
    processed_count is 9. The entity of record 7 ends FAILED, with the
    columns it had, when its row existed before the run, and has no row when
    it did not. *)
Theorem run_with_record_7_failing env req fuel w :
  1 <= fuel ->
  can_start (tasks.id req) w ->
  index_wf w ->
  counters_below_max w ->
  Forall (changed w) (records 10) ->
  Forall (fun chat => raises env chat
                      = bool_decide (Chat.external_id chat = "chat_0006"))
         (records 10) ->
  let r := tasks.sync_chats_task env (client_of 10) req None fuel w in
  r.1 = Ok (tasks.completed 9 (tasks.id req))
  /\ SyncState.Build (sync_states_id_seq w) (tasks.id req) SyncState.COMPLETED
       "" None 9 "" (now w)
     ∈ sync_states (db r.2)
  /\ deal_of "chat_0006" r.2
     = Deal.set_sync_status Deal.FAILED <$> deal_of "chat_0006" w
  /\ Forall (fun chat =>
               Chat.external_id chat <> "chat_0006" ->
               completed_from chat (deal_of (Chat.external_id chat) w)
                              (deal_of (Chat.external_id chat) r.2))
            (records 10).
Proof.
  intros Hfuel Hstart Hwf _ Hch Hraises.
  destruct (sync_chats_task_pages env (client_of 10) req pages_10 fuel w
              Hfuel (serves_pages_10 env) Hstart Hwf)
    as (Hres & Hrow & _ & Hout & _).
  { apply (bool_decide_unpack _). by vm_compute. }
  { exact Hch. }
  change (records_of pages_10) with (records 10) in *.
  assert (succeeded env (records 10) = 9) as Hn.
  { rewrite (succeeded_ext env _ _ Hraises). by vm_compute. }
  rewrite Hn in Hres, Hrow. cbv zeta.
  split; [exact Hres|]. split; [exact Hrow|].
  assert (Forall (fun chat =>
            if bool_decide (Chat.external_id chat = "chat_0006")
            then failed_from (deal_of (Chat.external_id chat) w)
                   (deal_of (Chat.external_id chat)
                      (tasks.sync_chats_task env (client_of 10) req None fuel w).2)
            else completed_from chat (deal_of (Chat.external_id chat) w)
                   (deal_of (Chat.external_id chat)
                      (tasks.sync_chats_task env (client_of 10) req None fuel w).2))
           (records 10)) as Hout'.
  { rewrite Forall_forall in Hout, Hraises |- *. intros c Hc.
    specialize (Hout c Hc). unfold record_outcome in Hout.
    by rewrite (Hraises c Hc) in Hout. }
  split.
  - rewrite Forall_forall in Hout'.
    apply (Hout' (MockExternalAPIClient._generate_chat (client_of 10) 6)).
    unfold records. apply list_elem_of_fmap_2, elem_of_seqZ. lia.
  - eapply Forall_impl; [exact Hout'|]. intros c Hc Hne. simpl in Hc.
    by rewrite bool_decide_false in Hc.
Qed.

Lemma run_with_record_7_failing_witness :
  (tasks.sync_chats_task record7_env (client_of 10) request_1 None 2
     (empty_world 0%Z)).1
  = Ok (tasks.completed 9 "task-1")
  /\ deal_of "chat_0006"
       (tasks.sync_chats_task record7_env (client_of 10) request_1 None 2
          world_stale_6).2
     = Some (Deal.set_sync_status Deal.FAILED stale_deal_6).
Proof.
  split.
  - destruct (run_with_record_7_failing record7_env request_1 2
                (empty_world 0%Z)) as (Hres & _).
    + lia.
    + apply (bool_decide_unpack _). vm_compute. exact I.
    + apply (bool_decide_unpack _). vm_compute. exact I.
    + apply (bool_decide_unpack _). vm_compute. exact I.
    + apply (bool_decide_unpack _). vm_compute. exact I.
    + apply (bool_decide_unpack _). vm_compute. exact I.
    + exact Hres.
  - destruct (run_with_record_7_failing record7_env request_1 2 world_stale_6)
      as (_ & _ & Hfailed & _).
    + lia.
    + apply (bool_decide_unpack _). vm_compute. exact I.
    + apply (bool_decide_unpack _). vm_compute. exact I.
    + apply (bool_decide_unpack _). vm_compute. exact I.
    + apply (bool_decide_unpack _). vm_compute. exact I.
    + apply (bool_decide_unpack _). vm_compute. exact I.
    + exact Hfailed.
Defined.

(** ** The listing queries *)

Lemma get_queryset_visible w d :
  d ∈ DealViewSet.get_queryset w ->
  Deal.sync_status d = Deal.COMPLETE /\ Deal.customer d <> None.
Proof.
  unfold DealViewSet.get_queryset, DealManager.ordered.
  rewrite merge_sort_Permutation. by intros [? _]%list_elem_of_filter.
Qed.

Lemma complete_status w d :
  d ∈ DealManager.complete w -> Deal.sync_status d = Deal.COMPLETE.
Proof.
  unfold DealManager.complete, DealManager.ordered.
  rewrite merge_sort_Permutation. by intros [? _]%list_elem_of_filter.
Qed.

Lemma complete_elem_of w d :
  d ∈ DealManager.complete w ->
  d ∈ deals (db w) /\ Deal.sync_status d = Deal.COMPLETE.
Proof.
  unfold DealManager.complete, DealManager.ordered.
  rewrite merge_sort_Permutation. by intros [? ?]%list_elem_of_filter.
Qed.

(** C4: an entity whose sync_status is not COMPLETE, or whose counterparty
    reference is NULL, is never listed. [DealViewSet.get_queryset], the
    listing query that consumers reach, leaves it out on every store.
    [DealManager.complete], which filters on the status alone, leaves it out
    on every store that meets the persistence requirement, which is what
    the invocations leave behind: there a COMPLETE entity has its
    counterparty. *)
Theorem incomplete_entity_is_not_listed w d :
  Deal.sync_status d <> Deal.COMPLETE \/ Deal.customer d = None ->
  (d ∉ DealViewSet.get_queryset w)
  /\ (persistence w -> d ∉ DealManager.complete w).
Proof.
  intros Hd. split.
  - intros [Hstatus Hcustomer]%get_queryset_visible. by destruct Hd.
  - intros [_ Hall] [Hin Hstatus]%complete_elem_of.
    destruct Hd as [Hd|Hd]; [done|].
    rewrite Forall_forall in Hall.
    destruct (Hall d Hin Hstatus) as [Hcustomer _].
    apply Exists_exists in Hcustomer as (c & _ & Hc). congruence.
Qed.

Lemma incomplete_entity_is_not_listed_witness :
  let d := Deal.set_sync_status Deal.FAILED stale_deal_6 in
  d ∈ deals (db world_after_run_10)
  /\ (d ∉ DealViewSet.get_queryset world_after_run_10)
  /\ (d ∉ DealManager.complete world_after_run_10).
Proof.
  destruct (incomplete_entity_is_not_listed world_after_run_10
              (Deal.set_sync_status Deal.FAILED stale_deal_6))
    as [Hview Hcomplete].
  - apply (bool_decide_unpack _). vm_compute. exact I.
  - split; [|split].
    + vm_compute. left.
    + exact Hview.
    + apply Hcomplete. apply (bool_decide_unpack _). vm_compute. exact I.
Defined.

(** The invariant is needed for the manager method: on a store with a
    COMPLETE entity whose counterparty reference is NULL, which no invocation
    leaves behind, [DealManager.complete] lists the entity and
    [DealViewSet.get_queryset] does not. *)
Lemma complete_filters_on_the_status_alone :
  Deal.customer orphan_deal = None
  /\ ~ persistence world_orphan
  /\ DealManager.complete world_orphan = [orphan_deal]
  /\ DealViewSet.get_queryset world_orphan = [].
Proof.
  split; [reflexivity|]. split; [|by vm_compute].
  apply (bool_decide_unpack _). vm_compute. exact I.
Qed.

(** * Further properties *)

(** ** The cursor codec *)

(** *** Checking a property of bytes by enumeration *)

Lemma below_forallb (P : N -> bool) (n : nat) :
  forallb P (N.of_nat <$> seq 0 n) = true ->
  forall a, (a < N.of_nat n)%N -> P a = true.
Proof.
  intros Hall a Ha. rewrite forallb_forall in Hall. apply Hall.
  apply list_elem_of_In, list_elem_of_fmap. exists (N.to_nat a).
  split; [lia|]. apply elem_of_seq. lia.
Qed.

Lemma below_forallb2 (P : N -> N -> bool) (n m : nat) :
  forallb (fun a => forallb (P a) (N.of_nat <$> seq 0 m)) (N.of_nat <$> seq 0 n)
  = true ->
  forall a b, (a < N.of_nat n)%N -> (b < N.of_nat m)%N -> P a b = true.
Proof.
  intros Hall a b Ha Hb.
  apply (below_forallb (P a) m); [|done].
  by apply (below_forallb (fun a => forallb (P a) (N.of_nat <$> seq 0 m)) n).
Qed.

(** *** Base64 *)

Lemma b64_char_ascii v : (N_of_ascii (base64.b64_char v) < 128)%N.
Proof.
  unfold base64.b64_char.
  destruct (N.ltb_spec v 26); [rewrite N_ascii_embedding; lia|].
  destruct (N.ltb_spec v 52); [rewrite N_ascii_embedding; lia|].
  destruct (N.ltb_spec v 62); [rewrite N_ascii_embedding; lia|].
  by destruct (v =? 62)%N.
Qed.

Lemma b64_char_not_pad v : Ascii.eqb (base64.b64_char v) "=" = false.
Proof.
  apply Ascii.eqb_neq. intros Heq.
  apply (f_equal N_of_ascii) in Heq. revert Heq.
  unfold base64.b64_char.
  destruct (N.ltb_spec v 26); [rewrite N_ascii_embedding by lia; simpl; lia|].
  destruct (N.ltb_spec v 52); [rewrite N_ascii_embedding by lia; simpl; lia|].
  destruct (N.ltb_spec v 62); [rewrite N_ascii_embedding by lia; simpl; lia|].
  by destruct (v =? 62)%N.
Qed.

Lemma b64_value_char v :
  (v < 64)%N -> base64.b64_value (base64.b64_char v) = Some v.
Proof.
  intros Hv.
  pose proof (below_forallb
                (fun v => bool_decide
                            (base64.b64_value (base64.b64_char v) = Some v))
                64) as Hall.
  eapply bool_decide_eq_true_1, (Hall eq_refl v Hv).
Qed.

Lemma quad_1_ok a b : (a < 256)%N -> (b < 256)%N -> quad_1 a b = true.
Proof. apply (below_forallb2 quad_1 256 256). by vm_compute. Qed.

Lemma quad_2_ok b c : (b < 256)%N -> (c < 256)%N -> quad_2 b c = true.
Proof. apply (below_forallb2 quad_2 256 256). by vm_compute. Qed.

Lemma quad_1_spec a b :
  (a < 256)%N -> (b < 256)%N ->
  let v0 := N.shiftr a 2 in
  let v1 := N.lor (N.shiftl (N.land a 3) 4) (N.shiftr b 4) in
  (v0 < 64)%N /\ (v1 < 64)%N
  /\ N.lor (N.shiftl v0 2) (N.shiftr v1 4) = a
  /\ N.land v1 15 = N.shiftr b 4.
Proof.
  intros Ha Hb. pose proof (quad_1_ok a b Ha Hb) as Hq. unfold quad_1 in Hq.
  cbv zeta in *. rewrite !andb_true_iff, !N.ltb_lt, !N.eqb_eq in Hq. tauto.
Qed.

Lemma quad_2_spec b c :
  (b < 256)%N -> (c < 256)%N ->
  let v2 := N.lor (N.shiftl (N.land b 15) 2) (N.shiftr c 6) in
  let v3 := N.land c 63 in
  (v2 < 64)%N /\ (v3 < 64)%N
  /\ N.lor (N.shiftl (N.shiftr b 4) 4) (N.shiftr v2 2) = b
  /\ N.lor (N.shiftl (N.land v2 3) 6) v3 = c.
Proof.
  intros Hb Hc. pose proof (quad_2_ok b c Hb Hc) as Hq. unfold quad_2 in Hq.
  cbv zeta in *. rewrite !andb_true_iff, !N.ltb_lt, !N.eqb_eq in Hq. tauto.
Qed.

Lemma a2b_char v rest quad_pos leftchar pads out :
  (v < 64)%N ->
  base64.a2b (base64.b64_char v :: rest) quad_pos leftchar pads out
  = match quad_pos with
    | 0 => base64.a2b rest 1 v 0 out
    | 1 => base64.a2b rest 2 (N.land v 15) 0
             (out ++ [N.lor (N.shiftl leftchar 2) (N.shiftr v 4)])
    | 2 => base64.a2b rest 3 (N.land v 3) 0
             (out ++ [N.lor (N.shiftl leftchar 4) (N.shiftr v 2)])
    | _ => base64.a2b rest 0 0 0 (out ++ [N.lor (N.shiftl leftchar 6) v])
    end.
Proof.
  intros Hv. cbn [base64.a2b].
  by rewrite b64_char_not_pad, b64_value_char.
Qed.

Lemma a2b_b2a n :
  forall data out,
    length data <= n -> Forall (fun a => (a < 256)%N) data ->
    base64.a2b (base64.b2a data) 0 0 0 out = Some (out ++ data).
Proof.
  induction n as [|n IH]; intros data out Hlen Hdata.
  { destruct data; [|simpl in Hlen; lia]. simpl. by rewrite app_nil_r. }
  destruct data as [|a [|b [|c rest]]].
  - simpl. by rewrite app_nil_r.
  - apply Forall_cons in Hdata as [Ha _].
    destruct (quad_1_spec a 0 Ha eq_refl) as (H0 & H1 & Hout & _).
    cbv zeta in H1, Hout. rewrite N.lor_0_r in H1, Hout.
    cbn [base64.b2a].
    rewrite (a2b_char _ _ 0), (a2b_char _ _ 1) by done.
    rewrite Hout. reflexivity.
  - apply Forall_cons in Hdata as [Ha Hdata].
    apply Forall_cons in Hdata as [Hb _].
    destruct (quad_1_spec a b Ha Hb) as (H0 & H1 & Hout1 & Hleft1).
    destruct (quad_2_spec b 0 Hb eq_refl) as (H2 & _ & Hout2 & _).
    cbv zeta in *. rewrite N.lor_0_r in H2, Hout2.
    cbn [base64.b2a].
    rewrite (a2b_char _ _ 0), (a2b_char _ _ 1), (a2b_char _ _ 2) by done.
    rewrite Hout1, Hleft1, Hout2. simpl. by rewrite <- app_assoc.
  - apply Forall_cons in Hdata as [Ha Hdata].
    apply Forall_cons in Hdata as [Hb Hdata].
    apply Forall_cons in Hdata as [Hc Hdata].
    destruct (quad_1_spec a b Ha Hb) as (H0 & H1 & Hout1 & Hleft1).
    destruct (quad_2_spec b c Hb Hc) as (H2 & H3 & Hout2 & Hout3).
    cbv zeta in *. cbn [base64.b2a].
    rewrite (a2b_char _ _ 0), (a2b_char _ _ 1), (a2b_char _ _ 2),
      (a2b_char _ _ 3) by done.
    rewrite Hout1, Hleft1, Hout2, Hout3, IH; [|simpl in Hlen; lia|done].
    by rewrite <- !app_assoc.
Qed.

Lemma bytes_of_below s : Forall (fun a => (a < 256)%N) (bytes_of s).
Proof.
  unfold bytes_of. apply Forall_fmap, Forall_forall. intros c _. simpl.
  apply N_ascii_bounded.
Qed.

Lemma b2a_ascii data :
  forallb (fun c => (N_of_ascii c <? 128)%N) (base64.b2a data) = true.
Proof.
  assert (forall n data, length data <= n ->
            forallb (fun c => (N_of_ascii c <? 128)%N) (base64.b2a data) = true)
    as Hall; [|by apply (Hall (length data))].
  clear data. induction n as [|n IH]; intros data Hlen.
  { by destruct data; [|simpl in Hlen; lia]. }
  destruct data as [|a [|b [|c rest]]]; cbn [base64.b2a forallb]; [done|..].
  all: repeat (rewrite (proj2 (N.ltb_lt _ _) (b64_char_ascii _)));
    try done.
  apply IH. simpl in Hlen. lia.
Qed.

(** [base64.b64decode(base64.b64encode(s))] is [s]. *)
Lemma b64decode_b64encode s :
  base64.b64decode (base64.b64encode s) = Some (bytes_of s).
Proof.
  unfold base64.b64decode, base64.b64encode. cbv zeta.
  rewrite String.list_ascii_of_string_of_list_ascii, b2a_ascii.
  apply (a2b_b2a (length (bytes_of s)) (bytes_of s) []); [done|].
  apply bytes_of_below.
Qed.

(** *** [int] of the decimal text of an integer *)

Lemma bytes_of_String c s : bytes_of (String c s) = N_of_ascii c :: bytes_of s.
Proof. reflexivity. Qed.

Lemma bytes_of_app s1 s2 : bytes_of (s1 +:+ s2) = bytes_of s1 ++ bytes_of s2.
Proof.
  induction s1 as [|c s1 IH]; [done|].
  change (String c s1 +:+ s2) with (String c (s1 +:+ s2)).
  rewrite !bytes_of_String, IH. done.
Qed.

Lemma pretty_N_char_digit d :
  (d < 10)%N ->
  python_int.is_digit (N_of_ascii (pretty_N_char d)) = true
  /\ (N_of_ascii (pretty_N_char d) - 48)%N = d.
Proof.
  intros Hd.
  pose proof (below_forallb
                (fun d => python_int.is_digit (N_of_ascii (pretty_N_char d))
                          && (N_of_ascii (pretty_N_char d) - 48 =? d)%N)
                10 eq_refl d Hd) as Hok.
  cbv beta in Hok. by apply andb_true_iff in Hok as [? ?%N.eqb_eq].
Qed.

Lemma digits_digit c rest after_digit acc :
  python_int.is_digit c = true ->
  python_int.digits (c :: rest) after_digit acc
  = python_int.digits rest true (acc * 10 + Z.of_N (c - 48))%Z.
Proof. intros Hc. cbn [python_int.digits]. by rewrite Hc. Qed.

Lemma digits_pretty_N_go x :
  (0 < x)%N ->
  exists k : nat,
    forall s after_digit acc,
      python_int.digits (bytes_of (pretty_N_go x s)) after_digit acc
      = python_int.digits (bytes_of s) true
          (acc * 10 ^ Z.of_nat k + Z.of_N x)%Z.
Proof.
  induction (N.lt_wf_0 x) as [x _ IH]. intros Hx.
  destruct (pretty_N_char_digit (x `mod` 10)%N) as [Hdigit Hval].
  { by apply N.mod_lt. }
  destruct (decide (x `div` 10 = 0)%N) as [Hsmall|Hbig].
  - exists 1%nat. intros s after_digit acc.
    rewrite pretty_N_go_step, Hsmall, pretty_N_go_0 by done.
    rewrite bytes_of_String, digits_digit, Hval by done.
    apply N.div_small_iff in Hsmall; [|done].
    rewrite N.mod_small by done. f_equal.
  - destruct (IH (x `div` 10)%N) as [k Hk];
      [by apply N.div_lt|by apply N.neq_0_lt_0|].
    exists (S k). intros s after_digit acc.
    rewrite pretty_N_go_step, Hk by done.
    rewrite bytes_of_String, digits_digit, Hval by done. f_equal.
    rewrite Nat2Z.inj_succ, Z.pow_succ_r by lia.
    rewrite N2Z.inj_div, N2Z.inj_mod.
    pose proof (Z.div_mod (Z.of_N x) 10). lia.
Qed.

Lemma digits_pretty_N (x : N) after_digit :
  python_int.digits (bytes_of (pretty x)) after_digit 0 = Some (Z.of_N x).
Proof.
  unfold pretty, pretty_N. case_decide as Hx; [by subst|].
  destruct (digits_pretty_N_go x) as [k Hk]; [lia|]. by rewrite Hk.
Qed.

Lemma is_digit_pretty_N_go x s :
  Forall (fun c => python_int.is_digit c = true) (bytes_of s) ->
  Forall (fun c => python_int.is_digit c = true) (bytes_of (pretty_N_go x s)).
Proof.
  revert s. induction (N.lt_wf_0 x) as [x _ IH]. intros s Hs.
  destruct (decide (x = 0)%N) as [->|Hx]; [by rewrite pretty_N_go_0|].
  rewrite pretty_N_go_step by lia. apply IH; [apply N.div_lt; lia|].
  rewrite bytes_of_String. apply Forall_cons. split; [|done].
  apply pretty_N_char_digit. by apply N.mod_lt.
Qed.

Lemma is_digit_pretty_N (x : N) :
  Forall (fun c => python_int.is_digit c = true) (bytes_of (pretty x)).
Proof.
  unfold pretty, pretty_N. case_decide; [by repeat constructor|].
  by apply is_digit_pretty_N_go.
Qed.

Lemma pretty_N_go_nonempty x s : s <> "" -> pretty_N_go x s <> "".
Proof.
  revert s. induction (N.lt_wf_0 x) as [x _ IH]. intros s Hs.
  destruct (decide (x = 0)%N) as [->|Hx]; [by rewrite pretty_N_go_0|].
  rewrite pretty_N_go_step by lia. apply IH; [apply N.div_lt; lia|done].
Qed.

Lemma pretty_N_nonempty (x : N) : bytes_of (pretty x) <> [].
Proof.
  assert (pretty x <> "") as Hne.
  { unfold pretty, pretty_N. case_decide; [done|].
    rewrite pretty_N_go_step by lia. by apply pretty_N_go_nonempty. }
  by destruct (pretty x).
Qed.

Lemma is_digit_cases c :
  python_int.is_digit c = true ->
  (c = 48 \/ c = 49 \/ c = 50 \/ c = 51 \/ c = 52 \/ c = 53 \/ c = 54
   \/ c = 55 \/ c = 56 \/ c = 57)%N.
Proof.
  unfold python_int.is_digit. rewrite andb_true_iff, !N.leb_le. lia.
Qed.

Lemma lstrip_digit l :
  Forall (fun c => python_int.is_digit c = true) l -> python_int.lstrip l = l.
Proof.
  destruct 1 as [|c l Hc _]; [done|]. simpl.
  by destruct (is_digit_cases c Hc) as [->|[->|[->|[->|[->|[->|[->|[->|[->| ->]]]]]]]]].
Qed.

Lemma strip_digit l :
  Forall (fun c => python_int.is_digit c = true) l -> python_int.strip l = l.
Proof.
  intros Hl. unfold python_int.strip.
  rewrite (lstrip_digit l Hl), lstrip_digit, rev_involutive; [done|].
  by apply Forall_rev.
Qed.

Lemma forallb_ascii_digit l :
  Forall (fun c => python_int.is_digit c = true) l ->
  forallb (fun c => (c <? 128)%N) l = true.
Proof.
  induction 1 as [|c l Hc _ IH]; [done|]. simpl. rewrite IH, andb_true_r.
  apply N.ltb_lt.
  destruct (is_digit_cases c Hc) as [->|[->|[->|[->|[->|[->|[->|[->|[->| ->]]]]]]]]];
    lia.
Qed.

Lemma int_unsigned l :
  l <> [] -> Forall (fun c => python_int.is_digit c = true) l ->
  python_int.int l = python_int.digits l false 0.
Proof.
  intros Hne Hl. unfold python_int.int.
  rewrite (forallb_ascii_digit l Hl), (strip_digit l Hl).
  destruct Hl as [|c l Hc _]; [done|].
  by destruct (is_digit_cases c Hc) as [->|[->|[->|[->|[->|[->|[->|[->|[->| ->]]]]]]]]].
Qed.

Lemma int_negative l :
  l <> [] -> Forall (fun c => python_int.is_digit c = true) l ->
  python_int.int (45%N :: l) = Z.opp <$> python_int.digits l false 0.
Proof.
  intros Hne Hl. unfold python_int.int.
  cbn [forallb]. rewrite (forallb_ascii_digit l Hl).
  assert (python_int.strip (45%N :: l) = 45%N :: l) as ->; [|done].
  unfold python_int.strip. cbn [python_int.lstrip].
  change (python_int.is_digit 45) with false.
  change (python_int.is_space 45) with false. cbv iota.
  assert (python_int.lstrip (rev (45%N :: l)) = rev (45%N :: l)) as ->;
    [|by rewrite rev_involutive].
  simpl rev. destruct (rev l) as [|c l'] eqn:Hrev.
  { apply (f_equal (@rev N)) in Hrev. rewrite rev_involutive in Hrev. done. }
  assert (python_int.is_digit c = true) as Hc.
  { apply Forall_rev in Hl. rewrite Hrev in Hl. by apply Forall_cons in Hl as [? _]. }
  simpl.
  by destruct (is_digit_cases c Hc) as [->|[->|[->|[->|[->|[->|[->|[->|[->| ->]]]]]]]]].
Qed.

(** [int(str(n))] is [n]. *)
Lemma int_pretty (n : Z) : python_int.int (bytes_of (pretty n)) = Some n.
Proof.
  destruct n as [|p|p].
  - reflexivity.
  - change (pretty (Z.pos p)) with (pretty (N.pos p)).
    rewrite int_unsigned, digits_pretty_N;
      [done|apply pretty_N_nonempty|apply is_digit_pretty_N].
  - change (pretty (Z.neg p)) with ("-" +:+ pretty (N.pos p)).
    change (bytes_of ("-" +:+ pretty (N.pos p)))
      with (45%N :: bytes_of (pretty (N.pos p))).
    rewrite int_negative, digits_pretty_N;
      [done|apply pretty_N_nonempty|apply is_digit_pretty_N].
Qed.

(** *** The cursor of a page number *)

Lemma pretty_Z_nonempty (n : Z) : bytes_of (pretty n) <> [].
Proof.
  destruct n as [|p|p]; [done|apply (pretty_N_nonempty (N.pos p))|done].
Qed.

Lemma encode_cursor_nonempty page_num :
  MockExternalAPIClient._encode_cursor page_num <> "".
Proof.
  unfold MockExternalAPIClient._encode_cursor, base64.b64encode.
  pose proof (pretty_Z_nonempty page_num) as Hne. unfold bytes_of in Hne.
  by destruct (N_of_ascii <$> _) as [|a [|b [|c rest]]].
Qed.

Lemma decode_encode_cursor page_num :
  MockExternalAPIClient._decode_cursor
    (Some (MockExternalAPIClient._encode_cursor page_num))
  = page_num.
Proof.
  unfold MockExternalAPIClient._decode_cursor.
  pose proof (encode_cursor_nonempty page_num) as Hne.
  destruct (MockExternalAPIClient._encode_cursor page_num) as [|c s] eqn:Henc;
    [done|].
  rewrite <- Henc. unfold MockExternalAPIClient._encode_cursor.
  rewrite b64decode_b64encode. simpl. by rewrite int_pretty.
Qed.

(** *** The ids of a record *)

Lemma digits_zeros k l after_digit :
  python_int.digits (replicate k 48%N ++ l) after_digit 0
  = python_int.digits l (if k is 0%nat then after_digit else true) 0.
Proof.
  revert after_digit. induction k as [|k IH]; intros after_digit; [done|].
  cbn [replicate app]. rewrite digits_digit by done. rewrite IH.
  by destruct k.
Qed.

Lemma bytes_of_zeros k :
  bytes_of (String.string_of_list_ascii (replicate k "0"%char))
  = replicate k 48%N.
Proof.
  unfold bytes_of. rewrite String.list_ascii_of_string_of_list_ascii.
  by rewrite fmap_replicate.
Qed.

(** [int(f'{index:04d}')] is [index]. *)
Lemma int_format_04d index :
  python_int.int (bytes_of (MockExternalAPIClient.format_04d index))
  = Some index.
Proof.
  unfold MockExternalAPIClient.format_04d. cbv zeta.
  destruct (Z.ltb_spec index 0) as [Hneg|Hpos].
  - destruct index as [|p|p]; [lia..|].
    change (Z.abs (Z.neg p)) with (Z.pos p).
    change (pretty (Z.pos p)) with (pretty (N.pos p)).
    rewrite bytes_of_app.
    change (bytes_of "-") with [45%N]. cbn [app].
    rewrite bytes_of_app, bytes_of_zeros.
    rewrite int_negative, digits_zeros, digits_pretty_N; [done| |].
    + intros [_ Hnil]%app_eq_nil. by apply (pretty_N_nonempty (N.pos p)).
    + apply Forall_app. split; [by apply Forall_replicate|].
      apply is_digit_pretty_N.
  - assert (pretty index = pretty (Z.to_N index)) as ->.
    { by destruct index as [|p|p]; [..|lia]. }
    rewrite bytes_of_app, bytes_of_zeros.
    rewrite int_unsigned, digits_zeros, digits_pretty_N; [f_equal; lia| |].
    + intros [_ Hnil]%app_eq_nil. by apply (pretty_N_nonempty (Z.to_N index)).
    + apply Forall_app. split; [by apply Forall_replicate|].
      apply is_digit_pretty_N.
Qed.

Lemma format_04d_inj i j :
  MockExternalAPIClient.format_04d i = MockExternalAPIClient.format_04d j ->
  i = j.
Proof.
  intros Heq. pose proof (int_format_04d i) as Hi.
  rewrite Heq, int_format_04d in Hi. congruence.
Qed.

(** ** The pages of the mock source *)

Lemma get_chats_page env self cursor w :
  no_failure env self ->
  MockExternalAPIClient.get_chats env self cursor w
  = (Ok (page_at self (MockExternalAPIClient._decode_cursor cursor)),
     record (ApiGetChats cursor) w).
Proof.
  intros Hok. unfold MockExternalAPIClient.get_chats. cbv zeta.
  by rewrite Hok.
Qed.

Lemma get_chats_raises env self cursor w :
  MockExternalAPIClient.Qlt_bool (QArith_base.Qmake 0 1)
    (MockExternalAPIClient.failure_rate self)
  && MockExternalAPIClient.Qlt_bool (random_random env cursor)
       (MockExternalAPIClient.failure_rate self)
  = true ->
  MockExternalAPIClient.get_chats env self cursor w
  = (Raise (ExternalAPIError "Simulated API failure"),
     record (ApiGetChats cursor) w).
Proof.
  intros Hfail. unfold MockExternalAPIClient.get_chats. cbv zeta.
  by rewrite Hfail.
Qed.

Lemma has_more_page_at self page_num :
  ChatPage.has_more (page_at self page_num) = true
  <-> ((page_num + 1) * MockExternalAPIClient.page_size self
       < MockExternalAPIClient.total_chats self)%Z.
Proof.
  unfold page_at. cbv zeta. cbn [ChatPage.has_more].
  rewrite Z.ltb_lt. lia.
Qed.

Lemma serves_pages_from env self n :
  forall cursor,
    let page_num := MockExternalAPIClient._decode_cursor cursor in
    no_failure env self ->
    (MockExternalAPIClient.total_chats self
     <= (page_num + 1 + Z.of_nat n) * MockExternalAPIClient.page_size self)%Z ->
    serves env self cursor (pages_from self n page_num).
Proof.
  induction n as [|n IH]; intros cursor page_num Hok Hend.
  - cbn [pages_from serves].
    split; [intros w; by rewrite get_chats_page|].
    destruct (ChatPage.has_more (page_at self page_num)) eqn:Hmore; [|done].
    apply has_more_page_at in Hmore. lia.
  - cbn [pages_from serves].
    split; [intros w; by rewrite get_chats_page|].
    destruct (ChatPage.has_more (page_at self page_num)) eqn:Hmore; [|done].
    assert (ChatPage.next_cursor (page_at self page_num)
            = Some (MockExternalAPIClient._encode_cursor (page_num + 1)))
      as Hnext.
    { unfold page_at in *. cbv zeta in *. cbn [ChatPage.has_more] in Hmore.
      cbn [ChatPage.next_cursor]. by rewrite Hmore. }
    rewrite Hnext. rewrite <- (decode_encode_cursor (page_num + 1)) at 2.
    apply IH; [done|]. rewrite decode_encode_cursor. lia.
Qed.

Lemma records_of_pages_from self n :
  forall page_num,
    (1 <= MockExternalAPIClient.page_size self)%Z ->
    (MockExternalAPIClient.total_chats self
     <= (page_num + 1 + Z.of_nat n) * MockExternalAPIClient.page_size self)%Z ->
    records_of (pages_from self n page_num)
    = MockExternalAPIClient._generate_chat self
      <$> seqZ (page_num * MockExternalAPIClient.page_size self)
               (MockExternalAPIClient.total_chats self
                - page_num * MockExternalAPIClient.page_size self).
Proof.
  induction n as [|n IH]; intros page_num Hps Hend.
  - cbn [pages_from]. unfold records_of. simpl. rewrite app_nil_r.
    f_equal. f_equal. lia.
  - cbn [pages_from].
    destruct (ChatPage.has_more _) eqn:Hmore.
    + apply has_more_page_at in Hmore.
      change (records_of (?p :: ?l)) with (ChatPage.chats p ++ records_of l).
      rewrite IH by (done || lia). unfold page_at. cbv zeta.
      cbn [ChatPage.chats]. rewrite <- fmap_app. f_equal.
      rewrite Z.min_l by lia.
      replace (MockExternalAPIClient.total_chats self
               - page_num * MockExternalAPIClient.page_size self)%Z
        with (MockExternalAPIClient.page_size self
              + (MockExternalAPIClient.total_chats self
                 - (page_num + 1) * MockExternalAPIClient.page_size self))%Z
        by lia.
      rewrite seqZ_app by lia. f_equal; [f_equal; lia|]. f_equal; lia.
    + apply not_true_iff_false in Hmore. rewrite has_more_page_at in Hmore.
      unfold records_of. simpl. rewrite app_nil_r. f_equal. f_equal. lia.
Qed.

(** *** The ids and dates of the records *)

Lemma generate_chat_external_id_inj self i j :
  Chat.external_id (MockExternalAPIClient._generate_chat self i)
  = Chat.external_id (MockExternalAPIClient._generate_chat self j) ->
  i = j.
Proof.
  unfold MockExternalAPIClient._generate_chat. cbv zeta. cbn [Chat.external_id].
  intros Heq. apply format_04d_inj. by simplify_eq/=.
Qed.

Lemma NoDup_generated_external_ids self (indexes : list Z) :
  NoDup indexes ->
  NoDup (Chat.external_id
         <$> (MockExternalAPIClient._generate_chat self <$> indexes)).
Proof.
  intros Hnd. rewrite <- list_fmap_compose.
  apply NoDup_fmap_2_strong; [|done].
  intros i j _ _. apply generate_chat_external_id_inj.
Qed.

(** *** The number of pages *)

Lemma page_count_covers self :
  (1 <= MockExternalAPIClient.page_size self)%Z ->
  (MockExternalAPIClient.total_chats self
   <= Z.of_nat (page_count self) * MockExternalAPIClient.page_size self)%Z
  /\ (1 <= page_count self)%nat
  /\ ((Z.of_nat (page_count self) - 1) * MockExternalAPIClient.page_size self
      < Z.max 1 (MockExternalAPIClient.total_chats self))%Z.
Proof.
  intros Hps. unfold page_count.
  set (T := MockExternalAPIClient.total_chats self) in *.
  set (ps := MockExternalAPIClient.page_size self) in *.
  pose proof (Z.div_mod (T + ps - 1) ps ltac:(lia)) as Hdm.
  pose proof (Z.mod_pos_bound (T + ps - 1) ps ltac:(lia)) as Hmod.
  rewrite Z2Nat.id by lia.
  destruct (Z.max_spec 1 ((T + ps - 1) / ps)) as [[Hlt ->]|[Hge ->]]; nia.
Qed.

Lemma length_pages_from self (n : nat) :
  forall page_num,
    n = 0
    \/ ((page_num + Z.of_nat n) * MockExternalAPIClient.page_size self
        < MockExternalAPIClient.total_chats self)%Z ->
    (1 <= MockExternalAPIClient.page_size self)%Z ->
    length (pages_from self n page_num) = S n.
Proof.
  induction n as [|n IH]; intros page_num Hmore Hps; [done|].
  cbn [pages_from length]. destruct Hmore as [|Hmore]; [done|].
  assert (ChatPage.has_more (page_at self page_num) = true) as ->.
  { apply has_more_page_at. nia. }
  rewrite IH; [done| |done]. destruct n; [by left|right]. lia.
Qed.

Lemma length_pages self :
  (1 <= MockExternalAPIClient.page_size self)%Z ->
  length (pages self) = page_count self.
Proof.
  intros Hps. destruct (page_count_covers self Hps) as (_ & Hpos & Hlast).
  unfold pages. rewrite length_pages_from; [lia| |done].
  destruct (decide (page_count self - 1 = 0)) as [|Hne]; [by left|right].
  rewrite Nat2Z.inj_sub by lia. change (Z.of_nat 1) with 1%Z.
  destruct (Z.max_spec 1 (MockExternalAPIClient.total_chats self))
    as [[_ Hmax]|[_ Hmax]]; rewrite Hmax in Hlast; [lia|]. nia.
Qed.

Lemma serves_pages env self :
  (1 <= MockExternalAPIClient.page_size self)%Z ->
  no_failure env self ->
  serves env self None (pages self).
Proof.
  intros Hps Hok. destruct (page_count_covers self Hps) as (Hcov & Hpos & _).
  apply (serves_pages_from env self (page_count self - 1) None Hok).
  change (MockExternalAPIClient._decode_cursor None) with 0%Z.
  rewrite Nat2Z.inj_sub by lia. lia.
Qed.

Lemma records_of_pages self :
  (1 <= MockExternalAPIClient.page_size self)%Z ->
  records_of (pages self)
  = MockExternalAPIClient._generate_chat self
    <$> seqZ 0 (MockExternalAPIClient.total_chats self).
Proof.
  intros Hps. destruct (page_count_covers self Hps) as (Hcov & Hpos & _).
  unfold pages. rewrite records_of_pages_from; [|done|].
  - f_equal. f_equal; lia.
  - rewrite Nat2Z.inj_sub by lia. lia.
Qed.

Lemma persists_script_pages_from self n :
  forall cursor page_num,
    (MockExternalAPIClient.total_chats self
     <= (page_num + 1 + Z.of_nat n) * MockExternalAPIClient.page_size self)%Z ->
    S (persists_in (script cursor (pages_from self n page_num)))
    = length (pages_from self n page_num).
Proof.
  assert (forall l, persists_in (Record_ <$> l) = 0) as Hrec.
  { induction l as [|x l IH]; [done|]. exact IH. }
  induction n as [|n IH]; intros cursor page_num Hend.
  - cbn [pages_from script length].
    rewrite !persists_in_app, Hrec.
    assert (ChatPage.has_more (page_at self page_num) = false) as Hmore.
    { apply not_true_iff_false. rewrite has_more_page_at. lia. }
    unfold page_at in *. cbv zeta in *.
    cbn [ChatPage.has_more ChatPage.next_cursor] in *. by rewrite Hmore.
  - cbn [pages_from].
    destruct (ChatPage.has_more (page_at self page_num)) eqn:Hmore.
    + cbn [script length]. rewrite !persists_in_app, Hrec.
      rewrite <- (IH (ChatPage.next_cursor (page_at self page_num))
                     (page_num + 1)%Z) by lia.
      unfold page_at in *. cbv zeta in *.
      cbn [ChatPage.has_more ChatPage.next_cursor] in *. rewrite Hmore.
      unfold persist_steps.
      rewrite bool_decide_false by apply encode_cursor_nonempty. done.
    + cbn [script length]. rewrite !persists_in_app, Hrec.
      unfold page_at in *. cbv zeta in *.
      cbn [ChatPage.has_more ChatPage.next_cursor] in *. by rewrite Hmore.
Qed.

Lemma persists_script_pages self cursor :
  (1 <= MockExternalAPIClient.page_size self)%Z ->
  persists_in (script cursor (pages self)) = page_count self - 1.
Proof.
  intros Hps. destruct (page_count_covers self Hps) as (Hcov & Hpos & _).
  pose proof (persists_script_pages_from self (page_count self - 1) cursor 0)
    as Hp.
  fold (pages self) in Hp. rewrite length_pages in Hp by done.
  rewrite Nat2Z.inj_sub in Hp by lia. lia.
Qed.

Lemma length_chats_page_at self page_num :
  (0 <= MockExternalAPIClient.page_size self)%Z ->
  (Z.of_nat (length (ChatPage.chats (page_at self page_num)))
   <= MockExternalAPIClient.page_size self)%Z.
Proof.
  intros Hps. unfold page_at. cbv zeta. cbn [ChatPage.chats].
  rewrite length_fmap, length_seqZ. lia.
Qed.

Lemma Forall_pages_from (P : ChatPage.t -> Prop) self n :
  (forall page_num, P (page_at self page_num)) ->
  forall page_num, Forall P (pages_from self n page_num).
Proof.
  intros HP. induction n as [|n IH]; intros page_num; cbn [pages_from].
  - by repeat constructor.
  - apply Forall_cons. split; [done|]. by destruct (ChatPage.has_more _).
Qed.

Lemma after_pages_id pages st :
  SyncState.id (after_pages pages st) = SyncState.id st
  /\ SyncState.status (after_pages pages st) = SyncState.status st
  /\ SyncState.max_date (after_pages pages st) = SyncState.max_date st.
Proof.
  revert st. unfold after_pages.
  induction pages as [|page pages IH]; intros st; [done|].
  simpl. destruct (IH (persisted (ChatPage.next_cursor page) st))
    as (-> & -> & ->).
  unfold persisted.
  destruct (ChatPage.next_cursor page); [case_bool_decide|]; done.
Qed.

Lemma length_pages_from_pos self n page_num :
  1 <= length (pages_from self n page_num).
Proof. destruct n; cbn [pages_from length]; lia. Qed.

Lemma after_pages_cons page pages st :
  after_pages (page :: pages) st
  = after_pages pages (persisted (ChatPage.next_cursor page) st).
Proof. reflexivity. Qed.

Lemma cursor_after_pages_from self n :
  forall page_num st,
    (MockExternalAPIClient.total_chats self
     <= (page_num + 1 + Z.of_nat n) * MockExternalAPIClient.page_size self)%Z ->
    SyncState.cursor (after_pages (pages_from self n page_num) st)
    = if decide (length (pages_from self n page_num) = 1) then SyncState.cursor st
      else MockExternalAPIClient._encode_cursor
             (page_num + Z.of_nat (length (pages_from self n page_num)) - 1).
Proof.
  assert (forall page_num st,
            ChatPage.has_more (page_at self page_num) = false ->
            persisted (ChatPage.next_cursor (page_at self page_num)) st = st)
    as Hlast.
  { intros page_num st Hmore. unfold page_at in *. cbv zeta in *.
    cbn [ChatPage.has_more ChatPage.next_cursor] in *. by rewrite Hmore. }
  assert (forall page_num st,
            ChatPage.has_more (page_at self page_num) = true ->
            persisted (ChatPage.next_cursor (page_at self page_num)) st
            = SyncState.set_cursor
                (MockExternalAPIClient._encode_cursor (page_num + 1)) st)
    as Hnext.
  { intros page_num st Hmore. unfold page_at in *. cbv zeta in *.
    cbn [ChatPage.has_more ChatPage.next_cursor] in *. rewrite Hmore.
    unfold persisted.
    by rewrite bool_decide_false by apply encode_cursor_nonempty. }
  induction n as [|n IH]; intros page_num st Hend.
  - cbn [pages_from]. rewrite after_pages_cons, Hlast; [done|].
    apply not_true_iff_false. rewrite has_more_page_at. lia.
  - cbn [pages_from].
    destruct (ChatPage.has_more (page_at self page_num)) eqn:Hmore.
    + rewrite after_pages_cons.
      rewrite IH by lia. rewrite Hnext by done. cbn [length].
      pose proof (length_pages_from_pos self n (page_num + 1)) as Hpos.
      rewrite (decide_False (P := S _ = 1)) by lia.
      case_decide as Hlen.
      * cbn [SyncState.cursor SyncState.set_cursor]. rewrite Hlen. f_equal. lia.
      * f_equal. lia.
    + by rewrite after_pages_cons, Hlast.
Qed.

Lemma cursor_after_pages self st :
  (1 <= MockExternalAPIClient.page_size self)%Z ->
  SyncState.cursor (after_pages (pages self) st)
  = if decide (page_count self = 1) then SyncState.cursor st
    else MockExternalAPIClient._encode_cursor (Z.of_nat (page_count self) - 1).
Proof.
  intros Hps. destruct (page_count_covers self Hps) as (Hcov & Hpos & _).
  unfold pages. rewrite cursor_after_pages_from.
  - fold (pages self). rewrite length_pages by done.
    case_decide; [done|]. f_equal.
  - rewrite Nat2Z.inj_sub by lia. lia.
Qed.

(** X1: the cursor codec is a round trip on every page number that [str]
    and [int] convert, that is of at most 4300 digits: [_decode_cursor]
    reads back what [_encode_cursor] wrote (ASCII digits, with a minus sign
    for a negative number), and an encoded cursor is never the empty string,
    so that [if page.next_cursor] holds for it. *)
Theorem cursor_round_trip (page_num : Z) :
  within_max_str_digits page_num ->
  MockExternalAPIClient._decode_cursor
    (Some (MockExternalAPIClient._encode_cursor page_num))
  = page_num
  /\ MockExternalAPIClient._encode_cursor page_num <> "".
Proof.
  intros _. split; [apply decode_encode_cursor|apply encode_cursor_nonempty].
Qed.

Lemma cursor_round_trip_witness :
  MockExternalAPIClient._encode_cursor (-12) = "LTEy"
  /\ MockExternalAPIClient._decode_cursor (Some "LTEy") = (-12)%Z.
Proof.
  destruct (cursor_round_trip (-12)) as [Hdecode _].
  - vm_compute. reflexivity.
  - split; [reflexivity|]. exact Hdecode.
Defined.

(** X2: two records of the source with different indexes differ in their
    chat id, their customer id and their message id. *)
Theorem generated_ids_are_distinct self (i j : Z) :
  i <> j ->
  let a := MockExternalAPIClient._generate_chat self i in
  let b := MockExternalAPIClient._generate_chat self j in
  Chat.external_id a <> Chat.external_id b
  /\ ChatCustomer.external_id (Chat.customer a)
     <> ChatCustomer.external_id (Chat.customer b)
  /\ ChatMessage.message_id (Chat.last_message a)
     <> ChatMessage.message_id (Chat.last_message b).
Proof.
  intros Hne. cbv zeta. unfold MockExternalAPIClient._generate_chat. cbv zeta.
  cbn [Chat.external_id Chat.customer Chat.last_message
       ChatCustomer.external_id ChatMessage.message_id].
  repeat split; intros Heq; apply Hne, format_04d_inj; by simplify_eq/=.
Qed.

Lemma generated_ids_are_distinct_witness :
  Chat.external_id (MockExternalAPIClient._generate_chat (client_of 25) 7)
  <> Chat.external_id (MockExternalAPIClient._generate_chat (client_of 25) 10007).
Proof.
  destruct (generated_ids_are_distinct (client_of 25) 7 10007) as [Hne _].
  - lia.
  - exact Hne.
Defined.

(** X3: for a page size of at least 1, no simulated failure and a source
    whose timestamps are all in the range of a datetime, following
    [next_cursor] from the first call, [get_chats] serves
    ceil(total_chats / page_size) pages (one empty page for an empty source);
    together they hold the records 0 .. total_chats - 1 in order, each once;
    no page holds more than [page_size] records, and the last one has no
    next cursor. *)
Theorem pagination_covers_the_source env self :
  (1 <= MockExternalAPIClient.page_size self)%Z ->
  no_failure env self ->
  Forall (can_generate self) (seqZ 0 (MockExternalAPIClient.total_chats self)) ->
  serves env self None (pages self)
  /\ length (pages self) = page_count self
  /\ records_of (pages self)
     = MockExternalAPIClient._generate_chat self
       <$> seqZ 0 (MockExternalAPIClient.total_chats self)
  /\ Forall (fun page =>
               (Z.of_nat (length (ChatPage.chats page))
                <= MockExternalAPIClient.page_size self)%Z)
            (pages self)
  /\ (ChatPage.next_cursor <$> last (pages self)) = Some None.
Proof.
  intros Hps Hok _.
  split; [by apply serves_pages|]. split; [by apply length_pages|].
  split; [by apply records_of_pages|]. split.
  { apply Forall_pages_from. intros page_num. apply length_chats_page_at. lia. }
  destruct (page_count_covers self Hps) as (Hcov & Hpos & _).
  unfold pages.
  assert (forall n page_num,
            (MockExternalAPIClient.total_chats self
             <= (page_num + 1 + Z.of_nat n)
                * MockExternalAPIClient.page_size self)%Z ->
            ChatPage.next_cursor <$> last (pages_from self n page_num)
            = Some None) as Hlast.
  { induction n as [|n IH]; intros page_num Hend.
    - cbn [pages_from last fmap option_fmap option_map].
      assert (ChatPage.has_more (page_at self page_num) = false) as Hmore.
      { apply not_true_iff_false. rewrite has_more_page_at. lia. }
      unfold page_at in *. cbv zeta in *.
      cbn [ChatPage.has_more ChatPage.next_cursor] in *. by rewrite Hmore.
    - cbn [pages_from].
      destruct (ChatPage.has_more (page_at self page_num)) eqn:Hmore.
      + pose proof (length_pages_from_pos self n (page_num + 1)) as Hlen.
        rewrite last_cons.
        destruct (last (pages_from self n (page_num + 1))) eqn:Hl.
        * rewrite <- Hl. apply IH. lia.
        * apply last_None in Hl. rewrite Hl in Hlen. simpl in Hlen. lia.
      + cbn [last fmap option_fmap option_map].
        unfold page_at in *. cbv zeta in *.
        cbn [ChatPage.has_more ChatPage.next_cursor] in *. by rewrite Hmore. }
  apply Hlast. rewrite Nat2Z.inj_sub by lia. lia.
Qed.

Lemma pagination_covers_the_source_witness :
  length (pages MockExternalAPIClient.default) = 5
  /\ Chat.external_id <$> records_of (pages MockExternalAPIClient.default)
     = chat_ids 0 50.
Proof.
  destruct (pagination_covers_the_source quiet_env MockExternalAPIClient.default)
    as (_ & Hlen & Hrec & _).
  - simpl. lia.
  - intros cursor. reflexivity.
  - apply (bool_decide_unpack _). vm_compute. exact I.
  - split; [exact Hlen|]. rewrite Hrec. reflexivity.
Defined.

(** X4: a cursor that points at or past the end of the source (for a
    non-negative page size) yields an empty page that has no more and no next
    cursor. *)
Theorem cursor_past_the_end env self cursor w :
  no_failure env self ->
  (0 <= MockExternalAPIClient.page_size self)%Z ->
  (MockExternalAPIClient.total_chats self
   <= MockExternalAPIClient._decode_cursor cursor
      * MockExternalAPIClient.page_size self)%Z ->
  MockExternalAPIClient.get_chats env self cursor w
  = (Ok (ChatPage.Build [] None false), record (ApiGetChats cursor) w).
Proof.
  intros Hok Hps Hpast. rewrite get_chats_page by done.
  unfold page_at. cbv zeta. rewrite Z.min_r by lia.
  rewrite seqZ_nil by lia.
  by rewrite (proj2 (Z.ltb_ge _ _)) by lia.
Qed.

Lemma cursor_past_the_end_witness :
  MockExternalAPIClient.get_chats quiet_env (client_of 25) (Some "Mw==")
    (empty_world 0%Z)
  = (Ok (ChatPage.Build [] None false),
     record (ApiGetChats (Some "Mw==")) (empty_world 0%Z)).
Proof.
  apply (cursor_past_the_end quiet_env (client_of 25) (Some "Mw==")).
  - intros cursor. reflexivity.
  - simpl. lia.
  - apply Z.leb_le. vm_compute. reflexivity.
Defined.

(** ** A run that stops *)

Lemma process_chat_within env chat s :
  engine_ready s ->
  SyncService.max_date_tzinfo s = true ->
  older (SyncState.max_date (SyncService.state s)) chat = false ->
  changed (SyncService.world s) chat ->
  let ext := Chat.external_id chat in
  let msg := ChatMessage.message_id (Chat.last_message chat) in
  let raises := doc_put_raises env ext msg in
  exists s' evs,
    SyncService._process_chat env chat s = (Ok false, s')
    /\ engine_ready s'
    /\ SyncService.state s'
       = (if raises then SyncService.state s
          else SyncState.set_processed_chats
                 (SyncState.processed_chats (SyncService.state s) + 1)
                 (SyncService.state s))
    /\ log (SyncService.world s') = log (SyncService.world s) ++ evs
    /\ page_steps evs = [Record_ ext]
    /\ (if raises
        then failed_from (deal_of ext (SyncService.world s))
                         (deal_of ext (SyncService.world s'))
        else completed_from chat (deal_of ext (SyncService.world s))
                            (deal_of ext (SyncService.world s')))
    /\ forall e, e <> ext ->
         deal_of e (SyncService.world s') = deal_of e (SyncService.world s).
Proof.
  destruct s as [st w tz]. unfold engine_ready, changed. simpl.
  intros [Hwf Hpk] -> Holder Hchanged. unfold older in Holder.
  rewrite process_chat_tzinfo. unfold_monad.
  cbn beta iota zeta delta [SyncService.state SyncService.world SyncService.max_date_tzinfo].
  rewrite Holder. unfold SyncService.existing_deal_of.
  cbn beta iota zeta delta [SyncService.state SyncService.world SyncService.max_date_tzinfo].
  change (first (DealManager.filter_external_id (Chat.external_id chat) w))
    with (deal_of (Chat.external_id chat) w).
  set (w1 := record (SqlSelect deals_tbl) w).
  assert (match deal_of (Chat.external_id chat) w with
          | Some existing_deal =>
              bool_decide (Deal.last_message_id existing_deal
                           = ChatMessage.message_id (Chat.last_message chat))
          | None => false
          end = false) as ->.
  { destruct (deal_of _ w) as [d|]; [|done]. apply bool_decide_eq_false.
    simpl in Hchanged. congruence. }
  destruct (sync_chat_atomic_spec env chat w1 Hwf)
    as (evs & Hlog & Hsteps & Hwf2 & Hcase).
  change (deal_of (Chat.external_id chat) w1)
    with (deal_of (Chat.external_id chat) w) in *.
  pose proof (steps_sync_chat_atomic env chat
                (deal_of (Chat.external_id chat) w) w1) as [Hss _ _ _ _].
  cbn beta iota zeta delta [SyncService.state SyncService.world SyncService.max_date_tzinfo].
  destruct (SyncService._sync_chat_atomic env chat _ w1) as [r2 w2].
  cbn [fst snd] in *.
  cbn beta iota zeta delta [SyncService.state SyncService.world SyncService.max_date_tzinfo].
  subst w1. cbn [db record log sync_states] in *.
  destruct (doc_put_raises env _ _).
  - destruct Hcase as [[e ->] Hdb].
    destruct (deal_of (Chat.external_id chat) w) as [d|] eqn:Hd.
    + destruct (deal_of_elem_of _ _ _ Hd) as [Hin Hext].
      cbn beta iota zeta delta [SyncService.state SyncService.world SyncService.max_date_tzinfo].
      rewrite mark_failed_rows by (by rewrite Hdb).
      destruct Hwf2 as (Hids & Hexts & Hseq & Hcexts & Hcseq).
      set (w' := set_deals _ _).
      destruct (deal_of_update w2 w' d (Deal.set_sync_status Deal.FAILED))
        as (Hids' & Hexts' & Hlookup); try done.
      { by rewrite Hdb. }
      eexists (SyncService.Build st w'), (([SqlSelect deals_tbl] ++ evs) ++ [_]).
      split; [done|]. split.
      { split; [|by subst w'; simpl; rewrite Hss].
        split; [done|]. split; [done|]. subst w'. simpl.
        split; [|done]. by rewrite update_pk_fmap. }
      split; [done|]. split.
      { subst w'. simpl. rewrite Hlog. by rewrite <- !app_assoc. }
      split; [by rewrite !page_steps_app, Hsteps|].
      cbn [SyncService.world]. split.
      * unfold failed_from. by rewrite Hlookup, Hext, decide_True.
      * intros e' He'. rewrite Hlookup, Hext, decide_False by done.
        apply deal_of_deals. by rewrite Hdb.
    + eexists (SyncService.Build st w2), ([SqlSelect deals_tbl] ++ evs).
      split; [done|]. split; [by split; [|simpl; rewrite Hss]|].
      split; [done|]. split; [by simpl; rewrite Hlog, <- app_assoc|].
      split; [by rewrite page_steps_app, Hsteps|].
      cbn [SyncService.world]. split.
      * unfold failed_from. simpl. rewrite <- Hd. apply deal_of_deals.
        by rewrite Hdb.
      * intros e' _. apply deal_of_deals. by rewrite Hdb.
  - destruct Hcase as (-> & Hdone & Hothers).
    unfold SyncService._increment_processed.
    destruct (state_save_present
                (fun st => SyncState.set_processed_chats
                             (SyncState.processed_chats st + 1) st)
                ["processed_chats"; "updated_at"] st w2)
      as (w3 & -> & Hlog3 & Hsame & Hpk3);
      [by rewrite Hss|by destruct st|].
    eexists (SyncService.Build _ w3), (([SqlSelect deals_tbl] ++ evs) ++ [_]).
    split; [done|]. split.
    { split; [by apply (index_same_wf w2)|done]. }
    split; [done|]. split.
    { simpl. rewrite Hlog3, Hlog. by rewrite <- !app_assoc. }
    split; [by rewrite !page_steps_app, Hsteps|].
    cbn [SyncService.world]. split.
    + by rewrite (index_same_deal_of w2 w3).
    + intros e' He'. rewrite (index_same_deal_of w2 w3) by done. by apply Hothers.
Qed.

Lemma process_chat_stops env chat st w :
  stops (SyncState.max_date st) w chat = true ->
  exists w' evs,
    SyncService._process_chat env chat (SyncService.Build st w)
    = (Ok true, SyncService.Build st w')
    /\ log w' = log w ++ evs /\ page_steps evs = []
    /\ index_same w w' /\ sync_states (db w') = sync_states (db w).
Proof.
  unfold stops, older. intros Hstop.
  rewrite process_chat_tzinfo. unfold_monad.
  cbn beta iota zeta delta [SyncService.state SyncService.world SyncService.max_date_tzinfo].
  destruct (match SyncState.max_date st with Some _ => _ | None => _ end).
  { exists w, []. by rewrite app_nil_r. }
  simpl in Hstop. apply bool_decide_eq_true in Hstop.
  unfold SyncService.existing_deal_of.
  cbn beta iota zeta delta [SyncService.state SyncService.world SyncService.max_date_tzinfo].
  change (first (DealManager.filter_external_id (Chat.external_id chat) w))
    with (deal_of (Chat.external_id chat) w).
  assert (match deal_of (Chat.external_id chat) w with
          | Some existing_deal =>
              bool_decide (Deal.last_message_id existing_deal
                           = ChatMessage.message_id (Chat.last_message chat))
          | None => false
          end = true) as ->.
  { unfold changed in Hstop. apply dec_stable in Hstop.
    destruct (deal_of _ w) as [d|]; [|done]. apply bool_decide_eq_true.
    simpl in Hstop. congruence. }
  exists (record (SqlSelect deals_tbl) w), [SqlSelect deals_tbl]. done.
Qed.

(** *** The cutoff check on one record *)

(** With a cutoff that carries no tzinfo the comparison itself raises, on
    every record. *)
Lemma process_chat_naive env chat s D :
  SyncState.max_date (SyncService.state s) = Some D ->
  SyncService.max_date_tzinfo s = false ->
  SyncService._process_chat env chat s
  = (Raise (TypeError "can't compare offset-naive and offset-aware datetimes"),
     s).
Proof.
  destruct s as [st w tz]. simpl. intros HD ->.
  rewrite process_chat_cases, HD. by rewrite bool_decide_true.
Qed.




Lemma processed_prefix_ext (f g : Chat.t -> bool) chats :
  Forall (fun chat => f chat = g chat) chats ->
  processed_prefix f chats = processed_prefix g chats.
Proof.
  induction 1 as [|chat chats Heq _ IH]; [done|].
  cbn [processed_prefix]. by rewrite Heq, IH.
Qed.

Lemma stops_ext max_date w w' chat :
  deal_of (Chat.external_id chat) w' = deal_of (Chat.external_id chat) w ->
  stops max_date w' chat = stops max_date w chat.
Proof.
  intros Hd. unfold stops. f_equal. apply bool_decide_ext.
  unfold changed. by rewrite Hd.
Qed.

Lemma process_chats_stops env chats s :
  engine_ready s ->
  SyncService.max_date_tzinfo s = true ->
  NoDup (Chat.external_id <$> chats) ->
  let plan :=
    processed_prefix
      (stops (SyncState.max_date (SyncService.state s)) (SyncService.world s))
      chats in
  exists s' evs,
    SyncService._process_chats env chats s = (Ok plan.2, s')
    /\ engine_ready s'
    /\ SyncService.state s'
       = SyncState.set_processed_chats
           (SyncState.processed_chats (SyncService.state s)
            + succeeded env plan.1)
           (SyncService.state s)
    /\ log (SyncService.world s') = log (SyncService.world s) ++ evs
    /\ page_steps evs = Record_ <$> (Chat.external_id <$> plan.1)
    /\ Forall (record_outcome env (SyncService.world s) (SyncService.world s'))
              plan.1
    /\ forall e, e ∉ Chat.external_id <$> plan.1 ->
         deal_of e (SyncService.world s') = deal_of e (SyncService.world s).
Proof.
  revert s. induction chats as [|chat chats IH]; intros s Hready Htz Hnd.
  { exists s, []. cbn. split; [done|]. split; [done|].
    split; [by rewrite set_processed_chats_same|].
    split; [by rewrite app_nil_r|]. done. }
  apply NoDup_cons in Hnd as [Hnotin Hnd]. cbv zeta.
  cbn [processed_prefix SyncService._process_chats].
  destruct (stops _ _ chat) eqn:Hstop.
  - destruct s as [st w tz].
    cbn [SyncService.state SyncService.world SyncService.max_date_tzinfo] in *.
    subst tz.
    destruct (process_chat_stops env chat st w Hstop)
      as (w' & evs & Hrun & Hlog & Hsteps & Hsame & Hss).
    exists (SyncService.Build st w'), evs. unfold_monad. rewrite Hrun.
    split; [done|]. split.
    { destruct Hready as [Hwf Hrow]. split; [by apply (index_same_wf w)|].
      simpl in *. by rewrite Hss. }
    split; [by cbn; rewrite set_processed_chats_same|].
    split; [done|]. split; [done|]. split; [done|].
    intros e _. by apply index_same_deal_of.
  - unfold stops in Hstop. apply orb_false_iff in Hstop as [Holder Hch].
    apply bool_decide_eq_false in Hch. apply dec_stable in Hch.
    destruct (process_chat_within env chat s Hready Htz Holder Hch)
      as (s1 & evs1 & Hrun1 & Hready1 & Hst1 & Hlog1 & Hsteps1 & Hout1 & Hoth1).
    assert (SyncState.max_date (SyncService.state s1)
            = SyncState.max_date (SyncService.state s)) as Hmax1.
    { rewrite Hst1. by destruct (doc_put_raises _ _ _). }
    assert (SyncService.max_date_tzinfo s1 = true) as Htz1.
    { pose proof (process_chat_engine_frame env chat s) as Hframe.
      rewrite Hrun1 in Hframe. destruct Hframe. simpl in *. congruence. }
    destruct (IH s1 Hready1 Htz1 Hnd)
      as (s2 & evs2 & Hrun2 & Hready2 & Hst2 & Hlog2 & Hsteps2 & Hout2 & Hoth2).
    assert (processed_prefix
              (stops (SyncState.max_date (SyncService.state s1))
                     (SyncService.world s1)) chats
            = processed_prefix
                (stops (SyncState.max_date (SyncService.state s))
                       (SyncService.world s)) chats) as Hplan.
    { apply processed_prefix_ext, Forall_forall. intros c Hc.
      rewrite Hmax1. apply stops_ext, Hoth1.
      intros Heq. apply Hnotin. rewrite <- Heq. by apply list_elem_of_fmap_2. }
    rewrite Hplan in *. clear Hplan.
    destruct (processed_prefix _ chats) as [done stopped] eqn:Hp.
    cbn [fst snd] in *.
    assert (Forall (fun c => c ∈ chats) done) as Hsub.
    { clear -Hp. revert done stopped Hp.
      induction chats as [|c chats IH]; intros done stopped Hp.
      - by simplify_eq/=.
      - cbn [processed_prefix] in Hp. destruct (stops _ _ c); [by simplify_eq/=|].
        destruct (processed_prefix _ chats) as [d b]. simplify_eq/=.
        apply Forall_cons. split; [left|].
        eapply Forall_impl; [by eapply IH|]. intros x Hx. by right. }
    exists s2, (evs1 ++ evs2).
    split. { unfold_monad. by rewrite Hrun1. }
    split; [done|]. split.
    { rewrite Hst2, Hst1. unfold succeeded, raises.
      rewrite filter_cons. destruct (doc_put_raises _ _ _) eqn:Hr.
      - by rewrite decide_False.
      - rewrite decide_True by done. destruct (SyncService.state s).
        unfold SyncState.set_processed_chats. simpl. f_equal. lia. }
    split; [by rewrite Hlog2, Hlog1, app_assoc|].
    split; [by rewrite page_steps_app, Hsteps1, Hsteps2|].
    assert (Chat.external_id chat ∉ Chat.external_id <$> done) as Hnotin'.
    { intros (c & Heq & Hc)%list_elem_of_fmap. apply Hnotin.
      rewrite Heq. apply list_elem_of_fmap_2.
      rewrite Forall_forall in Hsub. by apply Hsub. }
    split.
    + apply Forall_cons. split.
      * unfold record_outcome, raises in *. by rewrite (Hoth2 _ Hnotin').
      * rewrite Forall_forall in Hout2 |- *. intros c Hc.
        specialize (Hout2 c Hc). unfold record_outcome in *.
        rewrite Hoth1 in Hout2; [done|].
        intros Heq. apply Hnotin. rewrite <- Heq. apply list_elem_of_fmap_2.
        rewrite Forall_forall in Hsub. by apply Hsub.
    + intros e [He1 He2]%not_elem_of_cons.
      rewrite Hoth2, Hoth1; done.
Qed.

Lemma persist_cursor_ready next_cursor st w tzinfo :
  engine_ready (SyncService.Build_self st w tzinfo) ->
  exists s' evs,
    match next_cursor with
    | Some next_cursor =>
        if bool_decide (next_cursor = "") then mret tt
        else SyncService._save_cursor next_cursor
    | None => mret tt
    end (SyncService.Build_self st w tzinfo) = (Ok tt, s')
    /\ engine_ready s'
    /\ SyncService.max_date_tzinfo s' = tzinfo
    /\ SyncService.state s' = persisted next_cursor st
    /\ log (SyncService.world s') = log w ++ evs
    /\ page_steps evs = persist_steps next_cursor
    /\ index_same w (SyncService.world s').
Proof.
  intros [Hwf Hrow]. simpl in Hwf, Hrow. unfold persisted, persist_steps.
  destruct next_cursor as [c|].
  2:{ exists (SyncService.Build_self st w tzinfo), []. rewrite app_nil_r. done. }
  case_bool_decide.
  { exists (SyncService.Build_self st w tzinfo), []. rewrite app_nil_r. done. }
  unfold SyncService._save_cursor.
  destruct (state_save_present_tzinfo (SyncState.set_cursor c)
              ["cursor"; "updated_at"] st w tzinfo Hrow)
    as (w2 & -> & Hlog2 & Hsame & Hrow2); [by destruct st|].
  eexists _, [_]. split; [done|]. split.
  { split; [by apply (index_same_wf w)|done]. }
  done.
Qed.

Lemma processed_prefix_subset stop chats :
  (processed_prefix stop chats).1 ⊆ chats.
Proof.
  induction chats as [|c chats IH]; [done|]. cbn [processed_prefix].
  destruct (stop c); [apply list_subseteq_nil|].
  destruct (processed_prefix stop chats) as [d b]. simpl in *.
  intros x [->|Hx]%elem_of_cons; [left|right; by apply IH].
Qed.

Lemma run_plan_subset stop cursor pages :
  (run_plan stop cursor pages).2 ⊆ records_of pages.
Proof.
  revert cursor. induction pages as [|page pages IH]; intros cursor; [done|].
  cbn [run_plan].
  change (records_of (page :: pages))
    with (ChatPage.chats page ++ records_of pages).
  pose proof (processed_prefix_subset stop (ChatPage.chats page)) as Hsub.
  destruct (processed_prefix stop (ChatPage.chats page)) as [d b].
  simpl in Hsub.
  destruct (b || negb (ChatPage.has_more page)).
  - intros x Hx. apply elem_of_app. left. by apply Hsub.
  - specialize (IH (ChatPage.next_cursor page)).
    destruct (run_plan stop (ChatPage.next_cursor page) pages) as [l r].
    simpl in *. intros x [Hx|Hx]%elem_of_app; apply elem_of_app;
      [left; by apply Hsub|right; by apply IH].
Qed.

Lemma run_plan_ext (f g : Chat.t -> bool) cursor pages :
  Forall (fun chat => f chat = g chat) (records_of pages) ->
  run_plan f cursor pages = run_plan g cursor pages.
Proof.
  revert cursor. induction pages as [|page pages IH]; intros cursor Heq;
    [done|].
  change (records_of (page :: pages))
    with (ChatPage.chats page ++ records_of pages) in Heq.
  apply Forall_app in Heq as [Heq1 Heq2]. cbn [run_plan].
  by rewrite (processed_prefix_ext f g _ Heq1), IH.
Qed.

Lemma run_loop_stops env api_client pages :
  forall fuel cursor s,
    length pages <= fuel ->
    serves env api_client cursor pages ->
    engine_ready s ->
    SyncService.max_date_tzinfo s = true ->
    NoDup (Chat.external_id <$> records_of pages) ->
    let plan :=
      run_plan
        (stops (SyncState.max_date (SyncService.state s)) (SyncService.world s))
        cursor pages in
    exists s' evs,
      SyncService.run_loop env api_client fuel cursor s = (Ok tt, s')
      /\ engine_ready s'
      /\ SyncState.max_date (SyncService.state s')
         = SyncState.max_date (SyncService.state s)
      /\ SyncState.processed_chats (SyncService.state s')
         = SyncState.processed_chats (SyncService.state s)
           + succeeded env plan.2
      /\ log (SyncService.world s') = log (SyncService.world s) ++ evs
      /\ page_steps evs = plan.1
      /\ Forall (record_outcome env (SyncService.world s) (SyncService.world s'))
                plan.2
      /\ forall e, e ∉ Chat.external_id <$> plan.2 ->
           deal_of e (SyncService.world s') = deal_of e (SyncService.world s).
Proof.
  induction pages as [|page pages IH]; [by intros ? ? ? _ []|].
  intros fuel cursor s Hfuel [Hget Hrest] Hready Htz Hnd.
  destruct fuel as [|fuel]; [simpl in Hfuel; lia|].
  simpl in Hfuel. apply le_S_n in Hfuel.
  change (records_of (page :: pages))
    with (ChatPage.chats page ++ records_of pages) in *.
  rewrite fmap_app in Hnd. apply NoDup_app in Hnd as (Hnd1 & Hdisj & Hnd2).
  destruct s as [st w tz].
  cbn [SyncService.state SyncService.world SyncService.max_date_tzinfo] in *.
  subst tz.
  cbn [SyncService.run_loop]. unfold SyncService._process_page.
  unfold mbind at 1, M_bind at 1. unfold SyncService.lift at 1.
  cbn [SyncService.state SyncService.world SyncService.max_date_tzinfo].
  pose proof (get_chats_world env api_client cursor w) as Hw.
  specialize (Hget w).
  destruct (MockExternalAPIClient.get_chats env api_client cursor w) as [r0 w0].
  cbn [fst snd] in *. subst r0 w0.
  destruct (process_chats_stops env (ChatPage.chats page)
              (SyncService.Build st (record (ApiGetChats cursor) w)))
    as (s1 & evs1 & Hrun1 & Hready1 & Hst1 & Hlog1 & Hsteps1 & Hout1 & Hoth1);
    [by destruct Hready|done|done|].
  assert (SyncService.max_date_tzinfo s1 = true) as Htz1.
  { pose proof (process_chats_engine_frame env (ChatPage.chats page)
                  (SyncService.Build st (record (ApiGetChats cursor) w)))
      as Hframe.
    rewrite Hrun1 in Hframe. by destruct Hframe. }
  cbn [SyncService.state SyncService.world SyncService.max_date_tzinfo] in *.
  change (stops (SyncState.max_date st) (record (ApiGetChats cursor) w))
    with (stops (SyncState.max_date st) w) in *.
  unfold mbind at 1, M_bind at 1. rewrite Hrun1. cbv zeta. cbn [run_plan].
  pose proof (processed_prefix_subset (stops (SyncState.max_date st) w)
                (ChatPage.chats page)) as Hsub1.
  destruct (processed_prefix (stops (SyncState.max_date st) w)
              (ChatPage.chats page)) as [done stopped].
  cbn [fst snd] in *.
  destruct s1 as [st1 w1 tz1].
  cbn [SyncService.state SyncService.world SyncService.max_date_tzinfo] in *.
  subst tz1.
  destruct (persist_cursor_ready (ChatPage.next_cursor page) st1 w1 true Hready1)
    as ([st2 w2 tz2] & evs2 & Hrun2 & Hready2 & Htz2 & Hst2 & Hlog2 & Hsteps2
        & Hsame2).
  cbn [SyncService.state SyncService.world SyncService.max_date_tzinfo log record] in *.
  subst tz2.
  unfold mbind at 1, M_bind at 1. rewrite Hrun2.
  assert (SyncState.max_date st2 = SyncState.max_date st
          /\ SyncState.processed_chats st2
             = SyncState.processed_chats st + succeeded env done)
    as [Hmax2 Hproc2].
  { rewrite Hst2, Hst1. unfold persisted.
    destruct (ChatPage.next_cursor page); [case_bool_decide|]; done. }
  assert (Forall (record_outcome env w w2) done) as Hout2.
  { eapply Forall_impl; [exact Hout1|]. intros c. unfold record_outcome.
    by rewrite (index_same_deal_of w1 w2). }
  assert (forall e, e ∉ Chat.external_id <$> done -> deal_of e w2 = deal_of e w)
    as Hoth2.
  { intros e He. rewrite (index_same_deal_of w1 w2) by done. by apply Hoth1. }
  destruct (stopped || negb (ChatPage.has_more page)) eqn:Hend.
  - exists (SyncService.Build st2 w2), ([ApiGetChats cursor] ++ evs1 ++ evs2).
    cbn [SyncService.state SyncService.world SyncService.max_date_tzinfo].
    split; [done|]. split; [done|]. split; [done|]. split; [done|].
    split; [by rewrite Hlog2, Hlog1, <- !app_assoc|].
    split; [by rewrite !page_steps_app, Hsteps1, Hsteps2|].
    done.
  - apply orb_false_iff in Hend as [-> Hmore].
    apply negb_false_iff in Hmore. rewrite Hmore in Hrest.
    destruct (IH fuel (ChatPage.next_cursor page) (SyncService.Build st2 w2))
      as (s3 & evs3 & Hrun3 & Hready3 & Hmax3 & Hproc3 & Hlog3 & Hsteps3
          & Hout3 & Hoth3); try done.
    cbn [SyncService.state SyncService.world SyncService.max_date_tzinfo] in *.
    assert (run_plan (stops (SyncState.max_date st2) w2)
              (ChatPage.next_cursor page) pages
            = run_plan (stops (SyncState.max_date st) w)
                (ChatPage.next_cursor page) pages) as Hplan.
    { apply run_plan_ext, Forall_forall. intros c Hc.
      rewrite Hmax2. apply stops_ext, Hoth2.
      intros Hin. eapply Hdisj; [|by apply list_elem_of_fmap_2].
      apply list_elem_of_fmap in Hin as (c' & -> & Hc').
      apply list_elem_of_fmap_2. by apply Hsub1. }
    rewrite Hplan in *. clear Hplan.
    pose proof (run_plan_subset (stops (SyncState.max_date st) w)
                  (ChatPage.next_cursor page) pages) as Hsub3.
    destruct (run_plan (stops (SyncState.max_date st) w)
                (ChatPage.next_cursor page) pages) as [steps rest].
    cbn [fst snd] in *.
    exists s3, ([ApiGetChats cursor] ++ evs1 ++ evs2 ++ evs3).
    simpl negb. cbv iota. split; [done|]. split; [done|].
    split; [congruence|]. split.
    { rewrite Hproc3, Hproc2, succeeded_app. lia. }
    split; [by rewrite Hlog3, Hlog2, Hlog1, <- !app_assoc|].
    split.
    { rewrite !page_steps_app, Hsteps1, Hsteps2, Hsteps3.
      simpl. by rewrite <- !app_assoc. }
    assert (forall c, c ∈ done -> Chat.external_id c ∉ Chat.external_id <$> rest)
      as Hdisj1.
    { intros c Hc (c' & Heq & Hc')%list_elem_of_fmap.
      eapply (Hdisj (Chat.external_id c)).
      - apply list_elem_of_fmap_2. by apply Hsub1.
      - rewrite Heq. apply list_elem_of_fmap_2. by apply Hsub3. }
    assert (forall c, c ∈ rest -> Chat.external_id c ∉ Chat.external_id <$> done)
      as Hdisj2.
    { intros c Hc (c' & Heq & Hc')%list_elem_of_fmap.
      eapply (Hdisj (Chat.external_id c')).
      - apply list_elem_of_fmap_2. by apply Hsub1.
      - rewrite <- Heq. apply list_elem_of_fmap_2. by apply Hsub3. }
    split.
    + apply Forall_app. split.
      * rewrite Forall_forall in Hout2 |- *. intros c Hc.
        specialize (Hout2 c Hc). unfold record_outcome in *.
        rewrite Hoth3; [done|]. by apply Hdisj1.
      * rewrite Forall_forall in Hout3 |- *. intros c Hc.
        specialize (Hout3 c Hc). unfold record_outcome in *.
        rewrite Hoth2 in Hout3; [done|]. by apply Hdisj2.
    + intros e He. rewrite fmap_app in He.
      apply not_elem_of_app in He as [He1 He2]. by rewrite Hoth3, Hoth2.
Qed.

Lemma processed_prefix_app stop l1 l2 :
  processed_prefix stop (l1 ++ l2)
  = if (processed_prefix stop l1).2 then processed_prefix stop l1
    else ((processed_prefix stop l1).1 ++ (processed_prefix stop l2).1,
          (processed_prefix stop l2).2).
Proof.
  induction l1 as [|c l1 IH]; cbn [app processed_prefix].
  - by destruct (processed_prefix stop l2).
  - destruct (stop c); [done|]. rewrite IH.
    destruct (processed_prefix stop l1) as [d1 b1].
    destruct (processed_prefix stop l2) as [d2 b2]. simpl. by destruct b1.
Qed.

(** Over pages that follow each other, the records a run goes over are
    those before the first one that stops. *)
Lemma run_plan_records env api_client stop pages :
  forall cursor,
    serves env api_client cursor pages ->
    (run_plan stop cursor pages).2
    = (processed_prefix stop (records_of pages)).1.
Proof.
  induction pages as [|page pages IH]; intros cursor Hserves; [done|].
  destruct Hserves as [_ Hrest].
  change (records_of (page :: pages))
    with (ChatPage.chats page ++ records_of pages).
  rewrite processed_prefix_app. cbn [run_plan].
  destruct (processed_prefix stop (ChatPage.chats page)) as [done stopped].
  cbn [fst snd]. destruct stopped; [done|]. simpl orb.
  destruct (ChatPage.has_more page).
  - simpl negb. cbv iota. specialize (IH _ Hrest).
    destruct (run_plan stop (ChatPage.next_cursor page) pages) as [steps rest].
    simpl in *. by rewrite IH.
  - subst pages. simpl. by rewrite app_nil_r.
Qed.

(** *** The mock source: newest first *)

Lemma older_monotone self D i j :
  (i <= j)%Z ->
  older (Some D) (MockExternalAPIClient._generate_chat self i) = true ->
  older (Some D) (MockExternalAPIClient._generate_chat self j) = true.
Proof.
  unfold older, MockExternalAPIClient._generate_chat, timedelta_hours.
  cbv zeta. cbn [Chat.last_message ChatMessage.created_at].
  rewrite !Z.ltb_lt. lia.
Qed.

Lemma filter_none {A} (P : A -> Prop) `{!forall x, Decision (P x)} l :
  Forall (fun x => ~ P x) l -> filter P l = [].
Proof.
  induction 1 as [|x l Hx _ IH]; [done|].
  by rewrite filter_cons, decide_False.
Qed.

Lemma processed_prefix_older self D n :
  forall a,
    (processed_prefix (older (Some D))
       (MockExternalAPIClient._generate_chat self <$> seqZ a (Z.of_nat n))).1
    = filter (fun chat => older (Some D) chat = false)
        (MockExternalAPIClient._generate_chat self <$> seqZ a (Z.of_nat n)).
Proof.
  induction n as [|n IH]; intros a; [done|].
  rewrite seqZ_cons by lia.
  replace (Z.pred (Z.of_nat (S n))) with (Z.of_nat n) by lia.
  cbn [fmap list_fmap processed_prefix]. rewrite filter_cons.
  destruct (older (Some D) (MockExternalAPIClient._generate_chat self a))
    eqn:Hold.
  - rewrite decide_False by done. cbn [fst]. symmetry.
    apply filter_none, Forall_fmap, Forall_seqZ. intros i Hi.
    unfold compose. rewrite (older_monotone self D a i); [done|lia|done].
  - rewrite decide_True by done. specialize (IH (Z.succ a)).
    destruct (processed_prefix _ _) as [d b]. simpl in *. by rewrite IH.
Qed.

(** *** A run over the mock source *)

Lemma length_pages_from_le self n page_num :
  length (pages_from self n page_num) <= S n.
Proof.
  revert page_num. induction n as [|n IH]; intros page_num; [done|].
  cbn [pages_from length]. destruct (ChatPage.has_more _); [|simpl; lia].
  specialize (IH (page_num + 1)%Z). lia.
Qed.

Lemma run_over_source env self fuel st w :
  (1 <= MockExternalAPIClient.page_size self)%Z ->
  no_failure env self ->
  engine_ready (SyncService.Build st w) ->
  Z.to_nat (MockExternalAPIClient.total_chats self
            - MockExternalAPIClient._decode_cursor (start_cursor st)
              * MockExternalAPIClient.page_size self) < fuel ->
  let done :=
    (processed_prefix (stops (SyncState.max_date st) w)
                      (records_from self st)).1 in
  exists s',
    SyncService.run env self fuel (SyncService.Build st w) = (Ok tt, s')
    /\ engine_ready s'
    /\ SyncState.max_date (SyncService.state s') = SyncState.max_date st
    /\ SyncState.processed_chats (SyncService.state s')
       = SyncState.processed_chats st + succeeded env done
    /\ Forall (record_outcome env w (SyncService.world s')) done
    /\ forall e, e ∉ Chat.external_id <$> done ->
         deal_of e (SyncService.world s') = deal_of e w.
Proof.
  intros Hps Hok Hready Hfuel. cbv zeta.
  set (page_num := MockExternalAPIClient._decode_cursor (start_cursor st)) in *.
  set (n := Z.to_nat (MockExternalAPIClient.total_chats self
                      - page_num * MockExternalAPIClient.page_size self)) in *.
  assert (MockExternalAPIClient.total_chats self
          <= (page_num + 1 + Z.of_nat n)
             * MockExternalAPIClient.page_size self)%Z as Hend.
  { subst n. nia. }
  pose proof (serves_pages_from env self n (start_cursor st) Hok Hend)
    as Hserves.
  pose proof (records_of_pages_from self n page_num Hps Hend) as Hrecords.
  fold page_num in Hserves.
  destruct (run_loop_stops env self (pages_from self n page_num) fuel
              (start_cursor st) (SyncService.Build st w))
    as (s' & evs & Hrun & Hready' & Hmax & Hproc & _ & _ & Hout & Hoth);
    try done.
  { pose proof (length_pages_from_le self n page_num). lia. }
  { rewrite Hrecords. apply NoDup_generated_external_ids, NoDup_seqZ. }
  cbn [SyncService.state SyncService.world SyncService.max_date_tzinfo] in *.
  rewrite (run_plan_records env self _ _ _ Hserves), Hrecords in *.
  exists s'. split; [|done].
  unfold SyncService.run. unfold_monad.
  cbn beta iota zeta delta [SyncService.state SyncService.world SyncService.max_date_tzinfo]. exact Hrun.
Qed.

(** X5: a run over the mock source (page size at least 1, no simulated
    failure, timestamps and counters within their ranges), whose cutoff, if
    it has one, carries tzinfo, starts at the page of the stored cursor and
    goes over the records in order up to the first one that is older than
    the cutoff or whose entity already holds its last message. Exactly the
    records before that one are synced, the counter grows by those whose
    document write went through, and no other entity is touched. *)
Theorem run_syncs_the_records_before_the_first_stop env self fuel s :
  let st := SyncService.state s in
  let w := SyncService.world s in
  (1 <= MockExternalAPIClient.page_size self)%Z ->
  no_failure env self ->
  engine_ready s ->
  SyncService.max_date_tzinfo s = true ->
  Forall (can_generate self) (indexes_from self st) ->
  counters_below_max w ->
  processed_count_fits self st ->
  Z.to_nat (MockExternalAPIClient.total_chats self
            - MockExternalAPIClient._decode_cursor (start_cursor st)
              * MockExternalAPIClient.page_size self) < fuel ->
  let done :=
    (processed_prefix (stops (SyncState.max_date st) w)
                      (records_from self st)).1 in
  exists s',
    SyncService.run env self fuel s = (Ok tt, s')
    /\ SyncState.processed_chats (SyncService.state s')
       = SyncState.processed_chats st + succeeded env done
    /\ Forall (record_outcome env w (SyncService.world s')) done
    /\ forall e, e ∉ Chat.external_id <$> done ->
         deal_of e (SyncService.world s') = deal_of e w.
Proof.
  destruct s as [st w tz]. cbv zeta.
  cbn [SyncService.state SyncService.world SyncService.max_date_tzinfo].
  intros Hps Hok Hready -> _ _ _ Hfuel.
  destruct (run_over_source env self fuel st w Hps Hok Hready Hfuel)
    as (s' & Hrun & _ & _ & Hproc & Hout & Hoth).
  exists s'. done.
Qed.

Lemma run_syncs_the_records_before_the_first_stop_witness :
  exists s',
    SyncService.run quiet_env (client_of 25) 16
      (SyncService.Build interrupted_run world_interrupted) = (Ok tt, s')
    /\ SyncState.processed_chats (SyncService.state s') = 25
    /\ deal_of "chat_0009" (SyncService.world s') = None.
Proof.
  destruct (run_syncs_the_records_before_the_first_stop quiet_env (client_of 25)
              16 (SyncService.Build interrupted_run world_interrupted))
    as (s' & Hrun & Hproc & _ & Hoth).
  - simpl. lia.
  - intros cursor. reflexivity.
  - apply (bool_decide_unpack _). vm_compute. exact I.
  - reflexivity.
  - apply (bool_decide_unpack _). vm_compute. exact I.
  - apply (bool_decide_unpack _). vm_compute. exact I.
  - apply (bool_decide_unpack _). vm_compute. exact I.
  - vm_compute. lia.
  - exists s'. split; [exact Hrun|]. split.
    + rewrite Hproc. vm_compute. reflexivity.
    + rewrite Hoth; [reflexivity|]. apply (bool_decide_unpack _).
      vm_compute. exact I.
Defined.

Lemma seqZ_to_nat m len : seqZ m len = seqZ m (Z.of_nat (Z.to_nat len)).
Proof. unfold seqZ. by rewrite Nat2Z.id. Qed.

(** X6: a bounded backfill over the mock source (page size at least 1, no
    simulated failure, timestamps and counters within their ranges), with a
    cutoff that carries tzinfo, on a store in which every record from the
    stored cursor on is new or changed, syncs exactly the records whose last
    message is not older than the cutoff: the counter grows by those whose
    document write went through, and the entity of no older record is
    touched. *)
Theorem bounded_backfill_syncs_the_records_within_the_cutoff
    env self fuel s D :
  let st := SyncService.state s in
  let w := SyncService.world s in
  (1 <= MockExternalAPIClient.page_size self)%Z ->
  no_failure env self ->
  engine_ready s ->
  SyncState.max_date st = Some D ->
  SyncService.max_date_tzinfo s = true ->
  Forall (can_generate self) (indexes_from self st) ->
  counters_below_max w ->
  processed_count_fits self st ->
  Forall (changed w) (records_from self st) ->
  Z.to_nat (MockExternalAPIClient.total_chats self
            - MockExternalAPIClient._decode_cursor (start_cursor st)
              * MockExternalAPIClient.page_size self) < fuel ->
  let within :=
    filter (fun chat => (D <= ChatMessage.created_at (Chat.last_message chat))%Z)
           (records_from self st) in
  exists s',
    SyncService.run env self fuel s = (Ok tt, s')
    /\ SyncState.processed_chats (SyncService.state s')
       = SyncState.processed_chats st + succeeded env within
    /\ Forall (record_outcome env w (SyncService.world s')) within
    /\ forall e, e ∉ Chat.external_id <$> within ->
         deal_of e (SyncService.world s') = deal_of e w.
Proof.
  destruct s as [st w tz]. cbv zeta.
  cbn [SyncService.state SyncService.world SyncService.max_date_tzinfo].
  intros Hps Hok Hready HD -> _ _ _ Hch Hfuel.
  destruct (run_over_source env self fuel st w Hps Hok Hready Hfuel)
    as (s' & Hrun & _ & _ & Hproc & Hout & Hoth).
  assert ((processed_prefix (stops (SyncState.max_date st) w)
                            (records_from self st)).1
          = filter (fun chat =>
                      (D <= ChatMessage.created_at (Chat.last_message chat))%Z)
                   (records_from self st)) as Hdone.
  { rewrite (processed_prefix_ext _ (older (Some D))).
    - unfold records_from. cbv zeta. rewrite seqZ_to_nat.
      rewrite processed_prefix_older. apply list_filter_iff. intros chat.
      unfold older. rewrite Z.ltb_ge. done.
    - eapply Forall_impl; [exact Hch|]. intros chat Hchat. unfold stops.
      rewrite HD, bool_decide_false, orb_false_r; [done|]. by intros []. }
  rewrite Hdone in *. exists s'. done.
Qed.

Lemma bounded_backfill_syncs_the_records_within_the_cutoff_witness :
  exists s',
    SyncService.run quiet_env (client_of 25) 26
      (SyncService.Build state_cutoff world_cutoff) = (Ok tt, s')
    /\ SyncState.processed_chats (SyncService.state s') = 2
    /\ deal_of "chat_0002" (SyncService.world s') = None.
Proof.
  destruct (bounded_backfill_syncs_the_records_within_the_cutoff quiet_env
              (client_of 25) 26 (SyncService.Build state_cutoff world_cutoff)
              1716202800000000%Z)
    as (s' & Hrun & Hproc & _ & Hoth).
  - simpl. lia.
  - intros cursor. reflexivity.
  - apply (bool_decide_unpack _). vm_compute. exact I.
  - reflexivity.
  - reflexivity.
  - apply (bool_decide_unpack _). vm_compute. exact I.
  - apply (bool_decide_unpack _). vm_compute. exact I.
  - apply (bool_decide_unpack _). vm_compute. exact I.
  - apply (bool_decide_unpack _). vm_compute. exact I.
  - vm_compute. lia.
  - exists s'. split; [exact Hrun|]. split.
    + rewrite Hproc. vm_compute. reflexivity.
    + rewrite Hoth; [reflexivity|]. apply (bool_decide_unpack _).
      vm_compute. exact I.
Defined.

Lemma after_pages_only_cursor pages st :
  after_pages pages st
  = SyncState.set_cursor (SyncState.cursor (after_pages pages st)) st.
Proof.
  revert st. unfold after_pages.
  induction pages as [|page pages IH]; intros st; [by destruct st|].
  simpl. rewrite IH. unfold persisted.
  destruct (ChatPage.next_cursor page); [case_bool_decide|]; by destruct st.
Qed.

(** X7: a task started with no cutoff on a well-formed store (lock free, no
    incomplete run, every record new or changed, every stored message count
    below the largest value of its column) over any mock source with a page
    size of at least 1, no simulated failure and timestamps that are all in
    the range of a datetime completes: it goes over all the records,
    persists the cursor once per page but the last
    (ceil(total / page_size) - 1 times), and leaves its Run State COMPLETED
    with the count of the records whose document write went through and the
    cursor of the last page; the lock is released. *)
Theorem full_sync_over_any_source env self req fuel w :
  (1 <= MockExternalAPIClient.page_size self)%Z ->
  no_failure env self ->
  Forall (can_generate self) (seqZ 0 (MockExternalAPIClient.total_chats self)) ->
  (MockExternalAPIClient.total_chats self <= int4_max)%Z ->
  can_start (tasks.id req) w ->
  index_wf w ->
  counters_below_max w ->
  let records :=
    MockExternalAPIClient._generate_chat self
    <$> seqZ 0 (MockExternalAPIClient.total_chats self) in
  Forall (changed w) records ->
  page_count self <= fuel ->
  let r := tasks.sync_chats_task env self req None fuel w in
  let n := succeeded env records in
  r.1 = Ok (tasks.completed n (tasks.id req))
  /\ SyncState.Build (sync_states_id_seq w) (tasks.id req) SyncState.COMPLETED
       (if decide (page_count self = 1) then ""
        else MockExternalAPIClient._encode_cursor
               (Z.of_nat (page_count self) - 1))
       None n "" (now w)
     ∈ sync_states (db r.2)
  /\ cursor_persists (log r.2) = cursor_persists (log w) + (page_count self - 1)
  /\ Forall (record_outcome env w r.2) records
  /\ cache r.2 !! tasks.SYNC_LOCK_KEY = None.
Proof.
  intros Hps Hok _ _ Hstart Hwf _ records Hch Hfuel.
  pose proof (records_of_pages self Hps) as Hrecords.
  fold records in Hrecords.
  destruct (sync_chats_task_pages env self req (pages self) fuel w)
    as (Hres & Hrow & (evs & Hlog & Hsteps) & Hout & _ & _ & Hlock).
  { by rewrite length_pages. }
  { by apply serves_pages. }
  { done. }
  { done. }
  { rewrite Hrecords. apply NoDup_generated_external_ids, NoDup_seqZ. }
  { by rewrite Hrecords. }
  rewrite Hrecords in *. cbv zeta.
  split; [exact Hres|]. split.
  { rewrite after_pages_only_cursor, cursor_after_pages in Hrow by done.
    exact Hrow. }
  split.
  { rewrite !cursor_persists_steps, Hlog, page_steps_app, persists_in_app.
    by rewrite Hsteps, persists_script_pages. }
  split; [exact Hout|exact Hlock].
Qed.

Lemma full_sync_over_any_source_witness :
  (tasks.sync_chats_task quiet_env (client_of 25) request_1 None 3
     world_stale_6).1
  = Ok (tasks.completed 25 "task-1")
  /\ cursor_persists
       (log (tasks.sync_chats_task quiet_env (client_of 25) request_1 None 3
               world_stale_6).2)
     = 2.
Proof.
  destruct (full_sync_over_any_source quiet_env (client_of 25) request_1 3
              world_stale_6) as (Hres & _ & Hpersists & _).
  - simpl. lia.
  - intros cursor. reflexivity.
  - apply (bool_decide_unpack _). vm_compute. exact I.
  - apply (bool_decide_unpack _). vm_compute. exact I.
  - apply (bool_decide_unpack _). vm_compute. exact I.
  - apply (bool_decide_unpack _). vm_compute. exact I.
  - apply (bool_decide_unpack _). vm_compute. exact I.
  - apply (bool_decide_unpack _). vm_compute. exact I.
  - vm_compute. lia.
  - split; [exact Hres|exact Hpersists].
Defined.

(** ** The task around the run: the lock and the failure path *)

Lemma retry_raises {A} req exc fr :
  tasks.retry (A:=A) req exc fr = (Raise (retried req exc), fr).
Proof. unfold tasks.retry, retried. by destruct (_ <? _)%nat. Qed.

Lemma get_or_create_sync_state_row env task_id max_date w :
  let r := tasks._get_or_create_sync_state env task_id max_date w in
  cache r.2 = cache w
  /\ match r.1 with
     | Ok st => SyncState.row st ∈ sync_states (db r.2)
     | Raise _ => db r.2 = db w
     | OutOfFuel => False
     end.
Proof.
  unfold tasks._get_or_create_sync_state. cbv zeta.
  destruct (first _) as [st|] eqn:Hfirst.
  - simpl. split; [done|].
    by apply first_merge_sort_Some in Hfirst as [_ Hin]%list_elem_of_filter.
  - unfold mbind, M_bind.
    destruct (parse_max_date_world env max_date
                (record (SqlSelect sync_states_tbl) w)) as [Hw Hret].
    destruct (tasks.parse_max_date _ _ _) as [[parsed_date|e|] w1];
      simpl in Hw, Hret; subst w1; [|done..].
    unfold SyncStateManager.create. cbv zeta.
    cbn [db record sync_states set_sync_states_id_seq sync_states_id_seq].
    destruct (_ || _); simpl; [done|]. split; [done|].
    apply elem_of_app. right. left.
Qed.

Lemma sync_state_save_cache obj fields w :
  cache (SyncStateManager.save obj fields w).2 = cache w.
Proof.
  unfold SyncStateManager.save. cbv zeta. by destruct (has_pk _ _ _).
Qed.

Lemma sync_state_save_has_pk obj fields w :
  has_pk SyncState.id (SyncState.id obj) (sync_states (db w)) = true ->
  (SyncStateManager.save obj fields w).1 = Ok tt
  /\ has_pk SyncState.id (SyncState.id obj)
            (sync_states (db (SyncStateManager.save obj fields w).2)) = true.
Proof.
  intros Hpk. unfold SyncStateManager.save. cbv zeta.
  cbn [db record sync_states]. rewrite Hpk. simpl. split; [done|].
  apply has_pk_elem_of in Hpk as (r & Hin & Hr).
  apply has_pk_elem_of. eexists. split.
  - unfold update_pk. apply list_elem_of_fmap. by exists r.
  - simpl. by rewrite Hr, Nat.eqb_refl.
Qed.

Lemma has_pk_run_statuses pk w w' :
  run_statuses w' = run_statuses w ->
  has_pk SyncState.id pk (sync_states (db w)) = true ->
  has_pk SyncState.id pk (sync_states (db w')) = true.
Proof.
  intros Hsts Hpk. apply has_pk_elem_of in Hpk as (r & Hin & Hr).
  assert ((SyncState.id r, SyncState.status r) ∈ run_statuses w') as Hin'.
  { rewrite Hsts. unfold run_statuses. apply list_elem_of_fmap. by exists r. }
  unfold run_statuses in Hin'.
  apply list_elem_of_fmap in Hin' as (r' & Heq & Hin'). simplify_eq.
  apply has_pk_elem_of. exists r'. split; [done|congruence].
Qed.

(** The [try] block: the cache is left alone, and when the block raises
    with a Run State in hand, the row of that Run State is in the table. *)
Lemma sync_chats_task_try_raises env api_client req max_date fuel w :
  let g := tasks._get_or_create_sync_state env (tasks.id req) max_date w in
  let r := tasks.sync_chats_task_try env api_client req max_date fuel
             (None, w) in
  cache r.2.2 = cache w
  /\ forall e, r.1 = Raise e ->
       match g.1 with
       | Ok st =>
           exists st', r.2.1 = Some st'
             /\ SyncState.id st' = SyncState.id st
             /\ has_pk SyncState.id (SyncState.id st)
                       (sync_states (db r.2.2)) = true
       | Raise e' => e = e' /\ r.2.1 = None /\ db r.2.2 = db w
       | OutOfFuel => False
       end.
Proof.
  cbv zeta. unfold tasks.sync_chats_task_try, tasks.with_state.
  unfold_monad. unfold tasks.lift.
  pose proof (get_or_create_sync_state_row env (tasks.id req) max_date w)
    as Hgoc. cbv zeta in Hgoc.
  destruct (tasks._get_or_create_sync_state _ _ _ _) as [[st|e0|] w2];
    cbn [fst snd] in Hgoc |- *; destruct Hgoc as [Hc2 Hrow]; [| |done].
  2:{ split; [done|]. intros e He. by simplify_eq. }
  assert (has_pk SyncState.id (SyncState.id st) (sync_states (db w2)) = true)
    as Hpk2 by (apply has_pk_elem_of; by exists (SyncState.row st)).
  cbn beta iota zeta delta [SyncService.state SyncService.world SyncService.max_date_tzinfo].
  pose proof (sync_state_save_cache (SyncState.set_status SyncState.RUNNING st)
                ["status"; "updated_at"] w2) as Hc3.
  destruct (sync_state_save_has_pk (SyncState.set_status SyncState.RUNNING st)
              ["status"; "updated_at"] w2 Hpk2) as [Hok3 Hpk3].
  destruct (SyncStateManager.save _ _ w2) as [r3 w3].
  cbn [fst snd] in *. subst r3.
  pose proof (run_engine_frame env api_client fuel
                (SyncService.Build_self
                   (SyncState.set_status SyncState.RUNNING st) w3
                   (SyncState.max_date_tzinfo st)))
    as Hrun.
  destruct (SyncService.run _ _ _ _) as [r4 [st4 w4 tz4]].
  destruct Hrun as [_ Hid4 _ _ Hsts4 Hc4 _ _ _]. simpl in Hid4, Hsts4, Hc4.
  assert (has_pk SyncState.id (SyncState.id st) (sync_states (db w4)) = true)
    as Hpk4 by (by apply (has_pk_run_statuses _ w3)).
  destruct r4 as [[]|e|]; cbn [fst snd];
    cbn beta iota zeta delta [SyncService.state SyncService.world SyncService.max_date_tzinfo].
  - pose proof (sync_state_save_cache
                  (SyncState.set_status SyncState.COMPLETED st4)
                  ["status"; "updated_at"] w4) as Hc5.
    destruct (sync_state_save_has_pk
                (SyncState.set_status SyncState.COMPLETED st4)
                ["status"; "updated_at"] w4) as [Hok5 Hpk5].
    { simpl. by rewrite Hid4. }
    destruct (SyncStateManager.save _ _ w4) as [r5 w5].
    cbn [fst snd] in *. subst r5. simpl. split; [congruence|done].
  - simpl. split; [congruence|]. intros e' _. by exists st4.
  - simpl. split; [congruence|done].
Qed.

(** The [except] block with a Run State whose row is in the table. *)
Lemma sync_chats_task_except_row req e st w :
  has_pk SyncState.id (SyncState.id st) (sync_states (db w)) = true ->
  let r := tasks.sync_chats_task_except req e (Some st, w) in
  r.1 = Raise (retried req e)
  /\ cache r.2.2 = cache w
  /\ (exists row, row ∈ sync_states (db r.2.2)
                  /\ SyncState.id row = SyncState.id st)
  /\ forall row, row ∈ sync_states (db r.2.2) ->
       SyncState.id row = SyncState.id st ->
       SyncState.status row = SyncState.FAILED
       /\ SyncState.error_message row = str_exn e.
Proof.
  intros Hpk. cbv zeta. unfold tasks.sync_chats_task_except.
  unfold_monad. unfold tasks.lift. cbn [fst snd].
  set (obj := SyncState.set_error_message _ _).
  assert (SyncState.id obj = SyncState.id st) as Hid by done.
  unfold SyncStateManager.save. cbv zeta. cbn [db record sync_states].
  rewrite Hid, Hpk. rewrite retry_raises. cbn [fst snd].
  split; [done|]. split; [done|]. simpl. split.
  - apply has_pk_elem_of in Hpk as (r & Hin & Hr).
    eexists. split.
    + unfold update_pk. apply list_elem_of_fmap. by exists r.
    + by rewrite Hr, Nat.eqb_refl.
  - intros row Hin Hrow. unfold update_pk in Hin.
    apply list_elem_of_fmap in Hin as (r & -> & Hin).
    destruct (Nat.eqb_spec (SyncState.id r) (SyncState.id st)) as [Heq|Hne];
      [done|]. by destruct Hne.
Qed.

Lemma sync_chats_task_except_none req e w :
  tasks.sync_chats_task_except req e (None, w)
  = (Raise (retried req e), (None, w)).
Proof.
  unfold tasks.sync_chats_task_except. unfold_monad. cbn [fst snd].
  by rewrite retry_raises.
Qed.

Lemma sync_chats_task_acquired env api_client req max_date fuel w :
  cache w !! tasks.SYNC_LOCK_KEY = None ->
  tasks.sync_chats_task env api_client req max_date fuel w
  = let r := try_finally
               (try_except
                  (tasks.sync_chats_task_try env api_client req max_date fuel)
                  (tasks.sync_chats_task_except req))
               (tasks.lift (tasks.cache_delete tasks.SYNC_LOCK_KEY))
               (None, acquired req w) in
    (r.1, r.2.2).
Proof.
  intros Hfree. unfold tasks.sync_chats_task, acquired, tasks.cache_add.
  cbn [cache record]. rewrite Hfree. cbn [snd].
  by destruct (try_finally _ _ _) as [r [st w']].
Qed.

Lemma cache_acquired req w :
  cache w !! tasks.SYNC_LOCK_KEY = None ->
  delete tasks.SYNC_LOCK_KEY (cache (acquired req w)) = cache w.
Proof.
  intros Hfree. unfold acquired, tasks.cache_add. cbn [cache record].
  rewrite Hfree. simpl. by apply delete_insert_id.
Qed.

Lemma sync_chats_task_except_cache req e fr :
  cache (tasks.sync_chats_task_except req e fr).2.2 = cache fr.2.
Proof.
  destruct fr as [[st|] w]; [|by rewrite sync_chats_task_except_none].
  unfold tasks.sync_chats_task_except. unfold_monad. unfold tasks.lift.
  cbn [fst snd].
  pose proof (sync_state_save_cache
                (SyncState.set_error_message (str_exn e)
                   (SyncState.set_status SyncState.FAILED st))
                ["status"; "error_message"; "updated_at"] w) as Hc.
  destruct (SyncStateManager.save _ _ w) as [[[]|e'|] w']; [|done..].
  by rewrite retry_raises.
Qed.

Lemma get_or_create_sync_state_duplicate env task_id max_date w :
  parses env max_date = true ->
  Forall (fun row => ~ incomplete row) (sync_states (db w)) ->
  Exists (fun row => SyncState.task_id row = task_id) (sync_states (db w)) ->
  exists msg,
    tasks._get_or_create_sync_state env task_id max_date w
    = (Raise (IntegrityError msg),
       record (SqlInsert sync_states_tbl (sync_states_id_seq w))
         (set_sync_states_id_seq (S (sync_states_id_seq w))
            (record (SqlSelect sync_states_tbl) w))).
Proof.
  intros Hvalid Hdone Hdup. unfold tasks._get_or_create_sync_state. cbv zeta.
  unfold SyncStateManager.filter_status_in, SyncStateManager.ordered.
  assert (filter (fun s => SyncState.status s
                           ∈ [SyncState.RUNNING; SyncState.PENDING])
                 (sync_states (db w)) = []) as ->.
  { clear Hdup. induction Hdone as [|r rows Hr _ IH]; [done|].
    rewrite filter_cons, decide_False by done. exact IH. }
  simpl first. cbv iota.
  destruct (parse_max_date_ok env max_date Hvalid) as [parsed_date Hparse].
  unfold mbind at 1, M_bind at 1. rewrite Hparse.
  unfold mbind at 1, M_bind at 1.
  unfold SyncStateManager.create. cbv zeta.
  cbn [db record sync_states set_sync_states_id_seq sync_states_id_seq now].
  assert (existsb (fun s => bool_decide (SyncState.task_id s = task_id))
                  (sync_states (db w)) = true) as ->.
  { apply existsb_exists. apply Exists_exists in Hdup as (row & Hin & Hrow).
    exists row. split; [by apply list_elem_of_In|by apply bool_decide_eq_true]. }
  rewrite orb_true_r. by eexists.
Qed.

(** X8: an invocation that takes the lock gives it back whatever the
    outcome is (a result, an exception, a retry): the cache is what it
    was before the invocation, and releasing the lock is the last thing the
    invocation does. *)
Theorem lock_is_released env api_client req max_date fuel w :
  cache w !! tasks.SYNC_LOCK_KEY = None ->
  let r := tasks.sync_chats_task env api_client req max_date fuel w in
  cache r.2 = cache w
  /\ last (log r.2) = Some (CacheDelete tasks.SYNC_LOCK_KEY).
Proof.
  intros Hfree. cbv zeta. rewrite sync_chats_task_acquired by done.
  cbv zeta. unfold try_finally, try_except.
  destruct (sync_chats_task_try_raises env api_client req max_date fuel
              (acquired req w)) as [Hc _].
  destruct (tasks.sync_chats_task_try _ _ _ _ _ _) as [r1 fr1].
  assert (exists r2 st2 w2,
            match r1 with
            | Ok a => (Ok a, fr1)
            | Raise e => tasks.sync_chats_task_except req e fr1
            | OutOfFuel => (OutOfFuel, fr1)
            end = (r2, (st2, w2))
            /\ cache w2 = cache (acquired req w)) as (r2 & st2 & w2 & -> & Hc2).
  { destruct r1 as [a|e|], fr1 as [st1 w1]; [by eexists _, _, _| |by eexists _, _, _].
    pose proof (sync_chats_task_except_cache req e (st1, w1)) as Hc1.
    destruct (tasks.sync_chats_task_except _ _ _) as [r2 [st2 w2]].
    exists r2, st2, w2. split; [done|]. cbn [fst snd] in *. congruence. }
  unfold tasks.lift, tasks.cache_delete. cbn [fst snd].
  split.
  - cbn [cache set_cache record]. rewrite Hc2. by apply cache_acquired.
  - cbn [log set_cache record]. by rewrite last_snoc.
Qed.

Lemma lock_is_released_witness :
  let r := tasks.sync_chats_task quiet_env failing_client request_1 None 3
             (empty_world 0%Z) in
  cache r.2 = cache (empty_world 0%Z)
  /\ last (log r.2) = Some (CacheDelete tasks.SYNC_LOCK_KEY).
Proof.
  apply (lock_is_released quiet_env failing_client request_1 None 3
           (empty_world 0%Z)).
  vm_compute. reflexivity.
Defined.

(** X9: an exception that leaves an invocation holding the lock is what
    [self.retry] makes of the exception [exc] raised inside: [Retry exc]
    while retries remain, [exc] itself once they are used up. Before it
    leaves, it is recorded: the row of the Run State that the invocation
    obtained is FAILED and carries [str(exc)]. When no Run State could be
    obtained, because inserting the row failed, the tables are as before. *)
Theorem failed_invocation_is_recorded env api_client req max_date fuel w e :
  cache w !! tasks.SYNC_LOCK_KEY = None ->
  let r := tasks.sync_chats_task env api_client req max_date fuel w in
  r.1 = Raise e ->
  exists exc,
    e = retried req exc
    /\ match (tasks._get_or_create_sync_state env (tasks.id req) max_date
                (acquired req w)).1 with
       | Ok st =>
           (exists row, row ∈ sync_states (db r.2)
                        /\ SyncState.id row = SyncState.id st)
           /\ forall row, row ∈ sync_states (db r.2) ->
                SyncState.id row = SyncState.id st ->
                SyncState.status row = SyncState.FAILED
                /\ SyncState.error_message row = str_exn exc
       | Raise exc' => exc = exc' /\ db r.2 = db w
       | OutOfFuel => False
       end.
Proof.
  intros Hfree. cbv zeta. rewrite sync_chats_task_acquired by done.
  cbv zeta. unfold try_finally, try_except.
  destruct (sync_chats_task_try_raises env api_client req max_date fuel
              (acquired req w)) as [_ Htry]. cbv zeta in Htry.
  destruct (tasks.sync_chats_task_try _ _ _ _ _ _) as [r1 [st1 w1]].
  cbn [fst snd] in Htry.
  destruct r1 as [a|exc|].
  { unfold tasks.lift, tasks.cache_delete. by cbn [fst snd]. }
  2:{ unfold tasks.lift, tasks.cache_delete. by cbn [fst snd]. }
  specialize (Htry exc eq_refl).
  destruct (tasks._get_or_create_sync_state _ _ _ _).1 as [st|exc'|];
    [| |done].
  - destruct Htry as (st' & -> & Hid & Hpk). rewrite <- Hid in Hpk.
    destruct (sync_chats_task_except_row req exc st' w1 Hpk)
      as (Hr & _ & Hex & Hall). cbv zeta in Hr, Hex, Hall.
    destruct (tasks.sync_chats_task_except _ _ _) as [r2 [st2 w2]].
    cbn [fst snd] in *. subst r2.
    unfold tasks.lift, tasks.cache_delete. cbn [fst snd].
    intros [= <-]. exists exc. split; [done|]. rewrite <- Hid.
    split; [exact Hex|exact Hall].
  - destruct Htry as (-> & -> & Hdb).
    rewrite sync_chats_task_except_none.
    unfold tasks.lift, tasks.cache_delete. cbn [fst snd].
    intros [= <-]. exists exc'. split; [done|]. split; [done|].
    simpl. rewrite Hdb. unfold acquired, tasks.cache_add. cbn [cache record].
    by rewrite Hfree.
Qed.

Lemma failed_invocation_is_recorded_witness :
  let r := tasks.sync_chats_task quiet_env failing_client request_1 None 3
             (empty_world 0%Z) in
  exists exc,
    Retry (ExternalAPIError "Simulated API failure") = retried request_1 exc
    /\ match (tasks._get_or_create_sync_state quiet_env (tasks.id request_1)
                None (acquired request_1 (empty_world 0%Z))).1 with
       | Ok st =>
           (exists row, row ∈ sync_states (db r.2)
                        /\ SyncState.id row = SyncState.id st)
           /\ forall row, row ∈ sync_states (db r.2) ->
                SyncState.id row = SyncState.id st ->
                SyncState.status row = SyncState.FAILED
                /\ SyncState.error_message row = str_exn exc
       | Raise exc' => exc = exc' /\ db r.2 = db (empty_world 0%Z)
       | OutOfFuel => False
       end.
Proof.
  apply (failed_invocation_is_recorded quiet_env failing_client request_1 None
           3 (empty_world 0%Z)).
  - vm_compute. reflexivity.
  - vm_compute. reflexivity.
Defined.

(** X10: a FAILED Run State is not resumed. An invocation whose task id is
    already the [task_id] of a row (a retry of a failed invocation runs
    under the id of the first attempt), started while no Run State is PENDING
    or RUNNING, fails on the unique [task_id]: it raises what [self.retry]
    makes of the IntegrityError, after one SELECT and the rejected INSERT.
    It never calls the source, the tables are unchanged, and the lock is
    given back. This is for a [max_date] on which [parse_datetime] does not
    raise. *)
Theorem retry_of_a_recorded_task_fails env api_client req max_date fuel w :
  cache w !! tasks.SYNC_LOCK_KEY = None ->
  parses env max_date = true ->
  Forall (fun row => ~ incomplete row) (sync_states (db w)) ->
  Exists (fun row => SyncState.task_id row = tasks.id req)
         (sync_states (db w)) ->
  let r := tasks.sync_chats_task env api_client req max_date fuel w in
  (exists msg, r.1 = Raise (retried req (IntegrityError msg)))
  /\ db r.2 = db w
  /\ log r.2
     = log w ++ [CacheAdd tasks.SYNC_LOCK_KEY; SqlSelect sync_states_tbl;
                 SqlInsert sync_states_tbl (sync_states_id_seq w);
                 CacheDelete tasks.SYNC_LOCK_KEY]
  /\ cache r.2 = cache w.
Proof.
  intros Hfree Hvalid Hdone Hdup. cbv zeta.
  rewrite sync_chats_task_acquired by done. cbv zeta.
  assert (db (acquired req w) = db w
          /\ sync_states_id_seq (acquired req w) = sync_states_id_seq w
          /\ log (acquired req w) = log w ++ [CacheAdd tasks.SYNC_LOCK_KEY])
    as (Hdb & Hseq & Hlog).
  { unfold acquired, tasks.cache_add. cbn [cache record]. by rewrite Hfree. }
  destruct (get_or_create_sync_state_duplicate env (tasks.id req) max_date
              (acquired req w)) as [msg Hgoc]; [done|by rewrite Hdb..|].
  pose proof (cache_acquired req w Hfree) as Hcache.
  assert (tasks.sync_chats_task_try env api_client req max_date fuel
            (None, acquired req w)
          = (Raise (IntegrityError msg),
             (None,
              record (SqlInsert sync_states_tbl
                        (sync_states_id_seq (acquired req w)))
                (set_sync_states_id_seq (S (sync_states_id_seq (acquired req w)))
                   (record (SqlSelect sync_states_tbl) (acquired req w))))))
    as Htry.
  { unfold tasks.sync_chats_task_try.
    unfold mbind at 1, M_bind at 1. unfold tasks.lift at 1. by rewrite Hgoc. }
  unfold try_finally, try_except. rewrite Htry, sync_chats_task_except_none.
  unfold tasks.lift, tasks.cache_delete. cbn [fst snd].
  split; [by exists msg|]. split; [exact Hdb|]. split.
  - simpl. rewrite Hlog, Hseq, <- !app_assoc. done.
  - simpl. exact Hcache.
Qed.

Lemma retry_of_a_recorded_task_fails_witness :
  let r := tasks.sync_chats_task quiet_env failing_client request_1_retry None
             3 world_after_failure in
  (exists msg, r.1 = Raise (retried request_1_retry (IntegrityError msg)))
  /\ db r.2 = db world_after_failure
  /\ log r.2
     = log world_after_failure
       ++ [CacheAdd tasks.SYNC_LOCK_KEY; SqlSelect sync_states_tbl;
           SqlInsert sync_states_tbl (sync_states_id_seq world_after_failure);
           CacheDelete tasks.SYNC_LOCK_KEY]
  /\ cache r.2 = cache world_after_failure.
Proof.
  apply (retry_of_a_recorded_task_fails quiet_env failing_client
           request_1_retry None 3 world_after_failure).
  - vm_compute. reflexivity.
  - reflexivity.
  - apply (bool_decide_unpack _). vm_compute. exact I.
  - apply (bool_decide_unpack _). vm_compute. exact I.
Defined.

(** ** The cutoff argument of a new invocation *)

Lemma db_acquired req w : db (acquired req w) = db w.
Proof.
  unfold acquired, tasks.cache_add. cbn [cache record].
  by destruct (cache w !! tasks.SYNC_LOCK_KEY).
Qed.

Lemma acquired_free req w :
  cache w !! tasks.SYNC_LOCK_KEY = None ->
  db (acquired req w) = db w
  /\ sync_states_id_seq (acquired req w) = sync_states_id_seq w
  /\ deals_id_seq (acquired req w) = deals_id_seq w
  /\ customers_id_seq (acquired req w) = customers_id_seq w
  /\ now (acquired req w) = now w
  /\ log (acquired req w) = log w ++ [CacheAdd tasks.SYNC_LOCK_KEY].
Proof.
  intros Hfree. unfold acquired, tasks.cache_add. cbn [cache record].
  by rewrite Hfree.
Qed.

Lemma parse_max_date_parsed env max_date value w :
  max_date <> "" ->
  parse_datetime env max_date = parsed value ->
  tasks.parse_max_date env (Some max_date) w = (Ok (Some value), w).
Proof.
  intros Hne Hparse. unfold tasks.parse_max_date.
  destruct max_date as [|c max_date]; [done|]. by rewrite Hparse.
Qed.

Lemma parse_max_date_not_valid env max_date msg w :
  max_date <> "" ->
  parse_datetime env max_date = not_valid msg ->
  tasks.parse_max_date env (Some max_date) w = (Raise (ValueError msg), w).
Proof.
  intros Hne Hparse. unfold tasks.parse_max_date.
  destruct max_date as [|c max_date]; [done|]. by rewrite Hparse.
Qed.

(** The first fetch of a new run whose cutoff carries no tzinfo: the first
    record of the page raises. *)
Lemma run_naive env self fuel st w D :
  SyncState.max_date st = Some D ->
  SyncState.cursor st = "" ->
  no_failure env self ->
  (1 <= MockExternalAPIClient.page_size self)%Z ->
  (1 <= MockExternalAPIClient.total_chats self)%Z ->
  SyncService.run env self (S fuel) (SyncService.Build_self st w false)
  = (Raise (TypeError "can't compare offset-naive and offset-aware datetimes"),
     SyncService.Build_self st (record (ApiGetChats None) w) false).
Proof.
  intros HD Hcursor Hok Hps Htotal. unfold SyncService.run.
  unfold mbind at 1, M_bind at 1, get at 1.
  cbn beta iota zeta delta [SyncService.state].
  rewrite Hcursor, bool_decide_true by done.
  cbn [SyncService.run_loop].
  unfold mbind at 1, M_bind at 1. unfold SyncService.lift at 1.
  cbn beta iota zeta delta [SyncService.state SyncService.world
                            SyncService.max_date_tzinfo].
  rewrite get_chats_page by done.
  unfold mbind at 1, M_bind at 1. unfold SyncService._process_page.
  unfold page_at. cbv zeta.
  cbn [MockExternalAPIClient._decode_cursor ChatPage.chats].
  rewrite seqZ_cons by lia. rewrite fmap_cons.
  cbn [SyncService._process_chats].
  unfold mbind at 1, M_bind at 1.
  by rewrite (process_chat_naive env _ _ D).
Qed.

(** X23: a cutoff given without its UTC offset. A new invocation whose
    [max_date] parses to a datetime that carries no tzinfo stores the cutoff
    (read in UTC) in a new Run State and fetches the first page; the cutoff
    check of its first record raises TypeError, since the timestamps of the
    records carry tzinfo. No record is synced: the relational index is as it
    was, the Run State is left FAILED with the message of the error, the
    exception goes through [self.retry], and the lock is given back. *)
Theorem naive_max_date_fails_at_the_first_record
    env self req max_date wall_clock fuel w :
  can_start (tasks.id req) w ->
  max_date <> "" ->
  parse_datetime env max_date = parsed (naive wall_clock) ->
  no_failure env self ->
  (1 <= MockExternalAPIClient.page_size self)%Z ->
  (1 <= MockExternalAPIClient.total_chats self)%Z ->
  Forall (can_generate self)
         (seqZ 0 (Z.min (MockExternalAPIClient.page_size self)
                        (MockExternalAPIClient.total_chats self))) ->
  1 <= fuel ->
  let r := tasks.sync_chats_task env self req (Some max_date) fuel w in
  let msg := "can't compare offset-naive and offset-aware datetimes" in
  r.1 = Raise (retried req (TypeError msg))
  /\ SyncState.Build (sync_states_id_seq w) (tasks.id req) SyncState.FAILED
       "" (Some wall_clock) 0 msg (now w)
     ∈ sync_states (db r.2)
  /\ index_same w r.2
  /\ log r.2
     = log w
       ++ [CacheAdd tasks.SYNC_LOCK_KEY; SqlSelect sync_states_tbl;
           SqlInsert sync_states_tbl (sync_states_id_seq w);
           SqlUpdate sync_states_tbl (sync_states_id_seq w)
             ["status"; "updated_at"];
           ApiGetChats None;
           SqlUpdate sync_states_tbl (sync_states_id_seq w)
             ["status"; "error_message"; "updated_at"];
           CacheDelete tasks.SYNC_LOCK_KEY]
  /\ cache r.2 = cache w.
Proof.
  intros [Hfree Hrows] Hne Hparse Hok Hps Htotal _ Hfuel. cbv zeta.
  destruct fuel as [|fuel]; [lia|].
  rewrite sync_chats_task_acquired by done. cbv zeta.
  destruct (acquired_free req w Hfree)
    as (Hdb & Hseq & Hdseq & Hcseq & Hnow & Hlog).
  pose proof (cache_acquired req w Hfree) as Hcache.
  set (st0 := SyncState.Build (sync_states_id_seq w) (tasks.id req)
                SyncState.PENDING "" (Some wall_clock) 0 "" (now w)).
  set (w2 := set_sync_states (sync_states (db (acquired req w)) ++ [st0])
               (record (SqlInsert sync_states_tbl (sync_states_id_seq w))
                  (set_sync_states_id_seq (S (sync_states_id_seq w))
                     (record (SqlSelect sync_states_tbl) (acquired req w))))).
  destruct (sync_state_save_row (SyncState.set_status SyncState.RUNNING st0)
              ["status"; "updated_at"] st0 w2)
    as (w3 & Hsave3 & Hlog3 & Hsame3 & Hcache3 & Hrow3); [|done|].
  { subst w2. simpl. apply elem_of_app. right. left. }
  set (msg := "can't compare offset-naive and offset-aware datetimes").
  assert (tasks.sync_chats_task_try env self req (Some max_date) (S fuel)
            (None, acquired req w)
          = (Raise (TypeError msg),
             (Some (SyncState.set_status SyncState.RUNNING st0),
              record (ApiGetChats None) w3))) as Htry.
  { unfold tasks.sync_chats_task_try.
    unfold mbind at 1, M_bind at 1. unfold tasks.lift at 1.
    rewrite (get_or_create_sync_state_fresh env (tasks.id req) (Some max_date)
               (Some (naive wall_clock)) (acquired req w)).
    2:{ by rewrite Hdb, Hseq. }
    2:{ intros w'. by apply parse_max_date_parsed. }
    cbv zeta. rewrite Hseq, Hnow.
    change (get_prep_value <$> Some (naive wall_clock)) with (Some wall_clock).
    fold st0. fold w2.
    unfold tasks.with_state. unfold_monad.
    cbn beta iota zeta delta [SyncService.state SyncService.world
                              SyncService.max_date_tzinfo
                              SyncState.row SyncState.max_date_tzinfo
                              from_option has_tzinfo].
    rewrite Hsave3.
    cbn beta iota zeta delta [SyncService.state SyncService.world
                              SyncService.max_date_tzinfo].
    by rewrite (run_naive env self fuel _ w3 wall_clock). }
  destruct (sync_state_save_row
              (SyncState.set_error_message (str_exn (TypeError msg))
                 (SyncState.set_status SyncState.FAILED
                    (SyncState.set_status SyncState.RUNNING st0)))
              ["status"; "error_message"; "updated_at"]
              (SyncState.set_status SyncState.RUNNING st0)
              (record (ApiGetChats None) w3))
    as (w5 & Hsave5 & Hlog5 & Hsame5 & Hcache5 & Hrow5);
    [exact Hrow3|reflexivity|].
  assert (tasks.sync_chats_task_except req (TypeError msg)
            (Some (SyncState.set_status SyncState.RUNNING st0),
             record (ApiGetChats None) w3)
          = (Raise (retried req (TypeError msg)),
             (Some (SyncState.set_status SyncState.RUNNING st0), w5)))
    as Hexc.
  { unfold tasks.sync_chats_task_except. unfold_monad. unfold tasks.lift.
    cbn [fst snd]. by rewrite Hsave5, retry_raises. }
  unfold try_finally, try_except. rewrite Htry, Hexc.
  unfold tasks.lift, tasks.cache_delete. cbn [fst snd].
  split; [done|]. split; [exact Hrow5|].
  unfold index_same in *.
  destruct Hsame5 as (Hd5 & Hc5 & Hds5 & Hcs5).
  destruct Hsame3 as (Hd3 & Hc3 & Hds3 & Hcs3).
  cbn [db record set_cache deals customers deals_id_seq customers_id_seq
       messages log cache] in *.
  split.
  { rewrite Hd5, Hc5, Hds5, Hcs5, Hd3, Hc3, Hds3, Hcs3. subst w2. simpl.
    by rewrite Hdb, Hdseq, Hcseq. }
  split.
  { rewrite Hlog5. simpl. rewrite Hlog3. subst w2. simpl.
    rewrite Hlog, <- !app_assoc. done. }
  rewrite Hcache5. simpl. rewrite Hcache3. subst w2. simpl. exact Hcache.
Qed.

Lemma naive_max_date_fails_at_the_first_record_witness :
  let r := tasks.sync_chats_task cutoff_env (client_of 25) request_1
             (Some "2024-05-20T11:00:00") 3 (empty_world 0%Z) in
  r.1 = Raise (Retry (TypeError
                 "can't compare offset-naive and offset-aware datetimes"))
  /\ sync_states (db r.2)
     = [SyncState.Build 1 "task-1" SyncState.FAILED ""
          (Some 1716202800000000%Z) 0
          "can't compare offset-naive and offset-aware datetimes" 0%Z]
  /\ deals (db r.2) = [].
Proof.
  destruct (naive_max_date_fails_at_the_first_record cutoff_env (client_of 25)
              request_1 "2024-05-20T11:00:00" 1716202800000000%Z 3
              (empty_world 0%Z))
    as (Hres & _ & (Hdeals & _) & _).
  - apply (bool_decide_unpack _). vm_compute. exact I.
  - apply (bool_decide_unpack _). vm_compute. exact I.
  - reflexivity.
  - intros cursor. reflexivity.
  - simpl. lia.
  - simpl. lia.
  - apply (bool_decide_unpack _). vm_compute. exact I.
  - lia.
  - split; [exact Hres|]. split; [|exact Hdeals]. vm_compute. reflexivity.
Defined.

Lemma get_or_create_sync_state_not_valid env task_id max_date msg w :
  Forall (fun row => ~ incomplete row) (sync_states (db w)) ->
  max_date <> "" ->
  parse_datetime env max_date = not_valid msg ->
  tasks._get_or_create_sync_state env task_id (Some max_date) w
  = (Raise (ValueError msg), record (SqlSelect sync_states_tbl) w).
Proof.
  intros Hdone Hne Hparse. unfold tasks._get_or_create_sync_state. cbv zeta.
  unfold SyncStateManager.filter_status_in, SyncStateManager.ordered.
  assert (filter (fun s => SyncState.status s
                           ∈ [SyncState.RUNNING; SyncState.PENDING])
                 (sync_states (db w)) = []) as ->.
  { induction Hdone as [|r rows Hr _ IH]; [done|].
    rewrite filter_cons, decide_False by done. exact IH. }
  simpl first. cbv iota.
  unfold mbind at 1, M_bind at 1.
  by rewrite (parse_max_date_not_valid env max_date msg).
Qed.

(** X24: a [max_date] that is well formatted but names no date or time
    (February 30th) makes [parse_datetime] raise ValueError, which
    [_get_or_create_sync_state] does not catch. When no run is incomplete the
    invocation fails before it creates a Run State: after the one SELECT the
    exception goes through [self.retry], the tables are unchanged, the source
    is never called, and the lock is given back. *)
Theorem invalid_max_date_creates_no_run
    env api_client req max_date msg fuel w :
  cache w !! tasks.SYNC_LOCK_KEY = None ->
  Forall (fun row => ~ incomplete row) (sync_states (db w)) ->
  max_date <> "" ->
  parse_datetime env max_date = not_valid msg ->
  let r := tasks.sync_chats_task env api_client req (Some max_date) fuel w in
  r.1 = Raise (retried req (ValueError msg))
  /\ db r.2 = db w
  /\ sync_states_id_seq r.2 = sync_states_id_seq w
  /\ log r.2
     = log w ++ [CacheAdd tasks.SYNC_LOCK_KEY; SqlSelect sync_states_tbl;
                 CacheDelete tasks.SYNC_LOCK_KEY]
  /\ cache r.2 = cache w.
Proof.
  intros Hfree Hdone Hne Hparse. cbv zeta.
  rewrite sync_chats_task_acquired by done. cbv zeta.
  destruct (acquired_free req w Hfree)
    as (Hdb & Hseq & _ & _ & _ & Hlog).
  pose proof (cache_acquired req w Hfree) as Hcache.
  assert (tasks.sync_chats_task_try env api_client req (Some max_date) fuel
            (None, acquired req w)
          = (Raise (ValueError msg),
             (None, record (SqlSelect sync_states_tbl) (acquired req w))))
    as Htry.
  { unfold tasks.sync_chats_task_try.
    unfold mbind at 1, M_bind at 1. unfold tasks.lift at 1.
    rewrite (get_or_create_sync_state_not_valid env (tasks.id req) max_date
               msg); [done|by rewrite Hdb|done..]. }
  unfold try_finally, try_except. rewrite Htry, sync_chats_task_except_none.
  unfold tasks.lift, tasks.cache_delete. cbn [fst snd].
  split; [done|]. split; [exact Hdb|]. split; [exact Hseq|]. split.
  - simpl. rewrite Hlog, <- !app_assoc. done.
  - simpl. exact Hcache.
Qed.

Lemma invalid_max_date_creates_no_run_witness :
  let r := tasks.sync_chats_task cutoff_env (client_of 25) request_1
             (Some "2024-02-30T00:00:00Z") 3 (empty_world 0%Z) in
  r.1 = Raise (Retry (ValueError "day is out of range for month"))
  /\ sync_states (db r.2) = []
  /\ log r.2 = [CacheAdd tasks.SYNC_LOCK_KEY; SqlSelect sync_states_tbl;
                CacheDelete tasks.SYNC_LOCK_KEY].
Proof.
  destruct (invalid_max_date_creates_no_run cutoff_env (client_of 25)
              request_1 "2024-02-30T00:00:00Z"
              "day is out of range for month" 3 (empty_world 0%Z))
    as (Hres & Hdb & _ & Hlog & _).
  - vm_compute. reflexivity.
  - apply (bool_decide_unpack _). vm_compute. exact I.
  - apply (bool_decide_unpack _). vm_compute. exact I.
  - reflexivity.
  - split; [exact Hres|]. split; [|exact Hlog]. rewrite Hdb. reflexivity.
Defined.

(** ** The persistence requirement *)

#[global] Instance grows_preorder : PreOrder grows.
Proof.
  split.
  - intros w. by split.
  - intros w1 w2 w3 [H1 H2] [H3 H4]. split; auto.
Qed.

Lemma grows_of_eq w w' :
  customers (db w') = customers (db w) -> messages w' = messages w ->
  grows w w'.
Proof.
  intros Hc Hm. unfold grows, MessageStore.get_message. by rewrite Hc, Hm.
Qed.

Lemma has_customer_and_message_grows w w' d :
  grows w w' -> has_customer_and_message w d -> has_customer_and_message w' d.
Proof.
  intros [Hc Hm] [Hcust Hmsg]. split; [|by apply Hm].
  apply Exists_exists in Hcust as (c & Hin & Hd).
  assert (Customer.id c ∈ Customer.id <$> customers (db w')) as Hin'.
  { apply Hc. by apply list_elem_of_fmap_2. }
  apply list_elem_of_fmap in Hin' as (c' & Hid & Hin').
  apply Exists_exists. exists c'. split; [done|]. by rewrite <- Hid.
Qed.

Lemma persistence_same_deals w w' :
  deals (db w') = deals (db w) -> grows w w' ->
  persistence w -> persistence w'.
Proof.
  intros Hd Hg [Hnd Hall]. unfold persistence. rewrite Hd. split; [done|].
  eapply Forall_impl; [exact Hall|]. simpl. intros d Hd' Hc.
  eapply has_customer_and_message_grows; [exact Hg|]. auto.
Qed.

(** *** The customer step *)

Lemma queue_avatar_upload_messages env customer avatar_url w :
  messages (SyncService._queue_avatar_upload env customer avatar_url w).2
  = messages w.
Proof.
  unfold SyncService._queue_avatar_upload, try_except.
  unfold mbind, M_bind, SyncService.httpx_get. simpl.
  destruct (http_get env avatar_url) as [content|]; simpl; [|done].
  unfold CustomerManager.save. simpl. by destruct (has_pk _ _ _).
Qed.

Lemma get_or_create_customer_row env chat w :
  let r := SyncService._get_or_create_customer env chat w in
  messages r.2 = messages w
  /\ forall customer, r.1 = Ok customer ->
       Customer.id customer ∈ Customer.id <$> customers (db r.2).
Proof.
  unfold SyncService._get_or_create_customer, CustomerManager.get_or_create,
    CustomerManager.create, CustomerManager.filter.
  unfold mbind, M_bind, mret, M_ret.
  cbn beta iota zeta delta [db record set_customers_id_seq customers customers_id_seq].
  destruct (filter _ (customers (db w))) as [|c [|c' l]] eqn:Hf.
  - destruct (_ || _); [by split|].
    set (obj := Customer.Build _ _ _ _ _). set (w1 := set_customers _ _).
    assert (Customer.id obj ∈ Customer.id <$> customers (db w1)) as Hin.
    { subst w1. simpl. rewrite fmap_app. apply elem_of_app. right. left. }
    destruct (true && _).
    + pose proof (queue_avatar_upload_messages env obj
                    (ChatCustomer.avatar_url (Chat.customer chat)) w1) as Hm.
      destruct (queue_avatar_upload_ok env obj
                  (ChatCustomer.avatar_url (Chat.customer chat)) w1)
        as (Hok & Hids & _).
      destruct (SyncService._queue_avatar_upload _ _ _ _) as [r2 w2].
      cbn [fst snd] in *. subst r2. cbn [fst snd]. split; [by rewrite Hm|].
      intros customer [= <-]. by rewrite Hids.
    + simpl. split; [done|]. by intros customer [= <-].
  - simpl. split; [done|]. intros customer [= <-].
    apply list_elem_of_fmap_2.
    assert (c ∈ filter (fun c0 => Customer.external_id c0
                         = ChatCustomer.external_id (Chat.customer chat))
                  (customers (db w)))
      as [_ Hin]%list_elem_of_filter by (rewrite Hf; left).
    done.
  - by split.
Qed.

Lemma get_or_create_customer_grows env chat w :
  let r := SyncService._get_or_create_customer env chat w in
  deals (db r.2) = deals (db w) /\ grows w r.2.
Proof.
  cbv zeta.
  destruct (get_or_create_customer_log env chat w) as (_ & _ & _ & Hd & _).
  destruct (get_or_create_customer_row env chat w) as [Hm _].
  pose proof (steps_get_or_create_customer env chat w) as [_ _ _ Hpre _].
  split; [done|]. split.
  - intros pk (c & -> & Hin)%list_elem_of_fmap.
    apply list_elem_of_fmap_2. destruct Hpre as [l ->].
    apply elem_of_app. by left.
  - unfold MessageStore.get_message. by rewrite Hm.
Qed.

(** *** The per-record section *)

Lemma save_message_grows env c m t a w :
  let r := MessageStore.save_message env c m t a w in
  db r.2 = db w /\ grows w r.2
  /\ (r.1 = Ok tt -> is_Some (MessageStore.get_message c m r.2)).
Proof.
  unfold MessageStore.save_message. cbv zeta.
  destruct (doc_put_raises env c m); simpl.
  { split; [done|]. split; [by apply grows_of_eq|done]. }
  split; [done|]. split.
  - split; [done|]. intros c' m'. unfold MessageStore.get_message. simpl.
    destruct (decide (c' = c)) as [->|Hc].
    + rewrite lookup_insert_eq. simpl.
      destruct (decide (m' = m)) as [->|Hm].
      * by rewrite lookup_insert_eq.
      * by rewrite lookup_insert_ne.
    + by rewrite lookup_insert_ne.
  - intros _. unfold MessageStore.get_message. simpl.
    rewrite lookup_insert_eq. simpl. by rewrite lookup_insert_eq.
Qed.

Lemma persistence_update w w' pk f :
  persistence w -> grows w w' ->
  (forall r, Deal.id (f r) = Deal.id r) ->
  deals (db w') = update_pk Deal.id pk f (deals (db w)) ->
  (forall r, r ∈ deals (db w) -> Deal.id r = pk ->
             Deal.sync_status (f r) = Deal.COMPLETE ->
             has_customer_and_message w' (f r)) ->
  persistence w'.
Proof.
  intros [Hnd Hall] Hg Hid Hrows Hnew. unfold persistence. rewrite Hrows.
  split; [by rewrite update_pk_fmap|].
  unfold update_pk. apply Forall_fmap, Forall_forall. intros r Hin. simpl.
  destruct (Nat.eqb_spec (Deal.id r) pk) as [Hpk|Hpk].
  - by apply Hnew.
  - intros Hc. eapply has_customer_and_message_grows; [exact Hg|].
    rewrite Forall_forall in Hall. by apply Hall.
Qed.

Lemma persistence_insert w w' d :
  persistence w -> grows w w' ->
  has_pk Deal.id (Deal.id d) (deals (db w)) = false ->
  deals (db w') = deals (db w) ++ [d] ->
  (Deal.sync_status d = Deal.COMPLETE -> has_customer_and_message w' d) ->
  persistence w'.
Proof.
  intros [Hnd Hall] Hg Hpk Hrows Hnew. unfold persistence. rewrite Hrows.
  split.
  - rewrite fmap_app. apply NoDup_app. split; [done|].
    split; [|apply NoDup_singleton].
    intros pk Hin ->%list_elem_of_singleton.
    apply not_true_iff_false in Hpk. apply Hpk, has_pk_elem_of.
    apply list_elem_of_fmap in Hin as (r & Hr & Hin). by exists r.
  - apply Forall_app. split; [|by apply Forall_singleton].
    eapply Forall_impl; [exact Hall|]. simpl. intros r Hr Hc.
    eapply has_customer_and_message_grows; [exact Hg|]. auto.
Qed.

Lemma persistence_rollback w0 w1 :
  persistence w0 -> grows w0 w1 ->
  persistence (record SqlRollback (set_db (db w0) w1)).
Proof.
  intros Hinv [_ Hm]. apply (persistence_same_deals w0); [done| |done].
  split; [done|]. exact Hm.
Qed.

Lemma persistence_record e w : persistence w -> persistence (record e w).
Proof.
  apply persistence_same_deals; [done|]. by apply grows_of_eq.
Qed.

(** The per-record section keeps the invariant, committed or rolled back. *)
Lemma sync_chat_atomic_persistence env chat existing_deal w :
  persistence w ->
  (forall d, existing_deal = Some d -> d ∈ deals (db w)) ->
  persistence (SyncService._sync_chat_atomic env chat existing_deal w).2.
Proof.
  intros Hinv Hex. unfold SyncService._sync_chat_atomic, atomic.
  unfold mbind, M_bind.
  set (w0 := record SqlBegin w).
  assert (persistence w0) as Hinv0 by (by apply persistence_record).
  destruct (get_or_create_customer_grows env chat w0) as [Hd1 Hg1].
  destruct (get_or_create_customer_row env chat w0) as [_ Hrow1].
  destruct (SyncService._get_or_create_customer env chat w0)
    as [[customer|e|] w1]; cbn [fst snd] in *;
    [|by apply persistence_rollback..].
  specialize (Hrow1 customer eq_refl).
  assert (forall w', customers (db w') = customers (db w1) ->
            Exists (fun c => Some (Customer.id customer) = Some (Customer.id c))
                   (customers (db w'))) as Hcust.
  { intros w' ->. apply list_elem_of_fmap in Hrow1 as (c & Hid & Hin).
    apply Exists_exists. exists c. split; [done|]. by rewrite Hid. }
  unfold SyncService._save_message_to_dynamodb.
  destruct existing_deal as [ex|].
  - assert (ex ∈ deals (db w1)) as Hin1.
    { rewrite Hd1. by apply Hex. }
    rewrite (create_or_update_deal_present chat customer ex w1 Hin1).
    set (w2 := set_deals _ _).
    assert (grows w0 w2) as Hg2.
    { etrans; [exact Hg1|]. by apply grows_of_eq. }
    destruct (save_message_grows env
                (Deal.external_id (upserted chat customer ex))
                (ChatMessage.message_id (Chat.last_message chat))
                (ChatMessage.text (Chat.last_message chat))
                (ChatMessage.created_at (Chat.last_message chat)) w2)
      as (Hdb3 & Hg3 & Hmsg3).
    destruct (MessageStore.save_message _ _ _ _ _ w2) as [[[]|e|] w3];
      cbn [fst snd] in *;
      [|apply persistence_rollback; [done|by etrans]..].
    specialize (Hmsg3 eq_refl).
    assert (deals (db w3)
            = update_pk Deal.id (Deal.id ex) (upserted chat customer)
                        (deals (db w1))) as Hrows3 by (by rewrite Hdb3).
    rewrite finalize_present.
    2:{ rewrite Hrows3. apply has_pk_elem_of. eexists. split.
        - unfold update_pk. apply list_elem_of_fmap. by exists ex.
        - by rewrite Nat.eqb_refl. }
    apply persistence_record.
    apply (persistence_update w0 _ (Deal.id ex)
             (finalized (Deal.total_messages (upserted chat customer ex) + 1)
              ∘ upserted chat customer)); [done| |done| |].
    + etrans; [exact Hg2|]. etrans; [exact Hg3|]. by apply grows_of_eq.
    + simpl. rewrite Hrows3, Hd1. by rewrite update_pk_compose.
    + intros r Hr Hid _. destruct Hinv0 as [Hnd0 _].
      assert (r = ex) as ->.
      { eapply (NoDup_fmap_eq Deal.id); [exact Hnd0|done| |done].
        change (deals (db w0)) with (deals (db w)). by apply Hex. }
      split.
      * apply Hcust. simpl. by rewrite Hdb3.
      * destruct Hmsg3 as [item Hitem]. exists item. exact Hitem.
  - unfold SyncService._create_or_update_deal, DealManager.create.
    cbv zeta. cbn [db record deals set_deals_id_seq deals_id_seq].
    destruct (has_pk Deal.id (deals_id_seq w1) (deals (db w1))) eqn:Hpk;
      cbn [orb];
      [apply persistence_rollback; [done|]; etrans; [exact Hg1|];
       by apply grows_of_eq|].
    destruct (negb _);
      [apply persistence_rollback; [done|]; etrans; [exact Hg1|];
       by apply grows_of_eq|].
    set (obj := Deal.Build _ _ _ _ _ _ _). set (w2 := set_deals _ _).
    assert (grows w0 w2) as Hg2.
    { etrans; [exact Hg1|]. by apply grows_of_eq. }
    destruct (save_message_grows env (Deal.external_id obj)
                (ChatMessage.message_id (Chat.last_message chat))
                (ChatMessage.text (Chat.last_message chat))
                (ChatMessage.created_at (Chat.last_message chat)) w2)
      as (Hdb3 & Hg3 & Hmsg3).
    destruct (MessageStore.save_message _ _ _ _ _ w2) as [[[]|e|] w3];
      cbn [fst snd] in *;
      [|apply persistence_rollback; [done|by etrans]..].
    specialize (Hmsg3 eq_refl).
    assert (deals (db w3) = deals (db w1) ++ [obj]) as Hrows3
      by (by rewrite Hdb3).
    rewrite finalize_present.
    2:{ rewrite Hrows3. apply has_pk_elem_of. exists obj.
        split; [|done]. apply elem_of_app. right. left. }
    apply persistence_record.
    apply (persistence_insert w0 _
             (finalized (Deal.total_messages obj + 1) obj)); [done| | | |].
    + etrans; [exact Hg2|]. etrans; [exact Hg3|]. by apply grows_of_eq.
    + change (has_pk Deal.id (deals_id_seq w1) (deals (db w0)) = false).
      by rewrite <- Hd1.
    + simpl. rewrite Hrows3, update_pk_app, update_pk_absent by done.
      simpl. rewrite Nat.eqb_refl. by rewrite Hd1.
    + intros _. split.
      * apply Hcust. simpl. by rewrite Hdb3.
      * destruct Hmsg3 as [item Hitem]. exists item. exact Hitem.
Qed.

Lemma mark_failed_persistence d w :
  persistence w ->
  persistence (DealManager.save (Deal.set_sync_status Deal.FAILED d)
                 ["sync_status"; "updated_at"] w).2.
Proof.
  intros Hinv. unfold DealManager.save. cbv zeta. cbn [db record deals].
  destruct (has_pk _ _ _); cbn [snd]; [|by apply persistence_record].
  eapply (persistence_update w _ _ _ Hinv); [by apply grows_of_eq| |done|].
  - done.
  - intros r _ _. by destruct d.
Qed.

Lemma sync_state_save_persistence obj fields w :
  persistence w -> persistence (SyncStateManager.save obj fields w).2.
Proof.
  intros Hinv. unfold SyncStateManager.save. cbv zeta.
  destruct (has_pk _ _ _); cbn [snd];
    (eapply persistence_same_deals; [| |exact Hinv]; [done|by apply grows_of_eq]).
Qed.

(** *** The run *)

#[global] Instance keeps_persistence_preorder : PreOrder keeps_persistence.
Proof.
  split.
  - intros s H. exact H.
  - intros s1 s2 s3 H1 H2 H. apply H2, H1, H.
Qed.

Lemma keeps_persistence_state_save (f : SyncState.t -> SyncState.t) fields :
  steps keeps_persistence
    (SyncService.set_state f;;
     s ← get; SyncService.lift (SyncStateManager.save (SyncService.state s) fields)).
Proof.
  intros [st w] Hinv. unfold_monad.
  cbn beta iota zeta delta [SyncService.state SyncService.world SyncService.max_date_tzinfo] in *.
  pose proof (sync_state_save_persistence (f st) fields w Hinv) as Hinv'.
  destruct (SyncStateManager.save _ _ w) as [[[]|e|] w']; exact Hinv'.
Qed.

Lemma process_chat_persistence env chat :
  steps keeps_persistence (SyncService._process_chat env chat).
Proof.
  intros [st w tz] Hinv. cbn [SyncService.world] in Hinv.
  rewrite process_chat_cases. destruct (_ && _); [exact Hinv|]. unfold_monad.
  cbn beta iota zeta delta [SyncService.state SyncService.world SyncService.max_date_tzinfo].
  destruct (match SyncState.max_date st with Some _ => _ | None => _ end);
    [done|].
  unfold SyncService.existing_deal_of.
  cbn beta iota zeta delta [SyncService.state SyncService.world SyncService.max_date_tzinfo].
  set (existing := first (DealManager.filter_external_id
                            (Chat.external_id chat) w)).
  assert (forall d, existing = Some d -> d ∈ deals (db w)) as Hex.
  { intros d Hd. subst existing.
    unfold DealManager.filter_external_id, DealManager.ordered in Hd.
    by apply first_merge_sort_Some in Hd as [_ Hin]%list_elem_of_filter. }
  set (w1 := record (SqlSelect deals_tbl) w).
  assert (persistence w1) as Hinv1 by (by apply persistence_record).
  destruct (match existing with Some _ => _ | None => _ end);
    [exact Hinv1|].
  cbn beta iota zeta delta [SyncService.state SyncService.world SyncService.max_date_tzinfo].
  unfold SyncService._increment_processed. unfold_monad.
  cbn beta iota zeta delta [SyncService.state SyncService.world SyncService.max_date_tzinfo].
  pose proof (sync_chat_atomic_persistence env chat existing w1 Hinv1 Hex)
    as Hinv2.
  destruct (SyncService._sync_chat_atomic env chat existing w1)
    as [[[]|e|] w2]; cbn [fst snd] in Hinv2;
    cbn beta iota zeta delta [SyncService.state SyncService.world SyncService.max_date_tzinfo].
  - pose proof (sync_state_save_persistence
                  (SyncState.set_processed_chats
                     (SyncState.processed_chats st + 1) st)
                  ["processed_chats"; "updated_at"] w2 Hinv2) as Hinv3.
    destruct (SyncStateManager.save _ _ w2) as [[[]|e|] w3];
      cbn [fst snd] in Hinv3;
      cbn beta iota zeta delta [SyncService.state SyncService.world SyncService.max_date_tzinfo];
      [exact Hinv3| |exact Hinv3].
    destruct existing as [ex|]; [|exact Hinv3].
    cbn beta iota zeta delta [SyncService.state SyncService.world SyncService.max_date_tzinfo].
    pose proof (mark_failed_persistence ex w3 Hinv3) as Hinv4.
    by destruct (DealManager.save _ _ w3) as [[[]|e'|] w4].
  - destruct existing as [ex|]; [|exact Hinv2].
    cbn beta iota zeta delta [SyncService.state SyncService.world SyncService.max_date_tzinfo].
    pose proof (mark_failed_persistence ex w2 Hinv2) as Hinv4.
    by destruct (DealManager.save _ _ w2) as [[[]|e'|] w4].
  - exact Hinv2.
Qed.

Lemma process_chats_persistence env chats :
  steps keeps_persistence (SyncService._process_chats env chats).
Proof.
  induction chats as [|chat chats IH]; simpl; [use steps_ret|].
  use steps_bind; [apply process_chat_persistence|].
  intros []; [use steps_ret|apply IH].
Qed.

Lemma get_chats_persistence env api_client cursor :
  steps keeps_persistence
    (SyncService.lift (MockExternalAPIClient.get_chats env api_client cursor)).
Proof.
  intros [st w] Hinv. unfold SyncService.lift, MockExternalAPIClient.get_chats.
  cbn beta iota zeta delta [SyncService.state SyncService.world SyncService.max_date_tzinfo] in *.
  destruct (_ && _); by apply persistence_record.
Qed.

Lemma run_loop_persistence env api_client fuel cursor :
  steps keeps_persistence (SyncService.run_loop env api_client fuel cursor).
Proof.
  revert cursor. induction fuel as [|fuel IH]; intros cursor; simpl.
  { intros s. reflexivity. }
  use steps_bind; [apply get_chats_persistence|]. intros page.
  use steps_bind; [apply process_chats_persistence|]. intros should_stop.
  use steps_bind.
  - destruct (ChatPage.next_cursor page); [|use steps_ret].
    case_bool_decide; [use steps_ret|apply keeps_persistence_state_save].
  - intros _. split_if; [use steps_ret|apply IH].
Qed.

Lemma run_persistence env api_client fuel :
  steps keeps_persistence (SyncService.run env api_client fuel).
Proof.
  unfold SyncService.run.
  use steps_bind; [use steps_get|]. intros s. apply run_loop_persistence.
Qed.

(** *** The task *)

Lemma get_or_create_sync_state_persistence env task_id max_date w :
  persistence w ->
  persistence (tasks._get_or_create_sync_state env task_id max_date w).2.
Proof.
  intros Hinv. unfold tasks._get_or_create_sync_state. cbv zeta.
  destruct (first _); [by apply persistence_record|].
  unfold mbind, M_bind.
  destruct (parse_max_date_world env max_date
              (record (SqlSelect sync_states_tbl) w)) as [Hw Hret].
  destruct (tasks.parse_max_date _ _ _) as [[parsed_date|e|] w1];
    simpl in Hw, Hret; subst w1; [|by apply persistence_record|done].
  unfold SyncStateManager.create. cbv zeta.
  destruct (_ || _); cbn [snd];
    (eapply persistence_same_deals; [| |exact Hinv]; [done|by apply grows_of_eq]).
Qed.

Lemma sync_chats_task_try_persistence env api_client req max_date fuel fr :
  persistence fr.2 ->
  persistence
    (tasks.sync_chats_task_try env api_client req max_date fuel fr).2.2.
Proof.
  destruct fr as [st0 w]. intros Hinv. cbn [snd] in Hinv.
  unfold tasks.sync_chats_task_try, tasks.with_state.
  unfold_monad. unfold tasks.lift.
  pose proof (get_or_create_sync_state_persistence env (tasks.id req) max_date
                w Hinv) as Hinv2.
  destruct (tasks._get_or_create_sync_state _ _ _ _) as [[st|e|] w2];
    cbn [fst snd] in Hinv2 |- *; [|done..].
  cbn beta iota zeta delta [SyncService.state SyncService.world SyncService.max_date_tzinfo].
  pose proof (sync_state_save_persistence
                (SyncState.set_status SyncState.RUNNING st)
                ["status"; "updated_at"] w2 Hinv2) as Hinv3.
  destruct (SyncStateManager.save _ _ w2) as [[[]|e|] w3];
    cbn [fst snd] in Hinv3 |- *; [|done..].
  pose proof (run_persistence env api_client fuel
                (SyncService.Build_self
                   (SyncState.set_status SyncState.RUNNING st) w3
                   (SyncState.max_date_tzinfo st))
                Hinv3) as Hinv4.
  destruct (SyncService.run _ _ _ _) as [[[]|e|] [st4 w4 tz4]];
    cbn [fst snd SyncService.world] in Hinv4 |- *; [|done..].
  cbn beta iota zeta delta [SyncService.state SyncService.world SyncService.max_date_tzinfo].
  pose proof (sync_state_save_persistence
                (SyncState.set_status SyncState.COMPLETED st4)
                ["status"; "updated_at"] w4 Hinv4) as Hinv5.
  by destruct (SyncStateManager.save _ _ w4) as [[[]|e|] w5].
Qed.

Lemma sync_chats_task_except_persistence req e fr :
  persistence fr.2 ->
  persistence (tasks.sync_chats_task_except req e fr).2.2.
Proof.
  destruct fr as [[st|] w]; intros Hinv;
    [|by rewrite sync_chats_task_except_none].
  unfold tasks.sync_chats_task_except. unfold_monad. unfold tasks.lift.
  cbn [fst snd] in *.
  pose proof (sync_state_save_persistence
                (SyncState.set_error_message (str_exn e)
                   (SyncState.set_status SyncState.FAILED st))
                ["status"; "error_message"; "updated_at"] w Hinv) as Hinv'.
  destruct (SyncStateManager.save _ _ w) as [[[]|e'|] w']; [|done..].
  by rewrite retry_raises.
Qed.

Lemma filter_ext_Forall {A} (P Q : A -> Prop) `{!forall x, Decision (P x)}
    `{!forall x, Decision (Q x)} (l : list A) :
  Forall (fun x => P x <-> Q x) l -> filter P l = filter Q l.
Proof.
  induction 1 as [|x l Hx _ IH]; [done|].
  rewrite !filter_cons, IH.
  destruct (decide (P x)), (decide (Q x)); tauto.
Qed.

(** X11: the persistence requirement is an invariant of the task. If,
    before an invocation, entity keys are distinct and every COMPLETE entity
    has its counterparty row and its last message in the document store,
    the same holds after it, whatever the source serves, whichever writes
    fail, and whether the invocation returns, raises or is skipped. *)
Theorem task_keeps_persistence env api_client req max_date fuel w :
  persistence w ->
  persistence (tasks.sync_chats_task env api_client req max_date fuel w).2.
Proof.
  intros Hinv. unfold tasks.sync_chats_task, tasks.cache_add.
  cbn [cache record].
  destruct (cache w !! tasks.SYNC_LOCK_KEY); [by apply persistence_record|].
  set (w1 := set_cache _ _).
  assert (persistence (None (A:=SyncState.t), w1).2) as Hinv1.
  { eapply persistence_same_deals; [| |exact Hinv]; [done|by apply grows_of_eq]. }
  generalize dependent (None (A:=SyncState.t), w1). clear. intros fr Hinv.
  unfold try_finally, try_except.
  pose proof (sync_chats_task_try_persistence env api_client req max_date fuel
                fr Hinv) as Htry.
  destruct (tasks.sync_chats_task_try _ _ _ _ _ _) as [r fr2].
  assert (forall fr3 : tasks.frame, persistence fr3.2 ->
            persistence (tasks.lift (tasks.cache_delete tasks.SYNC_LOCK_KEY)
                           fr3).2.2) as Hdel.
  { intros [st3 w3] H3. unfold tasks.lift, tasks.cache_delete. cbn [fst snd] in *.
    eapply persistence_same_deals; [| |exact H3]; [done|by apply grows_of_eq]. }
  destruct r as [a|e|].
  - specialize (Hdel fr2 Htry).
    destruct (tasks.lift _ fr2) as [[[]|e|] [st' w']]; exact Hdel.
  - pose proof (sync_chats_task_except_persistence req e fr2 Htry) as Hexc.
    destruct (tasks.sync_chats_task_except _ _ _) as [r' fr3].
    specialize (Hdel fr3 Hexc).
    destruct (tasks.lift _ fr3) as [[[]|e'|] [st' w']]; exact Hdel.
  - specialize (Hdel fr2 Htry).
    destruct (tasks.lift _ fr2) as [[[]|e|] [st' w']]; exact Hdel.
Qed.

Lemma task_keeps_persistence_witness :
  persistence
    (tasks.sync_chats_task record1_env (client_of 25) request_2 None 3
       world_after_run_25).2.
Proof.
  apply (task_keeps_persistence record1_env (client_of 25) request_2 None 3
           world_after_run_25).
  apply (bool_decide_unpack _). vm_compute. exact I.
Defined.

(** X12: on a store that meets the persistence requirement the two
    listings agree: [DealViewSet.get_queryset] returns the same rows, in the
    same order, as [Deal.objects.complete()], and every row it returns is
    COMPLETE, has its counterparty row and has its last message in the
    document store. *)
Theorem listed_entities_are_persisted w :
  persistence w ->
  DealViewSet.get_queryset w = DealManager.complete w
  /\ Forall (fun d => Deal.sync_status d = Deal.COMPLETE
                      /\ has_customer_and_message w d)
            (DealViewSet.get_queryset w).
Proof.
  intros [_ Hall]. unfold DealViewSet.get_queryset, DealManager.complete.
  split.
  - f_equal. apply filter_ext_Forall.
    eapply Forall_impl; [exact Hall|]. simpl. intros d Hd. split; [tauto|].
    intros Hc. split; [done|]. destruct (Hd Hc) as [Hcust _].
    apply Exists_exists in Hcust as (c & _ & ->). done.
  - unfold DealManager.ordered. apply Forall_forall. intros d Hd.
    rewrite merge_sort_Permutation in Hd.
    apply list_elem_of_filter in Hd as [[Hc _] Hin].
    split; [done|]. rewrite Forall_forall in Hall. by apply Hall.
Qed.

Lemma listed_entities_are_persisted_witness :
  DealViewSet.get_queryset world_after_run_25
  = DealManager.complete world_after_run_25
  /\ Forall (fun d => Deal.sync_status d = Deal.COMPLETE
                      /\ has_customer_and_message world_after_run_25 d)
            (DealViewSet.get_queryset world_after_run_25).
Proof.
  apply (listed_entities_are_persisted world_after_run_25).
  apply (bool_decide_unpack _). vm_compute. exact I.
Defined.

(** ** The stores *)

(** The engine's write is the method of the mock, behind the failure of the
    backend. *)
Lemma save_message_mock env chat_id message_id text created_at w :
  doc_put_raises env chat_id message_id = false ->
  messages (MessageStore.save_message env chat_id message_id text created_at
              w).2
  = MockMessageStore.save_message chat_id message_id text created_at
      (messages w).
Proof.
  intros Hok. unfold MessageStore.save_message, MockMessageStore.save_message.
  cbv zeta. rewrite Hok. cbn [snd messages set_messages record].
  case_bool_decide as Hc; [done|].
  assert (messages w !! chat_id = None) as Hnone.
  { by apply eq_None_not_Some. }
  rewrite Hnone, lookup_insert_eq. simpl. by rewrite insert_insert_eq.
Qed.

Lemma get_message_mock chat_id message_id w :
  MessageStore.get_message chat_id message_id w
  = MockMessageStore.get_message chat_id message_id (messages w).
Proof. reflexivity. Qed.

Lemma upload_file_mock key data content_type w :
  MockS3Storage.of_world (MockS3Service.upload_file key data content_type w).2
  = (MockS3Storage.upload_file key data content_type
       (MockS3Storage.of_world w)).2.
Proof. reflexivity. Qed.

(** X13: the message store is a map from (chat id, message id) to items.
    A saved message is read back with the four fields it was saved with and
    replaces an earlier one under the same ids; [delete_message] answers
    True exactly when the message was there and removes that message only;
    a message that was never saved, or was deleted, or a store that was
    cleared, reads as None. *)
Theorem message_store_is_a_map chat_id message_id text created_at c m s :
  MockMessageStore.get_message c m
    (MockMessageStore.save_message chat_id message_id text created_at s)
  = (if decide ((c, m) = (chat_id, message_id))
     then Some (Build_Message chat_id message_id text created_at)
     else MockMessageStore.get_message c m s)
  /\ (MockMessageStore.delete_message chat_id message_id s).1
     = bool_decide (is_Some (MockMessageStore.get_message chat_id message_id s))
  /\ MockMessageStore.get_message c m
       (MockMessageStore.delete_message chat_id message_id s).2
     = (if decide ((c, m) = (chat_id, message_id)) then None
        else MockMessageStore.get_message c m s)
  /\ MockMessageStore.get_message c m (MockMessageStore.clear_all s) = None.
Proof.
  unfold MockMessageStore.get_message. cbv zeta. split; [|split; [|split]].
  - unfold MockMessageStore.save_message. cbv zeta.
    destruct (decide (c = chat_id)) as [->|Hc].
    + rewrite lookup_insert_eq. cbn [from_option id].
      destruct (decide (m = message_id)) as [->|Hm].
      * by rewrite lookup_insert_eq, decide_True.
      * rewrite lookup_insert_ne, decide_False by congruence.
        case_bool_decide as Hs; [done|].
        rewrite lookup_insert_eq. cbn [from_option id].
        assert (s !! chat_id = None) as -> by (by apply eq_None_not_Some).
        done.
    + rewrite lookup_insert_ne, decide_False by congruence.
      case_bool_decide as Hs; [done|]. by rewrite lookup_insert_ne.
  - unfold MockMessageStore.delete_message.
    destruct (s !! chat_id) as [chat_messages|]; cbn [from_option id].
    + by case_bool_decide.
    + rewrite lookup_empty. rewrite bool_decide_false; [done|].
      by intros [? ?].
  - unfold MockMessageStore.delete_message.
    destruct (decide ((c, m) = (chat_id, message_id))) as [[= -> ->]|Hne].
    + destruct (s !! chat_id) as [chat_messages|] eqn:Hs; cbn [snd].
      * case_bool_decide as Hm; cbn [snd].
        -- rewrite lookup_insert_eq. cbn [from_option id]. by rewrite lookup_delete_eq.
        -- rewrite Hs. cbn [from_option id]. by apply eq_None_not_Some.
      * rewrite Hs. cbn [from_option id]. by rewrite lookup_empty.
    + destruct (s !! chat_id) as [chat_messages|] eqn:Hs; cbn [snd]; [|done].
      case_bool_decide as Hm; cbn [snd]; [|done].
      destruct (decide (c = chat_id)) as [->|Hc].
      * rewrite lookup_insert_eq, Hs. cbn [from_option id].
        rewrite lookup_delete_ne; [done|congruence].
      * by rewrite lookup_insert_ne.
  - unfold MockMessageStore.clear_all. by rewrite lookup_empty.
Qed.

(** X14: the blob store is a map from keys to files. An uploaded file is
    read back under its key, other keys are untouched, and the answer is
    the [mock-s3://] URL of the key. The content type of the key becomes the
    one given, except that an upload with an empty content type leaves the
    entry alone, so a replaced file keeps the content type of the file
    before it. [delete_file] answers True exactly when the file was there
    and then removes the file and its content type. *)
Theorem blob_store_is_a_map key data content_type k self :
  let up := MockS3Storage.upload_file key data content_type self in
  let del := MockS3Storage.delete_file key self in
  up.1 = "mock-s3://" +:+ key
  /\ MockS3Storage.get_file k up.2
     = (if decide (k = key) then Some data else MockS3Storage.get_file k self)
  /\ MockS3Storage._content_types up.2 !! k
     = (if decide (k = key /\ content_type <> "") then Some content_type
        else MockS3Storage._content_types self !! k)
  /\ del.1 = bool_decide (is_Some (MockS3Storage.get_file key self))
  /\ MockS3Storage.get_file k del.2
     = (if decide (k = key) then None else MockS3Storage.get_file k self)
  /\ MockS3Storage._content_types del.2 !! k
     = (if decide (k = key /\ del.1 = true) then None
        else MockS3Storage._content_types self !! k).
Proof.
  cbv zeta. unfold MockS3Storage.upload_file, MockS3Storage.delete_file,
    MockS3Storage.get_file. cbv zeta. cbn [fst snd MockS3Storage._storage
    MockS3Storage._content_types].
  split; [done|]. split; [|split; [|split; [|split]]].
  - destruct (decide (k = key)) as [->|Hk].
    + by rewrite lookup_insert_eq.
    + by rewrite lookup_insert_ne.
  - case_bool_decide as Hct.
    + rewrite decide_False; [done|]. by intros [_ ?].
    + destruct (decide (k = key)) as [->|Hk].
      * by rewrite lookup_insert_eq, decide_True.
      * rewrite lookup_insert_ne by done. rewrite decide_False; [done|].
        by intros [? _].
  - by case_bool_decide.
  - case_bool_decide as Hin; cbn [snd MockS3Storage._storage].
    + destruct (decide (k = key)) as [->|Hk].
      * by rewrite lookup_delete_eq.
      * by rewrite lookup_delete_ne.
    + destruct (decide (k = key)) as [->|Hk]; [|done].
      by apply eq_None_not_Some.
  - case_bool_decide as Hin; cbn [fst snd MockS3Storage._content_types].
    + destruct (decide (k = key)) as [->|Hk].
      * by rewrite lookup_delete_eq, decide_True.
      * rewrite lookup_delete_ne by done. rewrite decide_False; [done|].
        by intros [? _].
    + rewrite decide_False; [done|]. by intros [_ ?].
Qed.

(** X15: in a blob store that starts empty, or was cleared, every key
    with a content type has a file, after any sequence of uploads, deletions
    and clearings. *)
Theorem content_types_have_files (calls : list S3Call) self k :
  is_Some (MockS3Storage._content_types
             (foldl (fun s c => s3_call c s) (MockS3Storage.clear_all self)
                calls) !! k) ->
  is_Some (MockS3Storage.get_file k
             (foldl (fun s c => s3_call c s) (MockS3Storage.clear_all self)
                calls)).
Proof.
  revert k. induction calls as [|c calls IH] using rev_ind; intros k.
  { simpl. rewrite lookup_empty. by intros [? ?]. }
  rewrite foldl_snoc.
  set (s := foldl _ _ calls) in *. clearbody s.
  destruct c as [key data content_type|key|]; simpl.
  - unfold MockS3Storage.get_file. simpl.
    destruct (decide (k = key)) as [->|Hk].
    + rewrite lookup_insert_eq. by eexists.
    + rewrite lookup_insert_ne by done. intros Hct. apply IH.
      case_bool_decide; [done|]. by rewrite lookup_insert_ne in Hct.
  - unfold MockS3Storage.delete_file, MockS3Storage.get_file.
    case_bool_decide as Hin; simpl; [|apply IH].
    destruct (decide (k = key)) as [->|Hk].
    + rewrite lookup_delete_eq. by intros [? ?].
    + rewrite !lookup_delete_ne by done. apply IH.
  - rewrite lookup_empty. by intros [? ?].
Qed.

Lemma content_types_have_files_witness :
  is_Some (MockS3Storage.get_file "avatars/cust_0000.jpg"
             (foldl (fun s c => s3_call c s)
                (MockS3Storage.clear_all (MockS3Storage.Build ∅ ∅))
                [UploadFile "avatars/cust_0000.jpg" "old" "image/png";
                 UploadFile "avatars/cust_0000.jpg" "new" ""])).
Proof.
  apply (content_types_have_files
           [UploadFile "avatars/cust_0000.jpg" "old" "image/png";
            UploadFile "avatars/cust_0000.jpg" "new" ""]
           (MockS3Storage.Build ∅ ∅) "avatars/cust_0000.jpg").
  vm_compute. by eexists.
Defined.

(** ** What an invocation never removes *)

Section task_steps.
Context (R : relation World) `{!PreOrder R}.
Context (env : Env) (api_client : MockExternalAPIClient.t).
Hypothesis R_record : forall e w, R w (record e w).
Hypothesis R_cache : forall v w, R w (set_cache v w).
Hypothesis R_get_or_create : forall task_id max_date,
  steps R (tasks._get_or_create_sync_state env task_id max_date).
Hypothesis R_save : forall obj fields,
  names fields "task_id" = false ->
  steps R (SyncStateManager.save obj fields).
Hypothesis R_run : forall fuel,
  steps (fun s s' => R (SyncService.world s) (SyncService.world s'))
        (SyncService.run env api_client fuel).

Lemma sync_chats_task_try_steps req max_date fuel st0 w :
  R w (tasks.sync_chats_task_try env api_client req max_date fuel (st0, w)).2.2.
Proof.
  unfold tasks.sync_chats_task_try, tasks.with_state.
  unfold_monad. unfold tasks.lift.
  pose proof (R_get_or_create (tasks.id req) max_date w) as H2.
  destruct (tasks._get_or_create_sync_state _ _ _ _) as [[st|e|] w2];
    cbn [fst snd] in H2 |- *; [|done..].
  cbn beta iota zeta delta [SyncService.state SyncService.world SyncService.max_date_tzinfo].
  pose proof (R_save (SyncState.set_status SyncState.RUNNING st)
                ["status"; "updated_at"] eq_refl w2) as H3.
  destruct (SyncStateManager.save _ _ w2) as [[[]|e|] w3];
    cbn [fst snd] in H3 |- *; [|by etrans..].
  pose proof (R_run fuel
                (SyncService.Build_self
                   (SyncState.set_status SyncState.RUNNING st) w3
                   (SyncState.max_date_tzinfo st)))
    as H4.
  destruct (SyncService.run _ _ _ _) as [[[]|e|] [st4 w4 tz4]];
    cbn [fst snd SyncService.world] in H4 |- *;
    [|by etrans; [|etrans]..].
  cbn beta iota zeta delta [SyncService.state SyncService.world SyncService.max_date_tzinfo].
  pose proof (R_save (SyncState.set_status SyncState.COMPLETED st4)
                ["status"; "updated_at"] eq_refl w4) as H5.
  destruct (SyncStateManager.save _ _ w4) as [[[]|e|] w5];
    cbn [fst snd] in H5 |- *; (etrans; [exact H2|]); (etrans; [exact H3|]);
    by etrans.
Qed.

Lemma sync_chats_task_except_steps req e st w :
  R w (tasks.sync_chats_task_except req e (st, w)).2.2.
Proof.
  destruct st as [st|]; [|by rewrite sync_chats_task_except_none].
  unfold tasks.sync_chats_task_except. unfold_monad. unfold tasks.lift.
  cbn [fst snd].
  pose proof (R_save (SyncState.set_error_message (str_exn e)
                        (SyncState.set_status SyncState.FAILED st))
                ["status"; "error_message"; "updated_at"] eq_refl w) as H2.
  destruct (SyncStateManager.save _ _ w) as [[[]|e'|] w']; [|done..].
  by rewrite retry_raises.
Qed.

Lemma sync_chats_task_steps req max_date fuel :
  steps R (tasks.sync_chats_task env api_client req max_date fuel).
Proof.
  intros w. unfold tasks.sync_chats_task, tasks.cache_add.
  cbn [cache record].
  destruct (cache w !! tasks.SYNC_LOCK_KEY); [apply R_record|].
  set (w1 := set_cache _ _).
  assert (R w w1) as H1 by (etrans; [apply (R_record (CacheAdd tasks.SYNC_LOCK_KEY))|apply R_cache]).
  unfold try_finally, try_except.
  pose proof (sync_chats_task_try_steps req max_date fuel None w1) as H2.
  destruct (tasks.sync_chats_task_try _ _ _ _ _ _) as [r [st2 w2]].
  cbn [fst snd] in H2.
  assert (forall (st3 : option SyncState.t) w3,
            R w w3 ->
            R w (tasks.lift (tasks.cache_delete tasks.SYNC_LOCK_KEY)
                   (st3, w3)).2.2) as Hdel.
  { intros st3 w3 H3. unfold tasks.lift, tasks.cache_delete. cbn [fst snd].
    etrans; [exact H3|]. etrans; [apply (R_record (CacheDelete tasks.SYNC_LOCK_KEY))|].
    apply R_cache. }
  assert (R w w2) as H12 by (by etrans).
  destruct r as [a|e|].
  - specialize (Hdel st2 w2 H12).
    destruct (tasks.lift _ (st2, w2)) as [[[]|e|] [st' w']]; exact Hdel.
  - pose proof (sync_chats_task_except_steps req e st2 w2) as H3.
    destruct (tasks.sync_chats_task_except _ _ _) as [r' [st3 w3]].
    cbn [fst snd] in H3.
    assert (R w w3) as H13 by (by etrans).
    specialize (Hdel st3 w3 H13).
    destruct (tasks.lift _ (st3, w3)) as [[[]|e'|] [st' w']]; exact Hdel.
  - specialize (Hdel st2 w2 H12).
    destruct (tasks.lift _ (st2, w2)) as [[[]|e|] [st' w']]; exact Hdel.
Qed.
End task_steps.

#[global] Instance never_deletes_preorder : PreOrder never_deletes.
Proof.
  split.
  - intros w. by split.
  - intros w1 w2 w3 [] []. split; [by etrans|by etrans|auto..].
Qed.

#[global] Instance engine_never_deletes_preorder :
  PreOrder engine_never_deletes.
Proof.
  unfold engine_never_deletes. split.
  - intros s. reflexivity.
  - intros s1 s2 s3 H1 H2. by etrans.
Qed.

Lemma never_deletes_of_eq w w' :
  db w' = db w -> messages w' = messages w -> s3_storage w' = s3_storage w ->
  never_deletes w w'.
Proof.
  intros Hdb Hm Hs.
  split; unfold deal_keys, run_keys, MessageStore.get_message, avatars_stored;
    by rewrite ?Hdb, ?Hm, ?Hs.
Qed.

Ltac never_deletes_eq :=
  intros w; repeat case_match; simplify_eq/=; by apply never_deletes_of_eq.

Lemma never_deletes_record e w : never_deletes w (record e w).
Proof. by apply never_deletes_of_eq. Qed.

Lemma never_deletes_cache v w : never_deletes w (set_cache v w).
Proof. by apply never_deletes_of_eq. Qed.

Lemma never_deletes_get_chats env api c :
  steps never_deletes (MockExternalAPIClient.get_chats env api c).
Proof. unfold MockExternalAPIClient.get_chats. never_deletes_eq. Qed.

Lemma never_deletes_existing_deal_of e :
  steps never_deletes (SyncService.existing_deal_of e).
Proof. unfold SyncService.existing_deal_of. never_deletes_eq. Qed.

Lemma never_deletes_deal_save obj fields :
  names fields "external_id" = false ->
  steps never_deletes (DealManager.save obj fields).
Proof.
  intros Hf w. unfold DealManager.save. cbv zeta. cbn [db record deals].
  destruct (has_pk _ _ _); cbn [snd]; [|by apply never_deletes_of_eq].
  split; try done. unfold deal_keys. simpl.
  rewrite update_pk_fmap; [done|]. intros r. simpl. by rewrite Hf.
Qed.

Lemma never_deletes_deal_create e c m a st :
  steps never_deletes (DealManager.create e c m a st).
Proof.
  intros w. unfold DealManager.create. cbv zeta.
  destruct (_ || _); cbn [snd]; [by apply never_deletes_of_eq|].
  split; try done. unfold deal_keys. simpl. rewrite fmap_app.
  by apply prefix_app_r.
Qed.

Lemma never_deletes_sync_state_save obj fields :
  names fields "task_id" = false ->
  steps never_deletes (SyncStateManager.save obj fields).
Proof.
  intros Hf w. unfold SyncStateManager.save. cbv zeta.
  cbn [db record sync_states].
  destruct (has_pk _ _ _); cbn [snd]; [|by apply never_deletes_of_eq].
  split; try done. unfold run_keys. simpl.
  rewrite update_pk_fmap; [done|]. intros r. simpl. by rewrite Hf.
Qed.

Lemma never_deletes_get_or_create_sync_state env task_id max_date :
  steps never_deletes (tasks._get_or_create_sync_state env task_id max_date).
Proof.
  intros w. unfold tasks._get_or_create_sync_state. cbv zeta.
  destruct (first _); [by apply never_deletes_of_eq|].
  unfold mbind, M_bind.
  destruct (parse_max_date_world env max_date
              (record (SqlSelect sync_states_tbl) w)) as [Hw Hret].
  destruct (tasks.parse_max_date _ _ _) as [[parsed_date|e|] w1];
    simpl in Hw, Hret; subst w1; [|by apply never_deletes_of_eq|done].
  unfold SyncStateManager.create. cbv zeta.
  destruct (_ || _); cbn [snd]; [by apply never_deletes_of_eq|].
  split; try done. unfold run_keys. simpl. rewrite fmap_app.
  by apply prefix_app_r.
Qed.

Lemma never_deletes_save_message env c m t a :
  steps never_deletes (MessageStore.save_message env c m t a).
Proof.
  intros w.
  destruct (save_message_grows env c m t a w) as (Hdb & [_ Hm] & _).
  assert (s3_storage (MessageStore.save_message env c m t a w).2
          = s3_storage w) as Hs.
  { unfold MessageStore.save_message. cbv zeta. by destruct (doc_put_raises _ _ _). }
  split; unfold deal_keys, run_keys, avatars_stored; rewrite ?Hdb, ?Hs; done.
Qed.

Lemma is_Some_insert_mono (m : gmap string string) k v k' :
  is_Some (m !! k') -> is_Some (<[k := v]> m !! k').
Proof.
  intros Hk. destruct (decide (k' = k)) as [->|Hne].
  - rewrite lookup_insert_eq. by eexists.
  - by rewrite lookup_insert_ne.
Qed.

Lemma never_deletes_queue_avatar_upload env customer avatar_url :
  steps never_deletes
    (SyncService._queue_avatar_upload env customer avatar_url).
Proof.
  intros w. unfold SyncService._queue_avatar_upload, try_except.
  unfold mbind, M_bind, SyncService.httpx_get. cbn [fst snd].
  destruct (http_get env avatar_url) as [content|];
    [|by apply never_deletes_of_eq].
  unfold MockS3Service.upload_file, CustomerManager.save. cbv zeta.
  cbn [db record customers set_s3 s3_storage].
  set (key := "avatars/" +:+ Customer.external_id customer +:+ ".jpg").
  destruct (has_pk _ _ _); cbn [fst snd].
  - split; try done.
    + intros k. simpl. apply is_Some_insert_mono.
    + unfold avatars_stored. simpl. intros Hall. unfold update_pk.
      apply Forall_fmap. eapply Forall_impl; [exact Hall|]. simpl.
      intros c Hc. destruct (Nat.eqb _ _); simpl.
      * intros _. rewrite lookup_insert_eq. by eexists.
      * intros Hk. by apply is_Some_insert_mono, Hc.
  - split; try done.
    + intros k. simpl. apply is_Some_insert_mono.
    + unfold avatars_stored. simpl. intros Hall.
      eapply Forall_impl; [exact Hall|]. simpl.
      intros c Hc Hk. by apply is_Some_insert_mono, Hc.
Qed.

Lemma never_deletes_get_or_create_customer env chat :
  steps never_deletes (SyncService._get_or_create_customer env chat).
Proof.
  unfold SyncService._get_or_create_customer.
  use steps_bind; [|intros [customer created]; use steps_bind;
                     [|intros; use steps_ret]].
  - intros w. unfold CustomerManager.get_or_create, CustomerManager.create.
    unfold mbind, M_bind, mret, M_ret. cbv zeta.
    destruct (CustomerManager.filter _ _) as [|c [|c' l]];
      [|by apply never_deletes_of_eq..].
    destruct (_ || _); cbn [fst snd]; [by apply never_deletes_of_eq|].
    split; try done. unfold avatars_stored. simpl. intros Hall.
    apply Forall_app. split; [done|]. by apply Forall_singleton.
  - destruct (_ && _); [apply never_deletes_queue_avatar_upload|use steps_ret].
Qed.

Lemma never_deletes_atomic {A} (body : M World A) :
  steps never_deletes body -> steps never_deletes (atomic body).
Proof.
  intros Hbody w. unfold atomic.
  specialize (Hbody (record SqlBegin w)).
  destruct (body _) as [[a|e|] w']; cbn [snd].
  - etrans; [apply (never_deletes_record SqlBegin)|].
    etrans; [exact Hbody|apply never_deletes_record].
  - destruct Hbody as [_ _ Hm Hb _]. split; try done.
    unfold avatars_stored. simpl. intros Hall.
    eapply Forall_impl; [exact Hall|]. simpl. intros c Hc Hk. by apply Hb, Hc.
  - destruct Hbody as [_ _ Hm Hb _]. split; try done.
    unfold avatars_stored. simpl. intros Hall.
    eapply Forall_impl; [exact Hall|]. simpl. intros c Hc Hk. by apply Hb, Hc.
Qed.

Lemma never_deletes_sync_chat_atomic env chat existing_deal :
  steps never_deletes (SyncService._sync_chat_atomic env chat existing_deal).
Proof.
  unfold SyncService._sync_chat_atomic. apply never_deletes_atomic.
  use steps_bind; [apply never_deletes_get_or_create_customer|].
  intros customer.
  use steps_bind.
  { unfold SyncService._create_or_update_deal. destruct existing_deal.
    - use steps_bind; [by apply never_deletes_deal_save|]. intros; use steps_ret.
    - apply never_deletes_deal_create. }
  intros deal.
  use steps_bind; [apply never_deletes_save_message|]. intros _.
  by apply never_deletes_deal_save.
Qed.

Lemma engine_never_deletes_lift {A} (m : M World A) :
  steps never_deletes m -> steps engine_never_deletes (SyncService.lift m).
Proof.
  intros Hm s. unfold SyncService.lift, engine_never_deletes.
  specialize (Hm (SyncService.world s)). by destruct (m _) as [r w'].
Qed.

Lemma engine_never_deletes_save (f : SyncState.t -> SyncState.t) fields :
  names fields "task_id" = false ->
  steps engine_never_deletes
    (SyncService.set_state f;;
     s ← get; SyncService.lift (SyncStateManager.save (SyncService.state s) fields)).
Proof.
  intros Hf [st w]. unfold engine_never_deletes. unfold_monad.
  cbn beta iota zeta delta [SyncService.state SyncService.world SyncService.max_date_tzinfo].
  pose proof (never_deletes_sync_state_save (f st) fields Hf w) as Hs.
  by destruct (SyncStateManager.save _ _ w) as [[[]|e|] w'].
Qed.

Lemma run_never_deletes env api_client fuel :
  steps engine_never_deletes (SyncService.run env api_client fuel).
Proof.
  use run_steps.
  - intros. apply engine_never_deletes_lift, never_deletes_get_chats.
  - intros. apply engine_never_deletes_lift, never_deletes_existing_deal_of.
  - intros. apply engine_never_deletes_lift, never_deletes_sync_chat_atomic.
  - by apply engine_never_deletes_save.
  - intros. by apply engine_never_deletes_lift, never_deletes_deal_save.
  - intros. by apply engine_never_deletes_save.
Qed.

Lemma sync_chats_task_never_deletes env api_client req max_date fuel :
  steps never_deletes
    (tasks.sync_chats_task env api_client req max_date fuel).
Proof.
  use sync_chats_task_steps.
  - apply never_deletes_record.
  - apply never_deletes_cache.
  - apply never_deletes_get_or_create_sync_state.
  - apply never_deletes_sync_state_save.
  - apply run_never_deletes.
Qed.

(** X16: an invocation deletes nothing. Whatever the source serves and
    whichever writes fail, the entity rows that were there are still there
    under their keys and external ids, in their order, and so are the Run
    State rows under their keys and task ids; every message of the document
    store can still be read and every object of the blob store is still
    stored. *)
Theorem invocation_never_deletes env api_client req max_date fuel w :
  let w' := (tasks.sync_chats_task env api_client req max_date fuel w).2 in
  deal_keys w `prefix_of` deal_keys w'
  /\ run_keys w `prefix_of` run_keys w'
  /\ (forall c m, is_Some (MessageStore.get_message c m w) ->
                  is_Some (MessageStore.get_message c m w'))
  /\ (forall k, is_Some (s3_storage w !! k) -> is_Some (s3_storage w' !! k)).
Proof.
  destruct (sync_chats_task_never_deletes env api_client req max_date fuel w)
    as [Hd Hr Hm Hb _].
  cbv zeta. by repeat split.
Qed.

(** X17: the avatar of a counterparty never points at a missing object. If
    every counterparty whose [avatar_s3_key] is set has that object in the
    blob store before an invocation, then after it [Customer.avatar] of
    every counterparty row is either the original URL of the source or the
    bucket URL of a key under which an object is stored. *)
Theorem avatars_point_at_stored_objects env api_client req max_date fuel w :
  avatars_stored w ->
  let w' := (tasks.sync_chats_task env api_client req max_date fuel w).2 in
  Forall (fun c =>
            avatar c = Customer.avatar_url c
            \/ exists key,
                 avatar c = "https://s3.amazonaws.com/bucket/" +:+ key
                 /\ is_Some (s3_storage w' !! key))
         (customers (db w')).
Proof.
  intros Hinv. cbv zeta.
  destruct (sync_chats_task_never_deletes env api_client req max_date fuel w)
    as [_ _ _ _ Ha].
  specialize (Ha Hinv). eapply Forall_impl; [exact Ha|]. simpl.
  intros c Hc. unfold avatar. case_bool_decide as Hk; [by left|].
  right. exists (Customer.avatar_s3_key c). split; [done|]. by apply Hc.
Qed.

Lemma avatars_point_at_stored_objects_witness :
  let w' := (tasks.sync_chats_task avatar_env (client_of 25) request_2 None 3
               world_with_avatars).2 in
  Forall (fun c =>
            avatar c = Customer.avatar_url c
            \/ exists key,
                 avatar c = "https://s3.amazonaws.com/bucket/" +:+ key
                 /\ is_Some (s3_storage w' !! key))
         (customers (db w')).
Proof.
  apply (avatars_point_at_stored_objects avatar_env (client_of 25) request_2
           None 3 world_with_avatars).
  apply (bool_decide_unpack _). vm_compute. exact I.
Defined.

(** ** The avatar of a new counterparty *)

#[global] Instance blobs_same_preorder : PreOrder blobs_same.
Proof.
  split.
  - by intros w.
  - intros w1 w2 w3 (? & ? & ?) (? & ? & ?). unfold blobs_same. split_and!; congruence.
Qed.

Ltac blobs_same_eq :=
  intros w; repeat case_match; simplify_eq/=; by unfold blobs_same.

Lemma blobs_same_deal_save obj fields :
  steps blobs_same (DealManager.save obj fields).
Proof. unfold DealManager.save. blobs_same_eq. Qed.

Lemma blobs_same_deal_create e c m a st :
  steps blobs_same (DealManager.create e c m a st).
Proof. unfold DealManager.create. blobs_same_eq. Qed.

Lemma blobs_same_save_message env c m t a :
  steps blobs_same (MessageStore.save_message env c m t a).
Proof. unfold MessageStore.save_message. blobs_same_eq. Qed.

Lemma avatar_key_nonempty external_id :
  "avatars/" +:+ external_id +:+ ".jpg" <> "".
Proof. done. Qed.

(** The customer step for a counterparty that has no row. *)
Lemma get_or_create_customer_new env chat w :
  let c := Chat.customer chat in
  let key := "avatars/" +:+ ChatCustomer.external_id c +:+ ".jpg" in
  CustomerManager.filter (ChatCustomer.external_id c) w = [] ->
  has_pk Customer.id (customers_id_seq w) (customers (db w)) = false ->
  let r := SyncService._get_or_create_customer env chat w in
  let row :=
    Customer.Build (customers_id_seq w) (ChatCustomer.external_id c)
      (ChatCustomer.name c) (ChatCustomer.avatar_url c)
      (match fetched_avatar env chat with Some _ => key | None => "" end) in
  customers (db r.2) = customers (db w) ++ [row]
  /\ (exists obj, r.1 = Ok obj /\ Customer.id obj = customers_id_seq w)
  /\ customers_id_seq r.2 = S (customers_id_seq w)
  /\ match fetched_avatar env chat with
     | Some content =>
         s3_storage r.2 = <[key := content]> (s3_storage w)
         /\ s3_content_types r.2 = <[key := "image/jpeg"]> (s3_content_types w)
     | None =>
         s3_storage r.2 = s3_storage w
         /\ s3_content_types r.2 = s3_content_types w
     end.
Proof.
  cbv zeta. intros Hf Hpk.
  unfold SyncService._get_or_create_customer, CustomerManager.get_or_create,
    CustomerManager.create, fetched_avatar.
  unfold mbind, M_bind, mret, M_ret.
  rewrite customer_filter_record, Hf.
  cbn beta iota zeta delta [db record set_customers_id_seq customers
                            customers_id_seq].
  change (CustomerManager.filter _ (record _ (set_customers_id_seq _ _)))
    with (CustomerManager.filter
            (ChatCustomer.external_id (Chat.customer chat)) w).
  rewrite Hpk, Hf, bool_decide_true by done. cbn [negb orb andb].
  case_bool_decide as Hurl; cbn [negb].
  { simpl. split; [done|]. split; [by eexists|done]. }
  unfold SyncService._queue_avatar_upload, try_except.
  unfold mbind, M_bind, SyncService.httpx_get. cbn [fst snd].
  destruct (http_get env _) as [content|].
  2:{ simpl. split; [done|]. split; [by eexists|done]. }
  unfold MockS3Service.upload_file, CustomerManager.save. cbv zeta.
  cbn [db record customers set_s3 set_customers set_db set_customers_id_seq
       Customer.id Customer.set_avatar_s3_key].
  set (obj := Customer.Build _ _ _ _ "").
  assert (has_pk Customer.id (customers_id_seq w) (customers (db w) ++ [obj])
          = true) as ->.
  { apply has_pk_elem_of. exists obj. split; [|done].
    apply elem_of_app. right. left. }
  rewrite bool_decide_false by done. simpl.
  rewrite update_pk_app, update_pk_absent by done. simpl.
  rewrite Nat.eqb_refl. split; [done|]. split; [by eexists|done].
Qed.

(** X18: a counterparty that has no row gets one with the id, name and
    avatar URL of the record. When the source gave a URL and it can be
    fetched, the content is stored in the blob store under
    [avatars/<external id>.jpg] as image/jpeg and [Customer.avatar] of the
    row is the bucket URL of that key; when there is no URL, or the fetch
    fails, the blob store is untouched and [Customer.avatar] is the URL of
    the source. Either way the step returns the counterparty. *)
Theorem new_customer_avatar env chat w :
  let c := Chat.customer chat in
  let key := "avatars/" +:+ ChatCustomer.external_id c +:+ ".jpg" in
  CustomerManager.filter (ChatCustomer.external_id c) w = [] ->
  has_pk Customer.id (customers_id_seq w) (customers (db w)) = false ->
  let r := SyncService._get_or_create_customer env chat w in
  exists row,
    customers (db r.2) = customers (db w) ++ [row]
    /\ (exists obj, r.1 = Ok obj /\ Customer.id obj = Customer.id row)
    /\ Customer.external_id row = ChatCustomer.external_id c
    /\ Customer.name row = ChatCustomer.name c
    /\ Customer.avatar_url row = ChatCustomer.avatar_url c
    /\ match fetched_avatar env chat with
       | Some content =>
           avatar row = "https://s3.amazonaws.com/bucket/" +:+ key
           /\ MockS3Storage.get_file key (MockS3Storage.of_world r.2)
              = Some content
           /\ s3_content_types r.2 !! key = Some "image/jpeg"
       | None =>
           avatar row = ChatCustomer.avatar_url c
           /\ MockS3Storage.of_world r.2 = MockS3Storage.of_world w
       end.
Proof.
  cbv zeta. intros Hf Hpk.
  destruct (get_or_create_customer_new env chat w Hf Hpk)
    as (Hrows & Hobj & _ & Hs3).
  eexists. split; [exact Hrows|]. split; [exact Hobj|].
  split; [done|]. split; [done|]. split; [done|].
  unfold avatar, MockS3Storage.get_file, MockS3Storage.of_world.
  cbn [Customer.avatar_s3_key Customer.avatar_url MockS3Storage._storage].
  destruct (fetched_avatar env chat) as [content|].
  - destruct Hs3 as [-> ->]. rewrite bool_decide_false by done.
    by rewrite !lookup_insert_eq.
  - destruct Hs3 as [-> ->]. by rewrite bool_decide_true.
Qed.

Lemma new_customer_avatar_witness :
  let chat := MockExternalAPIClient._generate_chat (client_of 25) 3 in
  let r := SyncService._get_or_create_customer avatar_env chat
             (empty_world 0%Z) in
  exists row,
    customers (db r.2) = customers (db (empty_world 0%Z)) ++ [row]
    /\ (exists obj, r.1 = Ok obj /\ Customer.id obj = Customer.id row)
    /\ Customer.external_id row = "cust_0003"
    /\ Customer.name row = "Customer 3"
    /\ Customer.avatar_url row = "https://example.com/avatars/cust_0003.jpg"
    /\ match fetched_avatar avatar_env chat with
       | Some content =>
           avatar row
           = "https://s3.amazonaws.com/bucket/avatars/cust_0003.jpg"
           /\ MockS3Storage.get_file "avatars/cust_0003.jpg"
                (MockS3Storage.of_world r.2)
              = Some content
           /\ s3_content_types r.2 !! "avatars/cust_0003.jpg"
              = Some "image/jpeg"
       | None =>
           avatar row = "https://example.com/avatars/cust_0003.jpg"
           /\ MockS3Storage.of_world r.2
              = MockS3Storage.of_world (empty_world 0%Z)
       end.
Proof.
  apply (new_customer_avatar avatar_env
           (MockExternalAPIClient._generate_chat (client_of 25) 3)
           (empty_world 0%Z)).
  - vm_compute. reflexivity.
  - vm_compute. reflexivity.
Defined.

(** X19: the rollback of the per-record section does not reach the blob
    store. When the section creates the counterparty of a record, stores its
    avatar and then raises, the counterparty row is gone with the
    transaction, but the avatar object stays in the blob store and the
    counterparty sequence stays advanced. *)
Theorem rolled_back_customer_leaves_avatar env chat existing_deal w content e :
  let c := Chat.customer chat in
  let key := "avatars/" +:+ ChatCustomer.external_id c +:+ ".jpg" in
  CustomerManager.filter (ChatCustomer.external_id c) w = [] ->
  has_pk Customer.id (customers_id_seq w) (customers (db w)) = false ->
  fetched_avatar env chat = Some content ->
  let r := SyncService._sync_chat_atomic env chat existing_deal w in
  r.1 = Raise e ->
  db r.2 = db w
  /\ MockS3Storage.get_file key (MockS3Storage.of_world r.2) = Some content
  /\ customers_id_seq r.2 = S (customers_id_seq w).
Proof.
  cbv zeta. intros Hf Hpk Hfetch.
  remember (SyncService._sync_chat_atomic env chat existing_deal w) as r
    eqn:Hr.
  unfold SyncService._sync_chat_atomic, atomic in Hr.
  unfold mbind at 1, M_bind at 1 in Hr.
  set (w0 := record SqlBegin w) in Hr.
  destruct (get_or_create_customer_new env chat w0 Hf Hpk)
    as (_ & [obj [Hobj _]] & Hseq & Hs3).
  rewrite Hfetch in Hs3. destruct Hs3 as [Hs3 _].
  destruct (SyncService._get_or_create_customer env chat w0) as [r1 w1].
  cbn [fst snd] in *. subst r1.
  assert (steps blobs_same
            (deal ← SyncService._create_or_update_deal chat obj existing_deal;
             SyncService._save_message_to_dynamodb env chat deal;;
             DealManager.save
               (Deal.set_total_messages
                  (Deal.total_messages
                     (Deal.set_sync_status Deal.COMPLETE deal) + 1)
                  (Deal.set_sync_status Deal.COMPLETE deal))
               ["sync_status"; "total_messages"; "updated_at"])) as Hrest.
  { use steps_bind.
    { unfold SyncService._create_or_update_deal. destruct existing_deal.
      - use steps_bind; [apply blobs_same_deal_save|]. intros; use steps_ret.
      - apply blobs_same_deal_create. }
    intros deal. use steps_bind; [apply blobs_same_save_message|].
    intros _. apply blobs_same_deal_save. }
  specialize (Hrest w1).
  match type of Hr with
  | context [match ?m w1 with _ => _ end] =>
      destruct (m w1) as [[[]|e'|] w2]
  end; destruct Hrest as (Hb & _ & Hq); cbn [fst snd] in *; subst r;
    cbn [fst snd]; [done| |done].
  intros _. split; [done|]. unfold MockS3Storage.get_file. simpl.
  rewrite Hb, Hs3, Hq, Hseq. by rewrite lookup_insert_eq.
Qed.

Lemma rolled_back_customer_leaves_avatar_witness :
  let chat := MockExternalAPIClient._generate_chat (client_of 25) 3 in
  let r := SyncService._sync_chat_atomic leaky_env chat None
             (empty_world 0%Z) in
  db r.2 = db (empty_world 0%Z)
  /\ MockS3Storage.get_file "avatars/cust_0003.jpg"
       (MockS3Storage.of_world r.2) = Some "jpeg"
  /\ customers_id_seq r.2 = S (customers_id_seq (empty_world 0%Z)).
Proof.
  apply (rolled_back_customer_leaves_avatar leaky_env
           (MockExternalAPIClient._generate_chat (client_of 25) 3) None
           (empty_world 0%Z) "jpeg" (MessageStoreError "save_message failed")).
  - vm_compute. reflexivity.
  - vm_compute. reflexivity.
  - vm_compute. reflexivity.
  - vm_compute. reflexivity.
Defined.

(** ** A source that serves empty pages *)

Lemma page_at_page_size_0 self page_num :
  MockExternalAPIClient.page_size self = 0%Z ->
  (0 < MockExternalAPIClient.total_chats self)%Z ->
  page_at self page_num
  = ChatPage.Build []
      (Some (MockExternalAPIClient._encode_cursor (page_num + 1))) true.
Proof.
  intros Hsize Htotal. unfold page_at. cbv zeta. rewrite Hsize.
  rewrite Z.mul_0_r, Z.add_0_l, Z.min_l by lia.
  assert ((0 <? MockExternalAPIClient.total_chats self)%Z = true) as ->
    by (by apply Z.ltb_lt).
  done.
Qed.

Lemma engine_ready_record e st w tz :
  engine_ready (SyncService.Build_self st w tz) ->
  engine_ready (SyncService.Build_self st (record e w) tz).
Proof. by intros [Hwf Hrow]. Qed.

Lemma run_loop_page_size_0 env self fuel cursor st w tz :
  MockExternalAPIClient.page_size self = 0%Z ->
  (0 < MockExternalAPIClient.total_chats self)%Z ->
  no_failure env self ->
  engine_ready (SyncService.Build_self st w tz) ->
  exists s',
    SyncService.run_loop env self fuel cursor (SyncService.Build_self st w tz)
    = (OutOfFuel, s')
    /\ cursor_persists (log (SyncService.world s'))
       = cursor_persists (log w) + fuel
    /\ index_same w (SyncService.world s').
Proof.
  intros Hsize Htotal Hok. revert cursor st w.
  induction fuel as [|fuel IH]; intros cursor st w Hready.
  { exists (SyncService.Build_self st w tz). simpl.
    split; [done|]. split; [lia|done]. }
  cbn [SyncService.run_loop]. unfold SyncService._process_page.
  unfold mbind at 1, M_bind at 1. unfold SyncService.lift at 1.
  cbn [SyncService.state SyncService.world SyncService.max_date_tzinfo].
  rewrite (get_chats_page env self cursor w Hok).
  rewrite (page_at_page_size_0 self _ Hsize Htotal).
  cbn [ChatPage.chats ChatPage.next_cursor ChatPage.has_more
       SyncService._process_chats].
  unfold mbind at 1, M_bind at 1. unfold mret at 1, M_ret at 1.
  set (next := MockExternalAPIClient._encode_cursor
                 (MockExternalAPIClient._decode_cursor cursor + 1)).
  destruct (persist_cursor_ready (Some next) st (record (ApiGetChats cursor) w)
              tz)
    as (s1 & evs & Hsave & Hready1 & Htz1 & _ & Hlog1 & Hsteps1 & Hsame1).
  { by apply engine_ready_record. }
  unfold mbind at 1, M_bind at 1. rewrite Hsave. cbn [orb negb].
  destruct s1 as [st1 w1 tz1].
  cbn [SyncService.world SyncService.max_date_tzinfo] in *. subst tz1.
  destruct (IH (Some next) st1 w1 Hready1) as (s' & Hrun & Hcount & Hsame).
  exists s'. split; [exact Hrun|].
  assert (persist_steps (Some next) = [Persist]) as Hp.
  { unfold persist_steps. rewrite bool_decide_false; [done|].
    apply encode_cursor_nonempty. }
  rewrite Hp in Hsteps1.
  split.
  - rewrite Hcount, !cursor_persists_steps, Hlog1, !page_steps_app, Hsteps1.
    cbn [log record]. rewrite !page_steps_app, !persists_in_app.
    change (persists_in [Persist]) with 1.
    change (persists_in (page_steps [ApiGetChats cursor])) with 0. lia.
  - destruct Hsame1 as (? & ? & ? & ?), Hsame as (? & ? & ? & ?).
    simpl in *. unfold index_same. split_and!; congruence.
Qed.

(** X20: with [page_size = 0] and a source that is not empty the run never
    ends. Every fetch answers an empty page that says there is more and
    names the next page, so the loop fetches, persists the cursor and fetches
    again: whatever the number of turns it is given, the run is still going
    after them, having persisted the cursor once per turn and changed no
    counterparty and no entity. *)
Theorem run_never_ends_on_page_size_0 env self s fuel :
  MockExternalAPIClient.page_size self = 0%Z ->
  (0 < MockExternalAPIClient.total_chats self)%Z ->
  no_failure env self ->
  engine_ready s ->
  let r := SyncService.run env self fuel s in
  r.1 = OutOfFuel
  /\ cursor_persists (log (SyncService.world r.2))
     = cursor_persists (log (SyncService.world s)) + fuel
  /\ index_same (SyncService.world s) (SyncService.world r.2).
Proof.
  intros Hsize Htotal Hok Hready. cbv zeta. destruct s as [st w tz].
  assert (SyncService.run env self fuel (SyncService.Build_self st w tz)
          = SyncService.run_loop env self fuel
              (if bool_decide (SyncState.cursor st = "") then None
               else Some (SyncState.cursor st))
              (SyncService.Build_self st w tz))
    as -> by reflexivity.
  destruct (run_loop_page_size_0 env self fuel
              (if bool_decide (SyncState.cursor st = "") then None
               else Some (SyncState.cursor st)) st w tz Hsize Htotal Hok
              Hready)
    as (s' & Hrun & Hcount & Hsame).
  cbn [SyncService.state SyncService.world SyncService.max_date_tzinfo]. rewrite Hrun.
  split; [done|]. split; [exact Hcount|exact Hsame].
Qed.

Lemma run_never_ends_on_page_size_0_witness :
  let r := SyncService.run quiet_env client_page_size_0 7
             (SyncService.Build state_1 world_with_customer_0) in
  r.1 = OutOfFuel
  /\ cursor_persists (log (SyncService.world r.2))
     = cursor_persists (log world_with_customer_0) + 7
  /\ index_same world_with_customer_0 (SyncService.world r.2).
Proof.
  apply (run_never_ends_on_page_size_0 quiet_env client_page_size_0
           (SyncService.Build state_1 world_with_customer_0) 7).
  - reflexivity.
  - vm_compute. reflexivity.
  - intros cursor. reflexivity.
  - apply (bool_decide_unpack _). vm_compute. exact I.
Defined.

(** ** The customers that the client knows *)

Lemma customer_of_external_id_inj self i j :
  ChatCustomer.external_id (customer_of self i)
  = ChatCustomer.external_id (customer_of self j) ->
  i = j.
Proof.
  unfold customer_of, MockExternalAPIClient._generate_chat. cbv zeta.
  cbn [Chat.customer ChatCustomer.external_id].
  intros Heq. apply format_04d_inj. by simplify_eq/=.
Qed.

Lemma generate_chats_cache self range cache :
  exists cache',
    MockExternalAPIClientCache.generate_chats self range cache
    = (Ok (MockExternalAPIClient._generate_chat self <$> range), cache')
    /\ forall i,
         cache' !! ChatCustomer.external_id (customer_of self i)
         = if decide (i ∈ range) then Some (customer_of self i)
           else cache !! ChatCustomer.external_id (customer_of self i).
Proof.
  revert cache. induction range as [|j range IH]; intros cache.
  { exists cache. split; [done|]. intros i.
    destruct (decide (i ∈ [])) as [Hin|_]; [by apply elem_of_nil in Hin|done]. }
  cbn [MockExternalAPIClientCache.generate_chats].
  unfold mbind at 1, M_bind at 1.
  unfold MockExternalAPIClientCache._generate_chat at 1. cbv zeta.
  unfold mbind at 1, M_bind at 1.
  set (cache1 := <[_ := _]> cache).
  destruct (IH cache1) as (cache2 & -> & Hcache).
  exists cache2. split; [done|]. intros i. rewrite Hcache.
  destruct (decide (i ∈ range)) as [Hin|Hnotin].
  - rewrite decide_True; [done|]. by right.
  - subst cache1. destruct (decide (i = j)) as [->|Hne].
    + rewrite decide_True by left.
      apply (lookup_insert_eq cache).
    + rewrite decide_False.
      2:{ rewrite elem_of_cons. tauto. }
      rewrite lookup_insert_ne; [done|].
      intros Heq. apply Hne. symmetry.
      by apply (customer_of_external_id_inj self).
Qed.

(** The page is the one of the engine's client. *)
Lemma get_chats_cache_page env self cursor cache w :
  (MockExternalAPIClientCache.get_chats (random_random env cursor) self cursor
     cache).1
  = (MockExternalAPIClient.get_chats env self cursor w).1.
Proof.
  unfold MockExternalAPIClientCache.get_chats, MockExternalAPIClient.get_chats,
    MockExternalAPIClientCache.fails.
  cbv zeta. destruct (_ && _); [done|].
  unfold mbind, M_bind.
  destruct (generate_chats_cache self
              (seqZ (MockExternalAPIClient._decode_cursor cursor
                     * MockExternalAPIClient.page_size self)
                 (Z.min (MockExternalAPIClient._decode_cursor cursor
                         * MockExternalAPIClient.page_size self
                         + MockExternalAPIClient.page_size self)
                    (MockExternalAPIClient.total_chats self)
                  - MockExternalAPIClient._decode_cursor cursor
                    * MockExternalAPIClient.page_size self)) cache)
    as (cache' & -> & _).
  done.
Qed.

(** X21: [get_customer] knows the customers of the pages that [get_chats]
    has served, and no others. On a new client that has served the page of
    a cursor, and with no simulated failure, [get_customer] answers the
    customer of a record when the index of the record is on that page, and
    raises "Customer not found" for the customer of every other record. *)
Theorem get_customer_knows_the_served_page self cursor r1 r2 index :
  MockExternalAPIClientCache.fails r1 self = false ->
  MockExternalAPIClientCache.fails r2 self = false ->
  let page_num := MockExternalAPIClient._decode_cursor cursor in
  let start_idx := (page_num * MockExternalAPIClient.page_size self)%Z in
  let end_idx :=
    Z.min (start_idx + MockExternalAPIClient.page_size self)
          (MockExternalAPIClient.total_chats self) in
  let served := MockExternalAPIClientCache.get_chats r1 self cursor ∅ in
  let customer_id := ChatCustomer.external_id (customer_of self index) in
  (MockExternalAPIClientCache.get_customer r2 self customer_id served.2).1
  = if decide (start_idx <= index < end_idx)%Z
    then Ok (customer_of self index)
    else Raise (ExternalAPIError ("Customer not found: " +:+ customer_id)).
Proof.
  intros Hr1 Hr2. cbv zeta.
  unfold MockExternalAPIClientCache.get_chats,
    MockExternalAPIClientCache.get_customer.
  rewrite Hr1, Hr2. cbv zeta. unfold mbind, M_bind.
  set (start_idx := (MockExternalAPIClient._decode_cursor cursor
                     * MockExternalAPIClient.page_size self)%Z).
  set (end_idx := Z.min (start_idx + MockExternalAPIClient.page_size self)
                        (MockExternalAPIClient.total_chats self)).
  destruct (generate_chats_cache self (seqZ start_idx (end_idx - start_idx)) ∅)
    as (cache' & -> & Hcache).
  unfold mret, M_ret. cbn [fst snd]. rewrite Hcache.
  destruct (decide (start_idx <= index < end_idx)%Z) as [Hin|Hout].
  - rewrite decide_True; [done|]. apply elem_of_seqZ. lia.
  - rewrite decide_False.
    2:{ rewrite elem_of_seqZ. lia. }
    by rewrite lookup_empty.
Qed.

Lemma get_customer_knows_the_served_page_witness :
  let served := MockExternalAPIClientCache.get_chats (QArith_base.Qmake 0 1)
                  (client_of 25) (Some "MQ==") ∅ in
  (MockExternalAPIClientCache.get_customer (QArith_base.Qmake 0 1)
     (client_of 25) "cust_0007" served.2).1
  = if decide (1 * 10 <= 7 < Z.min (1 * 10 + 10) 25)%Z
    then Ok (customer_of (client_of 25) 7)
    else Raise (ExternalAPIError ("Customer not found: " +:+ "cust_0007")).
Proof.
  apply (get_customer_knows_the_served_page (client_of 25) (Some "MQ==")
           (QArith_base.Qmake 0 1) (QArith_base.Qmake 0 1) 7).
  - reflexivity.
  - reflexivity.
Defined.

(** ** An invocation that resumes a run *)

Lemma get_or_create_sync_state_resumes env task_id max_date st w :
  st ∈ sync_states (db w) -> incomplete st ->
  at_most_one_incomplete (sync_states (db w)) ->
  tasks._get_or_create_sync_state env task_id max_date w
  = (Ok (SyncState.Instance st true), record (SqlSelect sync_states_tbl) w).
Proof.
  intros Hin Hinc Hone. unfold tasks._get_or_create_sync_state.
  unfold SyncStateManager.filter_status_in, SyncStateManager.ordered.
  assert (filter (fun s0 => SyncState.status s0
                              ∈ [SyncState.RUNNING; SyncState.PENDING])
                 (sync_states (db w)) = [st]) as ->; [|reflexivity].
  apply singleton_of_length_le_1; [exact Hone|by apply list_elem_of_filter].
Qed.

Lemma sync_state_save_length obj fields w :
  length (sync_states (db (SyncStateManager.save obj fields w).2))
  = length (sync_states (db w)).
Proof.
  unfold SyncStateManager.save. cbv zeta. cbn [db record sync_states].
  destruct (has_pk _ _ _); cbn [snd]; [|done].
  simpl. unfold update_pk. by rewrite length_fmap.
Qed.

Lemma record_outcome_index_same env w0 w w' w1 chat :
  index_same w0 w -> index_same w' w1 ->
  record_outcome env w w' chat -> record_outcome env w0 w1 chat.
Proof.
  intros H0 H1. unfold record_outcome.
  by rewrite (index_same_deal_of w' w1), (index_same_deal_of w0 w).
Qed.

(** Over the mock source, an invocation that finds an unfinished Run State
    finishes that run. *)
Lemma resumed_run_completes env self req max_date fuel st w :
  cache w !! tasks.SYNC_LOCK_KEY = None ->
  index_wf w ->
  st ∈ sync_states (db w) -> incomplete st ->
  at_most_one_incomplete (sync_states (db w)) ->
  (1 <= MockExternalAPIClient.page_size self)%Z ->
  no_failure env self ->
  Z.to_nat (MockExternalAPIClient.total_chats self
            - MockExternalAPIClient._decode_cursor (start_cursor st)
              * MockExternalAPIClient.page_size self) < fuel ->
  let done :=
    (processed_prefix (stops (SyncState.max_date st) w)
                      (records_from self st)).1 in
  let n := SyncState.processed_chats st + succeeded env done in
  let r := tasks.sync_chats_task env self req max_date fuel w in
  r.1 = Ok (tasks.completed n (SyncState.task_id st))
  /\ (exists row,
        row ∈ sync_states (db r.2)
        /\ SyncState.id row = SyncState.id st
        /\ SyncState.task_id row = SyncState.task_id st
        /\ SyncState.status row = SyncState.COMPLETED
        /\ SyncState.max_date row = SyncState.max_date st
        /\ SyncState.processed_chats row = n)
  /\ length (sync_states (db r.2)) = length (sync_states (db w))
  /\ Forall (record_outcome env w r.2) done
  /\ (forall e, e ∉ Chat.external_id <$> done -> deal_of e r.2 = deal_of e w)
  /\ cache r.2 !! tasks.SYNC_LOCK_KEY = None.
Proof.
  intros Hlock Hwf Hin Hinc Hone Hps Hok Hfuel. cbv zeta.
  remember (tasks.sync_chats_task env self req max_date fuel w) as r eqn:Hr.
  unfold tasks.sync_chats_task, tasks.cache_add in Hr.
  cbn [cache record] in Hr. rewrite Hlock in Hr.
  unfold try_finally, try_except, tasks.sync_chats_task_try in Hr.
  unfold mbind at 1, M_bind at 1 in Hr. unfold tasks.lift at 1 in Hr.
  set (w1 := set_cache _ _) in Hr.
  rewrite (get_or_create_sync_state_resumes env (tasks.id req) max_date st w1)
    in Hr by done.
  set (w2 := record (SqlSelect sync_states_tbl) w1) in Hr.
  unfold tasks.with_state in Hr. unfold_monad.
  cbn beta iota zeta delta [SyncService.state SyncService.world SyncService.max_date_tzinfo
                            SyncState.row SyncState.max_date_tzinfo] in Hr.
  destruct (sync_state_save_row (SyncState.set_status SyncState.RUNNING st)
              ["status"; "updated_at"] st w2)
    as (w3 & Hsave3 & _ & Hsame3 & Hcache3 & Hrow3); [done|by destruct st|].
  pose proof (sync_state_save_length
                (SyncState.set_status SyncState.RUNNING st)
                ["status"; "updated_at"] w2) as Hlen3.
  rewrite Hsave3 in Hr, Hlen3. cbn [snd] in Hlen3.
  set (st3 := SyncState.set_status SyncState.RUNNING st) in *.
  assert (index_same w w3) as Hsame03.
  { unfold index_same in *. destruct Hsame3 as (-> & -> & -> & ->). done. }
  assert (start_cursor st3 = start_cursor st) as Hcur by (by destruct st).
  assert (records_from self st3 = records_from self st) as Hrec
    by (by destruct st).
  destruct (run_over_source env self fuel st3 w3 Hps Hok)
    as ([st4 w4 tz4] & Hrun & [Hwf4 Hrow4] & Hmax & Hproc & Hout & Hoth).
  { split; [by apply (index_same_wf w)|done]. }
  { by rewrite Hcur. }
  pose proof (run_engine_frame env self fuel (SyncService.Build st3 w3))
    as Hframe.
  rewrite Hrun in Hframe, Hr.
  destruct Hframe as [_ Hid4 _ Htid4 Hsts4 _ _ _ _].
  cbn [fst snd SyncService.state SyncService.world SyncService.max_date_tzinfo] in *.
  rewrite Hrec in *.
  assert (SyncState.max_date st3 = SyncState.max_date st) as Hmax3
    by (by destruct st).
  rewrite Hmax3 in *.
  assert (processed_prefix (stops (SyncState.max_date st) w3)
                           (records_from self st)
          = processed_prefix (stops (SyncState.max_date st) w)
                             (records_from self st)) as Hplan.
  { apply processed_prefix_ext, Forall_forall. intros chat _.
    apply stops_ext. by apply index_same_deal_of. }
  rewrite Hplan in *.
  destruct (sync_state_save_row (SyncState.set_status SyncState.COMPLETED st4)
              ["status"; "updated_at"] st4 w4 Hrow4)
    as (w5 & Hsave5 & _ & Hsame5 & Hcache5 & Hrow5); [by destruct st4|].
  pose proof (sync_state_save_length
                (SyncState.set_status SyncState.COMPLETED st4)
                ["status"; "updated_at"] w4) as Hlen5.
  rewrite Hsave5 in Hr, Hlen5. cbn [snd] in Hlen5.
  unfold tasks.lift, tasks.cache_delete in Hr.
  cbn beta iota zeta delta [SyncService.state SyncService.world SyncService.max_date_tzinfo fst snd] in Hr.
  subst r. cbn [fst snd].
  assert (SyncState.processed_chats st3 = SyncState.processed_chats st) as Hp3
    by (by destruct st).
  assert (SyncState.task_id st3 = SyncState.task_id st) as Ht3
    by (by destruct st).
  assert (SyncState.id st3 = SyncState.id st) as Hi3 by (by destruct st).
  split.
  { simpl. by rewrite Hproc, Htid4, Hp3, Ht3. }
  split.
  { exists (SyncState.set_status SyncState.COMPLETED st4).
    split; [exact Hrow5|]. simpl.
    rewrite Hid4, Htid4, Hmax, Hproc, Hp3, Ht3, Hi3. done. }
  split.
  { simpl. rewrite Hlen5.
    assert (length (sync_states (db w4)) = length (sync_states (db w3))) as ->.
    { pose proof (f_equal length Hsts4) as Hl. unfold run_statuses in Hl.
      by rewrite !length_fmap in Hl. }
    by rewrite Hlen3. }
  split.
  { eapply Forall_impl; [exact Hout|]. intros chat.
    apply record_outcome_index_same; [done|].
    unfold index_same in *. destruct Hsame5 as (<- & <- & <- & <-). done. }
  split.
  { intros e He.
    transitivity (deal_of e w4).
    - apply index_same_deal_of.
      unfold index_same in *. destruct Hsame5 as (<- & <- & <- & <-). done.
    - rewrite Hoth by done. by apply index_same_deal_of. }
  simpl. apply lookup_delete_eq.
Qed.

Lemma sync_state_save_ids obj fields w :
  SyncState.id <$> sync_states (db (SyncStateManager.save obj fields w).2)
  = SyncState.id <$> sync_states (db w).
Proof.
  unfold SyncStateManager.save. cbv zeta. cbn [db record sync_states].
  destruct (has_pk _ _ _); cbn [snd]; [|done]. simpl.
  unfold update_pk. rewrite <- list_fmap_compose. apply list_fmap_ext.
  intros i r _. simpl. by destruct (Nat.eqb _ _).
Qed.

Lemma run_statuses_ids w w' :
  run_statuses w' = run_statuses w ->
  SyncState.id <$> sync_states (db w') = SyncState.id <$> sync_states (db w).
Proof.
  intros Hsts. apply (f_equal (fmap fst)) in Hsts. unfold run_statuses in Hsts.
  by rewrite <- !list_fmap_compose in Hsts.
Qed.

Lemma sync_chats_task_except_ids req e fr :
  SyncState.id <$> sync_states (db (tasks.sync_chats_task_except req e fr).2.2)
  = SyncState.id <$> sync_states (db fr.2).
Proof.
  destruct fr as [[st|] w]; [|by rewrite sync_chats_task_except_none].
  unfold tasks.sync_chats_task_except. unfold_monad. unfold tasks.lift.
  cbn [fst snd].
  pose proof (sync_state_save_ids
                (SyncState.set_error_message (str_exn e)
                   (SyncState.set_status SyncState.FAILED st))
                ["status"; "error_message"; "updated_at"] w) as Hids.
  destruct (SyncStateManager.save _ _ w) as [[[]|e'|] w']; [|done..].
  by rewrite retry_raises.
Qed.

(** The [try] block that finds an unfinished Run State adds no row to the
    table. *)
Lemma sync_chats_task_try_resumed_ids env api_client req max_date fuel st w :
  st ∈ sync_states (db w) -> incomplete st ->
  at_most_one_incomplete (sync_states (db w)) ->
  SyncState.id
  <$> sync_states
        (db (tasks.sync_chats_task_try env api_client req max_date fuel
               (None, w)).2.2)
  = SyncState.id <$> sync_states (db w).
Proof.
  intros Hin Hinc Hone. unfold tasks.sync_chats_task_try.
  unfold mbind at 1, M_bind at 1. unfold tasks.lift at 1.
  rewrite (get_or_create_sync_state_resumes env (tasks.id req) max_date st w)
    by done.
  unfold tasks.with_state. unfold_monad.
  cbn beta iota zeta delta [SyncService.state SyncService.world
                            SyncService.max_date_tzinfo
                            SyncState.row SyncState.max_date_tzinfo].
  pose proof (sync_state_save_ids (SyncState.set_status SyncState.RUNNING st)
                ["status"; "updated_at"]
                (record (SqlSelect sync_states_tbl) w)) as Hids3.
  destruct (SyncStateManager.save _ _ _) as [r3 w3]. simpl in Hids3.
  destruct r3 as [[]|e|]; cbn [fst snd]; [|done..].
  pose proof (run_engine_frame env api_client fuel
                (SyncService.Build
                   (SyncState.set_status SyncState.RUNNING st) w3))
    as Hrun.
  destruct (SyncService.run _ _ _ _) as [r4 [st4 w4 tz4]].
  destruct Hrun as [_ _ _ _ Hsts _ _ _ _]. simpl in Hsts.
  apply run_statuses_ids in Hsts.
  destruct r4 as [[]|e|]; cbn [fst snd];
    cbn beta iota zeta delta [SyncService.state SyncService.world
                              SyncService.max_date_tzinfo];
    [|congruence..].
  pose proof (sync_state_save_ids
                (SyncState.set_status SyncState.COMPLETED st4)
                ["status"; "updated_at"] w4) as Hids5.
  destruct (SyncStateManager.save _ _ w4) as [r5 w5]. cbn [snd] in Hids5.
  destruct r5 as [[]|e|]; simpl; congruence.
Qed.

(** An invocation that finds an unfinished Run State does not read its
    [max_date] argument and adds no row to the Run State table. *)
Lemma sync_chats_task_resumed env api_client req max_date fuel st w :
  cache w !! tasks.SYNC_LOCK_KEY = None ->
  st ∈ sync_states (db w) -> incomplete st ->
  at_most_one_incomplete (sync_states (db w)) ->
  let r := tasks.sync_chats_task env api_client req max_date fuel w in
  r = tasks.sync_chats_task env api_client req None fuel w
  /\ SyncState.id <$> sync_states (db r.2) = SyncState.id <$> sync_states (db w).
Proof.
  intros Hfree Hin Hinc Hone. cbv zeta.
  rewrite !sync_chats_task_acquired by done. cbv zeta.
  assert (forall max_date,
            tasks.sync_chats_task_try env api_client req max_date fuel
              (None, acquired req w)
            = tasks.sync_chats_task_try env api_client req None fuel
                (None, acquired req w)) as Harg.
  { intros max_date'. unfold tasks.sync_chats_task_try.
    etrans; [|symmetry];
      (unfold mbind at 1, M_bind at 1; unfold tasks.lift at 1;
       rewrite (get_or_create_sync_state_resumes env (tasks.id req) _ st)
         by (by rewrite ?db_acquired);
       reflexivity). }
  split.
  { unfold try_finally, try_except. by rewrite (Harg max_date). }
  clear Harg. unfold try_finally, try_except.
  pose proof (sync_chats_task_try_resumed_ids env api_client req max_date fuel
                st (acquired req w)) as Htry.
  rewrite !db_acquired in Htry. specialize (Htry Hin Hinc Hone).
  destruct (tasks.sync_chats_task_try _ _ _ _ _ _) as [r1 [st1 w1]].
  cbn [fst snd] in Htry.
  unfold tasks.lift, tasks.cache_delete.
  destruct r1 as [a|e|]; cbn [fst snd]; [by simpl| |by simpl].
  pose proof (sync_chats_task_except_ids req e (st1, w1)) as Hexc.
  destruct (tasks.sync_chats_task_except _ _ _) as [r2 [st2 w2]].
  cbn [fst snd] in *. simpl. congruence.
Qed.

(** C7: an invocation that holds the lock while a Run State is PENDING or
    RUNNING resumes that run. [_get_or_create_sync_state] returns the stored
    row itself, with its cursor, cutoff date and counters, after one SELECT;
    the invocation never reads its own [max_date] argument and adds no row
    to the Run State table, so that "at most one Run State is PENDING or
    RUNNING" is kept. Over the mock source (page size at least 1, no
    simulated failure, timestamps and counters within their ranges) on a
    well-formed index, the invocation starts at the page of the stored
    cursor, applies the stored cutoff, syncs the records up to the first one
    that stops the run, and returns the completed outcome under the task id
    of the resumed run with the stored counter increased by the records
    whose document write went through; the row of the run is COMPLETED and
    the lock is released. *)
Theorem incomplete_run_is_resumed env self req max_date fuel st w :
  cache w !! tasks.SYNC_LOCK_KEY = None ->
  NoDup (SyncState.id <$> sync_states (db w)) ->
  at_most_one_incomplete (sync_states (db w)) ->
  st ∈ sync_states (db w) -> incomplete st ->
  let r := tasks.sync_chats_task env self req max_date fuel w in
  tasks._get_or_create_sync_state env (tasks.id req) max_date (acquired req w)
  = (Ok (SyncState.Instance st true),
     record (SqlSelect sync_states_tbl) (acquired req w))
  /\ r = tasks.sync_chats_task env self req None fuel w
  /\ SyncState.id <$> sync_states (db r.2) = SyncState.id <$> sync_states (db w)
  /\ at_most_one_incomplete (sync_states (db r.2))
  /\ (index_wf w ->
      (1 <= MockExternalAPIClient.page_size self)%Z ->
      no_failure env self ->
      Forall (can_generate self) (indexes_from self st) ->
      counters_below_max w ->
      processed_count_fits self st ->
      Z.to_nat (MockExternalAPIClient.total_chats self
                - MockExternalAPIClient._decode_cursor (start_cursor st)
                  * MockExternalAPIClient.page_size self) < fuel ->
      let done :=
        (processed_prefix (stops (SyncState.max_date st) w)
                          (records_from self st)).1 in
      let n := SyncState.processed_chats st + succeeded env done in
      r.1 = Ok (tasks.completed n (SyncState.task_id st))
      /\ (exists row,
            row ∈ sync_states (db r.2)
            /\ SyncState.id row = SyncState.id st
            /\ SyncState.task_id row = SyncState.task_id st
            /\ SyncState.status row = SyncState.COMPLETED
            /\ SyncState.max_date row = SyncState.max_date st
            /\ SyncState.processed_chats row = n)
      /\ Forall (record_outcome env w r.2) done
      /\ (forall e, e ∉ Chat.external_id <$> done -> deal_of e r.2 = deal_of e w)
      /\ cache r.2 !! tasks.SYNC_LOCK_KEY = None).
Proof.
  intros Hfree Hnd Hone Hin Hinc. cbv zeta.
  destruct (sync_chats_task_resumed env self req max_date fuel st w)
    as [Harg Hids]; [done..|].
  split.
  { apply get_or_create_sync_state_resumes; by rewrite ?db_acquired. }
  split; [exact Harg|]. split; [exact Hids|]. split.
  { assert (runs_inv (run_statuses w)) as Hinv by (by apply runs_inv_rows).
    pose proof (sync_chats_task_inv env self req max_date fuel w Hinv) as H.
    by apply runs_inv_rows in H as [_ H]. }
  intros Hwf Hps Hok _ _ _ Hfuel.
  destruct (resumed_run_completes env self req max_date fuel st w)
    as (Hres & Hrow & _ & Hout & Hoth & Hlock); done.
Qed.

Lemma incomplete_run_is_resumed_witness :
  let r := tasks.sync_chats_task cutoff_env (client_of 25) request_1
             (Some "2024-02-30T00:00:00Z") 16 world_interrupted in
  tasks._get_or_create_sync_state cutoff_env "task-1"
    (Some "2024-02-30T00:00:00Z") (acquired request_1 world_interrupted)
  = (Ok (SyncState.Instance interrupted_run true),
     record (SqlSelect sync_states_tbl) (acquired request_1 world_interrupted))
  /\ r.1 = Ok (tasks.completed 25 "task-0")
  /\ SyncState.id <$> sync_states (db r.2) = [1]
  /\ SyncState.set_processed_chats 25
       (SyncState.set_cursor "Mg=="
          (SyncState.set_status SyncState.COMPLETED interrupted_run))
     ∈ sync_states (db r.2)
  /\ at_most_one_incomplete (sync_states (db r.2)).
Proof.
  destruct (incomplete_run_is_resumed cutoff_env (client_of 25) request_1
              (Some "2024-02-30T00:00:00Z") 16 interrupted_run
              world_interrupted)
    as (Hlookup & _ & Hids & Hone & Hrun).
  - vm_compute. reflexivity.
  - apply NoDup_singleton.
  - vm_compute. lia.
  - vm_compute. left.
  - vm_compute. left.
  - destruct Hrun as (Hres & _ & _ & _ & _).
    + apply (bool_decide_unpack _). vm_compute. exact I.
    + simpl. lia.
    + intros cursor. reflexivity.
    + apply (bool_decide_unpack _). vm_compute. exact I.
    + apply (bool_decide_unpack _). vm_compute. exact I.
    + apply (bool_decide_unpack _). vm_compute. exact I.
    + vm_compute. lia.
    + split; [exact Hlookup|]. split; [exact Hres|].
      split; [exact Hids|]. split; [|exact Hone].
      apply (bool_decide_unpack _). vm_compute. exact I.
Defined.
